(** * Matrix rain sketches: a shallow embedding and its properties

    The repository holds several iterations of one Arduino sketch that
    paints a "digital rain" on a serial terminal.  Each iteration is
    embedded in a module of its own:

    - [Fastdrops]       : arduino_matrix_rain_fastdrops.ino (src/unnamed/part_000)
    - [Vectorized]      : matrix_rain_vectorized.ino (src/tested/vectorized.ino)
    - [VectorizedFixed] : matrix_rain_vectorized_fixed.ino (src/unnamed/part_001)
    - [Colorized]       : matrix_rain_vectorized_final.ino (src/tested/basic_colorized.ino)
    - [RainOpt]         : arduino_matrix_rain.ino (src/Arduino_rain_opt.ino)

    Conventions.  Machine integers are [Z] with the wrap-around of every
    store into a narrow variable written out ([u8], [u16], [u32], [i8],
    [i16]).  Arithmetic on promoted [int] operands is exact.  The global
    arrays are lists; an access outside an array is a fault, so every
    operation returns an [option]. *)

From Stdlib Require Import ZArith Lia List Bool String Ascii Btauto.
From stdpp Require Import base option list.
From coqutil Require Import Z.bitblast.
Local Open Scope Z_scope.

(** ** Machine integers *)

Definition u8 (x : Z) : Z := x mod 256.
Definition u16 (x : Z) : Z := x mod 65536.
Definition u32 (x : Z) : Z := x mod 4294967296.
Definition i8 (x : Z) : Z := (x + 128) mod 256 - 128.
Definition i16 (x : Z) : Z := (x + 32768) mod 65536 - 32768.

(** ** Arrays with checked accesses *)

Definition rd {A : Type} (l : list A) (i : Z) : option A :=
  if 0 <=? i then l !! Z.to_nat i else None.

Definition len {A : Type} (l : list A) : Z := Z.of_nat (length l).

Definition wr {A : Type} (l : list A) (i : Z) (x : A) : option (list A) :=
  if (0 <=? i) && (i <? len l)
  then Some (<[Z.to_nat i := x]> l) else None.

(** [m[i][k] = x] *)
Definition wr2 {A : Type} (m : list (list A)) (i k : Z) (x : A)
    : option (list (list A)) :=
  row ← rd m i;
  row' ← wr row k x;
  wr m i row'.

Definition rd2 {A : Type} (m : list (list A)) (i k : Z) : option A :=
  row ← rd m i; rd row k.

(** ** Loops *)

(** [for (i = i0; i < i0 + n; ++i) body] on a loop state of type [St]. *)
Fixpoint for_range {St : Type} (n : nat) (i : Z)
    (body : Z -> St -> option St) (s : St) : option St :=
  match n with
  | O => Some s
  | S n' => s' ← body i s; for_range n' (i + 1) body s'
  end.

(** [for (k = i; k > i - n; --k) body] *)
Fixpoint for_down {St : Type} (n : nat) (i : Z)
    (body : Z -> St -> option St) (s : St) : option St :=
  match n with
  | O => Some s
  | S n' => s' ← body i s; for_down n' (i - 1) body s'
  end.

Definition for_upto {St : Type} (n : Z) (body : Z -> St -> option St)
    (s : St) : option St :=
  for_range (Z.to_nat n) 0 body s.

(** A read-only loop that leaves at the first index where [probe] answers:
    [Some (Some r)] is the break with result [r], [Some None] the loop
    running to its end, [None] a fault. *)
Fixpoint scan_range {R : Type} (n : nat) (i : Z)
    (probe : Z -> option (option R)) : option (option R) :=
  match n with
  | O => Some None
  | S n' =>
      r ← probe i;
      match r with
      | Some x => Some (Some x)
      | None => scan_range n' (i + 1) probe
      end
  end.

Definition scan_upto {R : Type} (n : Z) (probe : Z -> option (option R))
    : option (option R) :=
  scan_range (Z.to_nat n) 0 probe.

(** The [int16_t x = -1; ... x = found; break;] idiom. *)
Definition or_minus1 (r : option Z) : Z :=
  match r with Some x => x | None => -1 end.

(** ** Pseudo-random generator (shared by every sketch) *)

Definition splitmix32 (x : Z) : Z :=
  let x := u32 (x + 0x9e3779b9) in
  let x := u32 (Z.lxor x (Z.shiftr x 16) * 0x85ebca6b) in
  let x := u32 (Z.lxor x (Z.shiftr x 13) * 0xc2b2ae35) in
  Z.lxor x (Z.shiftr x 16).

(** ** Character set *)

Definition bytes_of_string (s : string) : list Z :=
  map (fun a => Z.of_nat (nat_of_ascii a)) (list_ascii_of_string s).

(** The literal ends in an escaped double quote (code 34). *)
Definition CHARSET : list Z :=
  bytes_of_string "abcdefghijklmnopqrstuvwxyz0123456789@#$%&*()<>/" ++ [34].

(** [sizeof(CHARSET) - 1] *)
Definition CHARSET_LEN : Z := len CHARSET.

Definition pickChar (h : Z) : option Z := rd CHARSET (h mod CHARSET_LEN).

Definition pickIndex (h : Z) : Z := u8 (h mod CHARSET_LEN).

Definition charset_at_idx (idx : Z) : option Z := rd CHARSET (idx mod CHARSET_LEN).

(** ** Serial output

    The sketches only ever write a handful of fixed escape sequences and
    single characters; the trace records which one. *)

Inductive event : Type :=
  | Home                (* ESC [ H *)
  | SetColor (b : Z)    (* term_set_color(b) *)
  | Put (ch : Z)        (* Serial.write(ch) *)
  | CRLF                (* "\r\n" *)
  | LF                  (* '\n' *)
  | ResetColor.         (* ESC [ 0 m *)

Definition esc (s : string) : list Z := 27 :: bytes_of_string s.

Definition is_SetColor (e : event) : bool :=
  match e with SetColor _ => true | _ => false end.

Definition is_Put (e : event) : bool :=
  match e with Put _ => true | _ => false end.

Definition SPACE : Z := 32.

(** The colours selected and the characters written, in order. *)
Definition colors (out : list event) : list Z :=
  flat_map (fun e => match e with SetColor b => [b] | _ => [] end) out.

Definition chars (out : list event) : list Z :=
  flat_map (fun e => match e with Put ch => [ch] | _ => [] end) out.

Definition is_newline (e : event) : bool :=
  match e with CRLF | LF => true | _ => false end.

(** The trace without its row terminators. *)
Definition drop_newlines (out : list event) : list event :=
  List.filter (fun e => negb (is_newline e)) out.

(** The rendering rule in the words of the specification: a frame is a
    list of cells (brightness, character) in scan order, and a colour
    change is sent for a cell exactly when its brightness differs from
    that of the cell before it ([prev]). *)
Fixpoint spec_paint (prev : Z) (cells : list (Z * Z)) : list event :=
  match cells with
  | [] => []
  | (b, ch) :: rest =>
      (if b =? prev then [] else [SetColor b]) ++ Put ch :: spec_paint b rest
  end.

(** Brightness of the last cell painted, [prev] when there is none. *)
Definition last_brightness_of (prev : Z) (cells : list (Z * Z)) : Z :=
  match last cells with Some (b, _) => b | None => prev end.

(** How the trace and the variable [last_brightness] of a [renderFrame]
    that follows the rule relate to the [n] cells painted so far. *)
Definition painted (n : Z) (st : Z * list event) (cells : list (Z * Z)) : Prop :=
  len cells = n /\
  drop_newlines (snd st) = Home :: spec_paint 255 cells /\
  fst st = last_brightness_of 255 cells.

(** ** Records shared by the drop-based sketches *)

Record Drop : Type := mkDrop {
  col : Z;      (* uint8_t  column *)
  head : Z;     (* int16_t  head row; -1 = inactive *)
  trail : Z;    (* uint8_t  trail length *)
  speed : Z;    (* uint8_t  frames per step *)
  age : Z;      (* uint8_t  frame counter *)
  rng : Z;      (* uint32_t per-drop generator *)
  boost : Z     (* uint8_t  boost frames remaining *)
}.

Record FastDrop : Type := mkFast {
  f_active : bool;
  f_col : Z;    (* uint8_t *)
  f_row : Z;    (* int16_t *)
  f_speed : Z;  (* uint8_t *)
  f_age : Z;    (* uint8_t *)
  f_rng : Z     (* uint32_t *)
}.

Definition set_head (v : Z) (d : Drop) : Drop :=
  mkDrop (col d) v (trail d) (speed d) (age d) (rng d) (boost d).
Definition set_age (v : Z) (d : Drop) : Drop :=
  mkDrop (col d) (head d) (trail d) (speed d) v (rng d) (boost d).
Definition set_rng (v : Z) (d : Drop) : Drop :=
  mkDrop (col d) (head d) (trail d) (speed d) (age d) v (boost d).
Definition set_boost (v : Z) (d : Drop) : Drop :=
  mkDrop (col d) (head d) (trail d) (speed d) (age d) (rng d) v.

Definition set_f_active (v : bool) (f : FastDrop) : FastDrop :=
  mkFast v (f_col f) (f_row f) (f_speed f) (f_age f) (f_rng f).
Definition set_f_row (v : Z) (f : FastDrop) : FastDrop :=
  mkFast (f_active f) (f_col f) v (f_speed f) (f_age f) (f_rng f).
Definition set_f_age (v : Z) (f : FastDrop) : FastDrop :=
  mkFast (f_active f) (f_col f) (f_row f) (f_speed f) v (f_rng f).
Definition set_f_rng (v : Z) (f : FastDrop) : FastDrop :=
  mkFast (f_active f) (f_col f) (f_row f) (f_speed f) (f_age f) v.

Definition is_active (d : Drop) : bool := negb (head d =? -1).

(** * Packed brightness, 2 bits per slot

    [matrix_rain_vectorized_fixed.ino] and [matrix_rain_vectorized_final.ino]
    share one implementation: every access reads the byte that holds the
    slot together with the next one as a 16-bit window.  The functions
    below work on the row of one drop; the sketches' [get_bright_slot]
    and [set_bright_slot] pick the row first. *)

Module Window16.

Definition MAX_TRAIL : Z := 12.

(** [((MAX_TRAIL * 2 + 7) / 8)] *)
Definition BRIGHT_BYTES_PER_DROP : Z := (MAX_TRAIL * 2 + 7) / 8.

Definition get_bright_row (row : list Z) (slot : Z) : option Z :=
  let bitpos := u16 (slot * 2) in
  let byteIdx := u8 (bitpos / 8) in
  let bitOff := u8 (bitpos mod 8) in
  b0 ← rd row byteIdx;
  b1 ← rd row (byteIdx + 1);
  let val := u16 (Z.lor b0 (Z.shiftl (u16 b1) 8)) in
  Some (u8 (Z.land (Z.shiftr val bitOff) 0x03)).

Definition set_bright_row (row : list Z) (slot val : Z) : option (list Z) :=
  let val := u8 (Z.land val 0x03) in
  let bitpos := u16 (slot * 2) in
  let byteIdx := u8 (bitpos / 8) in
  let bitOff := u8 (bitpos mod 8) in
  let mask := u16 (Z.lnot (Z.shiftl 0x03 bitOff)) in
  b0 ← rd row byteIdx;
  b1 ← rd row (byteIdx + 1);
  let data := u16 (Z.lor b0 (Z.shiftl (u16 b1) 8)) in
  let data := u16 (Z.lor (Z.land data mask) (Z.shiftl (u16 val) bitOff)) in
  row ← wr row byteIdx (u8 data);
  wr row (byteIdx + 1) (u8 (Z.shiftr data 8)).

Definition get_bright_slot (packed : list (list Z)) (drop_idx slot : Z)
    : option Z :=
  row ← rd packed drop_idx;
  get_bright_row row slot.

Definition set_bright_slot (packed : list (list Z)) (drop_idx slot val : Z)
    : option (list (list Z)) :=
  row ← rd packed drop_idx;
  row' ← set_bright_row row slot val;
  wr packed drop_idx row'.

End Window16.

(** A row of packed brightness read as one number, first byte lowest. *)
Fixpoint word_of (row : list Z) : Z :=
  match row with
  | [] => 0
  | b :: rest => Z.lor b (Z.shiftl (word_of rest) 8)
  end.

Definition is_byte (b : Z) : bool := (0 <=? b) && (b <? 256).

(** What a row must look like: [BRIGHT_BYTES_PER_DROP + 1] bytes. *)
Definition row_ok (row : list Z) : bool :=
  (len row =? 4) && forallb is_byte row.

(** The whole table: one well-formed row per drop. *)
Definition packed_ok (n : Z) (packed : list (list Z)) : Prop :=
  len packed = n /\ forall i row, rd packed i = Some row -> row_ok row = true.

(** The same as a test: the shape of [uint8_t t[n][BRIGHT_BYTES_PER_DROP + 1]]. *)
Definition packed_okb (n : Z) (packed : list (list Z)) : bool :=
  (len packed =? n) && forallb row_ok packed.

(** The table of character indices: [MAX_TRAIL] entries per drop. *)
Definition chars_ok (n : Z) (ci : list (list Z)) : Prop :=
  len ci = n /\ forall i row, rd ci i = Some row -> len row = 12.

(** * What the drop-based sketches have in common

    All four use an 80 x 24 terminal and trails of at most 12 rows; the
    sizes of the two tables differ. *)

Module Core.

Definition TERM_COLS : Z := 80.
Definition TERM_ROWS : Z := 24.
Definition MAX_TRAIL : Z := 12.

(** An active Drop as [maybeSpawnDrop] makes it and [stepDrops] keeps it,
    in the sketches that retire a Drop once its trail has left the
    screen. *)
Definition drop_ok (d : Drop) : Prop :=
  0 <= head d /\ head d - (trail d - 1) < TERM_ROWS /\
  0 <= col d < TERM_COLS /\ 3 <= trail d <= MAX_TRAIL /\
  1 <= speed d <= 5 /\ 0 <= age d < 256 /\ 0 <= boost d < 256.

Definition fast_ok (f : FastDrop) : Prop :=
  0 <= f_row f < TERM_ROWS /\ f_speed f = 1 /\ f_age f = 0 /\
  0 <= f_col f < TERM_COLS.

(** The three tables agree: active Drops are well-formed and own the flag
    of their column, no two share a column, and every flag has an
    owner. *)
Record tables_ok (nd nf : Z) (ds : list Drop) (co : list bool)
    (fs : list FastDrop) : Prop := mkTablesOk {
  ok_len_drops : len ds = nd;
  ok_len_cols : len co = TERM_COLS;
  ok_len_fasts : len fs = nf;
  ok_drop : forall i d,
    rd ds i = Some d -> head d <> -1 ->
    drop_ok d /\ rd co (col d) = Some true;
  ok_unique : forall i j di dj,
    rd ds i = Some di -> rd ds j = Some dj ->
    head di <> -1 -> head dj <> -1 -> col di = col dj -> i = j;
  ok_owner : forall c,
    rd co c = Some true ->
    exists i d, rd ds i = Some d /\ head d <> -1 /\ col d = c;
  ok_fast : forall i f,
    rd fs i = Some f -> f_active f = true -> fast_ok f
}.

(** What a fast drop may do to a Drop: only its generator moves and its
    boost is raised, to [b] at most. *)
Definition same_course (b : Z) (d0 d : Drop) : Prop :=
  col d = col d0 /\ head d = head d0 /\ trail d = trail d0 /\
  speed d = speed d0 /\ age d = age d0 /\
  boost d0 <= boost d <= Z.max (boost d0) b.

End Core.

(** * The shape of a frame on the wire *)

(** One event of the trace seen by a terminal that counts the characters
    of the row it is on: a row terminator closes the row, a character
    makes it one longer, an escape sequence leaves it alone. *)
Definition row_step (acc : list nat * nat) (e : event) : list nat * nat :=
  if is_newline e then (fst acc ++ [snd acc], 0%nat)
  else if is_Put e then (fst acc, S (snd acc))
  else acc.

(** The rows closed so far and the length of the row the cursor is on. *)
Definition rows_of (out : list event) : list nat * nat :=
  fold_left row_step out ([], 0%nat).

(** The number of characters on every row the trace touches, the last
    one included even when it is not terminated. *)
Definition row_lengths (out : list event) : list nat :=
  fst (rows_of out) ++ [snd (rows_of out)].

(** The row terminators of a trace, in order. *)
Definition newlines (out : list event) : list event :=
  List.filter is_newline out.

(** A cell as every sketch may paint it: a brightness of 0..4 and a
    blank or a character of the character set. *)
Definition cell_ok (bc : Z * Z) : Prop :=
  0 <= fst bc <= 4 /\ (snd bc = SPACE \/ In (snd bc) CHARSET).

(** [Serial.print((unsigned)n)] and the [%u] of [snprintf] on a 16-bit
    [unsigned]: the decimal digits of [n], most significant first.  Five
    digits are enough below 65536. *)
Fixpoint dec_digits (fuel : nat) (n : Z) (acc : list Z) : list Z :=
  match fuel with
  | O => acc
  | S fuel' =>
      let acc := (48 + n mod 10) :: acc in
      if n / 10 =? 0 then acc else dec_digits fuel' (n / 10) acc
  end.

Definition print_unsigned (n : Z) : list Z := dec_digits 5 (u16 n) [].
(** * arduino_matrix_rain_fastdrops.ino *)

Module Fastdrops.

Definition TERM_COLS : Z := 80.
Definition TERM_ROWS : Z := 24.
Definition MAX_DROPS : Z := 25.
Definition MAX_TRAIL : Z := 12.
Definition SPAWN_CHANCE : Z := 35.
Definition SPAWN_FAST_CHANCE : Z := 18.
Definition MAX_FAST : Z := 12.

Record State : Type := mkState {
  drops : list Drop;
  column_occupied : list bool;
  global_rng : Z;
  fasts : list FastDrop
}.

Definition set_drops (v : list Drop) (s : State) : State :=
  mkState v (column_occupied s) (global_rng s) (fasts s).
Definition set_column_occupied (v : list bool) (s : State) : State :=
  mkState (drops s) v (global_rng s) (fasts s).
Definition set_global_rng (v : Z) (s : State) : State :=
  mkState (drops s) (column_occupied s) v (fasts s).
Definition set_fasts (v : list FastDrop) (s : State) : State :=
  mkState (drops s) (column_occupied s) (global_rng s) v.

Definition term_set_color (bright : Z) : list Z :=
  if bright =? 4 then esc "[97;1m"
  else if bright =? 3 then esc "[97;1m"
  else if bright =? 2 then esc "[32;1m"
  else if bright =? 1 then esc "[32m"
  else esc "[90m".

Definition bytes_of_event (e : event) : list Z :=
  match e with
  | Home => esc "[H"
  | SetColor b => term_set_color b
  | Put ch => [ch]
  | CRLF => [13; 10]
  | LF => [10]
  | ResetColor => esc "[0m"
  end.

Definition findDropIndexInColumn (ds : list Drop) (c : Z) : option Z :=
  or_minus1 <$>
  scan_upto MAX_DROPS (fun i =>
    d ← rd ds i;
    Some (if negb (head d =? -1) && (col d =? c) then Some i else None)).

Definition charForDrop (d : Drop) (dist : Z) : option Z :=
  let h := u32 (rng d + u32 (u32 dist * 0x9e3779b1)) in
  pickChar (splitmix32 h).

Definition charForFast (f : FastDrop) : option Z :=
  pickChar (splitmix32 (f_rng f)).

Definition setupState (s : State) : option State :=
  ds ← for_upto MAX_DROPS (fun i ds =>
          d ← rd ds i; wr ds i (set_boost 0 (set_head (-1) d))) (drops s);
  co ← for_upto TERM_COLS (fun c co => wr co c false) (column_occupied s);
  fs ← for_upto MAX_FAST (fun i fs =>
          f ← rd fs i; wr fs i (set_f_active false f)) (fasts s);
  Some (mkState ds co (global_rng s) fs).

(** What [stepFastDrops] may do to a Drop: only its generator moves and its
    boost is raised to the boost of an impact. *)
Definition same_course (d0 d : Drop) : Prop :=
  col d = col d0 /\ head d = head d0 /\ trail d = trail d0 /\
  speed d = speed d0 /\ age d = age d0 /\
  boost d0 <= boost d <= Z.max (boost d0) 4.

(** The fields [maybeSpawnDrop] assigns to the slot it activates, from the
    column it found and the third draw of the generator. *)
Definition spawned (free_col g3 : Z) : Drop :=
  {| col := u8 free_col;
     head := 0;
     trail := u8 (g3 mod (MAX_TRAIL - 2) + 3);
     speed := u8 (Z.shiftr g3 8 mod 5 + 1);
     age := 0;
     rng := splitmix32 g3;
     boost := 0 |}.

Definition maybeSpawnDrop (s : State) : option State :=
  let g1 := splitmix32 (global_rng s) in
  let s := set_global_rng g1 s in
  if SPAWN_CHANCE <? Z.land g1 0xFF then Some s else
  r ← scan_upto MAX_DROPS (fun i =>
         d ← rd (drops s) i;
         Some (if head d =? -1 then Some i else None));
  let idx := or_minus1 r in
  if idx =? -1 then Some s else
  let g2 := splitmix32 g1 in
  let s := set_global_rng g2 s in
  let start_col := u8 (g2 mod TERM_COLS) in
  r ← scan_upto TERM_COLS (fun i =>
         let c := u8 ((start_col + i) mod TERM_COLS) in
         b ← rd (column_occupied s) c;
         Some (if negb b then Some c else None));
  let free_col := or_minus1 r in
  if free_col =? -1 then Some s else
  let g3 := splitmix32 g2 in
  let d := spawned free_col g3 in
  ds ← wr (drops s) idx d;
  co ← wr (column_occupied s) (col d) true;
  Some (mkState ds co g3 (fasts s)).

Definition maybeSpawnFastDrop (s : State) : option State :=
  let g1 := splitmix32 (global_rng s) in
  let s := set_global_rng g1 s in
  if SPAWN_FAST_CHANCE <? Z.land g1 0xFF then Some s else
  let g2 := splitmix32 g1 in
  let s := set_global_rng g2 s in
  let start_col := u8 (g2 mod TERM_COLS) in
  r ← scan_upto TERM_COLS (fun i =>
         let c := u8 ((start_col + i) mod TERM_COLS) in
         b ← rd (column_occupied s) c;
         Some (if (b : bool) then Some c else None));
  let col_with_drop := or_minus1 r in
  if col_with_drop =? -1 then Some s else
  r ← scan_upto MAX_FAST (fun i =>
         f ← rd (fasts s) i;
         Some (if negb (f_active f) then Some i else None));
  let fidx := or_minus1 r in
  if fidx =? -1 then Some s else
  let f := {| f_active := true;
              f_col := u8 col_with_drop;
              f_row := 0;
              f_speed := (if Z.shiftr g2 8 mod 2 =? 0 then 1 else 1);
              f_age := 0;
              f_rng := splitmix32 g2 |} in
  fs ← wr (fasts s) fidx f;
  Some (set_fasts fs s).

(** The first half of the loop body of [stepDrops]: the frame counter
    ticks and, once it has reached [speed], the head moves down a row. *)
Definition advance (d : Drop) : Drop :=
  let d := set_age (u8 (age d + 1)) d in
  if speed d <=? age d then
    let d := set_age 0 d in
    let d := set_head (i16 (head d + 1)) d in
    let d := set_rng (splitmix32 (rng d)) d in
    let d :=
      if negb (boost d =? 0) then
        let extra := if 4 <? boost d then 3 else 1 in
        set_rng (Nat.iter (Z.to_nat extra) splitmix32 (rng d)) d
      else d in
    if negb (boost d =? 0)
    then set_boost (if 0 <? boost d then u8 (boost d - 1) else 0) d
    else d
  else d.

(** [d.head - (int16_t)(d.trail - 1) >= (int16_t)TERM_ROWS] *)
Definition trail_gone (d : Drop) : bool :=
  TERM_ROWS <=? head d - i16 (trail d - 1).

(** One iteration of the loop of [stepDrops]. *)
Definition stepDrops_body (i : Z) (s : State) : option State :=
  d ← rd (drops s) i;
  if head d =? -1 then Some s else
  let d := advance d in
  if trail_gone d then
    co ← wr (column_occupied s) (col d) false;
    ds ← wr (drops s) i (set_boost 0 (set_head (-1) d));
    Some (set_drops ds (set_column_occupied co s))
  else
    ds ← wr (drops s) i d;
    Some (set_drops ds s).

Definition stepDrops (s : State) : option State :=
  for_upto MAX_DROPS stepDrops_body s.

(** What one iteration of the loop of [stepDrops] leaves in the slot it
    visits. *)
Definition step_drop (d : Drop) : Drop :=
  if head d =? -1 then d
  else
    let d' := advance d in
    if trail_gone d' then set_boost 0 (set_head (-1) d') else d'.

(** One iteration of the loop of [stepFastDrops]. *)
Definition stepFastDrops_body (i : Z) (s : State) : option State :=
  f ← rd (fasts s) i;
  if negb (f_active f) then Some s else
  let f := set_f_age (u8 (f_age f + 1)) f in
  if f_age f <? f_speed f then
    fs ← wr (fasts s) i f; Some (set_fasts fs s)
  else
  let f := set_f_age 0 f in
  let f := set_f_row (i16 (f_row f + 1)) f in
  if TERM_ROWS <=? f_row f then
    fs ← wr (fasts s) i (set_f_active false f); Some (set_fasts fs s)
  else
  di ← findDropIndexInColumn (drops s) (f_col f);
  if di =? -1 then
    fs ← wr (fasts s) i f; Some (set_fasts fs s)
  else
  d ← rd (drops s) di;
  let bottom := i16 (head d - i16 (trail d - 1)) in
  let d :=
    if (bottom <=? f_row f) && (f_row f <=? head d)
    then set_rng (splitmix32 (rng d)) d else d in
  if head d <=? f_row f then
    let d := if boost d <? 4 then set_boost 4 d else d in
    let d := set_rng (splitmix32 (splitmix32 (rng d))) d in
    let f := set_f_active false f in
    ds ← wr (drops s) di d;
    fs ← wr (fasts s) i f;
    Some (set_fasts fs (set_drops ds s))
  else
    ds ← wr (drops s) di d;
    fs ← wr (fasts s) i f;
    Some (set_fasts fs (set_drops ds s)).

Definition stepFastDrops (s : State) : option State :=
  for_upto MAX_FAST stepFastDrops_body s.

(** Brightness and character of the cell at row [r], column [c]. *)
Definition cell (s : State) (r c : Z) : option (Z * Z) :=
  hit ← scan_upto MAX_FAST (fun fi =>
           f ← rd (fasts s) fi;
           if negb (f_active f) || negb (f_col f =? c) then Some None
           else if f_row f =? i16 r then
             ch ← charForFast f; Some (Some (4, ch))
           else Some None);
  match hit with
  | Some bc => Some bc
  | None =>
      occ ← rd (column_occupied s) c;
      if (occ : bool) then
        hit ← scan_upto MAX_DROPS (fun di =>
                 d ← rd (drops s) di;
                 if (head d =? -1) || negb (col d =? c) then Some None
                 else
                   let dist := i16 (head d - i16 r) in
                   if (0 <=? dist) && (dist <? trail d) then
                     let b :=
                       if dist =? 0 then
                         (if negb (boost d =? 0) then 4 else 3)
                       else if dist <? 4 then u8 (3 - dist)
                       else 1 in
                     ch ← charForDrop d dist; Some (Some (b, ch))
                   else Some None);
        Some (match hit with Some bc => bc | None => (0, SPACE) end)
      else Some (0, SPACE)
  end.

(** The body of the inner loop of [renderFrame]; the loop state is the
    variable [last_brightness] and the bytes written so far. *)
Definition render_cell (s : State) (r c : Z) (st : Z * list event)
    : option (Z * list event) :=
  let '(last_brightness, out) := st in
  bc ← cell s r c;
  let '(current_brightness, ch) := bc in
  if negb (current_brightness =? last_brightness)
  then Some (current_brightness, out ++ [SetColor current_brightness; Put ch])
  else Some (last_brightness, out ++ [Put ch]).

Definition render_row (s : State) (r : Z) (st : Z * list event)
    : option (Z * list event) :=
  st ← for_upto TERM_COLS (render_cell s r) st;
  if r <? TERM_ROWS - 1 then Some (fst st, snd st ++ [CRLF]) else Some st.

Definition renderFrame (s : State) (salt : Z) : option (list event) :=
  st ← for_upto TERM_ROWS (render_row s) (255, [Home]);
  Some (snd st ++ [ResetColor]).

(** The cells of a frame in the order [renderFrame] visits them. *)
Definition frame_cells (s : State) : option (list (Z * Z)) :=
  for_upto TERM_ROWS (fun r acc =>
    for_upto TERM_COLS (fun c acc =>
      bc ← cell s r c; Some (acc ++ [bc])) acc) [].

(** *** Runs of the sketch *)

(** What [setupState] establishes: every array has its declared size,
    every Drop and FastDrop is inactive, every column is free. *)
Definition initial (s : State) : bool :=
  (len (drops s) =? MAX_DROPS)
  && (len (column_occupied s) =? TERM_COLS)
  && (len (fasts s) =? MAX_FAST)
  && forallb (fun d => head d =? -1) (drops s)
  && forallb negb (column_occupied s)
  && forallb (fun f => negb (f_active f)) (fasts s).

(** The zero-initialised globals before [setup] runs. *)
Definition boot : State :=
  {| drops := replicate (Z.to_nat MAX_DROPS) (mkDrop 0 0 0 0 0 0 0);
     column_occupied := replicate (Z.to_nat TERM_COLS) false;
     global_rng := 0xA5A5A5A5;
     fasts := replicate (Z.to_nat MAX_FAST) (mkFast false 0 0 0 0 0) |}.

(** The state [setupState] leaves behind. *)
Definition start : State :=
  {| drops := replicate (Z.to_nat MAX_DROPS) (mkDrop 0 (-1) 0 0 0 0 0);
     column_occupied := replicate (Z.to_nat TERM_COLS) false;
     global_rng := 0xA5A5A5A5;
     fasts := replicate (Z.to_nat MAX_FAST) (mkFast false 0 0 0 0 0) |}.

(** The state-changing calls of [loop]. *)
Inductive op : Type := SpawnDrop | SpawnFast | StepDrops | StepFast.

Definition run_op (o : op) (s : State) : option State :=
  match o with
  | SpawnDrop => maybeSpawnDrop s
  | SpawnFast => maybeSpawnFastDrop s
  | StepDrops => stepDrops s
  | StepFast => stepFastDrops s
  end.

Fixpoint run (ops : list op) (s : State) : option State :=
  match ops with
  | [] => Some s
  | o :: ops' => s' ← run_op o s; run ops' s'
  end.

(** One pass of [loop] without the rendering. *)
Definition tick : list op := [SpawnDrop; SpawnFast; StepDrops; StepFast].

(** *** The invariant of the sketch *)

Definition drop_ok (d : Drop) : Prop :=
  0 <= head d /\ head d - (trail d - 1) < TERM_ROWS /\
  0 <= col d < TERM_COLS /\ 3 <= trail d <= MAX_TRAIL /\
  1 <= speed d <= 5 /\ 0 <= age d < 256 /\ 0 <= boost d < 256.

Definition fast_ok (f : FastDrop) : Prop :=
  0 <= f_row f < TERM_ROWS /\ f_speed f = 1 /\ f_age f = 0 /\
  0 <= f_col f < TERM_COLS.

Record Inv (s : State) : Prop := mkInv {
  inv_len_drops : len (drops s) = MAX_DROPS;
  inv_len_cols : len (column_occupied s) = TERM_COLS;
  inv_len_fasts : len (fasts s) = MAX_FAST;
  inv_drop : forall i d,
    rd (drops s) i = Some d -> head d <> -1 ->
    drop_ok d /\ rd (column_occupied s) (col d) = Some true;
  inv_unique : forall i j di dj,
    rd (drops s) i = Some di -> rd (drops s) j = Some dj ->
    head di <> -1 -> head dj <> -1 -> col di = col dj -> i = j;
  inv_owner : forall c,
    rd (column_occupied s) c = Some true ->
    exists i d, rd (drops s) i = Some d /\ head d <> -1 /\ col d = c;
  inv_fast : forall i f,
    rd (fasts s) i = Some f -> f_active f = true -> fast_ok f
}.

(** The state of a lone Drop [i], spawned as [d], that has been stepped [n]
    times at speed 1. *)
Definition lone_after (i : Z) (d : Drop) (n : Z) (s : State) : Prop :=
  Inv s /\
  (forall j dj, rd (drops s) j = Some dj -> j <> i -> head dj = -1) /\
  exists dn, rd (drops s) i = Some dn /\
    col dn = col d /\ trail dn = trail d /\ speed dn = 1 /\ age dn = 0 /\
    ((n < TERM_ROWS + trail d - 1 /\ head dn = n /\
      rd (column_occupied s) (col d) = Some true) \/
     (TERM_ROWS + trail d - 1 <= n /\ head dn = -1 /\
      rd (column_occupied s) (col d) = Some false)).

End Fastdrops.
(** * matrix_rain_vectorized.ino *)

Module Vectorized.

Definition TERM_COLS : Z := 80.
Definition TERM_ROWS : Z := 24.
Definition MAX_DROPS : Z := 35.
Definition MAX_TRAIL : Z := 12.
Definition MAX_FAST : Z := 12.
Definition SPAWN_CHANCE : Z := 45.
Definition SPAWN_FAST_CHANCE : Z := 28.

(** [((MAX_TRAIL * 2 + 7) / 8)] *)
Definition BRIGHT_BYTES_PER_DROP : Z := (MAX_TRAIL * 2 + 7) / 8.

Record State : Type := mkState {
  drops : list Drop;
  fasts : list FastDrop;
  column_occupied : list bool;
  global_rng : Z;
  drop_char_idx : list (list Z);       (* [MAX_DROPS][MAX_TRAIL] *)
  drop_bright_packed : list (list Z)   (* [MAX_DROPS][BRIGHT_BYTES_PER_DROP + 1] *)
}.

Definition set_drops (v : list Drop) (s : State) : State :=
  mkState v (fasts s) (column_occupied s) (global_rng s)
          (drop_char_idx s) (drop_bright_packed s).
Definition set_fasts (v : list FastDrop) (s : State) : State :=
  mkState (drops s) v (column_occupied s) (global_rng s)
          (drop_char_idx s) (drop_bright_packed s).
Definition set_column_occupied (v : list bool) (s : State) : State :=
  mkState (drops s) (fasts s) v (global_rng s)
          (drop_char_idx s) (drop_bright_packed s).
Definition set_global_rng (v : Z) (s : State) : State :=
  mkState (drops s) (fasts s) (column_occupied s) v
          (drop_char_idx s) (drop_bright_packed s).
Definition set_drop_char_idx (v : list (list Z)) (s : State) : State :=
  mkState (drops s) (fasts s) (column_occupied s) (global_rng s)
          v (drop_bright_packed s).
Definition set_drop_bright_packed (v : list (list Z)) (s : State) : State :=
  mkState (drops s) (fasts s) (column_occupied s) (global_rng s)
          (drop_char_idx s) v.

(** *** Packed brightness: one byte, or two when the slot spans bytes *)

(** The body of [get_bright_slot] once [byteIdx] and [bitOff] are known. *)
Definition get_at (row : list Z) (byteIdx bitOff : Z) : option Z :=
  b ← rd row byteIdx;
  let v := u16 (Z.shiftr b bitOff) in
  if bitOff <=? 6 then Some (u8 (Z.land v 0x03))
  else
    next ← rd row (byteIdx + 1);
    let v := Z.lor v (u16 (Z.shiftl next (8 - bitOff))) in
    Some (u8 (Z.land v 0x03)).

(** The body of [set_bright_slot] once [val] is masked and [byteIdx] and
    [bitOff] are known. *)
Definition set_at (row : list Z) (byteIdx bitOff val : Z) : option (list Z) :=
  if bitOff <=? 6 then
    let mask := u8 (Z.shiftl 0x03 bitOff) in
    b ← rd row byteIdx;
    wr row byteIdx
       (u8 (Z.lor (Z.land b (Z.lnot mask)) (u8 (Z.shiftl val bitOff))))
  else
    let low_mask := u8 (Z.shiftl 1 7) in
    b ← rd row byteIdx;
    row ← wr row byteIdx
             (u8 (Z.lor (Z.land b (Z.lnot low_mask))
                        (u8 (Z.shiftl (Z.land val 0x01) 7))));
    let high_mask := 0x01 in
    next ← rd row (byteIdx + 1);
    wr row (byteIdx + 1)
       (u8 (Z.lor (Z.land next (Z.lnot high_mask))
                  (u8 (Z.land (Z.shiftr val 1) 0x01)))).

Definition get_bright_row (row : list Z) (slot : Z) : option Z :=
  let bitpos := u16 (slot * 2) in
  let byteIdx := u8 (Z.shiftr bitpos 3) in
  let bitOff := u8 (Z.land bitpos 7) in
  get_at row byteIdx bitOff.

Definition set_bright_row (row : list Z) (slot val : Z) : option (list Z) :=
  let val := u8 (Z.land val 0x03) in
  let bitpos := u16 (slot * 2) in
  let byteIdx := u8 (Z.shiftr bitpos 3) in
  let bitOff := u8 (Z.land bitpos 7) in
  set_at row byteIdx bitOff val.

Definition get_bright_slot (packed : list (list Z)) (drop_idx slot : Z)
    : option Z :=
  row ← rd packed drop_idx;
  get_bright_row row slot.

Definition set_bright_slot (packed : list (list Z)) (drop_idx slot val : Z)
    : option (list (list Z)) :=
  row ← rd packed drop_idx;
  row' ← set_bright_row row slot val;
  wr packed drop_idx row'.

(** *** The sketch *)

Definition findDropIndexInColumn (ds : list Drop) (c : Z) : option Z :=
  or_minus1 <$>
  scan_upto MAX_DROPS (fun i =>
    d ← rd ds i;
    Some (if negb (head d =? -1) && (col d =? c) then Some i else None)).

Definition charForFast (f : FastDrop) : option Z :=
  charset_at_idx (u8 (splitmix32 (f_rng f) mod CHARSET_LEN)).

Definition setupState (s : State) : option State :=
  st ← for_upto MAX_DROPS (fun i st =>
          let '(ds, ci, bp) := st in
          d ← rd ds i;
          ds ← wr ds i (set_boost 0 (set_head (-1) d));
          ci ← for_upto MAX_TRAIL (fun k ci => wr2 ci i k 0) ci;
          bp ← for_upto (BRIGHT_BYTES_PER_DROP + 1) (fun b bp => wr2 bp i b 0) bp;
          Some (ds, ci, bp))
        (drops s, drop_char_idx s, drop_bright_packed s);
  let '(ds, ci, bp) := st in
  co ← for_upto TERM_COLS (fun c co => wr co c false) (column_occupied s);
  fs ← for_upto MAX_FAST (fun i fs =>
          f ← rd fs i; wr fs i (set_f_active false f)) (fasts s);
  Some (mkState ds fs co (global_rng s) ci bp).

(** The fields [maybeSpawnDrop] assigns before it fills the buffers. *)
Definition spawned (free_col g3 : Z) : Drop :=
  {| col := u8 free_col;
     head := 0;
     trail := u8 (g3 mod (MAX_TRAIL - 2) + 3);
     speed := u8 (Z.shiftr g3 8 mod 5 + 1);
     age := 0;
     rng := splitmix32 g3;
     boost := 0 |}.

(** The two loops of [maybeSpawnDrop] that initialise the buffers of slot
    [idx]; the loop state is the generator of the drop and the buffers. *)
Definition init_buffers (idx : Z) (tr : Z) (st : Z * list (list Z) * list (list Z))
    : option (Z * list (list Z) * list (list Z)) :=
  st ← for_upto tr (fun k st =>
          let '(r, ci, bp) := st in
          let r := splitmix32 r in
          ci ← wr2 ci idx k (pickIndex r);
          let b := if k =? 0 then 3 else if k =? 1 then 2 else 1 in
          bp ← set_bright_slot bp (u8 idx) k b;
          Some (r, ci, bp)) st;
  for_range (Z.to_nat (MAX_TRAIL - tr)) tr (fun k st =>
      let '(r, ci, bp) := st in
      ci ← wr2 ci idx k 0;
      bp ← set_bright_slot bp (u8 idx) k 0;
      Some (r, ci, bp)) st.

Definition maybeSpawnDrop (s : State) : option State :=
  let g1 := splitmix32 (global_rng s) in
  let s := set_global_rng g1 s in
  if SPAWN_CHANCE <? Z.land g1 0xFF then Some s else
  r ← scan_upto MAX_DROPS (fun i =>
         d ← rd (drops s) i;
         Some (if head d =? -1 then Some i else None));
  let idx := or_minus1 r in
  if idx =? -1 then Some s else
  let g2 := splitmix32 g1 in
  let s := set_global_rng g2 s in
  let start_col := u8 (g2 mod TERM_COLS) in
  r ← scan_upto TERM_COLS (fun i =>
         let c := u8 ((start_col + i) mod TERM_COLS) in
         b ← rd (column_occupied s) c;
         Some (if negb b then Some c else None));
  let free_col := or_minus1 r in
  if free_col =? -1 then Some s else
  let g3 := splitmix32 g2 in
  let d := spawned free_col g3 in
  st ← init_buffers idx (trail d) (rng d, drop_char_idx s, drop_bright_packed s);
  let '(r, ci, bp) := st in
  ds ← wr (drops s) idx (set_rng r d);
  co ← wr (column_occupied s) (col d) true;
  Some (mkState ds (fasts s) co g3 ci bp).

Definition maybeSpawnFastDrop (s : State) : option State :=
  let g1 := splitmix32 (global_rng s) in
  let s := set_global_rng g1 s in
  if SPAWN_FAST_CHANCE <? Z.land g1 0xFF then Some s else
  let g2 := splitmix32 g1 in
  let s := set_global_rng g2 s in
  let start_col := u8 (g2 mod TERM_COLS) in
  r ← scan_upto TERM_COLS (fun i =>
         let c := u8 ((start_col + i) mod TERM_COLS) in
         b ← rd (column_occupied s) c;
         Some (if (b : bool) then Some c else None));
  let col_with_drop := or_minus1 r in
  if col_with_drop =? -1 then Some s else
  r ← scan_upto MAX_FAST (fun i =>
         f ← rd (fasts s) i;
         Some (if negb (f_active f) then Some i else None));
  let fidx := or_minus1 r in
  if fidx =? -1 then Some s else
  let g3 := splitmix32 g2 in
  let f := {| f_active := true;
              f_col := u8 col_with_drop;
              f_row := 0;
              f_speed := 1;
              f_age := 0;
              f_rng := splitmix32 g3 |} in
  fs ← wr (fasts s) fidx f;
  Some (set_fasts fs (set_global_rng g3 s)).

(** [memmove(&row[1], &row[0], n)] *)
Definition memmove_1_0 (row : list Z) (n : Z) : option (list Z) :=
  if (0 <=? n) && (n + 1 <=? len row) then
    Some (take 1 row ++ take (Z.to_nat n) row ++ drop (Z.to_nat (n + 1)) row)
  else None.

(** The brightness part of an advance: unpack, shift and decay, repack. *)
Definition fade (i : Z) (d : Drop) (tmp_bright : list Z) (bp : list (list Z))
    : option (list Z * list (list Z)) :=
  tmp ← for_upto (trail d) (fun k tmp =>
           v ← get_bright_slot bp i k; wr tmp k v) tmp_bright;
  tmp ← for_down (Z.to_nat (trail d - 1)) (trail d - 1) (fun k tmp =>
           prev ← rd tmp (k - 1);
           wr tmp k (if 1 <? prev then u8 (prev - 1) else 1)) tmp;
  tmp ← wr tmp 0 (if negb (boost d =? 0) then 3 else 3);
  bp ← for_upto (trail d) (fun k bp =>
           v ← rd tmp k; set_bright_slot bp i k v) bp;
  Some (tmp, bp).

(** The body of [if (d.age >= d.speed)]: the head moves down one row, the
    characters shift and the brightness decays. *)
Definition advance (i : Z) (s : State) (tmp_bright : list Z) (d : Drop)
    : option (Drop * list (list Z) * list (list Z) * list Z) :=
  let d := set_age 0 d in
  let d := set_head (i16 (head d + 1)) d in
  let d := set_rng (splitmix32 (rng d)) d in
  row ← rd (drop_char_idx s) i;
  row ← (if 1 <? trail d then memmove_1_0 row (trail d - 1) else Some row);
  let d := set_rng (splitmix32 (rng d)) d in
  row ← wr row 0 (pickIndex (rng d));
  ci ← wr (drop_char_idx s) i row;
  tb ← fade i d tmp_bright (drop_bright_packed s);
  let '(tmp, bp) := tb in
  let d := if negb (boost d =? 0) then set_boost (u8 (boost d - 1)) d else d in
  Some (d, ci, bp, tmp).

(** One iteration of the loop of [stepDrops].  [tmp_bright] is declared
    before the loop and never initialised; it travels with the state. *)
Definition stepDrops_body (i : Z) (st : State * list Z)
    : option (State * list Z) :=
  let '(s, tmp_bright) := st in
  d ← rd (drops s) i;
  if head d =? -1 then Some (s, tmp_bright) else
  let d := set_age (u8 (age d + 1)) d in
  adv ←
    (if speed d <=? age d then advance i s tmp_bright d
     else Some (d, drop_char_idx s, drop_bright_packed s, tmp_bright));
  let '(d, ci, bp, tmp) := adv in
  if TERM_ROWS <=? head d - i16 (trail d - 1) then
    co ← wr (column_occupied s) (col d) false;
    ds ← wr (drops s) i (set_boost 0 (set_head (-1) d));
    bp ← for_upto (BRIGHT_BYTES_PER_DROP + 1) (fun b bp => wr2 bp i b 0) bp;
    Some (mkState ds (fasts s) co (global_rng s) ci bp, tmp)
  else
    ds ← wr (drops s) i d;
    Some (mkState ds (fasts s) (column_occupied s) (global_rng s) ci bp, tmp).

(** [stack k] is what element [k] of the uninitialised [tmp_bright]
    happens to hold when [stepDrops] is entered. *)
Definition stepDrops (stack : Z -> Z) (s : State) : option State :=
  fst <$> for_upto MAX_DROPS stepDrops_body
            (s, map (fun k => u8 (stack (Z.of_nat k))) (seq 0 (Z.to_nat MAX_TRAIL))).

(** The pass-through block of [stepFastDrops]: a bullet inside the trail
    of Drop [di] rerolls the character of the slot it crosses and brightens
    it. *)
Definition pass_through (s : State) (di : Z) (d : Drop) (row : Z)
    : option (Drop * list (list Z) * list (list Z)) :=
  let bottom := i16 (head d - i16 (trail d - 1)) in
  if (bottom <=? row) && (row <=? head d) then
    let dist := i16 (head d - row) in
    if (0 <=? dist) && (dist <? trail d) then
      let d := set_rng (splitmix32 (rng d)) d in
      ci ← wr2 (drop_char_idx s) di dist (pickIndex (rng d));
      cur ← get_bright_slot (drop_bright_packed s) (u8 di) (u8 dist);
      let nb := if cur <? 3 then u8 (cur + 1) else 3 in
      bp ← set_bright_slot (drop_bright_packed s) (u8 di) (u8 dist) nb;
      Some (d, ci, bp)
    else Some (d, drop_char_idx s, drop_bright_packed s)
  else Some (d, drop_char_idx s, drop_bright_packed s).

(** One iteration of the loop of [stepFastDrops]. *)
Definition stepFastDrops_body (i : Z) (s : State) : option State :=
  f ← rd (fasts s) i;
  if negb (f_active f) then Some s else
  let f := set_f_age (u8 (f_age f + 1)) f in
  if f_age f <? f_speed f then
    fs ← wr (fasts s) i f; Some (set_fasts fs s)
  else
  let f := set_f_age 0 f in
  let f := set_f_row (i16 (f_row f + 1)) f in
  if TERM_ROWS <=? f_row f then
    fs ← wr (fasts s) i (set_f_active false f); Some (set_fasts fs s)
  else
  di ← findDropIndexInColumn (drops s) (f_col f);
  if di =? -1 then
    fs ← wr (fasts s) i f; Some (set_fasts fs s)
  else
  d ← rd (drops s) di;
  let bottom := i16 (head d - i16 (trail d - 1)) in
  pass ← pass_through s di d (f_row f);
  let '(d, ci, bp) := pass in
  if bottom <=? f_row f then
    let d := if boost d <? 6 then set_boost 6 d else d in
    let d := set_rng (splitmix32 (splitmix32 (rng d))) d in
    bp ← set_bright_slot bp (u8 di) 0 3;
    let f := set_f_active false f in
    ds ← wr (drops s) di d;
    fs ← wr (fasts s) i f;
    Some (mkState ds fs (column_occupied s) (global_rng s) ci bp)
  else
    ds ← wr (drops s) di d;
    fs ← wr (fasts s) i f;
    Some (mkState ds fs (column_occupied s) (global_rng s) ci bp).

Definition stepFastDrops (s : State) : option State :=
  for_upto MAX_FAST stepFastDrops_body s.

(** *** Runs of the sketch *)

(** What [setupState] establishes. *)
Definition initial (s : State) : bool :=
  (len (drops s) =? MAX_DROPS)
  && (len (column_occupied s) =? TERM_COLS)
  && (len (fasts s) =? MAX_FAST)
  && forallb (fun d => head d =? -1) (drops s)
  && forallb negb (column_occupied s)
  && forallb (fun f => negb (f_active f)) (fasts s)
  && (len (drop_char_idx s) =? MAX_DROPS)
  && forallb (fun row => len row =? MAX_TRAIL) (drop_char_idx s)
  && (len (drop_bright_packed s) =? MAX_DROPS)
  && forallb row_ok (drop_bright_packed s).

(** The zero-initialised globals before [setup] runs. *)
Definition boot : State :=
  {| drops := replicate (Z.to_nat MAX_DROPS) (mkDrop 0 0 0 0 0 0 0);
     fasts := replicate (Z.to_nat MAX_FAST) (mkFast false 0 0 0 0 0);
     column_occupied := replicate (Z.to_nat TERM_COLS) false;
     global_rng := 0xA5A5A5A5;
     drop_char_idx :=
       replicate (Z.to_nat MAX_DROPS) (replicate (Z.to_nat MAX_TRAIL) 0);
     drop_bright_packed :=
       replicate (Z.to_nat MAX_DROPS)
                 (replicate (Z.to_nat (BRIGHT_BYTES_PER_DROP + 1)) 0) |}.

(** The state [setupState] leaves behind. *)
Definition start : State :=
  {| drops := replicate (Z.to_nat MAX_DROPS) (mkDrop 0 (-1) 0 0 0 0 0);
     fasts := replicate (Z.to_nat MAX_FAST) (mkFast false 0 0 0 0 0);
     column_occupied := replicate (Z.to_nat TERM_COLS) false;
     global_rng := 0xA5A5A5A5;
     drop_char_idx :=
       replicate (Z.to_nat MAX_DROPS) (replicate (Z.to_nat MAX_TRAIL) 0);
     drop_bright_packed :=
       replicate (Z.to_nat MAX_DROPS)
                 (replicate (Z.to_nat (BRIGHT_BYTES_PER_DROP + 1)) 0) |}.

(** The state-changing calls of [loop]; [StepDrops] carries the contents
    of the stack it finds. *)
Inductive op : Type :=
  | SpawnDrop | SpawnFast | StepDrops (stack : Z -> Z) | StepFast.

Definition run_op (o : op) (s : State) : option State :=
  match o with
  | SpawnDrop => maybeSpawnDrop s
  | SpawnFast => maybeSpawnFastDrop s
  | StepDrops stack => stepDrops stack s
  | StepFast => stepFastDrops s
  end.

Fixpoint run (ops : list op) (s : State) : option State :=
  match ops with
  | [] => Some s
  | o :: ops' => s' ← run_op o s; run ops' s'
  end.

(** *** The invariant of the sketch *)

Record Inv (s : State) : Prop := mkInv {
  inv_tables :
    Core.tables_ok MAX_DROPS MAX_FAST (drops s) (column_occupied s) (fasts s);
  inv_chars : chars_ok MAX_DROPS (drop_char_idx s);
  inv_packed : packed_ok MAX_DROPS (drop_bright_packed s)
}.

End Vectorized.
(** * matrix_rain_vectorized.ino: renderFrame *)

Module VectorizedRender.
Import Vectorized.

Definition term_set_color (bright : Z) : list Z :=
  if bright =? 4 then esc "[97;1m"
  else if bright =? 3 then esc "[97;1m"
  else if bright =? 2 then esc "[32;1m"
  else if bright =? 1 then esc "[32m"
  else esc "[90m".

(** Brightness and character of the cell at row [r], column [c]: a bullet
    on the cell or one row below it comes first, then the slot of the
    crawling Drop of the column. *)
Definition cell (s : State) (r c : Z) : option (Z * Z) :=
  hit ← scan_upto MAX_FAST (fun fi =>
           f ← rd (fasts s) fi;
           if negb (f_active f) || negb (f_col f =? c) then Some None
           else if f_row f =? i16 r then
             ch ← charForFast f; Some (Some (4, ch))
           else if f_row f - 1 =? i16 r then
             ch ← charForFast f; Some (Some (2, ch))
           else Some None);
  match hit with
  | Some bc => Some bc
  | None =>
      occ ← rd (column_occupied s) c;
      if (occ : bool) then
        hit ← scan_upto MAX_DROPS (fun di =>
                 d ← rd (drops s) di;
                 if (head d =? -1) || negb (col d =? c) then Some None
                 else
                   let dist := i16 (head d - i16 r) in
                   if (0 <=? dist) && (dist <? trail d) then
                     b ← get_bright_slot (drop_bright_packed s) di (u8 dist);
                     idx ← rd2 (drop_char_idx s) di dist;
                     ch ← charset_at_idx idx;
                     Some (Some (b, ch))
                   else Some None);
        Some (match hit with Some bc => bc | None => (0, SPACE) end)
      else Some (0, SPACE)
  end.

(** The body of the inner loop of [renderFrame]; the loop state is the
    variable [last_brightness] and the trace so far. *)
Definition render_cell (s : State) (r c : Z) (st : Z * list event)
    : option (Z * list event) :=
  let '(last_brightness, out) := st in
  bc ← cell s r c;
  let '(current_brightness, ch) := bc in
  if negb (current_brightness =? last_brightness)
  then Some (current_brightness, out ++ [SetColor current_brightness; Put ch])
  else Some (last_brightness, out ++ [Put ch]).

Definition render_row (s : State) (r : Z) (st : Z * list event)
    : option (Z * list event) :=
  st ← for_upto TERM_COLS (render_cell s r) st;
  if r <? TERM_ROWS - 1 then Some (fst st, snd st ++ [CRLF]) else Some st.

Definition renderFrame (s : State) (salt : Z) : option (list event) :=
  st ← for_upto TERM_ROWS (render_row s) (255, [Home]);
  Some (snd st ++ [ResetColor]).

(** The cells of a frame in the order [renderFrame] visits them. *)
Definition frame_cells (s : State) : option (list (Z * Z)) :=
  for_upto TERM_ROWS (fun r acc =>
    for_upto TERM_COLS (fun c acc =>
      bc ← cell s r c; Some (acc ++ [bc])) acc) [].

(** One pass of [loop]: the four calls, the frame, the next salt. *)
Definition loop (stack : Z -> Z) (st : State * Z)
    : option (State * Z * list event) :=
  let '(s, salt) := st in
  s ← maybeSpawnDrop s;
  s ← maybeSpawnFastDrop s;
  s ← stepDrops stack s;
  s ← stepFastDrops s;
  out ← renderFrame s salt;
  Some (s, splitmix32 salt, out).

End VectorizedRender.
(** * matrix_rain_vectorized_fixed.ino *)

Module VectorizedFixed.

Definition TERM_COLS : Z := 80.
Definition TERM_ROWS : Z := 24.
Definition MAX_DROPS : Z := 35.
Definition MAX_TRAIL : Z := 12.
Definition MAX_FAST : Z := 16.
Definition SPAWN_CHANCE : Z := 45.
Definition SPAWN_FAST_CHANCE : Z := 28.

(** [((MAX_TRAIL * 2 + 7) / 8)] *)
Definition BRIGHT_BYTES_PER_DROP : Z := (MAX_TRAIL * 2 + 7) / 8.

Record State : Type := mkState {
  drops : list Drop;
  fasts : list FastDrop;
  column_occupied : list bool;
  global_rng : Z;
  drop_char_idx : list (list Z);       (* [MAX_DROPS][MAX_TRAIL] *)
  drop_bright_packed : list (list Z)   (* [MAX_DROPS][BRIGHT_BYTES_PER_DROP + 1] *)
}.

Definition set_drops (v : list Drop) (s : State) : State :=
  mkState v (fasts s) (column_occupied s) (global_rng s)
          (drop_char_idx s) (drop_bright_packed s).
Definition set_fasts (v : list FastDrop) (s : State) : State :=
  mkState (drops s) v (column_occupied s) (global_rng s)
          (drop_char_idx s) (drop_bright_packed s).
Definition set_column_occupied (v : list bool) (s : State) : State :=
  mkState (drops s) (fasts s) v (global_rng s)
          (drop_char_idx s) (drop_bright_packed s).
Definition set_global_rng (v : Z) (s : State) : State :=
  mkState (drops s) (fasts s) (column_occupied s) v
          (drop_char_idx s) (drop_bright_packed s).
Definition set_drop_char_idx (v : list (list Z)) (s : State) : State :=
  mkState (drops s) (fasts s) (column_occupied s) (global_rng s)
          v (drop_bright_packed s).
Definition set_drop_bright_packed (v : list (list Z)) (s : State) : State :=
  mkState (drops s) (fasts s) (column_occupied s) (global_rng s)
          (drop_char_idx s) v.

(** *** Packed brightness: the 16-bit window *)

Definition get_bright_slot := Window16.get_bright_slot.
Definition set_bright_slot := Window16.set_bright_slot.

(** *** The sketch *)

Definition findDropIndexInColumn (ds : list Drop) (c : Z) : option Z :=
  or_minus1 <$>
  scan_upto MAX_DROPS (fun i =>
    d ← rd ds i;
    Some (if negb (head d =? -1) && (col d =? c) then Some i else None)).

(** [f.rng] is advanced in [stepFastDrops] and used as it is. *)
Definition charForFast (f : FastDrop) : option Z :=
  charset_at_idx (u8 (f_rng f mod CHARSET_LEN)).

Definition setupState (s : State) : option State :=
  st ← for_upto MAX_DROPS (fun i st =>
          let '(ds, ci, bp) := st in
          d ← rd ds i;
          ds ← wr ds i (set_boost 0 (set_head (-1) d));
          ci ← for_upto MAX_TRAIL (fun k ci => wr2 ci i k 0) ci;
          bp ← for_upto (BRIGHT_BYTES_PER_DROP + 1) (fun b bp => wr2 bp i b 0) bp;
          Some (ds, ci, bp))
        (drops s, drop_char_idx s, drop_bright_packed s);
  let '(ds, ci, bp) := st in
  co ← for_upto TERM_COLS (fun c co => wr co c false) (column_occupied s);
  fs ← for_upto MAX_FAST (fun i fs =>
          f ← rd fs i; wr fs i (set_f_active false f)) (fasts s);
  Some (mkState ds fs co (global_rng s) ci bp).

(** The fields [maybeSpawnDrop] assigns before it fills the buffers. *)
Definition spawned (free_col g3 : Z) : Drop :=
  {| col := u8 free_col;
     head := 0;
     trail := u8 (g3 mod (MAX_TRAIL - 2) + 3);
     speed := u8 (Z.shiftr g3 8 mod 5 + 1);
     age := 0;
     rng := splitmix32 g3;
     boost := 0 |}.

(** The two loops of [maybeSpawnDrop] that initialise the buffers of slot
    [idx]; the loop state is the generator of the drop and the buffers. *)
Definition init_buffers (idx : Z) (tr : Z) (st : Z * list (list Z) * list (list Z))
    : option (Z * list (list Z) * list (list Z)) :=
  st ← for_upto tr (fun k st =>
          let '(r, ci, bp) := st in
          let r := splitmix32 r in
          ci ← wr2 ci idx k (pickIndex r);
          let b := if k =? 0 then 3 else if k =? 1 then 2 else 1 in
          bp ← set_bright_slot bp (u8 idx) k b;
          Some (r, ci, bp)) st;
  for_range (Z.to_nat (MAX_TRAIL - tr)) tr (fun k st =>
      let '(r, ci, bp) := st in
      ci ← wr2 ci idx k 0;
      bp ← set_bright_slot bp (u8 idx) k 0;
      Some (r, ci, bp)) st.

Definition maybeSpawnDrop (s : State) : option State :=
  let g1 := splitmix32 (global_rng s) in
  let s := set_global_rng g1 s in
  if SPAWN_CHANCE <? Z.land g1 0xFF then Some s else
  r ← scan_upto MAX_DROPS (fun i =>
         d ← rd (drops s) i;
         Some (if head d =? -1 then Some i else None));
  let idx := or_minus1 r in
  if idx =? -1 then Some s else
  let g2 := splitmix32 g1 in
  let s := set_global_rng g2 s in
  let start_col := u8 (g2 mod TERM_COLS) in
  r ← scan_upto TERM_COLS (fun i =>
         let c := u8 ((start_col + i) mod TERM_COLS) in
         b ← rd (column_occupied s) c;
         Some (if negb b then Some c else None));
  let free_col := or_minus1 r in
  if free_col =? -1 then Some s else
  let g3 := splitmix32 g2 in
  let d := spawned free_col g3 in
  st ← init_buffers idx (trail d) (rng d, drop_char_idx s, drop_bright_packed s);
  let '(r, ci, bp) := st in
  ds ← wr (drops s) idx (set_rng r d);
  co ← wr (column_occupied s) (col d) true;
  Some (mkState ds (fasts s) co g3 ci bp).

Definition maybeSpawnFastDrop (s : State) : option State :=
  let g1 := splitmix32 (global_rng s) in
  let s := set_global_rng g1 s in
  if SPAWN_FAST_CHANCE <? Z.land g1 0xFF then Some s else
  let g2 := splitmix32 g1 in
  let s := set_global_rng g2 s in
  let start_col := u8 (g2 mod TERM_COLS) in
  r ← scan_upto TERM_COLS (fun i =>
         let c := u8 ((start_col + i) mod TERM_COLS) in
         b ← rd (column_occupied s) c;
         Some (if (b : bool) then Some c else None));
  let col_with_drop := or_minus1 r in
  if col_with_drop =? -1 then Some s else
  r ← scan_upto MAX_FAST (fun i =>
         f ← rd (fasts s) i;
         Some (if negb (f_active f) then Some i else None));
  let fidx := or_minus1 r in
  if fidx =? -1 then Some s else
  let g3 := splitmix32 g2 in
  let f := {| f_active := true;
              f_col := u8 col_with_drop;
              f_row := 0;
              f_speed := 1;
              f_age := 0;
              f_rng := splitmix32 g3 |} in
  fs ← wr (fasts s) fidx f;
  Some (set_fasts fs (set_global_rng g3 s)).

(** [memmove(&row[1], &row[0], n)] *)
Definition memmove_1_0 (row : list Z) (n : Z) : option (list Z) :=
  if (0 <=? n) && (n + 1 <=? len row) then
    Some (take 1 row ++ take (Z.to_nat n) row ++ drop (Z.to_nat (n + 1)) row)
  else None.

(** The brightness part of an advance.  The values unpacked into
    [tmp_bright] are never used; the head slot and a linear ramp are
    stored; then every slot is overwritten from [new_bright], which is
    declared in the block and never assigned ([junk k] is what element [k]
    happens to hold).  [(uint8_t)((3.0 * k) / d.trail)] is the integer
    quotient for the operands that occur (both below 13). *)
Definition fade (i : Z) (d : Drop) (junk : Z -> Z) (bp : list (list Z))
    : option (list (list Z)) :=
  _ ← for_upto (trail d) (fun k (_ : unit) =>
         _ ← get_bright_slot bp i k; Some tt) tt;
  bp ← set_bright_slot bp i 0 3;
  bp ← for_range (Z.to_nat (trail d - 1)) 1 (fun k bp =>
         let brightness := u8 (3 - u8 (3 * k / trail d)) in
         set_bright_slot bp i k brightness) bp;
  for_upto (trail d) (fun k bp => set_bright_slot bp i k (u8 (junk k))) bp.

(** The body of [if (d.age >= d.speed)]. *)
Definition advance (i : Z) (s : State) (junk : Z -> Z) (d : Drop)
    : option (Drop * list (list Z) * list (list Z)) :=
  let d := set_age 0 d in
  let d := set_head (i16 (head d + 1)) d in
  let d := set_rng (splitmix32 (rng d)) d in
  row ← rd (drop_char_idx s) i;
  row ← (if 1 <? trail d then memmove_1_0 row (trail d - 1) else Some row);
  let d := set_rng (splitmix32 (rng d)) d in
  row ← wr row 0 (pickIndex (rng d));
  ci ← wr (drop_char_idx s) i row;
  bp ← fade i d junk (drop_bright_packed s);
  Some (d, ci, bp).

(** One iteration of the loop of [stepDrops]; [stack i] is the content of
    [new_bright] that iteration [i] finds. *)
Definition stepDrops_body (stack : Z -> Z -> Z) (i : Z) (s : State)
    : option State :=
  d ← rd (drops s) i;
  if head d =? -1 then Some s else
  let d := set_age (u8 (age d + 1)) d in
  adv ←
    (if speed d <=? age d then advance i s (stack i) d
     else Some (d, drop_char_idx s, drop_bright_packed s));
  let '(d, ci, bp) := adv in
  let d := if negb (boost d =? 0) then set_boost (u8 (boost d - 1)) d else d in
  if TERM_ROWS <=? head d - i16 (trail d - 1) then
    co ← wr (column_occupied s) (col d) false;
    ds ← wr (drops s) i (set_boost 0 (set_head (-1) d));
    bp ← for_upto (BRIGHT_BYTES_PER_DROP + 1) (fun b bp => wr2 bp i b 0) bp;
    ci ← for_upto MAX_TRAIL (fun k ci => wr2 ci i k 0) ci;
    Some (mkState ds (fasts s) co (global_rng s) ci bp)
  else
    ds ← wr (drops s) i d;
    Some (mkState ds (fasts s) (column_occupied s) (global_rng s) ci bp).

Definition stepDrops (stack : Z -> Z -> Z) (s : State) : option State :=
  for_upto MAX_DROPS (stepDrops_body stack) s.

(** The pass-through block of [stepFastDrops].  With
    [dist = f.row - d.head] it only ever touches slot 0, when the bullet
    is on the head. *)
Definition pass_through (s : State) (di : Z) (d : Drop) (f : FastDrop)
    : option (FastDrop * list (list Z) * list (list Z)) :=
  let bottom := i16 (head d - i16 (trail d - 1)) in
  if (bottom <=? f_row f) && (f_row f <=? head d) then
    let dist := i16 (f_row f - head d) in
    if (0 <=? dist) && (dist <? trail d) then
      let f := set_f_rng (splitmix32 (f_rng f)) f in
      ci ← wr2 (drop_char_idx s) di dist (pickIndex (f_rng f));
      cur ← get_bright_slot (drop_bright_packed s) (u8 di) (u8 dist);
      let nb := if cur <? 3 then u8 (cur + 1) else 3 in
      bp ← set_bright_slot (drop_bright_packed s) (u8 di) (u8 dist) nb;
      Some (f, ci, bp)
    else Some (f, drop_char_idx s, drop_bright_packed s)
  else Some (f, drop_char_idx s, drop_bright_packed s).

(** One iteration of the loop of [stepFastDrops]. *)
Definition stepFastDrops_body (i : Z) (s : State) : option State :=
  f ← rd (fasts s) i;
  if negb (f_active f) then Some s else
  let f := set_f_age (u8 (f_age f + 1)) f in
  if f_age f <? f_speed f then
    fs ← wr (fasts s) i f; Some (set_fasts fs s)
  else
  let f := set_f_age 0 f in
  let f := set_f_row (i16 (f_row f + 1)) f in
  let f := set_f_rng (splitmix32 (f_rng f)) f in
  if TERM_ROWS <=? f_row f then
    fs ← wr (fasts s) i (set_f_active false f); Some (set_fasts fs s)
  else
  di ← findDropIndexInColumn (drops s) (f_col f);
  if di =? -1 then
    fs ← wr (fasts s) i f; Some (set_fasts fs s)
  else
  d ← rd (drops s) di;
  let bottom := i16 (head d - i16 (trail d - 1)) in
  pass ← pass_through s di d f;
  let '(f, ci, bp) := pass in
  if bottom <=? f_row f then
    let d := if boost d <? 8 then set_boost 8 d else d in
    let d := set_rng (splitmix32 (splitmix32 (rng d))) d in
    bp ← set_bright_slot bp (u8 di) 0 3;
    let f := set_f_active false f in
    ds ← wr (drops s) di d;
    fs ← wr (fasts s) i f;
    Some (mkState ds fs (column_occupied s) (global_rng s) ci bp)
  else
    fs ← wr (fasts s) i f;
    Some (mkState (drops s) fs (column_occupied s) (global_rng s) ci bp).

Definition stepFastDrops (s : State) : option State :=
  for_upto MAX_FAST stepFastDrops_body s.

(** *** Runs of the sketch *)

(** What [setupState] establishes. *)
Definition initial (s : State) : bool :=
  (len (drops s) =? MAX_DROPS)
  && (len (column_occupied s) =? TERM_COLS)
  && (len (fasts s) =? MAX_FAST)
  && forallb (fun d => head d =? -1) (drops s)
  && forallb negb (column_occupied s)
  && forallb (fun f => negb (f_active f)) (fasts s)
  && (len (drop_char_idx s) =? MAX_DROPS)
  && forallb (fun row => len row =? MAX_TRAIL) (drop_char_idx s)
  && (len (drop_bright_packed s) =? MAX_DROPS)
  && forallb row_ok (drop_bright_packed s).

(** The zero-initialised globals before [setup] runs. *)
Definition boot : State :=
  {| drops := replicate (Z.to_nat MAX_DROPS) (mkDrop 0 0 0 0 0 0 0);
     fasts := replicate (Z.to_nat MAX_FAST) (mkFast false 0 0 0 0 0);
     column_occupied := replicate (Z.to_nat TERM_COLS) false;
     global_rng := 0xA5A5A5A5;
     drop_char_idx :=
       replicate (Z.to_nat MAX_DROPS) (replicate (Z.to_nat MAX_TRAIL) 0);
     drop_bright_packed :=
       replicate (Z.to_nat MAX_DROPS)
                 (replicate (Z.to_nat (BRIGHT_BYTES_PER_DROP + 1)) 0) |}.

(** The state [setupState] leaves behind. *)
Definition start : State :=
  {| drops := replicate (Z.to_nat MAX_DROPS) (mkDrop 0 (-1) 0 0 0 0 0);
     fasts := replicate (Z.to_nat MAX_FAST) (mkFast false 0 0 0 0 0);
     column_occupied := replicate (Z.to_nat TERM_COLS) false;
     global_rng := 0xA5A5A5A5;
     drop_char_idx :=
       replicate (Z.to_nat MAX_DROPS) (replicate (Z.to_nat MAX_TRAIL) 0);
     drop_bright_packed :=
       replicate (Z.to_nat MAX_DROPS)
                 (replicate (Z.to_nat (BRIGHT_BYTES_PER_DROP + 1)) 0) |}.

(** The state-changing calls of [loop]; [StepDrops] carries the contents
    of the stack it finds. *)
Inductive op : Type :=
  | SpawnDrop | SpawnFast | StepDrops (stack : Z -> Z -> Z) | StepFast.

Definition run_op (o : op) (s : State) : option State :=
  match o with
  | SpawnDrop => maybeSpawnDrop s
  | SpawnFast => maybeSpawnFastDrop s
  | StepDrops stack => stepDrops stack s
  | StepFast => stepFastDrops s
  end.

Fixpoint run (ops : list op) (s : State) : option State :=
  match ops with
  | [] => Some s
  | o :: ops' => s' ← run_op o s; run ops' s'
  end.

(** *** The invariant of the sketch *)

Record Inv (s : State) : Prop := mkInv {
  inv_tables :
    Core.tables_ok MAX_DROPS MAX_FAST (drops s) (column_occupied s) (fasts s);
  inv_chars : chars_ok MAX_DROPS (drop_char_idx s);
  inv_packed : packed_ok MAX_DROPS (drop_bright_packed s)
}.

End VectorizedFixed.
(** * matrix_rain_vectorized_fixed.ino: renderFrame *)

Module VectorizedFixedRender.
Import VectorizedFixed.

Definition term_set_color (bright : Z) : list Z :=
  if bright =? 4 then esc "[97;1m"
  else if bright =? 3 then esc "[97m"
  else if bright =? 2 then esc "[32;1m"
  else if bright =? 1 then esc "[32m"
  else esc "[90m".

(** Brightness and character of the cell at row [r], column [c].  The
    distance is counted downwards from the head row, [r - d.head], so slot
    [k] of a Drop is drawn [k] rows below its head; a boosted head is
    drawn with brightness 4 whatever its slot holds. *)
Definition cell (s : State) (r c : Z) : option (Z * Z) :=
  hit ← scan_upto MAX_FAST (fun fi =>
           f ← rd (fasts s) fi;
           if negb (f_active f) || negb (f_col f =? c) then Some None
           else if f_row f =? i16 r then
             ch ← charForFast f; Some (Some (4, ch))
           else if f_row f - 1 =? i16 r then
             ch ← charForFast f; Some (Some (2, ch))
           else Some None);
  match hit with
  | Some bc => Some bc
  | None =>
      occ ← rd (column_occupied s) c;
      if (occ : bool) then
        hit ← scan_upto MAX_DROPS (fun di =>
                 d ← rd (drops s) di;
                 if (head d =? -1) || negb (col d =? c) then Some None
                 else
                   let dist := i16 (i16 r - head d) in
                   if (0 <=? dist) && (dist <? trail d) then
                     b ← (if (dist =? 0) && (0 <? boost d) then Some 4
                          else get_bright_slot (drop_bright_packed s) di (u8 dist));
                     idx ← rd2 (drop_char_idx s) di dist;
                     ch ← charset_at_idx idx;
                     Some (Some (b, ch))
                   else Some None);
        Some (match hit with Some bc => bc | None => (0, SPACE) end)
      else Some (0, SPACE)
  end.

Definition render_cell (s : State) (r c : Z) (st : Z * list event)
    : option (Z * list event) :=
  let '(last_brightness, out) := st in
  bc ← cell s r c;
  let '(current_brightness, ch) := bc in
  if negb (current_brightness =? last_brightness)
  then Some (current_brightness, out ++ [SetColor current_brightness; Put ch])
  else Some (last_brightness, out ++ [Put ch]).

Definition render_row (s : State) (r : Z) (st : Z * list event)
    : option (Z * list event) :=
  st ← for_upto TERM_COLS (render_cell s r) st;
  if r <? TERM_ROWS - 1 then Some (fst st, snd st ++ [CRLF]) else Some st.

Definition renderFrame (s : State) (salt : Z) : option (list event) :=
  st ← for_upto TERM_ROWS (render_row s) (255, [Home]);
  Some (snd st ++ [ResetColor]).

(** The cells of a frame in the order [renderFrame] visits them. *)
Definition frame_cells (s : State) : option (list (Z * Z)) :=
  for_upto TERM_ROWS (fun r acc =>
    for_upto TERM_COLS (fun c acc =>
      bc ← cell s r c; Some (acc ++ [bc])) acc) [].

End VectorizedFixedRender.
(** * matrix_rain_vectorized_final.ino (basic_colorized.ino) *)

Module Colorized.

Definition TERM_COLS : Z := 80.
Definition TERM_ROWS : Z := 24.
Definition MAX_DROPS : Z := 35.
Definition MAX_TRAIL : Z := 12.
Definition MAX_FAST : Z := 16.
Definition SPAWN_CHANCE : Z := 45.
Definition SPAWN_FAST_CHANCE : Z := 28.

(** [((MAX_TRAIL * 2 + 7) / 8)] *)
Definition BRIGHT_BYTES_PER_DROP : Z := (MAX_TRAIL * 2 + 7) / 8.

(** The sketch calls the head row of a Drop [head_row]: it is the top row
    of the drop, and slot [k] of the trail is drawn [k] rows below it. *)
Abbreviation head_row := head (only parsing).
Abbreviation set_head_row := set_head (only parsing).

Record State : Type := mkState {
  drops : list Drop;
  fasts : list FastDrop;
  column_occupied : list bool;
  global_rng : Z;
  drop_char_idx : list (list Z);       (* [MAX_DROPS][MAX_TRAIL] *)
  drop_bright_packed : list (list Z)   (* [MAX_DROPS][BRIGHT_BYTES_PER_DROP + 1] *)
}.

Definition set_drops (v : list Drop) (s : State) : State :=
  mkState v (fasts s) (column_occupied s) (global_rng s)
          (drop_char_idx s) (drop_bright_packed s).
Definition set_fasts (v : list FastDrop) (s : State) : State :=
  mkState (drops s) v (column_occupied s) (global_rng s)
          (drop_char_idx s) (drop_bright_packed s).
Definition set_column_occupied (v : list bool) (s : State) : State :=
  mkState (drops s) (fasts s) v (global_rng s)
          (drop_char_idx s) (drop_bright_packed s).
Definition set_global_rng (v : Z) (s : State) : State :=
  mkState (drops s) (fasts s) (column_occupied s) v
          (drop_char_idx s) (drop_bright_packed s).
Definition set_drop_char_idx (v : list (list Z)) (s : State) : State :=
  mkState (drops s) (fasts s) (column_occupied s) (global_rng s)
          v (drop_bright_packed s).
Definition set_drop_bright_packed (v : list (list Z)) (s : State) : State :=
  mkState (drops s) (fasts s) (column_occupied s) (global_rng s)
          (drop_char_idx s) v.

(** *** Packed brightness: the 16-bit window *)

Definition get_bright_slot := Window16.get_bright_slot.
Definition set_bright_slot := Window16.set_bright_slot.

(** *** The sketch *)

Definition findDropIndexInColumn (ds : list Drop) (c : Z) : option Z :=
  or_minus1 <$>
  scan_upto MAX_DROPS (fun i =>
    d ← rd ds i;
    Some (if negb (head d =? -1) && (col d =? c) then Some i else None)).

Definition charForFast (f : FastDrop) : option Z :=
  charset_at_idx (u8 (f_rng f mod CHARSET_LEN)).

Definition setupState (s : State) : option State :=
  st ← for_upto MAX_DROPS (fun i st =>
          let '(ds, ci, bp) := st in
          d ← rd ds i;
          ds ← wr ds i (set_boost 0 (set_head (-1) d));
          ci ← for_upto MAX_TRAIL (fun k ci => wr2 ci i k 0) ci;
          bp ← for_upto (BRIGHT_BYTES_PER_DROP + 1) (fun b bp => wr2 bp i b 0) bp;
          Some (ds, ci, bp))
        (drops s, drop_char_idx s, drop_bright_packed s);
  let '(ds, ci, bp) := st in
  co ← for_upto TERM_COLS (fun c co => wr co c false) (column_occupied s);
  fs ← for_upto MAX_FAST (fun i fs =>
          f ← rd fs i; wr fs i (set_f_active false f)) (fasts s);
  Some (mkState ds fs co (global_rng s) ci bp).

(** The fields [maybeSpawnDrop] assigns before it fills the buffers; the
    generator is not stepped a third time. *)
Definition spawned (free_col g2 : Z) : Drop :=
  {| col := u8 free_col;
     head := 0;
     trail := u8 (g2 mod (MAX_TRAIL - 2) + 3);
     speed := u8 (Z.shiftr g2 8 mod 5 + 1);
     age := 0;
     rng := splitmix32 g2;
     boost := 0 |}.

(** The two loops of [maybeSpawnDrop] that initialise the buffers of slot
    [idx]; the loop state is the generator of the drop and the buffers.
    The head brightness 4 does not fit in two bits. *)
Definition init_buffers (idx : Z) (tr : Z) (st : Z * list (list Z) * list (list Z))
    : option (Z * list (list Z) * list (list Z)) :=
  st ← for_upto tr (fun k st =>
          let '(r, ci, bp) := st in
          let r := splitmix32 r in
          ci ← wr2 ci idx k (pickIndex r);
          let b := if k =? 0 then 4 else if k =? 1 then 3 else 1 in
          bp ← set_bright_slot bp (u8 idx) k b;
          Some (r, ci, bp)) st;
  for_range (Z.to_nat (MAX_TRAIL - tr)) tr (fun k st =>
      let '(r, ci, bp) := st in
      ci ← wr2 ci idx k 0;
      bp ← set_bright_slot bp (u8 idx) k 0;
      Some (r, ci, bp)) st.

Definition maybeSpawnDrop (s : State) : option State :=
  let g1 := splitmix32 (global_rng s) in
  let s := set_global_rng g1 s in
  if SPAWN_CHANCE <? Z.land g1 0xFF then Some s else
  r ← scan_upto MAX_DROPS (fun i =>
         d ← rd (drops s) i;
         Some (if head_row d =? -1 then Some i else None));
  let idx := or_minus1 r in
  if idx =? -1 then Some s else
  let g2 := splitmix32 g1 in
  let s := set_global_rng g2 s in
  let start_col := u8 (g2 mod TERM_COLS) in
  r ← scan_upto TERM_COLS (fun i =>
         let c := u8 ((start_col + i) mod TERM_COLS) in
         b ← rd (column_occupied s) c;
         Some (if negb b then Some c else None));
  let free_col := or_minus1 r in
  if free_col =? -1 then Some s else
  let d := spawned free_col g2 in
  st ← init_buffers idx (trail d) (rng d, drop_char_idx s, drop_bright_packed s);
  let '(r, ci, bp) := st in
  ds ← wr (drops s) idx (set_rng r d);
  co ← wr (column_occupied s) (col d) true;
  Some (mkState ds (fasts s) co g2 ci bp).

Definition maybeSpawnFastDrop (s : State) : option State :=
  let g1 := splitmix32 (global_rng s) in
  let s := set_global_rng g1 s in
  if SPAWN_FAST_CHANCE <? Z.land g1 0xFF then Some s else
  let g2 := splitmix32 g1 in
  let s := set_global_rng g2 s in
  let start_col := u8 (g2 mod TERM_COLS) in
  r ← scan_upto TERM_COLS (fun i =>
         let c := u8 ((start_col + i) mod TERM_COLS) in
         b ← rd (column_occupied s) c;
         Some (if (b : bool) then Some c else None));
  let col_with_drop := or_minus1 r in
  if col_with_drop =? -1 then Some s else
  r ← scan_upto MAX_FAST (fun i =>
         f ← rd (fasts s) i;
         Some (if negb (f_active f) then Some i else None));
  let fidx := or_minus1 r in
  if fidx =? -1 then Some s else
  let g3 := splitmix32 g2 in
  let f := {| f_active := true;
              f_col := u8 col_with_drop;
              f_row := 0;
              f_speed := 1;
              f_age := 0;
              f_rng := splitmix32 g3 |} in
  fs ← wr (fasts s) fidx f;
  Some (set_fasts fs (set_global_rng g3 s)).

(** The body of [if (d.age >= d.speed)].  Both loops count [k] down from
    [d.trail - 1] to 1 in a [uint8_t]. *)
Definition advance (i : Z) (s : State) (d : Drop)
    : option (Drop * list (list Z) * list (list Z)) :=
  let d := set_age 0 d in
  let d := set_head_row (i16 (head_row d + 1)) d in
  let d := set_rng (splitmix32 (rng d)) d in
  let k0 := u8 (trail d - 1) in
  st ← for_down (Z.to_nat k0) k0 (fun k st =>
          let '(ci, bp) := st in
          prev ← rd2 ci i (k - 1);
          ci ← wr2 ci i k prev;
          let val := 4 in
          bp ← set_bright_slot bp i k val;
          Some (ci, bp)) (drop_char_idx s, drop_bright_packed s);
  let '(ci, bp) := st in
  let d := set_rng (splitmix32 (rng d)) d in
  ci ← wr2 ci i 0 (pickIndex (rng d));
  bp ← for_down (Z.to_nat k0) k0 (fun k bp =>
          val ← get_bright_slot bp i (k - 1);
          set_bright_slot bp i k val) bp;
  head_val ← get_bright_slot bp i 0;
  let head_val := if 0 <? boost d then 4 else head_val in
  bp ← set_bright_slot bp i 0 head_val;
  Some (d, ci, bp).

(** The loop that computes [all_faded]. *)
Definition all_faded (i : Z) (d : Drop) (bp : list (list Z)) : option bool :=
  for_upto (trail d) (fun k af =>
    v ← get_bright_slot bp i k;
    Some (if 0 <? v then false else af)) true.

(** One iteration of the loop of [stepDrops]. *)
Definition stepDrops_body (i : Z) (s : State) : option State :=
  d ← rd (drops s) i;
  if head_row d =? -1 then Some s else
  let d := set_age (u8 (age d + 1)) d in
  adv ←
    (if speed d <=? age d then advance i s d
     else Some (d, drop_char_idx s, drop_bright_packed s));
  let '(d, ci, bp) := adv in
  let d := if negb (boost d =? 0) then set_boost (u8 (boost d - 1)) d else d in
  af ← all_faded i d bp;
  if (af : bool) && (TERM_ROWS <=? head_row d) then
    co ← wr (column_occupied s) (col d) false;
    ds ← wr (drops s) i (set_boost 0 (set_head_row (-1) d));
    Some (mkState ds (fasts s) co (global_rng s) ci bp)
  else
    ds ← wr (drops s) i d;
    Some (mkState ds (fasts s) (column_occupied s) (global_rng s) ci bp).

Definition stepDrops (s : State) : option State :=
  for_upto MAX_DROPS stepDrops_body s.

(** The block of [stepFastDrops] that runs when a bullet is inside the
    trail of Drop [di]: the character of the slot is rerolled from the
    generator of the bullet and the slot is brightened. *)
Definition pass_through (s : State) (di : Z) (d : Drop) (f : FastDrop)
    (slot : Z) : option (FastDrop * list (list Z) * list (list Z)) :=
  if (0 <=? slot) && (slot <? trail d) then
    let f := set_f_rng (splitmix32 (f_rng f)) f in
    ci ← wr2 (drop_char_idx s) di slot (pickIndex (f_rng f));
    b ← get_bright_slot (drop_bright_packed s) (u8 di) (u8 slot);
    bp ← (if b <? 3
          then set_bright_slot (drop_bright_packed s) (u8 di) (u8 slot)
                               (u8 (b + 1))
          else Some (drop_bright_packed s));
    Some (f, ci, bp)
  else Some (f, drop_char_idx s, drop_bright_packed s).

(** One iteration of the loop of [stepFastDrops]. *)
Definition stepFastDrops_body (i : Z) (s : State) : option State :=
  f ← rd (fasts s) i;
  if negb (f_active f) then Some s else
  let f := set_f_age (u8 (f_age f + 1)) f in
  if f_age f <? f_speed f then
    fs ← wr (fasts s) i f; Some (set_fasts fs s)
  else
  let f := set_f_age 0 f in
  let f := set_f_row (i16 (f_row f + 1)) f in
  let f := set_f_rng (splitmix32 (f_rng f)) f in
  if TERM_ROWS <=? f_row f then
    fs ← wr (fasts s) i (set_f_active false f); Some (set_fasts fs s)
  else
  di ← findDropIndexInColumn (drops s) (f_col f);
  if di =? -1 then
    fs ← wr (fasts s) i f; Some (set_fasts fs s)
  else
  d ← rd (drops s) di;
  let slot := i16 (f_row f - head_row d) in
  pass ← pass_through s di d f slot;
  let '(f, ci, bp) := pass in
  if slot =? 0 then
    let d := if boost d <? 8 then set_boost 8 d else d in
    let d := set_rng (splitmix32 (splitmix32 (rng d))) d in
    bp ← set_bright_slot bp (u8 di) 0 4;
    let f := set_f_active false f in
    ds ← wr (drops s) di d;
    fs ← wr (fasts s) i f;
    Some (mkState ds fs (column_occupied s) (global_rng s) ci bp)
  else
    fs ← wr (fasts s) i f;
    Some (mkState (drops s) fs (column_occupied s) (global_rng s) ci bp).

Definition stepFastDrops (s : State) : option State :=
  for_upto MAX_FAST stepFastDrops_body s.

(** *** Runs of the sketch *)

(** What [setupState] establishes. *)
Definition initial (s : State) : bool :=
  (len (drops s) =? MAX_DROPS)
  && (len (column_occupied s) =? TERM_COLS)
  && (len (fasts s) =? MAX_FAST)
  && forallb (fun d => head d =? -1) (drops s)
  && forallb negb (column_occupied s)
  && forallb (fun f => negb (f_active f)) (fasts s)
  && (len (drop_char_idx s) =? MAX_DROPS)
  && forallb (fun row => len row =? MAX_TRAIL) (drop_char_idx s)
  && (len (drop_bright_packed s) =? MAX_DROPS)
  && forallb row_ok (drop_bright_packed s).

(** The zero-initialised globals before [setup] runs. *)
Definition boot : State :=
  {| drops := replicate (Z.to_nat MAX_DROPS) (mkDrop 0 0 0 0 0 0 0);
     fasts := replicate (Z.to_nat MAX_FAST) (mkFast false 0 0 0 0 0);
     column_occupied := replicate (Z.to_nat TERM_COLS) false;
     global_rng := 0xA5A5A5A5;
     drop_char_idx :=
       replicate (Z.to_nat MAX_DROPS) (replicate (Z.to_nat MAX_TRAIL) 0);
     drop_bright_packed :=
       replicate (Z.to_nat MAX_DROPS)
                 (replicate (Z.to_nat (BRIGHT_BYTES_PER_DROP + 1)) 0) |}.

(** The state [setupState] leaves behind. *)
Definition start : State :=
  {| drops := replicate (Z.to_nat MAX_DROPS) (mkDrop 0 (-1) 0 0 0 0 0);
     fasts := replicate (Z.to_nat MAX_FAST) (mkFast false 0 0 0 0 0);
     column_occupied := replicate (Z.to_nat TERM_COLS) false;
     global_rng := 0xA5A5A5A5;
     drop_char_idx :=
       replicate (Z.to_nat MAX_DROPS) (replicate (Z.to_nat MAX_TRAIL) 0);
     drop_bright_packed :=
       replicate (Z.to_nat MAX_DROPS)
                 (replicate (Z.to_nat (BRIGHT_BYTES_PER_DROP + 1)) 0) |}.

(** The state-changing calls of [loop]. *)
Inductive op : Type := SpawnDrop | SpawnFast | StepDrops | StepFast.

Definition run_op (o : op) (s : State) : option State :=
  match o with
  | SpawnDrop => maybeSpawnDrop s
  | SpawnFast => maybeSpawnFastDrop s
  | StepDrops => stepDrops s
  | StepFast => stepFastDrops s
  end.

Fixpoint run (ops : list op) (s : State) : option State :=
  match ops with
  | [] => Some s
  | o :: ops' => s' ← run_op o s; run ops' s'
  end.

(** One pass of [loop] without the rendering. *)
Definition tick : list op := [SpawnDrop; SpawnFast; StepDrops; StepFast].

(** *** The invariant of the sketch *)

(** Besides the agreement of the tables: an active Drop has its head row
    on the screen and a dark head slot (the head brightness 4 is stored
    as 0). *)
Record Inv (s : State) : Prop := mkInv {
  inv_tables :
    Core.tables_ok MAX_DROPS MAX_FAST (drops s) (column_occupied s) (fasts s);
  inv_chars : chars_ok MAX_DROPS (drop_char_idx s);
  inv_packed : packed_ok MAX_DROPS (drop_bright_packed s);
  inv_head : forall i d,
    rd (drops s) i = Some d -> head_row d <> -1 ->
    head_row d < TERM_ROWS /\
    get_bright_slot (drop_bright_packed s) i 0 = Some 0
}.

(** [bp'] differs from [bp] in the row of drop [i] at most. *)
Definition rows_kept (i : Z) (bp bp' : list (list Z)) : Prop :=
  forall j slot, j <> i -> 0 <= slot < 12 ->
    get_bright_slot bp' j slot = get_bright_slot bp j slot.

(** What [stepDrops] does to one Drop of a well-formed state: after an
    advance every slot is dark, so the Drop retires as soon as its head
    row leaves the screen. *)
Definition step_drop (d : Drop) : Drop :=
  if head_row d =? -1 then d else
  let d := set_age (u8 (age d + 1)) d in
  let d :=
    if speed d <=? age d then
      set_rng (splitmix32 (splitmix32 (rng d)))
        (set_head_row (i16 (head_row d + 1)) (set_age 0 d))
    else d in
  let d := if negb (boost d =? 0) then set_boost (u8 (boost d - 1)) d else d in
  if TERM_ROWS <=? head_row d then set_boost 0 (set_head_row (-1) d) else d.

(** The state of a lone Drop [i], spawned as [d], that has been stepped [n]
    times at speed 1. *)
Definition lone_after (i : Z) (d : Drop) (n : Z) (s : State) : Prop :=
  Inv s /\
  (forall j dj, rd (drops s) j = Some dj -> j <> i -> head_row dj = -1) /\
  exists dn, rd (drops s) i = Some dn /\
    col dn = col d /\ trail dn = trail d /\ speed dn = 1 /\ age dn = 0 /\
    ((n < TERM_ROWS /\ head_row dn = n /\
      rd (column_occupied s) (col d) = Some true) \/
     (TERM_ROWS <= n /\ head_row dn = -1 /\
      rd (column_occupied s) (col d) = Some false)).

End Colorized.
(** * matrix_rain_vectorized_final.ino: renderFrame *)

Module ColorizedRender.
Import Colorized.

Definition term_set_color (bright : Z) : list Z :=
  if bright =? 4 then esc "[37m"
  else if bright =? 3 then esc "[32m"
  else if bright =? 2 then esc "[33m"
  else esc "[31m".

(** [map] of the Arduino core, in [long] arithmetic:
    [(x - in_min) * (out_max - out_min) / (in_max - in_min) + out_min],
    the division truncating; a zero divisor is a fault. *)
Definition arduino_map (x in_min in_max out_min out_max : Z) : option Z :=
  if in_max - in_min =? 0 then None
  else Some (Z.quot ((x - in_min) * (out_max - out_min)) (in_max - in_min)
             + out_min).

(** [constrain] of the Arduino core. *)
Definition constrain (amt low high : Z) : Z :=
  if amt <? low then low else if high <? amt then high else amt.

(** Brightness and character of the cell at row [r], column [c].  The
    brightness of a slot is computed from its position in the trail; the
    packed table is not read. *)
Definition cell (s : State) (r c : Z) : option (Z * Z) :=
  hit ← scan_upto MAX_FAST (fun fi =>
           f ← rd (fasts s) fi;
           if negb (f_active f) || negb (f_col f =? c) then Some None
           else if f_row f =? r then
             ch ← charForFast f; Some (Some (4, ch))
           else if f_row f - 1 =? r then
             ch ← charForFast f; Some (Some (3, ch))
           else Some None);
  match hit with
  | Some bc => Some bc
  | None =>
      occ ← rd (column_occupied s) c;
      if (occ : bool) then
        hit ← scan_upto MAX_DROPS (fun di =>
                 d ← rd (drops s) di;
                 if (head_row d =? -1) || negb (col d =? c) then Some None
                 else
                   let slot := i16 (r - head_row d) in
                   if (0 <=? slot) && (slot <? trail d) then
                     idx ← rd2 (drop_char_idx s) di slot;
                     ch ← charset_at_idx idx;
                     m ← arduino_map slot (trail d) 0 3 1;
                     let brightness := u8 m in
                     let brightness := u8 (constrain brightness 0 3) in
                     let brightness :=
                       if slot =? trail d - 1 then 4 else brightness in
                     Some (Some (brightness, ch))
                   else Some None);
        Some (match hit with Some bc => bc | None => (0, SPACE) end)
      else Some (0, SPACE)
  end.

Definition render_cell (s : State) (r c : Z) (st : Z * list event)
    : option (Z * list event) :=
  let '(last_brightness, out) := st in
  bc ← cell s r c;
  let '(brightness, ch) := bc in
  if negb (brightness =? last_brightness)
  then Some (brightness, out ++ [SetColor brightness; Put ch])
  else Some (last_brightness, out ++ [Put ch]).

Definition render_row (s : State) (r : Z) (st : Z * list event)
    : option (Z * list event) :=
  st ← for_upto TERM_COLS (render_cell s r) st;
  if r <? TERM_ROWS - 1 then Some (fst st, snd st ++ [CRLF]) else Some st.

(** [term_set_color(2)] is sent before the first cell, and
    [last_brightness] still starts at 255. *)
Definition renderFrame (s : State) : option (list event) :=
  st ← for_upto TERM_ROWS (render_row s) (255, [Home; SetColor 2]);
  Some (snd st ++ [ResetColor]).

(** The cells of a frame in the order [renderFrame] visits them. *)
Definition frame_cells (s : State) : option (list (Z * Z)) :=
  for_upto TERM_ROWS (fun r acc =>
    for_upto TERM_COLS (fun c acc =>
      bc ← cell s r c; Some (acc ++ [bc])) acc) [].

(** The brightness [renderFrame] gives slot [slot] of a trail of
    [tr] cells. *)
Definition slot_brightness (tr slot : Z) : Z :=
  if slot =? tr - 1 then 4
  else if slot =? 0 then 1
  else if 2 * slot <=? tr then 2
  else 3.

End ColorizedRender.
(** * arduino_matrix_rain_fixed_v2.ino (second sketch of src/tested/vectorized.ino)

    Crawling drops only: no bullets and no boost.  The rows of a frame
    are separated by cursor moves formatted with [snprintf]. *)

Module FixedV2.

Definition TERM_COLS : Z := 80.
Definition TERM_ROWS : Z := 24.
Definition MAX_DROPS : Z := 25.
Definition MAX_TRAIL : Z := 12.
Definition SPAWN_CHANCE : Z := 35.

Record Drop : Type := mkDrop {
  col : Z;      (* uint8_t  column *)
  head : Z;     (* int16_t  head row; -1 = inactive *)
  trail : Z;    (* uint8_t  trail length *)
  speed : Z;    (* uint8_t  frames per step *)
  age : Z;      (* uint8_t  frame counter *)
  rng : Z       (* uint32_t per-drop generator *)
}.

Definition set_head (v : Z) (d : Drop) : Drop :=
  mkDrop (col d) v (trail d) (speed d) (age d) (rng d).
Definition set_age (v : Z) (d : Drop) : Drop :=
  mkDrop (col d) (head d) (trail d) (speed d) v (rng d).
Definition set_rng (v : Z) (d : Drop) : Drop :=
  mkDrop (col d) (head d) (trail d) (speed d) (age d) v.

Record State : Type := mkState {
  drops : list Drop;
  column_occupied : list bool;
  global_rng : Z
}.

Definition set_drops (v : list Drop) (s : State) : State :=
  mkState v (column_occupied s) (global_rng s).
Definition set_column_occupied (v : list bool) (s : State) : State :=
  mkState (drops s) v (global_rng s).
Definition set_global_rng (v : Z) (s : State) : State :=
  mkState (drops s) (column_occupied s) v.

Definition term_set_color (bright : Z) : list Z :=
  if bright =? 3 then esc "[97;1m"
  else if bright =? 2 then esc "[32;1m"
  else if bright =? 1 then esc "[32m"
  else esc "[90m".

Definition charForDrop (d : Drop) (dist : Z) : option Z :=
  let h := u32 (rng d + u32 (u32 dist * 0x9e3779b1)) in
  pickChar (splitmix32 h).

Definition setupState (s : State) : option State :=
  ds ← for_upto MAX_DROPS (fun i ds =>
          d ← rd ds i; wr ds i (set_head (-1) d)) (drops s);
  co ← for_upto TERM_COLS (fun c co => wr co c false) (column_occupied s);
  Some (mkState ds co (global_rng s)).

(** The fields [maybeSpawnDrop] assigns to the slot it activates. *)
Definition spawned (free_col g3 : Z) : Drop :=
  {| col := u8 free_col;
     head := 0;
     trail := u8 (g3 mod (MAX_TRAIL - 2) + 3);
     speed := u8 (Z.shiftr g3 8 mod 5 + 1);
     age := 0;
     rng := splitmix32 g3 |}.

Definition maybeSpawnDrop (s : State) : option State :=
  let g1 := splitmix32 (global_rng s) in
  let s := set_global_rng g1 s in
  if SPAWN_CHANCE <? Z.land g1 0xFF then Some s else
  r ← scan_upto MAX_DROPS (fun i =>
         d ← rd (drops s) i;
         Some (if head d =? -1 then Some i else None));
  let idx := or_minus1 r in
  if idx =? -1 then Some s else
  let g2 := splitmix32 g1 in
  let s := set_global_rng g2 s in
  let start_col := u8 (g2 mod TERM_COLS) in
  r ← scan_upto TERM_COLS (fun i =>
         let c := u8 ((start_col + i) mod TERM_COLS) in
         b ← rd (column_occupied s) c;
         Some (if negb b then Some c else None));
  let free_col := or_minus1 r in
  if free_col =? -1 then Some s else
  let g3 := splitmix32 g2 in
  let d := spawned free_col g3 in
  ds ← wr (drops s) idx d;
  co ← wr (column_occupied s) (col d) true;
  Some (mkState ds co g3).

(** The first half of the loop body of [stepDrops]. *)
Definition advance (d : Drop) : Drop :=
  let d := set_age (u8 (age d + 1)) d in
  if speed d <=? age d then
    let d := set_age 0 d in
    let d := set_head (i16 (head d + 1)) d in
    set_rng (splitmix32 (rng d)) d
  else d.

(** [d.head - (int16_t)(d.trail - 1) >= (int16_t)TERM_ROWS] *)
Definition trail_gone (d : Drop) : bool :=
  TERM_ROWS <=? head d - i16 (trail d - 1).

(** One iteration of the loop of [stepDrops]. *)
Definition stepDrops_body (i : Z) (s : State) : option State :=
  d ← rd (drops s) i;
  if head d =? -1 then Some s else
  let d := advance d in
  if trail_gone d then
    co ← wr (column_occupied s) (col d) false;
    ds ← wr (drops s) i (set_head (-1) d);
    Some (set_drops ds (set_column_occupied co s))
  else
    ds ← wr (drops s) i d;
    Some (set_drops ds s).

Definition stepDrops (s : State) : option State :=
  for_upto MAX_DROPS stepDrops_body s.

(** *** renderFrame *)

(** What the sketch writes: the events of the other sketches, and the
    buffer that [snprintf] filled with a cursor move. *)
Inductive output : Type :=
  | Ev (e : event)
  | Buf (bytes : list Z).

(** [snprintf(buf, size, "\x1b[%u;%uH", row, col)] followed by
    [Serial.write(buf)]: at most [size - 1] characters are stored, and
    all of them are written, none being a NUL. *)
Definition snprintf_move (size row col : Z) : list Z :=
  take (Z.to_nat (size - 1))
       (esc "[" ++ print_unsigned row ++ [59] ++ print_unsigned col ++ [72]).

(** Brightness and character of the cell at row [r], column [c]. *)
Definition cell (s : State) (r c : Z) : option (Z * Z) :=
  occ ← rd (column_occupied s) c;
  if (occ : bool) then
    hit ← scan_upto MAX_DROPS (fun i =>
             d ← rd (drops s) i;
             if (head d =? -1) || negb (col d =? c) then Some None
             else
               let dist := i16 (head d - i16 r) in
               if (0 <=? dist) && (dist <? trail d) then
                 let b :=
                   if dist =? 0 then 3
                   else if dist <? 4 then u8 (3 - dist)
                   else 1 in
                 ch ← charForDrop d dist; Some (Some (b, ch))
               else Some None);
    Some (match hit with Some bc => bc | None => (0, SPACE) end)
  else Some (0, SPACE).

Definition render_cell (s : State) (r c : Z) (st : Z * list output)
    : option (Z * list output) :=
  let '(last_brightness, out) := st in
  bc ← cell s r c;
  let '(current_brightness, ch) := bc in
  if negb (current_brightness =? last_brightness)
  then Some (current_brightness,
             out ++ [Ev (SetColor current_brightness); Ev (Put ch)])
  else Some (last_brightness, out ++ [Ev (Put ch)]).

(** After every row but the last the cursor is moved to column 1 of the
    next row, rows and columns counted from 1. *)
Definition render_row (s : State) (r : Z) (st : Z * list output)
    : option (Z * list output) :=
  st ← for_upto TERM_COLS (render_cell s r) st;
  if r <? TERM_ROWS - 1
  then Some (fst st, snd st ++ [Buf (snprintf_move 16 (u16 (r + 2)) 1)])
  else Some st.

Definition renderFrame (s : State) (salt : Z) : option (list output) :=
  st ← for_upto TERM_ROWS (render_row s) (255, [Ev Home]);
  Some (snd st ++ [Ev ResetColor]).

(** The cells of a frame in the order [renderFrame] visits them. *)
Definition frame_cells (s : State) : option (list (Z * Z)) :=
  for_upto TERM_ROWS (fun r acc =>
    for_upto TERM_COLS (fun c acc =>
      bc ← cell s r c; Some (acc ++ [bc])) acc) [].

(** The trace with every cursor move counted as a row terminator. *)
Definition as_events (out : list output) : list event :=
  map (fun o => match o with Ev e => e | Buf _ => CRLF end) out.

(** The buffers written, in order. *)
Definition bufs (out : list output) : list (list Z) :=
  flat_map (fun o => match o with Ev _ => [] | Buf b => [b] end) out.

(** The cursor move to column 1 of row [row], in full. *)
Definition cursor_to (row : Z) : list Z :=
  esc "[" ++ print_unsigned row ++ bytes_of_string ";1H".

(** *** Runs of the sketch *)

Definition initial (s : State) : bool :=
  (len (drops s) =? MAX_DROPS)
  && (len (column_occupied s) =? TERM_COLS)
  && forallb (fun d => head d =? -1) (drops s)
  && forallb negb (column_occupied s).

(** The zero-initialised globals before [setup] runs. *)
Definition boot : State :=
  {| drops := replicate (Z.to_nat MAX_DROPS) (mkDrop 0 0 0 0 0 0);
     column_occupied := replicate (Z.to_nat TERM_COLS) false;
     global_rng := 0xA5A5A5A5 |}.

(** The state [setupState] leaves behind. *)
Definition start : State :=
  {| drops := replicate (Z.to_nat MAX_DROPS) (mkDrop 0 (-1) 0 0 0 0);
     column_occupied := replicate (Z.to_nat TERM_COLS) false;
     global_rng := 0xA5A5A5A5 |}.

(** The state-changing calls of [loop]. *)
Inductive op : Type := SpawnDrop | StepDrops.

Definition run_op (o : op) (s : State) : option State :=
  match o with
  | SpawnDrop => maybeSpawnDrop s
  | StepDrops => stepDrops s
  end.

Fixpoint run (ops : list op) (s : State) : option State :=
  match ops with
  | [] => Some s
  | o :: ops' => s' ← run_op o s; run ops' s'
  end.

(** One pass of [loop] without the rendering. *)
Definition tick : list op := [SpawnDrop; StepDrops].

(** *** The invariant of the sketch *)

Definition drop_ok (d : Drop) : Prop :=
  0 <= head d /\ head d - (trail d - 1) < TERM_ROWS /\
  0 <= col d < TERM_COLS /\ 3 <= trail d <= MAX_TRAIL /\
  1 <= speed d <= 5 /\ 0 <= age d < 256.

Record Inv (s : State) : Prop := mkInv {
  inv_len_drops : len (drops s) = MAX_DROPS;
  inv_len_cols : len (column_occupied s) = TERM_COLS;
  inv_drop : forall i d,
    rd (drops s) i = Some d -> head d <> -1 ->
    drop_ok d /\ rd (column_occupied s) (col d) = Some true;
  inv_unique : forall i j di dj,
    rd (drops s) i = Some di -> rd (drops s) j = Some dj ->
    head di <> -1 -> head dj <> -1 -> col di = col dj -> i = j;
  inv_owner : forall c,
    rd (column_occupied s) c = Some true ->
    exists i d, rd (drops s) i = Some d /\ head d <> -1 /\ col d = c
}.

End FixedV2.

(** ** The drops of fixed_v2 inside arduino_matrix_rain_fastdrops.ino

    The later sketch adds the field [boost] and the table of fast drops;
    a state of fixed_v2 is a state of the later sketch in which no Drop
    is boosted and no fast drop is active. *)

Module FixedV2Sim.

Definition as_fastdrop (d : FixedV2.Drop) : Drop :=
  mkDrop (FixedV2.col d) (FixedV2.head d) (FixedV2.trail d)
         (FixedV2.speed d) (FixedV2.age d) (FixedV2.rng d) 0.

Definition as_fastdrops (s : FixedV2.State) : Fastdrops.State :=
  Fastdrops.mkState (map as_fastdrop (FixedV2.drops s))
                    (FixedV2.column_occupied s)
                    (FixedV2.global_rng s)
                    (Fastdrops.fasts Fastdrops.start).

Definition as_op (o : FixedV2.op) : Fastdrops.op :=
  match o with
  | FixedV2.SpawnDrop => Fastdrops.SpawnDrop
  | FixedV2.StepDrops => Fastdrops.StepDrops
  end.

End FixedV2Sim.
(** * Arduino_rain_opt.ino

    One [Column] per terminal column and no brightness buffer: the
    brightness of a cell is computed from the head of its column while the
    frame is drawn. *)

Module RainOpt.

Definition TERM_COLS : Z := 60.
Definition TERM_ROWS : Z := 24.

(** [min((uint8_t)TERM_ROWS, (uint8_t)12)] *)
Definition MAX_TRAIL : Z := Z.min (u8 TERM_ROWS) (u8 12).

Record Column : Type := mkColumn {
  head : Z;    (* int8_t; -1 = inactive *)
  trail : Z;   (* uint8_t *)
  speed : Z;   (* uint8_t *)
  age : Z;     (* uint8_t *)
  rng : Z      (* uint32_t *)
}.

Definition set_head (v : Z) (c : Column) : Column :=
  mkColumn v (trail c) (speed c) (age c) (rng c).
Definition set_trail (v : Z) (c : Column) : Column :=
  mkColumn (head c) v (speed c) (age c) (rng c).
Definition set_speed (v : Z) (c : Column) : Column :=
  mkColumn (head c) (trail c) v (age c) (rng c).
Definition set_age (v : Z) (c : Column) : Column :=
  mkColumn (head c) (trail c) (speed c) v (rng c).
Definition set_rng (v : Z) (c : Column) : Column :=
  mkColumn (head c) (trail c) (speed c) (age c) v.

Definition term_set_color (bright : Z) : list Z :=
  if bright =? 3 then esc "[97;1m"
  else if bright =? 2 then esc "[32;1m"
  else if bright =? 1 then esc "[32m"
  else esc "[90m".

(** [micros c] is what [micros()] returns in iteration [c]. *)
Definition setupColumns (micros : Z -> Z) (cols : list Column)
    : option (list Column) :=
  for_upto TERM_COLS (fun c cols =>
    col ← rd cols c;
    let seed := Z.lxor (u32 (micros c)) (u32 (c * 0x9e3779b1)) in
    let col := set_rng (splitmix32 seed) col in
    let col := set_head (-1) col in
    let col := set_rng (splitmix32 (rng col)) col in
    let col := set_trail (u8 (rng col mod (MAX_TRAIL - 2) + 3)) col in
    let col := set_rng (splitmix32 (rng col)) col in
    let col := set_speed (u8 (rng col mod 5 + 1)) col in
    let col := set_age 0 col in
    wr cols c col) cols.

(** The body of the loop of [maybeSpawnHeads] for one column. *)
Definition spawn_head (col : Column) : Column :=
  if head col =? -1 then
    let col := set_rng (splitmix32 (rng col)) col in
    let v := rng col in
    if Z.land v 0xFF <? 24 then
      let col := set_head 0 col in
      let col := set_trail (u8 (v mod (MAX_TRAIL - 2) + 3)) col in
      let col := set_speed (u8 (Z.shiftr v 8 mod 5 + 1)) col in
      set_age 0 col
    else col
  else col.

Definition maybeSpawnHeads (cols : list Column) : option (list Column) :=
  for_upto TERM_COLS (fun c cols =>
    col ← rd cols c; wr cols c (spawn_head col)) cols.

(** The body of the loop of [stepColumns] for one column.  A head that
    has run [trail] rows past the bottom is either switched off or put
    back on row 0. *)
Definition step_col (col : Column) : Column :=
  if negb (head col =? -1) then
    let col := set_age (u8 (age col + 1)) col in
    if speed col <=? age col then
      let col := set_age 0 col in
      let col := set_head (i8 (head col + 1)) col in
      if TERM_ROWS + trail col <=? head col then
        let col := set_rng (splitmix32 (rng col)) col in
        if Z.land (rng col) 0x7F <? 48 then set_head (-1) col
        else set_head 0 col
      else col
    else col
  else col.

Definition stepColumns (cols : list Column) : option (list Column) :=
  for_upto TERM_COLS (fun c cols =>
    col ← rd cols c; wr cols c (step_col col)) cols.

Definition brightnessFor (cols : list Column) (c r : Z) : option Z :=
  col ← rd cols c;
  if head col =? -1 then Some 0 else
  let dist := head col - r in
  if (dist <? 0) || (trail col <? dist) then Some 0
  else if dist =? 0 then Some 3
  else if dist =? 1 then Some 2
  else if dist =? 2 then Some 1
  else Some 1.

Definition charFor (c r salt : Z) : option Z :=
  let h := u32 (u32 (c * 0x9e3779b1) + u32 (r * 0x85ebca6b) + salt) in
  pickChar (splitmix32 h).

(** The body of the inner loop of [renderFrame]: the colour is selected
    and reset around every character. *)
Definition render_cell (cols : list Column) (salt r c : Z) (out : list event)
    : option (list event) :=
  b ← brightnessFor cols c r;
  ch ← (if b =? 0 then Some SPACE
        else charFor c r (u32 (salt + u32 (Z.shiftl r 8))));
  Some (out ++ [SetColor b; Put ch; ResetColor]).

Definition render_row (cols : list Column) (salt r : Z) (out : list event)
    : option (list event) :=
  out ← for_upto TERM_COLS (render_cell cols salt r) out;
  Some (out ++ [LF]).

Definition renderFrame (cols : list Column) (salt : Z) : option (list event) :=
  for_upto TERM_ROWS (render_row cols salt) [Home].

(** What [renderFrame] computes for one cell: brightness and character. *)
Definition cell (cols : list Column) (salt r c : Z) : option (Z * Z) :=
  b ← brightnessFor cols c r;
  ch ← (if b =? 0 then Some SPACE
        else charFor c r (u32 (salt + u32 (Z.shiftl r 8))));
  Some (b, ch).

(** The cells of a frame in the order [renderFrame] visits them. *)
Definition frame_cells (cols : list Column) (salt : Z)
    : option (list (Z * Z)) :=
  for_upto TERM_ROWS (fun r acc =>
    for_upto TERM_COLS (fun c acc =>
      bc ← cell cols salt r c; Some (acc ++ [bc])) acc) [].

(** The trace of a painter that selects and resets the colour around
    every character. *)
Definition paint_each (cells : list (Z * Z)) : list event :=
  flat_map (fun bc => [SetColor (fst bc); Put (snd bc); ResetColor]) cells.

(** How the trace of [renderFrame] relates to the [n] cells painted so
    far. *)
Definition painted_each (n : Z) (out : list event) (cells : list (Z * Z))
    : Prop :=
  len cells = n /\ drop_newlines out = Home :: paint_each cells.

(** *** Runs of the sketch *)

(** The zero-initialised global before [setup] runs. *)
Definition boot : list Column :=
  replicate (Z.to_nat TERM_COLS) (mkColumn 0 0 0 0 0).

(** One pass of [loop] without the rendering. *)
Definition tick (cols : list Column) : option (list Column) :=
  cols ← maybeSpawnHeads cols; stepColumns cols.

Fixpoint ticks (n : nat) (cols : list Column) : option (list Column) :=
  match n with
  | O => Some cols
  | S n' => cols ← tick cols; ticks n' cols
  end.

(** Every column switched off. *)
Definition blank : list Column :=
  replicate (Z.to_nat TERM_COLS) (mkColumn (-1) 3 1 0 0).

(** What [setupColumns] establishes and the two steps keep: the head is
    the sentinel or a row above [TERM_ROWS + trail], and the trail is at
    most [MAX_TRAIL]. *)
Definition col_ok (col : Column) : bool :=
  (-1 <=? head col) && (head col <? TERM_ROWS + trail col)
  && (0 <=? trail col) && (trail col <=? MAX_TRAIL).

Definition cols_ok (cols : list Column) : bool :=
  (len cols =? TERM_COLS) && forallb col_ok cols.

End RainOpt.
(** * Arduino_rain_opt.ino: setup and loop

    The file has each block of the sketch on one line, banner comment
    included; it is read with the line breaks of the sketch restored, so
    that a banner comments out nothing but itself. *)

Module RainOptRun.
Import RainOpt.

(** What [setupColumns] establishes and the two steps keep, in full: the
    head is the sentinel or a row above [TERM_ROWS + trail], the trail is
    3..MAX_TRAIL long, the speed is 1..5 and the frame counter is below
    the speed. *)
Definition col_wf (col : Column) : bool :=
  (-1 <=? head col) && (head col <? TERM_ROWS + trail col)
  && (3 <=? trail col) && (trail col <=? MAX_TRAIL)
  && (1 <=? speed col) && (speed col <=? 5)
  && (0 <=? age col) && (age col <? speed col).

Definition cols_wf (cols : list Column) : bool :=
  (len cols =? TERM_COLS) && forallb col_wf cols.

(** The state change of [setup]: [micros c] is what [micros()] returns
    in iteration [c] of [setupColumns]. *)
Definition setup (micros : Z -> Z) : option (list Column) :=
  setupColumns micros boot.

(** One pass of [loop]: the two steps, the frame, the next salt. *)
Definition loop (st : list Column * Z)
    : option (list Column * Z * list event) :=
  let '(cols, salt) := st in
  cols ← maybeSpawnHeads cols;
  cols ← stepColumns cols;
  out ← renderFrame cols salt;
  Some (cols, splitmix32 salt, out).

(** [n] passes of [loop] and the frames they draw, the first one first. *)
Fixpoint loops (n : nat) (st : list Column * Z)
    : option (list Column * Z * list (list event)) :=
  match n with
  | O => Some (fst st, snd st, [])
  | S n' =>
      r ← loop st;
      let '(cols, salt, out) := r in
      r' ← loops n' (cols, salt);
      let '(cols', salt', frames) := r' in
      Some (cols', salt', out :: frames)
  end.

(** The rows of the screen a column lights: those with a brightness other
    than 0. *)
Definition lit (cols : list Column) (c r : Z) : bool :=
  match brightnessFor cols c r with
  | Some b => negb (b =? 0)
  | None => false
  end.

End RainOptRun.
(** * Concrete runs

    States the sketches reach from their boot seeds, used as test inputs
    of the theorems below. *)

Module Scenarios.

Definition no_drop : Drop := mkDrop 0 (-1) 0 0 0 0 0.
Definition no_fast : FastDrop := mkFast false 0 0 0 0 0.

(** The state a list of calls leaves ([s0] itself if a call faulted). *)
Definition fd_after (ops : list Fastdrops.op) (s0 : Fastdrops.State)
    : Fastdrops.State :=
  default s0 (Fastdrops.run ops s0).

Definition vec_after (ops : list Vectorized.op) (s0 : Vectorized.State)
    : Vectorized.State :=
  default s0 (Vectorized.run ops s0).

Definition fx_after (ops : list VectorizedFixed.op) (s0 : VectorizedFixed.State)
    : VectorizedFixed.State :=
  default s0 (VectorizedFixed.run ops s0).

Definition cz_after (ops : list Colorized.op) (s0 : Colorized.State)
    : Colorized.State :=
  default s0 (Colorized.run ops s0).

(** arduino_matrix_rain_fastdrops.ino from its boot seed: the calls of
    the first 61 passes of [loop], and of the next one up to its
    [stepFastDrops].  Bullet 0 is then on row 10, one row above the head
    of Drop 1 in its column. *)
Definition fd_before_impact : list Fastdrops.op :=
  concat (replicate 61 Fastdrops.tick)
  ++ [Fastdrops.SpawnDrop; Fastdrops.SpawnFast; Fastdrops.StepDrops].

(** matrix_rain_vectorized.ino with a zeroed stack: after 13 passes and
    the next one up to its [stepFastDrops], bullet 0 is on row 0 and the
    head of Drop 0 of its column on row 1. *)
Definition vec_tick : list Vectorized.op :=
  [Vectorized.SpawnDrop; Vectorized.SpawnFast;
   Vectorized.StepDrops (fun _ => 0); Vectorized.StepFast].

Definition vec_before_impact : list Vectorized.op :=
  concat (replicate 13 vec_tick)
  ++ [Vectorized.SpawnDrop; Vectorized.SpawnFast;
      Vectorized.StepDrops (fun _ => 0)].

(** matrix_rain_vectorized_fixed.ino with all ones in [new_bright]. *)
Definition fx_tick : list VectorizedFixed.op :=
  [VectorizedFixed.SpawnDrop; VectorizedFixed.SpawnFast;
   VectorizedFixed.StepDrops (fun _ _ => 255); VectorizedFixed.StepFast].

(** matrix_rain_vectorized_final.ino: after 17 passes and the next one up
    to its [stepFastDrops], bullet 2 is on row 0 and the head row of Drop
    0 of its column is 1. *)
Definition cz_before_impact : list Colorized.op :=
  concat (replicate 17 Colorized.tick)
  ++ [Colorized.SpawnDrop; Colorized.SpawnFast; Colorized.StepDrops].

(** The same sketch four passes earlier: bullet 0 has just been spawned
    on row 0 in the column of Drop 0, whose head row is 0 too. *)
Definition cz_before_miss : list Colorized.op :=
  concat (replicate 13 Colorized.tick)
  ++ [Colorized.SpawnDrop; Colorized.SpawnFast; Colorized.StepDrops].

(** Arduino_rain_opt.ino with [micros()] returning 0: the columns after
    31 passes of [loop] and the [maybeSpawnHeads] of the next. *)
Definition ro_before_wrap : list RainOpt.Column :=
  default []
    (c0 ← RainOpt.setupColumns (fun _ => 0) RainOpt.boot;
     c ← RainOpt.ticks 31 c0;
     RainOpt.maybeSpawnHeads c).

(** arduino_matrix_rain_fastdrops.ino seeded with 133: the first call of
    [maybeSpawnDrop] activates slot 0 in column 11 with speed 1 and a
    trail of 7. *)
Definition fd_lone : Fastdrops.State :=
  fd_after [Fastdrops.SpawnDrop]
           (Fastdrops.set_global_rng 133 Fastdrops.start).

(** matrix_rain_vectorized_final.ino seeded with 0: slot 0 is activated in
    column 36 with speed 1 and a trail of 9. *)
Definition cz_lone : Colorized.State :=
  cz_after [Colorized.SpawnDrop]
           (Colorized.set_global_rng 0 Colorized.start).

(** A state of arduino_matrix_rain_fastdrops.ino with no inactive slot:
    slot [i] crawls in column [i]. *)
Definition fd_full : Fastdrops.State :=
  Fastdrops.mkState
    (map (fun c => mkDrop (Z.of_nat c) 0 3 1 0 0 0) (seq 0 25))
    (replicate 25 true ++ replicate 55 false)
    7
    (replicate 12 no_fast).

End Scenarios.

(** * Properties *)

(** ** The fault monad *)

Lemma bind_Some {A B : Type} (f : A -> option B) (x : A) :
  (Some x ≫= f) = f x.
Proof. reflexivity. Qed.

Lemma bind_None {A B : Type} (f : A -> option B) :
  (None ≫= f) = None.
Proof. reflexivity. Qed.

(** ** Arrays *)

Section ArrayFacts.
Context {A : Type}.
Implicit Types (l : list A) (i j : Z) (x : A).

Lemma len_nonneg l : 0 <= len l.
Proof. unfold len. lia. Qed.

Lemma rd_Some_range l i x : rd l i = Some x -> 0 <= i < len l.
Proof.
  unfold rd, len. destruct (Z.leb_spec 0 i); [|discriminate].
  intros H1. apply lookup_lt_Some in H1. lia.
Qed.

Lemma rd_in_range l i : 0 <= i < len l -> exists x, rd l i = Some x.
Proof.
  unfold rd, len. intros [H0 H1].
  destruct (Z.leb_spec 0 i); [|lia].
  destruct (lookup_lt_is_Some_2 l (Z.to_nat i)) as [x Hx]; [lia|eauto].
Qed.

Lemma rd_out_of_range l i : ~ (0 <= i < len l) -> rd l i = None.
Proof.
  unfold rd, len. intros H.
  destruct (Z.leb_spec 0 i); [|reflexivity].
  apply lookup_ge_None. lia.
Qed.

Lemma wr_in_range l i x :
  0 <= i < len l -> wr l i x = Some (<[Z.to_nat i := x]> l).
Proof.
  unfold wr. intros [H0 H1].
  destruct (Z.leb_spec 0 i); [|lia].
  destruct (Z.ltb_spec i (len l)); [reflexivity|lia].
Qed.

Lemma wr_total l i x : 0 <= i < len l -> exists l', wr l i x = Some l'.
Proof. intros H. rewrite wr_in_range by done. eauto. Qed.

Lemma wr_Some l i x l' :
  wr l i x = Some l' -> 0 <= i < len l /\ l' = <[Z.to_nat i := x]> l.
Proof.
  unfold wr.
  destruct (Z.leb_spec 0 i); [|discriminate].
  destruct (Z.ltb_spec i (len l)); [|discriminate].
  simpl. intros [= <-]. auto.
Qed.

Lemma wr_len l i x l' : wr l i x = Some l' -> len l' = len l.
Proof.
  intros H. apply wr_Some in H as [_ ->]. unfold len.
  by rewrite length_insert.
Qed.

Lemma rd_wr_eq l i x l' : wr l i x = Some l' -> rd l' i = Some x.
Proof.
  intros H. apply wr_Some in H as [[H0 H1] ->]. unfold rd, len in *.
  destruct (Z.leb_spec 0 i); [|lia].
  apply list_lookup_insert_eq. lia.
Qed.

Lemma rd_wr_ne l i j x l' : wr l i x = Some l' -> j <> i -> rd l' j = rd l j.
Proof.
  intros H Hne. apply wr_Some in H as [[H0 H1] ->]. unfold rd.
  destruct (Z.leb_spec 0 j); [|reflexivity].
  apply list_lookup_insert_ne. lia.
Qed.

Lemma rd_wr l i j x l' :
  wr l i x = Some l' -> rd l' j = if j =? i then Some x else rd l j.
Proof.
  intros H. destruct (Z.eqb_spec j i) as [->|Hne].
  - eapply rd_wr_eq; eauto.
  - eapply rd_wr_ne; eauto.
Qed.

Lemma rd_ext l l' : (forall i, rd l i = rd l' i) -> l = l'.
Proof.
  intros H. apply list_eq. intros n.
  specialize (H (Z.of_nat n)). unfold rd in H.
  destruct (Z.leb_spec 0 (Z.of_nat n)); [|lia].
  by rewrite Nat2Z.id in H.
Qed.

Lemma forallb_rd (p : A -> bool) l :
  forallb p l = true <-> (forall i x, rd l i = Some x -> p x = true).
Proof.
  rewrite forallb_forall. split.
  - intros H i x Hrd. apply H. unfold rd in Hrd.
    destruct (0 <=? i); [|discriminate].
    apply list_elem_of_In. eapply list_elem_of_lookup_2; eauto.
  - intros H x Hin. apply list_elem_of_In in Hin.
    apply list_elem_of_lookup in Hin as [n Hn].
    apply (H (Z.of_nat n)). unfold rd.
    destruct (Z.leb_spec 0 (Z.of_nat n)); [|lia].
    by rewrite Nat2Z.id.
Qed.
(** When exactly one element passes a test, it sits at one index. *)
Lemma filter_one_unique (p : A -> bool) l :
  length (List.filter p l) = 1%nat ->
  forall i j x y, rd l i = Some x -> rd l j = Some y ->
                  p x = true -> p y = true -> i = j.
Proof.
  assert (Hnone : forall l0, length (List.filter p l0) = 0%nat ->
            forall n x, l0 !! n = Some x -> p x = false).
  { induction l0 as [|a l0 IH]; intros Hlen n x Hx; [done|].
    cbn in Hlen. destruct (p a) eqn:Hpa; [discriminate|].
    destruct n as [|n]; cbn in Hx; [congruence|eauto]. }
  assert (Hnat : forall l0, length (List.filter p l0) = 1%nat ->
            forall n m x y, l0 !! n = Some x -> l0 !! m = Some y ->
                            p x = true -> p y = true -> n = m).
  { induction l0 as [|a l0 IH]; intros Hlen n m x y Hx Hy Hpx Hpy; [done|].
    cbn in Hlen. destruct (p a) eqn:Hpa.
    - cbn in Hlen. injection Hlen as Hlen.
      destruct n as [|n], m as [|m]; cbn in Hx, Hy; try done.
      + rewrite (Hnone l0 Hlen m y Hy) in Hpy. discriminate.
      + rewrite (Hnone l0 Hlen n x Hx) in Hpx. discriminate.
      + rewrite (Hnone l0 Hlen n x Hx) in Hpx. discriminate.
    - destruct n as [|n], m as [|m]; cbn in Hx, Hy; try congruence.
      f_equal. eauto. }
  intros Hlen i j x y Hx Hy Hpx Hpy. unfold rd in Hx, Hy.
  destruct (Z.leb_spec 0 i); [|discriminate].
  destruct (Z.leb_spec 0 j); [|discriminate].
  pose proof (Hnat l Hlen _ _ _ _ Hx Hy Hpx Hpy). lia.
Qed.
End ArrayFacts.

(** ** Loops *)

Section LoopFacts.
Context {St : Type}.

(** Total correctness of a counted loop from an invariant indexed by
    the loop counter. *)
Lemma for_range_inv (P : Z -> St -> Prop) (body : Z -> St -> option St) :
  forall (n : nat) (i : Z) (s : St),
    P i s ->
    (forall k t, i <= k < i + Z.of_nat n -> P k t ->
                 exists t', body k t = Some t' /\ P (k + 1) t') ->
    exists s', for_range n i body s = Some s' /\ P (i + Z.of_nat n) s'.
Proof.
  induction n as [|n IH]; intros i s HP Hbody.
  - exists s. split; [reflexivity|]. by replace (i + Z.of_nat 0) with i by lia.
  - destruct (Hbody i s) as (t & Ht & HPt); [lia|done|].
    destruct (IH (i + 1) t HPt) as (s' & Hs' & HPs').
    + intros k u Hk HPu. apply Hbody; [lia|done].
    + exists s'. split.
      * simpl. rewrite Ht. simpl. exact Hs'.
      * by replace (i + Z.of_nat (S n)) with (i + 1 + Z.of_nat n) by lia.
Qed.

Lemma for_upto_inv (P : Z -> St -> Prop) (body : Z -> St -> option St)
    (n : Z) (s : St) :
  0 <= n ->
  P 0 s ->
  (forall k t, 0 <= k < n -> P k t ->
               exists t', body k t = Some t' /\ P (k + 1) t') ->
  exists s', for_upto n body s = Some s' /\ P n s'.
Proof.
  intros Hn HP Hbody. unfold for_upto.
  destruct (for_range_inv P body (Z.to_nat n) 0 s HP) as (s' & Hs' & HPs').
  - intros k t Hk. apply Hbody. lia.
  - exists s'. split; [done|]. by replace n with (0 + Z.of_nat (Z.to_nat n)) by lia.
Qed.

(** The same with an invariant that ignores the counter. *)
Lemma for_upto_preserves (P : St -> Prop) (body : Z -> St -> option St)
    (n : Z) (s : St) :
  0 <= n ->
  P s ->
  (forall k t, 0 <= k < n -> P t -> exists t', body k t = Some t' /\ P t') ->
  exists s', for_upto n body s = Some s' /\ P s'.
Proof.
  intros Hn HP Hbody.
  apply (for_upto_inv (fun _ => P)); auto.
Qed.
End LoopFacts.

(** A descending loop keeps an invariant that every iteration keeps. *)
Lemma for_down_preserves {St : Type} (P : St -> Prop)
    (body : Z -> St -> option St) :
  forall (n : nat) (i : Z) (s : St),
    P s ->
    (forall k t, i - Z.of_nat n < k <= i -> P t ->
                 exists t', body k t = Some t' /\ P t') ->
    exists s', for_down n i body s = Some s' /\ P s'.
Proof.
  induction n as [|n IH]; intros i s HP Hbody.
  - exists s. auto.
  - destruct (Hbody i s) as (t & Ht & HPt); [lia|done|].
    destruct (IH (i - 1) t HPt) as (s' & Hs' & HPs').
    { intros k u Hk. apply Hbody. lia. }
    exists s'. cbn. rewrite Ht. cbn. auto.
Qed.

(** A descending loop with an invariant indexed by the loop counter. *)
Lemma for_down_inv {St : Type} (P : Z -> St -> Prop)
    (body : Z -> St -> option St) :
  forall (n : nat) (i : Z) (s : St),
    P i s ->
    (forall k t, i - Z.of_nat n < k <= i -> P k t ->
                 exists t', body k t = Some t' /\ P (k - 1) t') ->
    exists s', for_down n i body s = Some s' /\ P (i - Z.of_nat n) s'.
Proof.
  induction n as [|n IH]; intros i s HP Hbody.
  - exists s. replace (i - Z.of_nat 0) with i by lia. auto.
  - destruct (Hbody i s) as (t & Ht & HPt); [lia|done|].
    destruct (IH (i - 1) t HPt) as (s' & Hs' & HPs').
    { intros k u Hk. apply Hbody. lia. }
    exists s'. cbn [for_down]. rewrite Ht, bind_Some. split; [done|].
    replace (i - Z.of_nat (S n)) with (i - 1 - Z.of_nat n) by lia. done.
Qed.

(** An ascending loop from any start, with a plain invariant. *)
Lemma for_range_preserves {St : Type} (P : St -> Prop)
    (body : Z -> St -> option St) (n : nat) (i : Z) (s : St) :
  P s ->
  (forall k t, i <= k < i + Z.of_nat n -> P t ->
               exists t', body k t = Some t' /\ P t') ->
  exists s', for_range n i body s = Some s' /\ P s'.
Proof.
  intros HP Hbody.
  destruct (for_range_inv (fun _ => P) body n i s HP Hbody) as (s' & ? & ?).
  eauto.
Qed.

(** Two loops over the same range that keep a relation between their
    states both run to completion, in related states. *)
Lemma for_range_sim {A B : Type} (R : Z -> A -> B -> Prop)
    (f : Z -> A -> option A) (g : Z -> B -> option B) :
  forall (n : nat) (i : Z) (a : A) (b : B),
    R i a b ->
    (forall k a b, i <= k < i + Z.of_nat n -> R k a b ->
       exists a' b', f k a = Some a' /\ g k b = Some b' /\ R (k + 1) a' b') ->
    exists a' b', for_range n i f a = Some a' /\
                  for_range n i g b = Some b' /\ R (i + Z.of_nat n) a' b'.
Proof.
  induction n as [|n IH]; intros i a b HR Hstep.
  - exists a, b. replace (i + Z.of_nat 0) with i by lia. auto.
  - destruct (Hstep i a b) as (a1 & b1 & Ha1 & Hb1 & HR1); [lia|done|].
    destruct (IH (i + 1) a1 b1 HR1) as (a' & b' & Ha' & Hb' & HR').
    { intros k x y Hk. apply Hstep. lia. }
    exists a', b'. cbn. rewrite Ha1, Hb1. cbn.
    replace (i + Z.of_nat (S n)) with (i + 1 + Z.of_nat n) by lia. auto.
Qed.

Lemma for_upto_sim {A B : Type} (R : Z -> A -> B -> Prop)
    (f : Z -> A -> option A) (g : Z -> B -> option B) (n : Z) (a : A) (b : B) :
  0 <= n ->
  R 0 a b ->
  (forall k a b, 0 <= k < n -> R k a b ->
     exists a' b', f k a = Some a' /\ g k b = Some b' /\ R (k + 1) a' b') ->
  exists a' b', for_upto n f a = Some a' /\ for_upto n g b = Some b' /\
                R n a' b'.
Proof.
  intros Hn HR Hstep. unfold for_upto.
  destruct (for_range_sim R f g (Z.to_nat n) 0 a b HR) as (a' & b' & ? & ? & ?).
  { intros k x y Hk. apply Hstep. lia. }
  exists a', b'. replace n with (0 + Z.of_nat (Z.to_nat n)) at 3 by lia. auto.
Qed.

Section ScanFacts.
Context {R : Type}.

(** What a scanning loop returns when no probe faults. *)
Lemma scan_range_spec (probe : Z -> option (option R)) :
  forall (n : nat) (i : Z),
    (forall k, i <= k < i + Z.of_nat n -> exists r, probe k = Some r) ->
    exists res, scan_range n i probe = Some res /\
      match res with
      | None => forall k, i <= k < i + Z.of_nat n -> probe k = Some None
      | Some x => exists k, i <= k < i + Z.of_nat n /\ probe k = Some (Some x) /\
                            forall j, i <= j < k -> probe j = Some None
      end.
Proof.
  induction n as [|n IH]; intros i Hp.
  - exists None. split; [reflexivity|]. intros k Hk. lia.
  - destruct (Hp i) as [r Hr]; [lia|]. simpl. rewrite Hr. simpl.
    destruct r as [x|].
    + exists (Some x). split; [reflexivity|].
      exists i. split; [lia|]. split; [done|]. intros j Hj. lia.
    + destruct (IH (i + 1)) as (res & Hres & Hspec).
      { intros k Hk. apply Hp. lia. }
      exists res. split; [done|].
      destruct res as [x|].
      * destruct Hspec as (k & Hk & Hpk & Hbefore).
        exists k. split; [lia|]. split; [done|].
        intros j Hj. destruct (Z.eq_dec j i) as [->|]; [done|].
        apply Hbefore. lia.
      * intros k Hk. destruct (Z.eq_dec k i) as [->|]; [done|].
        apply Hspec. lia.
Qed.

Lemma scan_upto_spec (probe : Z -> option (option R)) (n : Z) :
  0 <= n ->
  (forall k, 0 <= k < n -> exists r, probe k = Some r) ->
  exists res, scan_upto n probe = Some res /\
    match res with
    | None => forall k, 0 <= k < n -> probe k = Some None
    | Some x => exists k, 0 <= k < n /\ probe k = Some (Some x) /\
                          forall j, 0 <= j < k -> probe j = Some None
    end.
Proof.
  intros Hn Hp. unfold scan_upto.
  destruct (scan_range_spec probe (Z.to_nat n) 0) as (res & Hres & Hspec).
  - intros k Hk. apply Hp. lia.
  - exists res. split; [done|].
    destruct res as [x|].
    + destruct Hspec as (k & Hk & H1 & H2). exists k. split; [lia|]. auto.
    + intros k Hk. apply Hspec. lia.
Qed.
Lemma scan_upto_total (probe : Z -> option (option R)) (n : Z) :
  0 <= n ->
  (forall k, 0 <= k < n -> exists r, probe k = Some r) ->
  exists res, scan_upto n probe = Some res.
Proof.
  intros Hn Hp. destruct (scan_upto_spec probe n Hn Hp) as (res & ? & _).
  eauto.
Qed.

(** A scan whose probes all decline runs to its end. *)
Lemma scan_upto_none (probe : Z -> option (option R)) (n : Z) :
  0 <= n ->
  (forall k, 0 <= k < n -> probe k = Some None) ->
  scan_upto n probe = Some None.
Proof.
  intros Hn Hp. destruct (scan_upto_spec probe n Hn) as (res & Hres & Hspec).
  { intros k Hk. rewrite Hp by done. eauto. }
  destruct res as [x|]; [|done].
  destruct Hspec as (k & Hk & Hpk & _). rewrite Hp in Hpk by done.
  discriminate.
Qed.
End ScanFacts.

(** ** Machine integers *)

Lemma u8_range x : 0 <= u8 x < 256.
Proof. unfold u8. apply Z.mod_pos_bound. lia. Qed.

Lemma u8_small x : 0 <= x < 256 -> u8 x = x.
Proof. unfold u8. apply Z.mod_small. Qed.

Lemma i16_small x : -32768 <= x < 32768 -> i16 x = x.
Proof. unfold i16. intros H. rewrite Z.mod_small; lia. Qed.

Lemma i8_small x : -128 <= x < 128 -> i8 x = x.
Proof. unfold i8. intros H. rewrite Z.mod_small; lia. Qed.

(** Run the next array write of the goal, naming its result. *)
Ltac simpl_drop :=
  cbn [col head trail speed age rng boost
       set_head set_age set_rng set_boost].

Ltac simpl_fast :=
  cbn [f_active f_col f_row f_speed f_age f_rng
       set_f_active set_f_row set_f_age set_f_rng].

Ltac step_wr Hw :=
  match goal with
  | |- context [mbind _ (wr ?l ?i ?x)] =>
      let l' := fresh "l'" in
      destruct (wr_total l i x) as [l' Hw]; [lia | rewrite Hw, bind_Some]
  end.

(** ** Traces *)

Lemma colors_app (o1 o2 : list event) : colors (o1 ++ o2) = colors o1 ++ colors o2.
Proof. unfold colors. apply flat_map_app. Qed.

Lemma chars_app (o1 o2 : list event) : chars (o1 ++ o2) = chars o1 ++ chars o2.
Proof. unfold chars. apply flat_map_app. Qed.

Lemma drop_newlines_app (o1 o2 : list event) :
  drop_newlines (o1 ++ o2) = drop_newlines o1 ++ drop_newlines o2.
Proof. unfold drop_newlines. apply List.filter_app. Qed.

Lemma colors_drop_newlines (o : list event) : colors (drop_newlines o) = colors o.
Proof.
  unfold colors, drop_newlines.
  induction o as [|e o IH]; [done|]. destruct e; cbn; rewrite ?IH; done.
Qed.

Lemma chars_drop_newlines (o : list event) : chars (drop_newlines o) = chars o.
Proof.
  unfold chars, drop_newlines.
  induction o as [|e o IH]; [done|]. destruct e; cbn; rewrite ?IH; done.
Qed.

Lemma last_brightness_of_snoc (prev : Z) (cells : list (Z * Z)) (b ch : Z) :
  last_brightness_of prev (cells ++ [(b, ch)]) = b.
Proof. unfold last_brightness_of. by rewrite last_snoc. Qed.

Lemma last_brightness_of_cons (prev : Z) (cells : list (Z * Z)) (b ch : Z) :
  last_brightness_of prev ((b, ch) :: cells) = last_brightness_of b cells.
Proof.
  unfold last_brightness_of. destruct cells as [|c cells]; [done|].
  rewrite last_cons_cons.
  destruct (last (c :: cells)) as [[b' ch']|] eqn:E; [done|].
  apply last_None in E. discriminate.
Qed.

(** Painting one more cell: the colour is sent exactly when it differs
    from the brightness of the cell painted last. *)
Lemma spec_paint_snoc (prev : Z) (cells : list (Z * Z)) (b ch : Z) :
  spec_paint prev (cells ++ [(b, ch)]) =
  spec_paint prev cells ++
  (if b =? last_brightness_of prev cells then [] else [SetColor b]) ++ [Put ch].
Proof.
  revert prev. induction cells as [|[b0 ch0] cells IH]; intros prev.
  - cbn. unfold last_brightness_of. cbn. by destruct (b =? prev).
  - cbn [app spec_paint]. rewrite IH, last_brightness_of_cons.
    rewrite <- !app_assoc. reflexivity.
Qed.

Lemma spec_paint_blank (n : nat) :
  spec_paint 0 (replicate n (0, SPACE)) = replicate n (Put SPACE).
Proof. induction n as [|n IH]; [done|]. cbn. by rewrite IH. Qed.

Lemma spec_paint_first_blank (n : nat) :
  spec_paint 255 (replicate (S n) (0, SPACE)) =
  [SetColor 0; Put SPACE] ++ replicate n (Put SPACE).
Proof.
  rewrite replicate_S. cbn [spec_paint]. rewrite spec_paint_blank. done.
Qed.

Lemma colors_replicate_Put (n : nat) (ch : Z) : colors (replicate n (Put ch)) = [].
Proof. induction n; [done|]. cbn. done. Qed.

Lemma chars_replicate_Put (n : nat) (ch : Z) :
  chars (replicate n (Put ch)) = replicate n ch.
Proof. induction n as [|n IH]; [done|]. cbn. by rewrite <- IH. Qed.

Lemma pickChar_total (h : Z) : exists ch, pickChar h = Some ch.
Proof.
  unfold pickChar. apply rd_in_range.
  apply Z.mod_pos_bound. reflexivity.
Qed.

Lemma charset_at_idx_total (idx : Z) : exists ch, charset_at_idx idx = Some ch.
Proof.
  unfold charset_at_idx. apply rd_in_range.
  apply Z.mod_pos_bound. reflexivity.
Qed.

(** ** Frames painted cell by cell *)

Lemma rows_of_app (o1 o2 : list event) :
  rows_of (o1 ++ o2) = fold_left row_step o2 (rows_of o1).
Proof. unfold rows_of. by rewrite fold_left_app. Qed.

Lemma newlines_app (o1 o2 : list event) :
  newlines (o1 ++ o2) = newlines o1 ++ newlines o2.
Proof. unfold newlines. by rewrite List.filter_app. Qed.

Lemma drop_newlines_id (o : list event) :
  newlines o = [] -> drop_newlines o = o.
Proof.
  unfold newlines, drop_newlines. induction o as [|e o IH]; [done|].
  cbn. destruct (is_newline e); [discriminate|]. cbn. intros H. by rewrite IH.
Qed.

Lemma rd_In {A : Type} (l : list A) (i : Z) (x : A) : rd l i = Some x -> In x l.
Proof.
  unfold rd. destruct (0 <=? i); [|discriminate].
  intros H. apply list_elem_of_In. by eapply list_elem_of_lookup_2.
Qed.

Lemma pickChar_In (h ch : Z) : pickChar h = Some ch -> In ch CHARSET.
Proof. apply rd_In. Qed.

Lemma charset_at_idx_In (idx ch : Z) : charset_at_idx idx = Some ch -> In ch CHARSET.
Proof. apply rd_In. Qed.

Section FramePainter.
Context {T : Type} (snoc : T -> list event -> T) (endrow : Z -> T -> T)
        (view : T -> list event).
Context (rows cols : Z) (cell : Z -> Z -> option (Z * Z))
        (render_cell : Z -> Z -> Z * T -> option (Z * T))
        (P : Z * Z -> Prop).
Hypothesis view_snoc : forall t es, view (snoc t es) = view t ++ es.
Hypothesis view_endrow : forall r t, view (endrow r t) = view t ++ [CRLF].
Hypothesis rows_pos : 0 < rows.
Hypothesis cols_nonneg : 0 <= cols.
Hypothesis render_cell_eq : forall r c last out,
  render_cell r c (last, out) =
  (bc ← cell r c;
   if negb (fst bc =? last)
   then Some (fst bc, snoc out [SetColor (fst bc); Put (snd bc)])
   else Some (last, snoc out [Put (snd bc)])).
Hypothesis cell_total : forall r c,
  0 <= r < rows -> 0 <= c < cols -> exists bc, cell r c = Some bc.
Hypothesis cell_P : forall r c bc,
  0 <= r < rows -> 0 <= c < cols -> cell r c = Some bc -> P bc.

Lemma painter_cell (last0 : Z) (pre : list event) (r c : Z) (st : Z * T)
    (cells : list (Z * Z)) (closed : list nat) :
  0 <= r < rows -> 0 <= c < cols ->
  len cells = r * cols + c ->
  drop_newlines (view (snd st)) = pre ++ spec_paint last0 cells ->
  fst st = last_brightness_of last0 cells ->
  rows_of (view (snd st)) = (closed, Z.to_nat c) ->
  newlines (view (snd st)) = replicate (Z.to_nat r) CRLF ->
  Forall P cells ->
  exists st' bc,
    render_cell r c st = Some st' /\ cell r c = Some bc /\
    len (cells ++ [bc]) = r * cols + (c + 1) /\
    drop_newlines (view (snd st')) = pre ++ spec_paint last0 (cells ++ [bc]) /\
    fst st' = last_brightness_of last0 (cells ++ [bc]) /\
    rows_of (view (snd st')) = (closed, Z.to_nat (c + 1)) /\
    newlines (view (snd st')) = replicate (Z.to_nat r) CRLF /\
    Forall P (cells ++ [bc]).
Proof.
  intros Hr Hc Hlen Hout Hlast Hrows Hnl HP.
  destruct st as [last out]. cbn [fst snd] in *.
  destruct (cell_total r c Hr Hc) as [[b ch] Hbc].
  assert (Hlen' : len (cells ++ [(b, ch)]) = r * cols + (c + 1)).
  { unfold len in *. rewrite length_app. cbn. lia. }
  assert (HP' : Forall P (cells ++ [(b, ch)])).
  { apply Forall_app. split; [done|]. constructor; [|constructor].
    by apply (cell_P r c). }
  assert (Hc1 : Z.to_nat (c + 1) = S (Z.to_nat c)) by lia.
  rewrite render_cell_eq, Hbc, bind_Some. cbn [fst snd].
  destruct (Z.eqb_spec b last) as [Heq|Hne]; cbn [negb].
  - exists (last, snoc out [Put ch]), (b, ch). cbn [fst snd].
    rewrite view_snoc.
    split; [done|]. split; [done|]. split; [done|]. split.
    { rewrite drop_newlines_app, Hout, spec_paint_snoc, <- Hlast.
      subst b. rewrite Z.eqb_refl. cbn. by rewrite <- app_assoc. }
    split; [by rewrite last_brightness_of_snoc|]. split.
    { rewrite rows_of_app, Hrows. cbn. by rewrite Hc1. }
    split; [|done]. rewrite newlines_app, Hnl. cbn. by rewrite app_nil_r.
  - exists (b, snoc out [SetColor b; Put ch]), (b, ch). cbn [fst snd].
    rewrite view_snoc.
    split; [done|]. split; [done|]. split; [done|]. split.
    { rewrite drop_newlines_app, Hout, spec_paint_snoc, <- Hlast.
      destruct (Z.eqb_spec b last); [done|]. cbn. by rewrite <- app_assoc. }
    split; [by rewrite last_brightness_of_snoc|]. split.
    { rewrite rows_of_app, Hrows. cbn. by rewrite Hc1. }
    split; [|done]. rewrite newlines_app, Hnl. cbn. by rewrite app_nil_r.
Qed.

Lemma painter_frame (last0 : Z) (pre : T) :
  rows_of (view pre) = ([], 0%nat) -> newlines (view pre) = [] ->
  exists st cells,
    for_upto rows (fun r st =>
        st ← for_upto cols (render_cell r) st;
        if r <? rows - 1 then Some (fst st, endrow r (snd st)) else Some st)
      (last0, pre) = Some st /\
    for_upto rows (fun r acc =>
        for_upto cols (fun c acc => bc ← cell r c; Some (acc ++ [bc])) acc) []
      = Some cells /\
    len cells = rows * cols /\
    drop_newlines (view (snd st)) = view pre ++ spec_paint last0 cells /\
    rows_of (view (snd st)) =
      (replicate (Z.to_nat (rows - 1)) (Z.to_nat cols), Z.to_nat cols) /\
    newlines (view (snd st)) = replicate (Z.to_nat (rows - 1)) CRLF /\
    Forall P cells.
Proof.
  intros Hpre Hnl0.
  destruct (for_upto_sim
    (fun r (st : Z * T) (cells : list (Z * Z)) =>
       len cells = r * cols /\
       drop_newlines (view (snd st)) = view pre ++ spec_paint last0 cells /\
       fst st = last_brightness_of last0 cells /\
       rows_of (view (snd st)) =
         (replicate (Z.to_nat (Z.min r (rows - 1))) (Z.to_nat cols),
          if r =? rows then Z.to_nat cols else 0%nat) /\
       newlines (view (snd st)) =
         replicate (Z.to_nat (Z.min r (rows - 1))) CRLF /\
       Forall P cells)
    (fun r st =>
        st ← for_upto cols (render_cell r) st;
        if r <? rows - 1 then Some (fst st, endrow r (snd st)) else Some st)
    (fun r acc =>
        for_upto cols (fun c acc => bc ← cell r c; Some (acc ++ [bc])) acc)
    rows (last0, pre) [])
    as (st & cells & Hst & Hcells & Hlen & Hout & _ & Hrows & Hnl & HP).
  - lia.
  - cbn [fst snd]. split; [done|]. split.
    { cbn. rewrite app_nil_r. by apply drop_newlines_id. }
    split; [done|].
    destruct (Z.eqb_spec 0 rows); [lia|].
    replace (Z.to_nat (Z.min 0 (rows - 1))) with 0%nat by lia. cbn.
    split; [done|]. split; [done|]. constructor.
  - intros r st acc Hr (Hlen & Hout & Hlast & Hrows & Hnl & HP).
    destruct (Z.eqb_spec r rows); [lia|].
    replace (Z.min r (rows - 1)) with r in * by lia.
    destruct (for_upto_sim
      (fun c (st : Z * T) (cells : list (Z * Z)) =>
         len cells = r * cols + c /\
         drop_newlines (view (snd st)) = view pre ++ spec_paint last0 cells /\
         fst st = last_brightness_of last0 cells /\
         rows_of (view (snd st)) =
           (replicate (Z.to_nat r) (Z.to_nat cols), Z.to_nat c) /\
         newlines (view (snd st)) = replicate (Z.to_nat r) CRLF /\
         Forall P cells)
      (render_cell r)
      (fun c acc => bc ← cell r c; Some (acc ++ [bc]))
      cols st acc)
      as (st' & acc' & Hst' & Hacc' & Hlen' & Hout' & Hlast' & Hrows' & Hnl' & HP').
    + lia.
    + rewrite Z.add_0_r. done.
    + intros c st0 acc0 Hc (H1 & H2 & H3 & H4 & H5 & H6).
      destruct (painter_cell last0 (view pre) r c st0 acc0 _ Hr Hc H1 H2 H3 H4 H5 H6)
        as (st1 & bc & E1 & E2 & E3 & E4 & E5 & E6 & E7 & E8).
      exists st1, (acc0 ++ [bc]). rewrite E2, bind_Some. done.
    + rewrite Hst', Hacc', bind_Some.
      assert (Hlen2 : len acc' = (r + 1) * cols) by lia.
      destruct (Z.ltb_spec r (rows - 1)) as [Hlt|Hge].
      * exists (fst st', endrow r (snd st')), acc'. cbn [fst snd].
        rewrite view_endrow.
        split; [done|]. split; [done|]. split; [done|]. split.
        { rewrite drop_newlines_app, Hout'. cbn. by rewrite app_nil_r. }
        split; [done|].
        destruct (Z.eqb_spec (r + 1) rows); [lia|].
        replace (Z.min (r + 1) (rows - 1)) with (r + 1) by lia.
        replace (Z.to_nat (r + 1)) with (S (Z.to_nat r)) by lia.
        split.
        { rewrite rows_of_app, Hrows', replicate_S_end. done. }
        split; [|done]. rewrite newlines_app, Hnl', replicate_S_end. done.
      * exists st', acc'. split; [done|]. split; [done|].
        split; [done|]. split; [done|]. split; [done|].
        assert (r + 1 = rows) as Hlast_row by lia.
        destruct (Z.eqb_spec (r + 1) rows); [|lia].
        replace (Z.min (r + 1) (rows - 1)) with r by lia. done.
  - exists st, cells. rewrite Z.eqb_refl in Hrows.
    replace (Z.min rows (rows - 1)) with (rows - 1) in * by lia. done.
Qed.

End FramePainter.

(** The frames of the sketches that end their rows with CR LF. *)
Lemma painter_frame_crlf (rows cols : Z) (cell : Z -> Z -> option (Z * Z))
    (render_cell : Z -> Z -> Z * list event -> option (Z * list event))
    (P : Z * Z -> Prop) :
  0 < rows -> 0 <= cols ->
  (forall r c last out,
     render_cell r c (last, out) =
     (bc ← cell r c;
      if negb (fst bc =? last)
      then Some (fst bc, out ++ [SetColor (fst bc); Put (snd bc)])
      else Some (last, out ++ [Put (snd bc)]))) ->
  (forall r c, 0 <= r < rows -> 0 <= c < cols -> exists bc, cell r c = Some bc) ->
  (forall r c bc, 0 <= r < rows -> 0 <= c < cols -> cell r c = Some bc -> P bc) ->
  forall (last0 : Z) (pre : list event),
  rows_of pre = ([], 0%nat) -> newlines pre = [] ->
  exists st cells,
    for_upto rows (fun r st =>
        st ← for_upto cols (render_cell r) st;
        if r <? rows - 1 then Some (fst st, snd st ++ [CRLF]) else Some st)
      (last0, pre) = Some st /\
    for_upto rows (fun r acc =>
        for_upto cols (fun c acc => bc ← cell r c; Some (acc ++ [bc])) acc) []
      = Some cells /\
    len cells = rows * cols /\
    drop_newlines (snd st) = pre ++ spec_paint last0 cells /\
    rows_of (snd st) =
      (replicate (Z.to_nat (rows - 1)) (Z.to_nat cols), Z.to_nat cols) /\
    newlines (snd st) = replicate (Z.to_nat (rows - 1)) CRLF /\
    Forall P cells.
Proof.
  intros Hrows Hcols Heq Htot HP last0 pre Hpre Hnl.
  exact (painter_frame (fun t es => t ++ es) (fun _ t => t ++ [CRLF])
           (fun t => t) rows cols cell render_cell P
           (fun _ _ => eq_refl) (fun _ _ => eq_refl)
           Hrows Hcols Heq Htot HP last0 pre Hpre Hnl).
Qed.

(** The characters on each row of a frame whose rows are all of one
    length. *)
Lemma row_lengths_full (out : list event) (n m : nat) :
  rows_of out = (replicate n m, m) ->
  row_lengths (out ++ [ResetColor]) = replicate (S n) m.
Proof.
  intros H. unfold row_lengths. rewrite rows_of_app, H, replicate_S_end. done.
Qed.

(** ** More on loops *)

(** A scan that leaves with a result found it at some index, all probes
    before that having declined. *)
Lemma scan_range_found {R : Type} (probe : Z -> option (option R)) :
  forall (n : nat) (i : Z) (x : R),
    scan_range n i probe = Some (Some x) ->
    exists k, i <= k < i + Z.of_nat n /\ probe k = Some (Some x) /\
              forall j, i <= j < k -> probe j = Some None.
Proof.
  induction n as [|n IH]; intros i x H; [discriminate|].
  cbn [scan_range] in H. destruct (probe i) as [[y|]|] eqn:Hp; cbn in H.
  - assert (y = x) by congruence. subst y.
    exists i. split; [lia|]. split; [done|]. intros j Hj. lia.
  - destruct (IH (i + 1) x H) as (k & Hk & Hpk & Hb).
    exists k. split; [lia|]. split; [done|].
    intros j Hj. destruct (Z.eq_dec j i) as [->|]; [done|]. apply Hb. lia.
  - discriminate.
Qed.

Lemma scan_upto_found {R : Type} (probe : Z -> option (option R)) (n : Z) (x : R) :
  scan_upto n probe = Some (Some x) ->
  exists k, 0 <= k < n /\ probe k = Some (Some x) /\
            forall j, 0 <= j < k -> probe j = Some None.
Proof.
  intros H. destruct (scan_range_found probe _ _ _ H) as (k & Hk & ? & ?).
  exists k. split; [lia|]. done.
Qed.

(** A scan that runs to its end was declined by every probe. *)
Lemma scan_range_declined {R : Type} (probe : Z -> option (option R)) :
  forall (n : nat) (i : Z),
    scan_range n i probe = Some None ->
    forall k, i <= k < i + Z.of_nat n -> probe k = Some None.
Proof.
  induction n as [|n IH]; intros i H k Hk; [lia|].
  cbn [scan_range] in H. destruct (probe i) as [[y|]|] eqn:Hp; cbn in H;
    try discriminate.
  destruct (Z.eq_dec k i) as [->|]; [done|]. apply (IH (i + 1) H). lia.
Qed.

Lemma scan_upto_declined {R : Type} (probe : Z -> option (option R)) (n : Z) :
  scan_upto n probe = Some None ->
  forall k, 0 <= k < n -> probe k = Some None.
Proof.
  intros H k Hk. apply (scan_range_declined probe _ _ H). lia.
Qed.

Lemma rd_map {A B : Type} (f : A -> B) (l : list A) (i : Z) :
  rd (map f l) i = f <$> rd l i.
Proof.
  unfold rd. destruct (0 <=? i); [|done]. apply list_lookup_fmap.
Qed.

Lemma rd_replicate {A : Type} (n : nat) (x : A) (i : Z) :
  rd (replicate n x) i = if (0 <=? i) && (i <? Z.of_nat n) then Some x else None.
Proof.
  unfold rd. destruct (Z.leb_spec 0 i); cbn [andb]; [|done].
  destruct (Z.ltb_spec i (Z.of_nat n)).
  - apply lookup_replicate_2. lia.
  - apply lookup_replicate_None. lia.
Qed.

Lemma len_map {A B : Type} (f : A -> B) (l : list A) : len (map f l) = len l.
Proof. unfold len. by rewrite length_map. Qed.

Lemma len_replicate {A : Type} (n : nat) (x : A) : len (replicate n x) = Z.of_nat n.
Proof. unfold len. by rewrite length_replicate. Qed.

(** A loop that rewrites every element of an array in place. *)
Lemma map_loop {A : Type} (f : A -> A) (l : list A) (n : Z) :
  len l = n ->
  for_upto n (fun i l => x ← rd l i; wr l i (f x)) l = Some (map f l).
Proof.
  intros Hl.
  destruct (for_upto_inv
    (fun k t => len t = n /\
       forall i, rd t i = if i <? k then f <$> rd l i else rd l i)
    (fun i l => x ← rd l i; wr l i (f x)) n l) as (t & Ht & Hlt & Hrd).
  - rewrite <- Hl. apply len_nonneg.
  - split; [done|]. intros i. destruct (Z.ltb_spec i 0); [|done].
    rewrite rd_out_of_range; [done|lia].
  - intros k t Hk (Hlt & Hrd).
    destruct (rd_in_range t k) as [x Hx]; [lia|].
    rewrite Hx, bind_Some.
    destruct (wr_total t k (f x)) as [t' Hw]; [lia|].
    exists t'. split; [done|]. split; [by rewrite (wr_len _ _ _ _ Hw)|].
    intros i. rewrite (rd_wr _ _ _ _ _ Hw).
    destruct (Z.eqb_spec i k) as [->|Hne].
    + destruct (Z.ltb_spec k (k + 1)); [|lia].
      specialize (Hrd k). destruct (Z.ltb_spec k k); [lia|].
      rewrite <- Hrd, Hx. done.
    + rewrite Hrd. destruct (Z.ltb_spec i k), (Z.ltb_spec i (k + 1)); (done || lia).
  - rewrite Ht. f_equal. apply rd_ext. intros i. rewrite Hrd, rd_map.
    destruct (Z.ltb_spec i n); [done|].
    rewrite rd_out_of_range; [done|lia].
Qed.

(** A loop that stores one value in every element of an array. *)
Lemma fill_loop {A : Type} (v : A) (l : list A) (n : Z) :
  len l = n ->
  for_upto n (fun i l => wr l i v) l = Some (replicate (Z.to_nat n) v).
Proof.
  intros Hl.
  destruct (for_upto_inv
    (fun k t => len t = n /\
       forall i, rd t i = if i <? k then (fun _ => v) <$> rd l i else rd l i)
    (fun i l => wr l i v) n l) as (t & Ht & Hlt & Hrd).
  - rewrite <- Hl. apply len_nonneg.
  - split; [done|]. intros i. destruct (Z.ltb_spec i 0); [|done].
    rewrite rd_out_of_range; [done|lia].
  - intros k t Hk (Hlt & Hrd).
    destruct (wr_total t k v) as [t' Hw]; [lia|].
    exists t'. split; [done|]. split; [by rewrite (wr_len _ _ _ _ Hw)|].
    intros i. rewrite (rd_wr _ _ _ _ _ Hw).
    destruct (Z.eqb_spec i k) as [->|Hne].
    + destruct (Z.ltb_spec k (k + 1)); [|lia].
      destruct (rd_in_range l k) as [x ->]; [lia|]. done.
    + rewrite Hrd. destruct (Z.ltb_spec i k), (Z.ltb_spec i (k + 1)); (done || lia).
  - rewrite Ht. f_equal. apply rd_ext. intros i. rewrite Hrd, rd_replicate.
    destruct (Z.ltb_spec i n).
    + destruct (Z.leb_spec 0 i).
      * destruct (rd_in_range l i) as [x ->]; [lia|].
        destruct (Z.ltb_spec i (Z.of_nat (Z.to_nat n))); [done|lia].
      * rewrite rd_out_of_range; [done|lia].
    + rewrite rd_out_of_range by lia.
      destruct (Z.leb_spec 0 i); [|done].
      destruct (Z.ltb_spec i (Z.of_nat (Z.to_nat n))); [lia|done].
Qed.

(** ** Case analysis on the tests of a branch *)

Ltac split_if :=
  match goal with
  | |- context [negb (?a =? ?b)] => destruct (Z.eqb_spec a b)
  | |- context [if ?a =? ?b then _ else _] => destruct (Z.eqb_spec a b)
  | |- context [if ?a <? ?b then _ else _] => destruct (Z.ltb_spec a b)
  | |- context [if ?a <=? ?b then _ else _] => destruct (Z.leb_spec a b)
  end.

Ltac split_ifs :=
  repeat (split_if;
          cbn [negb andb orb col head trail speed age rng boost
               set_head set_age set_rng set_boost] in *).

(** ** Packed brightness *)

Lemma u8_pow (x : Z) : u8 x = x mod 2 ^ 8.
Proof. reflexivity. Qed.

Lemma u16_pow (x : Z) : u16 x = x mod 2 ^ 16.
Proof. reflexivity. Qed.

(** [2 * slot] for a literal slot. *)
Ltac eval_double :=
  repeat match goal with
  | |- context [2 * ?k] =>
      let v := eval vm_compute in (2 * k) in
      progress change (2 * k) with v
  end.

(** Evaluate the byte index and bit offset of a literal slot. *)
Ltac eval_index :=
  repeat match goal with
  | |- context [u8 (u16 (?n * 2) / 8)] =>
      let v := eval vm_compute in (u8 (u16 (n * 2) / 8)) in
      change (u8 (u16 (n * 2) / 8)) with v
  | |- context [u8 (u16 (?n * 2) mod 8)] =>
      let v := eval vm_compute in (u8 (u16 (n * 2) mod 8)) in
      change (u8 (u16 (n * 2) mod 8)) with v
  | |- context [u8 (Z.shiftr (u16 (?n * 2)) 3)] =>
      let v := eval vm_compute in (u8 (Z.shiftr (u16 (n * 2)) 3)) in
      change (u8 (Z.shiftr (u16 (n * 2)) 3)) with v
  | |- context [u8 (Z.land (u16 (?n * 2)) 7)] =>
      let v := eval vm_compute in (u8 (Z.land (u16 (n * 2)) 7)) in
      change (u8 (Z.land (u16 (n * 2)) 7)) with v
  end.

Section Row4.
Context {A : Type} (a b c d : A).

Lemma rd4_0 : rd [a; b; c; d] 0 = Some a. Proof. reflexivity. Qed.
Lemma rd4_1 : rd [a; b; c; d] 1 = Some b. Proof. reflexivity. Qed.
Lemma rd4_2 : rd [a; b; c; d] 2 = Some c. Proof. reflexivity. Qed.
Lemma rd4_3 : rd [a; b; c; d] 3 = Some d. Proof. reflexivity. Qed.
Lemma wr4_0 x : wr [a; b; c; d] 0 x = Some [x; b; c; d]. Proof. reflexivity. Qed.
Lemma wr4_1 x : wr [a; b; c; d] 1 x = Some [a; x; c; d]. Proof. reflexivity. Qed.
Lemma wr4_2 x : wr [a; b; c; d] 2 x = Some [a; b; x; d]. Proof. reflexivity. Qed.
Lemma wr4_3 x : wr [a; b; c; d] 3 x = Some [a; b; c; x]. Proof. reflexivity. Qed.
End Row4.

Ltac slot_compute :=
  eval_index;
  change (0 + 1) with 1; change (1 + 1) with 2; change (2 + 1) with 3;
  repeat (rewrite ?rd4_0, ?rd4_1, ?rd4_2, ?rd4_3,
                  ?wr4_0, ?wr4_1, ?wr4_2, ?wr4_3, ?bind_Some).

Lemma land3_range (v : Z) : 0 <= Z.land v 3 <= 3.
Proof.
  change 3 with (Z.ones 2) at 1 2. rewrite Z.land_ones by lia.
  pose proof (Z.mod_pos_bound v (2 ^ 2) ltac:(lia)). lia.
Qed.

Lemma land3_small (v : Z) : 0 <= v <= 3 -> Z.land v 3 = v.
Proof.
  intros H. change 3 with (Z.ones 2). rewrite Z.land_ones by lia.
  apply Z.mod_small. lia.
Qed.

Lemma row_ok_inv (row : list Z) :
  row_ok row = true ->
  exists b0 b1 b2 b3, row = [b0; b1; b2; b3] /\
    0 <= b0 < 256 /\ 0 <= b1 < 256 /\ 0 <= b2 < 256 /\ 0 <= b3 < 256.
Proof.
  unfold row_ok, len. rewrite andb_true_iff. intros [Hl Hb].
  apply Z.eqb_eq in Hl.
  destruct row as [|b0 [|b1 [|b2 [|b3 [|? ?]]]]]; cbn in Hl; try lia.
  exists b0, b1, b2, b3. split; [done|].
  cbn in Hb. unfold is_byte in Hb. rewrite !andb_true_iff in Hb. lia.
Qed.

Lemma row_ok_intro (b0 b1 b2 b3 : Z) :
  0 <= b0 < 256 -> 0 <= b1 < 256 -> 0 <= b2 < 256 -> 0 <= b3 < 256 ->
  row_ok [b0; b1; b2; b3] = true.
Proof.
  intros. unfold row_ok, is_byte. cbn. rewrite !andb_true_iff.
  repeat split; lia.
Qed.

Lemma slot_cases (slot : Z) :
  0 <= slot < 12 ->
  slot = 0 \/ slot = 1 \/ slot = 2 \/ slot = 3 \/ slot = 4 \/ slot = 5 \/
  slot = 6 \/ slot = 7 \/ slot = 8 \/ slot = 9 \/ slot = 10 \/ slot = 11.
Proof. lia. Qed.

(** Byte index and bit offset of a slot, as the sketches compute them. *)
Lemma slot_index (slot : Z) :
  0 <= slot < 12 ->
  exists i off,
    u8 (u16 (slot * 2) / 8) = i /\ u8 (u16 (slot * 2) mod 8) = off /\
    u8 (Z.shiftr (u16 (slot * 2)) 3) = i /\
    u8 (Z.land (u16 (slot * 2)) 7) = off /\
    (i = 0 \/ i = 1 \/ i = 2) /\
    (off = 0 \/ off = 2 \/ off = 4 \/ off = 6) /\
    2 * slot = 8 * i + off.
Proof.
  intros Hs.
  destruct (slot_cases slot Hs) as [H|[H|[H|[H|[H|[H|[H|[H|[H|[H|[H|H]]]]]]]]]]];
    subst slot; eexists _, _; (do 4 (split; [vm_compute; reflexivity|])); lia.
Qed.

Ltac bits_neg :=
  repeat match goal with
  | |- context [Z.testbit ?x ?l] =>
      let H := fresh in
      assert (H : l < 0) by lia;
      rewrite (Z.testbit_neg_r x l H); clear H
  end.

Ltac bits :=
  rewrite ?u8_pow, ?u16_pow;
  change 3 with (Z.ones 2);
  Z.bitblast; repeat (progress Z.bitblast_core);
  bits_neg; try btauto.

Module Window16Facts.
Import Window16.

(** Reading a slot is reading two bits of the row's number. *)
Lemma w16_get_bright_row_word (c0 c1 c2 c3 slot : Z) :
  0 <= slot < 12 ->
  get_bright_row [u8 c0; u8 c1; u8 c2; u8 c3] slot =
  Some (Z.land (Z.shiftr (word_of [u8 c0; u8 c1; u8 c2; u8 c3]) (2 * slot)) 3).
Proof.
  intros Hs. unfold get_bright_row.
  destruct (slot_index slot Hs) as (i & off & -> & -> & _ & _ & Hi & Hoff & ->).
  assert (Ho : 0 <= off <= 6) by lia. clear Hoff Hs.
  destruct Hi as [-> | [-> | ->]]; slot_compute; cbn [word_of]; f_equal.
  all: change (8 * 0 + off) with off.
  all: bits.
Qed.

(** Writing a slot replaces two bits of the row's number. *)
Lemma w16_set_bright_row_word (c0 c1 c2 c3 slot v : Z) :
  0 <= slot < 12 ->
  exists d0 d1 d2 d3,
    set_bright_row [u8 c0; u8 c1; u8 c2; u8 c3] slot v =
      Some [u8 d0; u8 d1; u8 d2; u8 d3] /\
    word_of [u8 d0; u8 d1; u8 d2; u8 d3] =
      Z.lor (Z.land (word_of [u8 c0; u8 c1; u8 c2; u8 c3])
                    (Z.lnot (Z.shiftl 3 (2 * slot))))
            (Z.shiftl (Z.land v 3) (2 * slot)).
Proof.
  intros Hs. unfold set_bright_row.
  destruct (slot_index slot Hs) as (i & off & -> & -> & _ & _ & Hi & Hoff & ->).
  assert (Ho : 0 <= off <= 6) by lia. clear Hoff Hs.
  destruct Hi as [-> | [-> | ->]]; slot_compute;
    eexists _, _, _, _; (split; [reflexivity|]); cbn [word_of].
  all: change (8 * 0 + off) with off.
  all: bits.
Qed.

End Window16Facts.

Lemma bytes_as_u8 (b0 b1 b2 b3 : Z) :
  0 <= b0 < 256 -> 0 <= b1 < 256 -> 0 <= b2 < 256 -> 0 <= b3 < 256 ->
  [b0; b1; b2; b3] = [u8 b0; u8 b1; u8 b2; u8 b3].
Proof. intros. by rewrite !u8_small. Qed.

(** Everything the sketches need from a packing follows from the two
    facts that reading and writing a slot act on two bits of the row's
    number. *)
Section Packing.
Context (get_row : list Z -> Z -> option Z)
        (set_row : list Z -> Z -> Z -> option (list Z))
        (get_slot : list (list Z) -> Z -> Z -> option Z)
        (set_slot : list (list Z) -> Z -> Z -> Z -> option (list (list Z))).
Hypothesis get_word : forall c0 c1 c2 c3 slot,
  0 <= slot < 12 ->
  get_row [u8 c0; u8 c1; u8 c2; u8 c3] slot =
  Some (Z.land (Z.shiftr (word_of [u8 c0; u8 c1; u8 c2; u8 c3]) (2 * slot)) 3).
Hypothesis set_word : forall c0 c1 c2 c3 slot v,
  0 <= slot < 12 ->
  exists d0 d1 d2 d3,
    set_row [u8 c0; u8 c1; u8 c2; u8 c3] slot v =
      Some [u8 d0; u8 d1; u8 d2; u8 d3] /\
    word_of [u8 d0; u8 d1; u8 d2; u8 d3] =
      Z.lor (Z.land (word_of [u8 c0; u8 c1; u8 c2; u8 c3])
                    (Z.lnot (Z.shiftl 3 (2 * slot))))
            (Z.shiftl (Z.land v 3) (2 * slot)).
Hypothesis get_slot_eq : forall packed i slot,
  get_slot packed i slot = (row ← rd packed i; get_row row slot).
Hypothesis set_slot_eq : forall packed i slot v,
  set_slot packed i slot v =
  (row ← rd packed i; row' ← set_row row slot v; wr packed i row').

Lemma packing_get_row_ok (row : list Z) (slot : Z) :
  row_ok row = true -> 0 <= slot < 12 ->
  get_row row slot = Some (Z.land (Z.shiftr (word_of row) (2 * slot)) 3).
Proof.
  intros Hrow Hs.
  destruct (row_ok_inv row Hrow) as (b0 & b1 & b2 & b3 & -> & ? & ? & ? & ?).
  rewrite (bytes_as_u8 b0 b1 b2 b3) by done.
  by apply get_word.
Qed.

Lemma packing_set_row_ok (row : list Z) (slot v : Z) :
  row_ok row = true -> 0 <= slot < 12 ->
  exists row', set_row row slot v = Some row' /\
    row_ok row' = true /\
    word_of row' =
      Z.lor (Z.land (word_of row) (Z.lnot (Z.shiftl 3 (2 * slot))))
            (Z.shiftl (Z.land v 3) (2 * slot)).
Proof.
  intros Hrow Hs.
  destruct (row_ok_inv row Hrow) as (b0 & b1 & b2 & b3 & -> & ? & ? & ? & ?).
  rewrite (bytes_as_u8 b0 b1 b2 b3) by done.
  destruct (set_word b0 b1 b2 b3 slot v Hs) as (d0 & d1 & d2 & d3 & -> & Hw).
  eexists. split; [reflexivity|]. split; [|done].
  apply row_ok_intro; apply u8_range.
Qed.

(** What was written is read back. *)
Lemma packing_get_set_row_same (row : list Z) (slot v : Z) :
  row_ok row = true -> 0 <= slot < 12 ->
  exists row', set_row row slot v = Some row' /\
    row_ok row' = true /\
    get_row row' slot = Some (Z.land v 3).
Proof.
  intros Hrow Hs.
  destruct (packing_set_row_ok row slot v Hrow Hs) as (row' & Hset & Hok & Hw).
  exists row'. do 2 (split; [done|]).
  rewrite (packing_get_row_ok row' slot Hok Hs), Hw. f_equal.
  change 3 with (Z.ones 2).
  Z.bitblast; repeat (progress Z.bitblast_core).
Qed.

(** The other slots keep their value. *)
Lemma packing_get_set_row_other (row row' : list Z) (slot slot' v : Z) :
  row_ok row = true -> 0 <= slot < 12 -> 0 <= slot' < 12 -> slot' <> slot ->
  set_row row slot v = Some row' ->
  get_row row' slot' = get_row row slot'.
Proof.
  intros Hrow Hs Hs' Hne Hset.
  destruct (packing_set_row_ok row slot v Hrow Hs) as (row1 & Hset1 & Hok & Hw).
  assert (row1 = row') by congruence. subst row1.
  rewrite (packing_get_row_ok row' slot' Hok Hs'), Hw.
  rewrite (packing_get_row_ok row slot' Hrow Hs'). f_equal.
  change 3 with (Z.ones 2).
  Z.bitblast; repeat (progress Z.bitblast_core).
Qed.

(** On a well-formed table every slot reads as a value from 0 to 3. *)
Lemma packing_get_slot_total (n : Z) (packed : list (list Z)) (i slot : Z) :
  packed_ok n packed -> 0 <= i < n -> 0 <= slot < 12 ->
  exists v, get_slot packed i slot = Some v /\ 0 <= v <= 3.
Proof.
  intros [Hl Hrows] Hi Hs. rewrite get_slot_eq.
  destruct (rd_in_range packed i) as [row Hrow]; [lia|].
  rewrite Hrow, bind_Some, (packing_get_row_ok row slot (Hrows i row Hrow) Hs).
  eexists. split; [reflexivity|]. apply land3_range.
Qed.

(** A write never faults on a well-formed table and leaves it
    well-formed; it is read back, and nothing else changes. *)
Lemma packing_set_slot_total (n : Z) (packed : list (list Z)) (i slot v : Z) :
  packed_ok n packed -> 0 <= i < n -> 0 <= slot < 12 ->
  exists packed', set_slot packed i slot v = Some packed' /\
    packed_ok n packed' /\
    get_slot packed' i slot = Some (Z.land v 3) /\
    (forall j slot', 0 <= slot' < 12 -> (j <> i \/ slot' <> slot) ->
       get_slot packed' j slot' = get_slot packed j slot').
Proof.
  intros [Hl Hrows] Hi Hs. rewrite set_slot_eq.
  destruct (rd_in_range packed i) as [row Hrow]; [lia|].
  rewrite Hrow, bind_Some.
  destruct (packing_get_set_row_same row slot v (Hrows i row Hrow) Hs)
    as (row' & Hset & Hok & Hget).
  rewrite Hset, bind_Some.
  destruct (wr_total packed i row') as [packed' Hw]; [lia|].
  exists packed'. split; [done|]. split; [|split].
  - split; [by rewrite (wr_len _ _ _ _ Hw)|].
    intros j rj Hrj. rewrite (rd_wr _ _ _ _ _ Hw) in Hrj.
    destruct (Z.eqb_spec j i); [congruence|eauto].
  - rewrite get_slot_eq, (rd_wr_eq _ _ _ _ Hw), bind_Some. done.
  - intros j slot' Hs' Hne. rewrite !get_slot_eq, (rd_wr _ _ _ _ _ Hw).
    destruct (Z.eqb_spec j i) as [->|Hji]; [|done].
    rewrite Hrow, !bind_Some.
    destruct Hne as [|Hne]; [done|].
    apply (packing_get_set_row_other row row' slot slot' v); eauto.
Qed.
End Packing.

(** Storing a byte keeps a row well-formed. *)
Lemma row_ok_wr (row row' : list Z) (k x : Z) :
  row_ok row = true -> 0 <= x < 256 -> wr row k x = Some row' ->
  row_ok row' = true.
Proof.
  unfold row_ok. rewrite !andb_true_iff. intros [Hl Hb] Hx Hw.
  split; [by rewrite (wr_len _ _ _ _ Hw)|].
  apply forallb_rd. intros i y Hy. rewrite (rd_wr _ _ _ _ _ Hw) in Hy.
  rewrite forallb_rd in Hb.
  destruct (Z.eqb_spec i k).
  - injection Hy as <-. unfold is_byte. rewrite andb_true_iff. lia.
  - eauto.
Qed.

(** [bp[i][b] = 0] on a well-formed table. *)
Lemma packed_ok_wr2 (n : Z) (bp : list (list Z)) (i b x : Z) :
  packed_ok n bp -> 0 <= i < n -> 0 <= b < 4 -> 0 <= x < 256 ->
  exists bp', wr2 bp i b x = Some bp' /\ packed_ok n bp'.
Proof.
  intros [Hl Hrows] Hi Hb Hx. unfold wr2.
  destruct (rd_in_range bp i) as [row Hrow]; [lia|].
  rewrite Hrow, bind_Some.
  pose proof (Hrows i row Hrow) as Hok.
  assert (Hlen : len row = 4).
  { unfold row_ok in Hok. rewrite andb_true_iff in Hok. lia. }
  destruct (wr_total row b x) as [row' Hw]; [lia|].
  rewrite Hw, bind_Some.
  destruct (wr_total bp i row') as [bp' Hw']; [lia|].
  exists bp'. split; [done|]. split; [by rewrite (wr_len _ _ _ _ Hw')|].
  intros j rj Hrj. rewrite (rd_wr _ _ _ _ _ Hw') in Hrj.
  destruct (Z.eqb_spec j i); [|eauto].
  injection Hrj as <-. eapply row_ok_wr; eauto.
Qed.

(** [ci[i][k] = x] on a well-formed table. *)
Lemma chars_ok_wr2 (n : Z) (ci : list (list Z)) (i k x : Z) :
  chars_ok n ci -> 0 <= i < n -> 0 <= k < 12 ->
  exists ci', wr2 ci i k x = Some ci' /\ chars_ok n ci'.
Proof.
  intros [Hl Hrows] Hi Hk. unfold wr2.
  destruct (rd_in_range ci i) as [row Hrow]; [lia|].
  rewrite Hrow, bind_Some.
  pose proof (Hrows i row Hrow) as Hlen.
  destruct (wr_total row k x) as [row' Hw]; [lia|].
  rewrite Hw, bind_Some.
  destruct (wr_total ci i row') as [ci' Hw']; [lia|].
  exists ci'. split; [done|]. split; [by rewrite (wr_len _ _ _ _ Hw')|].
  intros j rj Hrj. rewrite (rd_wr _ _ _ _ _ Hw') in Hrj.
  destruct (Z.eqb_spec j i); [|eauto].
  injection Hrj as <-. by rewrite (wr_len _ _ _ _ Hw).
Qed.

(** Replacing a whole row of [MAX_TRAIL] character indices. *)
Lemma chars_ok_wr (n : Z) (ci ci' : list (list Z)) (i : Z) (row : list Z) :
  chars_ok n ci -> len row = 12 -> wr ci i row = Some ci' -> chars_ok n ci'.
Proof.
  intros [Hl Hrows] Hlen Hw. split; [by rewrite (wr_len _ _ _ _ Hw)|].
  intros j rj Hrj. rewrite (rd_wr _ _ _ _ _ Hw) in Hrj.
  destruct (Z.eqb_spec j i); [congruence|eauto].
Qed.

(** Clearing the bytes of one row. *)
Lemma packed_ok_clear (n : Z) (bp : list (list Z)) (i : Z) :
  packed_ok n bp -> 0 <= i < n ->
  exists bp', for_upto 4 (fun b bp => wr2 bp i b 0) bp = Some bp' /\
              packed_ok n bp'.
Proof.
  intros Hok Hi. apply for_upto_preserves; [lia|done|].
  intros k t Hk Ht. apply packed_ok_wr2; (done || lia).
Qed.

Lemma packed_okb_spec (n : Z) (packed : list (list Z)) :
  packed_okb n packed = true <-> packed_ok n packed.
Proof.
  unfold packed_okb, packed_ok. by rewrite andb_true_iff, Z.eqb_eq, forallb_rd.
Qed.

Module Window16Slots.
Import Window16.

Lemma w16_get_slot_total (n : Z) (packed : list (list Z)) (i slot : Z) :
  packed_ok n packed -> 0 <= i < n -> 0 <= slot < 12 ->
  exists v, get_bright_slot packed i slot = Some v /\ 0 <= v <= 3.
Proof.
  apply (packing_get_slot_total get_bright_row get_bright_slot
           Window16Facts.w16_get_bright_row_word).
  reflexivity.
Qed.

Lemma w16_set_slot_total (n : Z) (packed : list (list Z)) (i slot v : Z) :
  packed_ok n packed -> 0 <= i < n -> 0 <= slot < 12 ->
  exists packed', set_bright_slot packed i slot v = Some packed' /\
    packed_ok n packed' /\
    get_bright_slot packed' i slot = Some (Z.land v 3) /\
    (forall j slot', 0 <= slot' < 12 -> (j <> i \/ slot' <> slot) ->
       get_bright_slot packed' j slot' = get_bright_slot packed j slot').
Proof.
  apply (packing_set_slot_total get_bright_row set_bright_row
           get_bright_slot set_bright_slot
           Window16Facts.w16_get_bright_row_word Window16Facts.w16_set_bright_row_word);
    reflexivity.
Qed.

Lemma w16_get_set_row_same (row : list Z) (slot v : Z) :
  row_ok row = true -> 0 <= slot < 12 ->
  exists row', set_bright_row row slot v = Some row' /\
    row_ok row' = true /\
    get_bright_row row' slot = Some (Z.land v 3).
Proof.
  apply (packing_get_set_row_same get_bright_row set_bright_row
           Window16Facts.w16_get_bright_row_word Window16Facts.w16_set_bright_row_word).
Qed.

End Window16Slots.

(** ** The tables of the drop-based sketches *)

Module CoreFacts.
Import Core.

Section Tables.
Context (nd nf : Z).
Implicit Types (ds : list Drop) (co : list bool) (fs : list FastDrop).

Lemma same_course_refl b d : same_course b d d.
Proof. unfold same_course. lia. Qed.

Lemma same_course_trans b d0 d1 d2 :
  same_course b d0 d1 -> same_course b d1 d2 -> same_course b d0 d2.
Proof. unfold same_course. lia. Qed.

Lemma same_course_ok b d0 d :
  0 <= b < 256 -> same_course b d0 d -> drop_ok d0 -> drop_ok d.
Proof.
  unfold same_course, drop_ok.
  intros Hb (-> & -> & -> & -> & -> & Hbo). lia.
Qed.

Lemma drop_ok_set_rng r d : drop_ok d -> drop_ok (set_rng r d).
Proof.
  destruct d as [c h t sp a g bo]. unfold drop_ok, set_rng.
  cbn [col head trail speed age boost]. done.
Qed.

(** A new Drop in an inactive slot and a free column. *)
Lemma tables_spawn ds co fs idx c d0 d ds' co' :
  tables_ok nd nf ds co fs ->
  rd ds idx = Some d0 -> head d0 = -1 ->
  rd co c = Some false ->
  drop_ok d -> head d <> -1 -> col d = c ->
  wr ds idx d = Some ds' -> wr co c true = Some co' ->
  tables_ok nd nf ds' co' fs.
Proof.
  intros [H1 H2 H3 H4 H5 H6 H7] Hd0 Hh0 Hfree Hok Hh Hcol Hwd Hwc.
  split.
  - by rewrite (wr_len _ _ _ _ Hwd).
  - by rewrite (wr_len _ _ _ _ Hwc).
  - done.
  - intros i di Hdi Hhi. rewrite (rd_wr _ _ _ _ _ Hwd) in Hdi.
    rewrite (rd_wr _ _ _ _ _ Hwc).
    destruct (Z.eqb_spec i idx) as [->|Hne].
    + injection Hdi as <-. rewrite Hcol, Z.eqb_refl. done.
    + destruct (H4 i di Hdi Hhi) as [Hokd Hflag]. split; [done|].
      destruct (Z.eqb_spec (col di) c) as [Heq|_]; [|done].
      rewrite Heq in Hflag. congruence.
  - intros i j di dj Hdi Hdj Hhi Hhj Hcc.
    rewrite (rd_wr _ _ _ _ _ Hwd) in Hdi.
    rewrite (rd_wr _ _ _ _ _ Hwd) in Hdj.
    destruct (Z.eqb_spec i idx) as [->|Hi], (Z.eqb_spec j idx) as [->|Hj].
    + done.
    + injection Hdi as <-. rewrite Hcol in Hcc.
      destruct (H4 j dj Hdj Hhj) as [_ Hflag]. congruence.
    + injection Hdj as <-. rewrite Hcol in Hcc.
      destruct (H4 i di Hdi Hhi) as [_ Hflag]. congruence.
    + eauto.
  - intros c' Hc'. rewrite (rd_wr _ _ _ _ _ Hwc) in Hc'.
    destruct (Z.eqb_spec c' c) as [Heq|Hne].
    + rewrite Heq. exists idx, d. rewrite (rd_wr_eq _ _ _ _ Hwd). done.
    + destruct (H6 c' Hc') as (i & di & Hdi & Hhi & Hci).
      exists i, di. rewrite (rd_wr _ _ _ _ _ Hwd).
      destruct (Z.eqb_spec i idx) as [->|_]; [congruence|done].
  - done.
Qed.

(** An active Drop is replaced by a well-formed one in the same column. *)
Lemma tables_move ds co fs i d d' ds' :
  tables_ok nd nf ds co fs ->
  rd ds i = Some d -> head d <> -1 ->
  drop_ok d' -> col d' = col d ->
  wr ds i d' = Some ds' ->
  tables_ok nd nf ds' co fs.
Proof.
  intros [H1 H2 H3 H4 H5 H6 H7] Hd Hh Hok Ec Hw.
  split; try done.
  - by rewrite (wr_len _ _ _ _ Hw).
  - intros j dj Hdj Hhj. rewrite (rd_wr _ _ _ _ _ Hw) in Hdj.
    destruct (Z.eqb_spec j i) as [->|Hne]; [|eauto].
    injection Hdj as <-. rewrite Ec.
    destruct (H4 i d Hd Hh) as [_ Hfl]. done.
  - intros j j' dj dj' Hdj Hdj' Hhj Hhj' Hcc.
    rewrite (rd_wr _ _ _ _ _ Hw) in Hdj.
    rewrite (rd_wr _ _ _ _ _ Hw) in Hdj'.
    destruct (Z.eqb_spec j i) as [->|Hj], (Z.eqb_spec j' i) as [->|Hj'].
    + done.
    + injection Hdj as <-. rewrite Ec in Hcc. symmetry. eapply H5; eauto.
    + injection Hdj' as <-. rewrite Ec in Hcc. eapply H5; eauto.
    + eauto.
  - intros c Hc. destruct (H6 c Hc) as (j & dj & Hdj & Hhj & Hcj).
    destruct (Z.eq_dec j i) as [->|Hne].
    + exists i, d'. rewrite (rd_wr_eq _ _ _ _ Hw).
      split; [done|]. destruct Hok as (? & _). split; [lia|congruence].
    + exists j, dj. by rewrite (rd_wr_ne _ _ _ _ _ Hw Hne).
Qed.

(** An active Drop is switched off and its column is freed. *)
Lemma tables_retire ds co fs i d d' ds' co' :
  tables_ok nd nf ds co fs ->
  rd ds i = Some d -> head d <> -1 -> head d' = -1 ->
  wr co (col d) false = Some co' ->
  wr ds i d' = Some ds' ->
  tables_ok nd nf ds' co' fs.
Proof.
  intros [H1 H2 H3 H4 H5 H6 H7] Hd Hh Hh' Hwc Hwd.
  split.
  - by rewrite (wr_len _ _ _ _ Hwd).
  - by rewrite (wr_len _ _ _ _ Hwc).
  - done.
  - intros j dj Hdj Hhj. rewrite (rd_wr _ _ _ _ _ Hwd) in Hdj.
    rewrite (rd_wr _ _ _ _ _ Hwc).
    destruct (Z.eqb_spec j i) as [->|Hne]; [congruence|].
    destruct (H4 j dj Hdj Hhj) as [Hokj Hfl]. split; [done|].
    destruct (Z.eqb_spec (col dj) (col d)) as [Heq|_]; [|done].
    exfalso. apply Hne. eapply H5; eauto.
  - intros j j' dj dj' Hdj Hdj' Hhj Hhj' Hcc.
    rewrite (rd_wr _ _ _ _ _ Hwd) in Hdj.
    rewrite (rd_wr _ _ _ _ _ Hwd) in Hdj'.
    destruct (Z.eqb_spec j i) as [->|Hj]; [congruence|].
    destruct (Z.eqb_spec j' i) as [->|Hj']; [congruence|].
    eauto.
  - intros c Hc. rewrite (rd_wr _ _ _ _ _ Hwc) in Hc.
    destruct (Z.eqb_spec c (col d)) as [Heq|Hne]; [discriminate|].
    destruct (H6 c Hc) as (j & dj & Hdj & Hhj & Hcj).
    exists j, dj. rewrite (rd_wr _ _ _ _ _ Hwd).
    destruct (Z.eqb_spec j i) as [->|_]; [|done].
    congruence.
  - done.
Qed.

Lemma tables_fast ds co fs k f fs' :
  tables_ok nd nf ds co fs ->
  wr fs k f = Some fs' ->
  (f_active f = true -> fast_ok f) ->
  tables_ok nd nf ds co fs'.
Proof.
  intros [H1 H2 H3 H4 H5 H6 H7] Hw Hok.
  split; try done.
  - by rewrite (wr_len _ _ _ _ Hw).
  - intros i fi Hfi Ha. rewrite (rd_wr _ _ _ _ _ Hw) in Hfi.
    destruct (Z.eqb_spec i k) as [->|Hne]; [|eauto].
    injection Hfi as <-. auto.
Qed.

(** A flag is set exactly when one active Drop, and no other, sits in
    the column. *)
Lemma tables_one_owner ds co fs c :
  tables_ok nd nf ds co fs ->
  (rd co c = Some true <->
   exists i d, rd ds i = Some d /\ head d <> -1 /\ col d = c /\
     forall j dj, rd ds j = Some dj -> head dj <> -1 -> col dj = c -> j = i).
Proof.
  intros [H1 H2 H3 H4 H5 H6 H7]. split.
  - intros Hc. destruct (H6 c Hc) as (i & d & Hd & Hh & Hcd).
    exists i, d. do 3 (split; [done|]).
    intros j dj Hdj Hhj Hcj. eapply H5; eauto. congruence.
  - intros (i & d & Hd & Hh & Hcd & _).
    destruct (H4 i d Hd Hh) as [_ Hfl]. congruence.
Qed.

(** The state of the tables before any spawn. *)
Lemma tables_initial ds co fs :
  len ds = nd -> len co = TERM_COLS -> len fs = nf ->
  forallb (fun d => head d =? -1) ds = true ->
  forallb negb co = true ->
  forallb (fun f => negb (f_active f)) fs = true ->
  tables_ok nd nf ds co fs.
Proof.
  intros H1 H2 H3 H4 H5 H6.
  rewrite forallb_rd in H4. rewrite forallb_rd in H5. rewrite forallb_rd in H6.
  split; try assumption.
  - intros i d Hd Hh. apply H4 in Hd. apply Z.eqb_eq in Hd. done.
  - intros i j di dj Hdi _ Hh. apply H4 in Hdi. apply Z.eqb_eq in Hdi. done.
  - intros c Hc. apply H5 in Hc. discriminate.
  - intros i f Hf Ha. apply H6 in Hf. rewrite Ha in Hf. discriminate.
Qed.
End Tables.

(** The column probed at offset [i] of a scan that starts at [st]. *)
Lemma probe_col_range (st i : Z) :
  0 <= u8 ((st + i) mod TERM_COLS) < TERM_COLS.
Proof.
  pose proof (Z.mod_pos_bound (st + i) TERM_COLS) as H.
  unfold TERM_COLS in *. rewrite u8_small; lia.
Qed.

(** The scan visits every column. *)
Lemma probe_col_cover (st c : Z) :
  0 <= c < TERM_COLS ->
  0 <= (c - st) mod TERM_COLS < TERM_COLS /\
  u8 ((st + (c - st) mod TERM_COLS) mod TERM_COLS) = c.
Proof.
  intros Hc. split.
  - apply Z.mod_pos_bound. unfold TERM_COLS; lia.
  - rewrite Zplus_mod_idemp_r. replace (st + (c - st)) with c by lia.
    rewrite (Z.mod_small c) by lia. apply u8_small.
    unfold TERM_COLS in *; lia.
Qed.

(** The search for a free column: it faults on no table of the declared
    size, and answers -1 only when every column is taken. *)
Lemma free_column_spec (co : list bool) (start_col : Z) :
  len co = TERM_COLS ->
  exists r,
    scan_upto TERM_COLS (fun i =>
      let c := u8 ((start_col + i) mod TERM_COLS) in
      b ← rd co c; Some (if negb b then Some c else None)) = Some r /\
    match r with
    | Some c => 0 <= c < TERM_COLS /\ rd co c = Some false
    | None => forall c b, rd co c = Some b -> b = true
    end.
Proof.
  intros Hl.
  match goal with |- context [scan_upto TERM_COLS ?p] =>
    destruct (scan_upto_spec p TERM_COLS) as (r & Hr & Hspec) end.
  { unfold TERM_COLS; lia. }
  { intros j Hj. cbv zeta.
    destruct (rd_in_range co (u8 ((start_col + j) mod TERM_COLS))) as [b Hb].
    { rewrite Hl. apply probe_col_range. }
    rewrite Hb. simpl. eauto. }
  exists r. split; [done|]. destruct r as [c|].
  - destruct Hspec as (j & Hj & Hpj & _). cbv zeta in Hpj.
    pose proof (probe_col_range start_col j) as Hc.
    destruct (rd_in_range co (u8 ((start_col + j) mod TERM_COLS))) as [b Hb];
      [lia|].
    rewrite Hb in Hpj. simpl in Hpj. destruct b; [discriminate|].
    simpl in Hpj. injection Hpj as <-. done.
  - intros c b Hb. pose proof (rd_Some_range _ _ _ Hb) as Hc.
    rewrite Hl in Hc.
    destruct (probe_col_cover start_col c Hc) as [Hm Hcov].
    specialize (Hspec _ Hm). cbv zeta in Hspec. rewrite Hcov, Hb in Hspec.
    simpl in Hspec. destruct b; [done|discriminate].
Qed.

(** The search for an occupied column. *)
Lemma occupied_column_spec (co : list bool) (start_col : Z) :
  len co = TERM_COLS ->
  exists r,
    scan_upto TERM_COLS (fun i =>
      let c := u8 ((start_col + i) mod TERM_COLS) in
      b ← rd co c; Some (if (b : bool) then Some c else None)) = Some r /\
    match r with
    | Some c => 0 <= c < TERM_COLS /\ rd co c = Some true
    | None => forall c b, rd co c = Some b -> b = false
    end.
Proof.
  intros Hl.
  match goal with |- context [scan_upto TERM_COLS ?p] =>
    destruct (scan_upto_spec p TERM_COLS) as (r & Hr & Hspec) end.
  { unfold TERM_COLS; lia. }
  { intros j Hj. cbv zeta.
    destruct (rd_in_range co (u8 ((start_col + j) mod TERM_COLS))) as [b Hb].
    { rewrite Hl. apply probe_col_range. }
    rewrite Hb. simpl. eauto. }
  exists r. split; [done|]. destruct r as [c|].
  - destruct Hspec as (j & Hj & Hpj & _). cbv zeta in Hpj.
    pose proof (probe_col_range start_col j) as Hc.
    destruct (rd_in_range co (u8 ((start_col + j) mod TERM_COLS))) as [b Hb];
      [lia|].
    rewrite Hb in Hpj. simpl in Hpj. destruct b; [|discriminate].
    injection Hpj as <-. done.
  - intros c b Hb. pose proof (rd_Some_range _ _ _ Hb) as Hc.
    rewrite Hl in Hc.
    destruct (probe_col_cover start_col c Hc) as [Hm Hcov].
    specialize (Hspec _ Hm). cbv zeta in Hspec. rewrite Hcov, Hb in Hspec.
    simpl in Hspec. destruct b; [discriminate|done].
Qed.

(** The search for an inactive slot. *)
Lemma inactive_slot_spec (ds : list Drop) (n : Z) :
  len ds = n ->
  exists r,
    scan_upto n (fun i =>
      d ← rd ds i; Some (if head d =? -1 then Some i else None)) = Some r /\
    match r with
    | Some i => 0 <= i < n /\ exists d, rd ds i = Some d /\ head d = -1
    | None => forall i d, rd ds i = Some d -> head d <> -1
    end.
Proof.
  intros Hl. pose proof (len_nonneg ds) as Hn. rewrite Hl in Hn.
  match goal with |- context [scan_upto n ?p] =>
    destruct (scan_upto_spec p n Hn) as (r & Hr & Hspec) end.
  { intros k Hk. destruct (rd_in_range ds k) as [d Hd]; [lia|].
    rewrite Hd. simpl. eauto. }
  exists r. split; [done|]. destruct r as [i|].
  - destruct Hspec as (k & Hk & Hpk & _).
    destruct (rd_in_range ds k) as [d Hd]; [lia|].
    rewrite Hd in Hpk. simpl in Hpk.
    destruct (Z.eqb_spec (head d) (-1)); [|discriminate].
    injection Hpk as <-. eauto.
  - intros i d Hd Hh. pose proof (rd_Some_range _ _ _ Hd) as Hi.
    rewrite Hl in Hi. specialize (Hspec i Hi). rewrite Hd in Hspec.
    simpl in Hspec. rewrite Hh in Hspec. discriminate.
Qed.

(** The search for a free fast slot. *)
Lemma free_fast_spec (fs : list FastDrop) (n : Z) :
  len fs = n ->
  exists r,
    scan_upto n (fun i =>
      f ← rd fs i; Some (if negb (f_active f) then Some i else None)) = Some r /\
    match r with
    | Some i => 0 <= i < n /\ exists f, rd fs i = Some f /\ f_active f = false
    | None => forall i f, rd fs i = Some f -> f_active f = true
    end.
Proof.
  intros Hl. pose proof (len_nonneg fs) as Hn. rewrite Hl in Hn.
  match goal with |- context [scan_upto n ?p] =>
    destruct (scan_upto_spec p n Hn) as (r & Hr & Hspec) end.
  { intros k Hk. destruct (rd_in_range fs k) as [f Hf]; [lia|].
    rewrite Hf. simpl. eauto. }
  exists r. split; [done|]. destruct r as [i|].
  - destruct Hspec as (k & Hk & Hpk & _).
    destruct (rd_in_range fs k) as [f Hf]; [lia|].
    rewrite Hf in Hpk. simpl in Hpk.
    destruct (f_active f) eqn:Ha; [discriminate|].
    injection Hpk as <-. eauto.
  - intros i f Hf. pose proof (rd_Some_range _ _ _ Hf) as Hi.
    rewrite Hl in Hi. specialize (Hspec i Hi). rewrite Hf in Hspec.
    simpl in Hspec. destruct (f_active f); [done|discriminate].
Qed.

(** [findDropIndexInColumn]: the first active Drop of the column, or -1. *)
Lemma find_drop_spec (ds : list Drop) (n c : Z) :
  len ds = n ->
  exists r,
    (or_minus1 <$>
     scan_upto n (fun i =>
       d ← rd ds i;
       Some (if negb (head d =? -1) && (col d =? c) then Some i else None)))
    = Some r /\
    ((r = -1 /\ forall i d, rd ds i = Some d -> head d <> -1 -> col d <> c)
     \/ (0 <= r < n /\ exists d, rd ds r = Some d /\ head d <> -1 /\ col d = c /\
         forall j dj, 0 <= j < r -> rd ds j = Some dj -> head dj <> -1 ->
                      col dj <> c)).
Proof.
  intros Hl. pose proof (len_nonneg ds) as Hn. rewrite Hl in Hn.
  match goal with |- context [scan_upto n ?p] =>
    destruct (scan_upto_spec p n Hn) as (r & -> & Hr) end.
  { intros k Hk. destruct (rd_in_range ds k) as [d Hd]; [lia|].
    rewrite Hd. simpl. eauto. }
  destruct r as [r|]; cbn.
  - exists r. split; [done|]. right.
    destruct Hr as (k & Hk & Hpk & Hbefore).
    destruct (rd_in_range ds k) as [d Hd]; [lia|].
    rewrite Hd in Hpk. cbn in Hpk.
    destruct (Z.eqb_spec (head d) (-1)); cbn in Hpk; [discriminate|].
    destruct (Z.eqb_spec (col d) c); [|discriminate].
    injection Hpk as <-. split; [done|]. exists d. do 3 (split; [done|]).
    intros j dj Hj Hdj Hhj Hcj. specialize (Hbefore j Hj).
    rewrite Hdj in Hbefore. cbn in Hbefore.
    destruct (Z.eqb_spec (head dj) (-1)); [done|].
    destruct (Z.eqb_spec (col dj) c); [discriminate|done].
  - exists (-1). split; [done|]. left. split; [done|].
    intros i d Hd Hh Hc. pose proof (rd_Some_range _ _ _ Hd) as Hi.
    rewrite Hl in Hi. specialize (Hr i Hi).
    rewrite Hd in Hr. cbn in Hr.
    destruct (Z.eqb_spec (head d) (-1)); [done|].
    destruct (Z.eqb_spec (col d) c); [discriminate|done].
Qed.

End CoreFacts.

(** * Properties of matrix_rain_vectorized.ino *)

Module VectorizedPacking.
Import Vectorized.

Lemma vec_get_bright_row_word (c0 c1 c2 c3 slot : Z) :
  0 <= slot < 12 ->
  get_bright_row [u8 c0; u8 c1; u8 c2; u8 c3] slot =
  Some (Z.land (Z.shiftr (word_of [u8 c0; u8 c1; u8 c2; u8 c3]) (2 * slot)) 3).
Proof.
  intros Hs. unfold get_bright_row.
  destruct (slot_index slot Hs) as (i & off & _ & _ & -> & -> & Hi & Hoff & ->).
  unfold get_at.
  destruct Hi as [-> | [-> | ->]], Hoff as [-> | [-> | [-> | ->]]];
    slot_compute; cbn [Z.leb Z.compare Pos.compare Pos.compare_cont];
    cbn [word_of]; f_equal; eval_double.
  all: bits.
Qed.

Lemma vec_set_bright_row_word (c0 c1 c2 c3 slot v : Z) :
  0 <= slot < 12 ->
  exists d0 d1 d2 d3,
    set_bright_row [u8 c0; u8 c1; u8 c2; u8 c3] slot v =
      Some [u8 d0; u8 d1; u8 d2; u8 d3] /\
    word_of [u8 d0; u8 d1; u8 d2; u8 d3] =
      Z.lor (Z.land (word_of [u8 c0; u8 c1; u8 c2; u8 c3])
                    (Z.lnot (Z.shiftl 3 (2 * slot))))
            (Z.shiftl (Z.land v 3) (2 * slot)).
Proof.
  intros Hs. unfold set_bright_row.
  destruct (slot_index slot Hs) as (i & off & _ & _ & -> & -> & Hi & Hoff & ->).
  unfold set_at.
  destruct Hi as [-> | [-> | ->]], Hoff as [-> | [-> | [-> | ->]]];
    slot_compute; cbn [Z.leb Z.compare Pos.compare Pos.compare_cont];
    slot_compute;
    eexists _, _, _, _; (split; [reflexivity|]); cbn [word_of]; eval_double.
  all: bits.
Qed.

Lemma vec_get_slot_total (n : Z) (packed : list (list Z)) (i slot : Z) :
  packed_ok n packed -> 0 <= i < n -> 0 <= slot < 12 ->
  exists v, get_bright_slot packed i slot = Some v /\ 0 <= v <= 3.
Proof.
  apply (packing_get_slot_total get_bright_row get_bright_slot vec_get_bright_row_word).
  reflexivity.
Qed.

Lemma vec_set_slot_total (n : Z) (packed : list (list Z)) (i slot v : Z) :
  packed_ok n packed -> 0 <= i < n -> 0 <= slot < 12 ->
  exists packed', set_bright_slot packed i slot v = Some packed' /\
    packed_ok n packed' /\
    get_bright_slot packed' i slot = Some (Z.land v 3) /\
    (forall j slot', 0 <= slot' < 12 -> (j <> i \/ slot' <> slot) ->
       get_bright_slot packed' j slot' = get_bright_slot packed j slot').
Proof.
  apply (packing_set_slot_total get_bright_row set_bright_row
           get_bright_slot set_bright_slot
           vec_get_bright_row_word vec_set_bright_row_word);
    reflexivity.
Qed.

Lemma vec_get_set_row_same (row : list Z) (slot v : Z) :
  row_ok row = true -> 0 <= slot < 12 ->
  exists row', set_bright_row row slot v = Some row' /\
    row_ok row' = true /\
    get_bright_row row' slot = Some (Z.land v 3).
Proof.
  apply (packing_get_set_row_same get_bright_row set_bright_row
           vec_get_bright_row_word vec_set_bright_row_word).
Qed.

(** The branch for a slot that spans two bytes, which no even bit
    position reaches: it would keep the value too. *)
Lemma spanning_branch_roundtrip (row : list Z) (byteIdx val : Z) :
  0 <= byteIdx -> byteIdx + 1 < len row -> 0 <= val <= 3 ->
  exists row', set_at row byteIdx 7 val = Some row' /\
               get_at row' byteIdx 7 = Some val.
Proof.
  intros Hb Hl Hv. unfold set_at, get_at.
  change (7 <=? 6) with false. cbn iota.
  destruct (rd_in_range row byteIdx) as [b Hb0]; [lia|].
  rewrite Hb0, bind_Some.
  match goal with |- context [wr row byteIdx ?x] =>
    remember x as b' eqn:Hb';
    destruct (wr_total row byteIdx b') as [row1 Hw1]; [lia|] end.
  rewrite Hw1, bind_Some.
  pose proof (wr_len _ _ _ _ Hw1) as Hl1.
  destruct (rd_in_range row1 (byteIdx + 1)) as [nx Hnx]; [lia|].
  rewrite Hnx, bind_Some.
  match goal with |- context [wr row1 (byteIdx + 1) ?x] =>
    remember x as nx' eqn:Hnx';
    destruct (wr_total row1 (byteIdx + 1) nx') as [row2 Hw2]; [lia|] end.
  exists row2. split; [done|].
  rewrite (rd_wr_ne row1 (byteIdx + 1) byteIdx nx' row2 Hw2) by lia.
  rewrite (rd_wr_eq _ _ _ _ Hw1), bind_Some.
  rewrite (rd_wr_eq _ _ _ _ Hw2), bind_Some.
  f_equal. subst b' nx'. rewrite <- (land3_small val Hv) at 3.
  change (8 - 7) with 1. change (u8 (Z.shiftl 1 7)) with 128.
  rewrite ?u8_pow, ?u16_pow.
  change 3 with (Z.ones 2). change 128 with (Z.shiftl (Z.ones 1) 7).
  change (Z.land val 1) with (Z.land val (Z.ones 1)).
  change (Z.land (Z.shiftr val 1) 1) with (Z.land (Z.shiftr val 1) (Z.ones 1)).
  change (Z.lnot 1) with (Z.lnot (Z.ones 1)).
  Z.bitblast; repeat (progress Z.bitblast_core); bits_neg; try btauto.
Qed.

End VectorizedPacking.

(** * Properties of arduino_matrix_rain_fastdrops.ino *)

Module FastdropsFacts.
Import Fastdrops.

Ltac simpl_state :=
  cbn [fasts global_rng drops column_occupied
       set_drops set_column_occupied set_fasts set_global_rng].

Lemma consts :
  TERM_COLS = 80 /\ TERM_ROWS = 24 /\ MAX_DROPS = 25 /\ MAX_TRAIL = 12 /\
  MAX_FAST = 12.
Proof. repeat split. Qed.

(** The column probed at offset [i] of a scan that starts at [st]. *)
Lemma fd_probe_col_range (st i : Z) :
  0 <= u8 ((st + i) mod TERM_COLS) < TERM_COLS.
Proof.
  pose proof (Z.mod_pos_bound (st + i) TERM_COLS) as H.
  unfold TERM_COLS in *. rewrite u8_small; lia.
Qed.

(** The scan visits every column. *)
Lemma fd_probe_col_cover (st c : Z) :
  0 <= c < TERM_COLS ->
  0 <= (c - st) mod TERM_COLS < TERM_COLS /\
  u8 ((st + (c - st) mod TERM_COLS) mod TERM_COLS) = c.
Proof.
  intros Hc. split.
  - apply Z.mod_pos_bound. unfold TERM_COLS; lia.
  - rewrite Zplus_mod_idemp_r. replace (st + (c - st)) with c by lia.
    rewrite (Z.mod_small c) by lia. apply u8_small.
    unfold TERM_COLS in *; lia.
Qed.

(** *** maybeSpawnDrop *)

(** Every path through [maybeSpawnDrop], on arrays of the declared size:
    either nothing but the generator changes, or the first inactive slot
    receives a fresh Drop in the first free column of the scan. *)
Lemma maybeSpawnDrop_spec (s : State) :
  len (drops s) = MAX_DROPS ->
  len (column_occupied s) = TERM_COLS ->
  exists s', maybeSpawnDrop s = Some s' /\ fasts s' = fasts s /\
    ((drops s' = drops s /\ column_occupied s' = column_occupied s /\
      (SPAWN_CHANCE < Z.land (splitmix32 (global_rng s)) 0xFF \/
       (forall i d, rd (drops s) i = Some d -> head d <> -1) \/
       (forall c b, rd (column_occupied s) c = Some b -> b = true)))
     \/
     (exists idx c d0,
        Z.land (splitmix32 (global_rng s)) 0xFF <= SPAWN_CHANCE /\
        rd (drops s) idx = Some d0 /\ head d0 = -1 /\
        (forall j dj, 0 <= j < idx -> rd (drops s) j = Some dj -> head dj <> -1) /\
        0 <= c < TERM_COLS /\
        rd (column_occupied s) c = Some false /\
        global_rng s' = splitmix32 (splitmix32 (splitmix32 (global_rng s))) /\
        wr (drops s) idx (spawned c (global_rng s')) = Some (drops s') /\
        wr (column_occupied s) c true = Some (column_occupied s'))).
Proof.
  intros Hld Hlc. unfold maybeSpawnDrop.
  remember (splitmix32 (global_rng s)) as g1 eqn:Hg1.
  destruct (Z.ltb_spec SPAWN_CHANCE (Z.land g1 255)) as [Hroll|Hroll].
  { eexists. split; [reflexivity|]. simpl. split; [done|]. left. auto. }
  cbn [drops column_occupied set_global_rng global_rng fasts].
  (* the search for an inactive slot *)
  match goal with |- context [scan_upto MAX_DROPS ?p] =>
    destruct (scan_upto_spec p MAX_DROPS) as (r1 & -> & Hr1) end.
  { unfold MAX_DROPS; lia. }
  { intros k Hk. destruct (rd_in_range (drops s) k) as [d Hd]; [lia|].
    rewrite Hd. simpl. eauto. }
  cbn [mbind option_bind].
  destruct r1 as [idx|]; cbn [or_minus1].
  2:{ simpl. eexists. split; [reflexivity|]. simpl. split; [done|]. left.
      split; [done|]. split; [done|]. right. left.
      intros i d Hd Hh. pose proof (rd_Some_range _ _ _ Hd) as Hi.
      specialize (Hr1 i). rewrite Hd in Hr1. simpl in Hr1.
      rewrite Hh in Hr1. simpl in Hr1. rewrite Hld in Hi.
      specialize (Hr1 Hi). discriminate. }
  destruct Hr1 as (k & Hk & Hpk & Hbefore).
  destruct (rd_in_range (drops s) k) as [d0 Hd0]; [lia|].
  rewrite Hd0 in Hpk. simpl in Hpk.
  destruct (Z.eqb_spec (head d0) (-1)) as [Hh0|]; [|discriminate].
  injection Hpk as <-.
  destruct (Z.eqb_spec k (-1)) as [|_]; [lia|].
  (* the search for a free column *)
  remember (splitmix32 g1) as g2 eqn:Hg2.
  remember (u8 (g2 mod TERM_COLS)) as st eqn:Hst.
  match goal with |- context [scan_upto TERM_COLS ?p] =>
    destruct (scan_upto_spec p TERM_COLS) as (r2 & -> & Hr2) end.
  { unfold TERM_COLS; lia. }
  { intros j Hj.
    destruct (rd_in_range (column_occupied s)
                (u8 ((st + j) mod TERM_COLS))) as [b Hb].
    { rewrite Hlc. apply fd_probe_col_range. }
    rewrite Hb. simpl. eauto. }
  cbn [mbind option_bind].
  destruct r2 as [c|]; cbn [or_minus1].
  2:{ simpl. eexists. split; [reflexivity|]. simpl. split; [done|]. left.
      split; [done|]. split; [done|]. right. right.
      intros c b Hb. pose proof (rd_Some_range _ _ _ Hb) as Hc.
      rewrite Hlc in Hc.
      (* column [c] is probed at offset [(c - start) mod TERM_COLS] *)
      destruct (fd_probe_col_cover st c Hc) as [Hm Hcov].
      specialize (Hr2 _ Hm). rewrite Hcov, Hb in Hr2. simpl in Hr2.
      destruct b; [done|discriminate]. }
  destruct Hr2 as (j & Hj & Hpj & _).
  remember (u8 ((st + j) mod TERM_COLS)) as cc eqn:Hcc_def.
  assert (Hcc : 0 <= cc < TERM_COLS)
    by (rewrite Hcc_def; apply fd_probe_col_range).
  destruct (rd_in_range (column_occupied s) cc) as [b Hb]; [lia|].
  rewrite Hb in Hpj. simpl in Hpj. destruct b; [discriminate|].
  simpl in Hpj. injection Hpj as <-.
  destruct (Z.eqb_spec cc (-1)) as [|_]; [lia|].
  rewrite (wr_in_range (drops s) k) by lia. rewrite bind_Some.
  assert (Hu : u8 cc = cc) by (apply u8_small; unfold TERM_COLS in *; lia).
  cbn [col spawned]. rewrite Hu.
  rewrite (wr_in_range (column_occupied s) cc) by lia. rewrite bind_Some.
  eexists. split; [reflexivity|]. cbn [fasts drops column_occupied global_rng].
  split; [done|]. right. exists k, cc, d0. subst g2 g1.
  split; [done|]. split; [done|]. split; [done|].
  split.
  { intros i di Hi Hdi Hhi. specialize (Hbefore i Hi). rewrite Hdi in Hbefore.
    simpl in Hbefore. rewrite Hhi in Hbefore. discriminate. }
  split; [done|]. split; [done|]. split; [done|].
  split.
  - by rewrite wr_in_range by lia.
  - by rewrite wr_in_range by lia.
Qed.

(** *** maybeSpawnFastDrop *)

Lemma maybeSpawnFastDrop_spec (s : State) :
  len (column_occupied s) = TERM_COLS ->
  len (fasts s) = MAX_FAST ->
  exists s', maybeSpawnFastDrop s = Some s' /\
    drops s' = drops s /\ column_occupied s' = column_occupied s /\
    ((fasts s' = fasts s /\
      (SPAWN_FAST_CHANCE < Z.land (splitmix32 (global_rng s)) 0xFF \/
       (forall c b, rd (column_occupied s) c = Some b -> b = false) \/
       (forall i f, rd (fasts s) i = Some f -> f_active f = true)))
     \/
     (exists fidx c f0,
        Z.land (splitmix32 (global_rng s)) 0xFF <= SPAWN_FAST_CHANCE /\
        rd (fasts s) fidx = Some f0 /\ f_active f0 = false /\
        0 <= c < TERM_COLS /\
        rd (column_occupied s) c = Some true /\
        wr (fasts s) fidx
           (mkFast true c 0 1 0
              (splitmix32 (splitmix32 (splitmix32 (global_rng s)))))
        = Some (fasts s'))).
Proof.
  intros Hlc Hlf. unfold maybeSpawnFastDrop.
  remember (splitmix32 (global_rng s)) as g1 eqn:Hg1.
  destruct (Z.ltb_spec SPAWN_FAST_CHANCE (Z.land g1 255)) as [Hroll|Hroll].
  { eexists. split; [reflexivity|]. simpl. do 2 (split; [done|]). left. auto. }
  cbn [drops column_occupied set_global_rng global_rng fasts].
  remember (splitmix32 g1) as g2 eqn:Hg2.
  remember (u8 (g2 mod TERM_COLS)) as st eqn:Hst.
  match goal with |- context [scan_upto TERM_COLS ?p] =>
    destruct (scan_upto_spec p TERM_COLS) as (r1 & -> & Hr1) end.
  { unfold TERM_COLS; lia. }
  { intros j Hj.
    destruct (rd_in_range (column_occupied s)
                (u8 ((st + j) mod TERM_COLS))) as [b Hb].
    { rewrite Hlc. apply fd_probe_col_range. }
    rewrite Hb. simpl. eauto. }
  rewrite bind_Some.
  destruct r1 as [c|]; cbn [or_minus1].
  2:{ simpl. eexists. split; [reflexivity|]. simpl. do 2 (split; [done|]).
      left. split; [done|]. right. left.
      intros c b Hb. pose proof (rd_Some_range _ _ _ Hb) as Hc.
      rewrite Hlc in Hc.
      destruct (fd_probe_col_cover st c Hc) as [Hm Hcov].
      specialize (Hr1 _ Hm). rewrite Hcov, Hb in Hr1. simpl in Hr1.
      destruct b; [discriminate|done]. }
  destruct Hr1 as (j & Hj & Hpj & _).
  remember (u8 ((st + j) mod TERM_COLS)) as cc eqn:Hcc_def.
  assert (Hcc : 0 <= cc < TERM_COLS)
    by (rewrite Hcc_def; apply fd_probe_col_range).
  destruct (rd_in_range (column_occupied s) cc) as [b Hb]; [lia|].
  rewrite Hb in Hpj. simpl in Hpj. destruct b; [|discriminate].
  injection Hpj as <-.
  destruct (Z.eqb_spec cc (-1)) as [|_]; [lia|].
  match goal with |- context [scan_upto MAX_FAST ?p] =>
    destruct (scan_upto_spec p MAX_FAST) as (r2 & -> & Hr2) end.
  { unfold MAX_FAST; lia. }
  { intros k Hk. destruct (rd_in_range (fasts s) k) as [f Hf]; [lia|].
    rewrite Hf. simpl. eauto. }
  rewrite bind_Some.
  destruct r2 as [fidx|]; cbn [or_minus1].
  2:{ simpl. eexists. split; [reflexivity|]. simpl. do 2 (split; [done|]).
      left. split; [done|]. right. right.
      intros i f Hf. pose proof (rd_Some_range _ _ _ Hf) as Hi.
      rewrite Hlf in Hi. specialize (Hr2 i Hi). rewrite Hf in Hr2.
      simpl in Hr2. destruct (f_active f); [done|discriminate]. }
  destruct Hr2 as (k & Hk & Hpk & _).
  destruct (rd_in_range (fasts s) k) as [f0 Hf0]; [lia|].
  rewrite Hf0 in Hpk. simpl in Hpk.
  destruct (f_active f0) eqn:Hact; [discriminate|].
  injection Hpk as <-.
  destruct (Z.eqb_spec k (-1)) as [|_]; [lia|].
  assert (Hu : u8 cc = cc) by (apply u8_small; unfold TERM_COLS in *; lia).
  rewrite Hu.
  replace (if Z.shiftr g2 8 mod 2 =? 0 then 1 else 1) with 1
    by (by destruct (Z.shiftr g2 8 mod 2 =? 0)).
  rewrite (wr_in_range (fasts s) k) by lia. rewrite bind_Some.
  eexists. split; [reflexivity|]. cbn [fasts drops column_occupied set_fasts].
  do 2 (split; [done|]). right. exists k, cc, f0. subst g2 g1.
  do 5 (split; [done|]). by rewrite wr_in_range by lia.
Qed.

(** *** The invariant is established by [setupState] and kept by every call *)

Lemma Inv_arrays (s s' : State) :
  drops s' = drops s -> column_occupied s' = column_occupied s ->
  fasts s' = fasts s -> Inv s -> Inv s'.
Proof.
  intros Hd Hc Hf [H1 H2 H3 H4 H5 H6 H7].
  split; rewrite ?Hd, ?Hc, ?Hf; assumption.
Qed.

Lemma spawned_ok (c g : Z) :
  0 <= c < TERM_COLS ->
  drop_ok (spawned c g) /\ head (spawned c g) = 0 /\ col (spawned c g) = c.
Proof.
  intros Hc. unfold drop_ok, spawned, MAX_TRAIL, TERM_ROWS in *. cbn.
  pose proof (Z.mod_pos_bound g 10 ltac:(lia)).
  pose proof (Z.mod_pos_bound (Z.shiftr g 8) 5 ltac:(lia)).
  change (12 - 2) with 10.
  rewrite (u8_small c) by (unfold TERM_COLS in Hc; lia).
  rewrite (u8_small (g mod 10 + 3)) by lia.
  rewrite (u8_small (Z.shiftr g 8 mod 5 + 1)) by lia.
  lia.
Qed.

Lemma initial_Inv (s : State) : initial s = true -> Inv s.
Proof.
  unfold initial. rewrite !andb_true_iff.
  intros [[[[[H1 H2] H3] H4] H5] H6].
  apply Z.eqb_eq in H1, H2, H3.
  rewrite forallb_rd in H4. rewrite forallb_rd in H5. rewrite forallb_rd in H6.
  split; try assumption.
  - intros i d Hd Hh. apply H4 in Hd. apply Z.eqb_eq in Hd. done.
  - intros i j di dj Hdi _ Hh. apply H4 in Hdi. apply Z.eqb_eq in Hdi. done.
  - intros c Hc. apply H5 in Hc. discriminate.
  - intros i f Hf Ha. apply H6 in Hf. rewrite Ha in Hf. discriminate.
Qed.

Lemma maybeSpawnDrop_Inv (s : State) :
  Inv s -> exists s', maybeSpawnDrop s = Some s' /\ Inv s'.
Proof.
  intros HI. pose proof HI as [H1 H2 H3 H4 H5 H6 H7].
  destruct (maybeSpawnDrop_spec s H1 H2) as (s' & Hs' & Hf & Hcase).
  exists s'. split; [done|].
  destruct Hcase as [(Hd & Hc & _)|(idx & c & d0 & _ & Hd0 & Hh0 & _ & Hc &
                                    Hfree & _ & Hwd & Hwc)].
  { by apply (Inv_arrays s). }
  remember (global_rng s') as g eqn:Hg. clear Hg.
  destruct (spawned_ok c g Hc) as (Hok & Hhead & Hcol).
  split.
  - rewrite (wr_len _ _ _ _ Hwd). done.
  - rewrite (wr_len _ _ _ _ Hwc). done.
  - by rewrite Hf.
  - intros i d Hd Hh. rewrite (rd_wr _ _ _ _ _ Hwd) in Hd.
    rewrite (rd_wr _ _ _ _ _ Hwc).
    destruct (Z.eqb_spec i idx) as [->|Hne].
    + injection Hd as <-. rewrite Hcol, Z.eqb_refl. done.
    + destruct (H4 i d Hd Hh) as [Hokd Hflag]. split; [done|].
      destruct (Z.eqb_spec (col d) c) as [Heq|_]; [|done].
      rewrite Heq in Hflag. congruence.
  - intros i j di dj Hdi Hdj Hhi Hhj Hcc.
    rewrite (rd_wr _ _ _ _ _ Hwd) in Hdi. rewrite (rd_wr _ _ _ _ _ Hwd) in Hdj.
    destruct (Z.eqb_spec i idx) as [->|Hi], (Z.eqb_spec j idx) as [->|Hj].
    + done.
    + injection Hdi as <-. rewrite Hcol in Hcc.
      destruct (H4 j dj Hdj Hhj) as [_ Hflag]. congruence.
    + injection Hdj as <-. rewrite Hcol in Hcc.
      destruct (H4 i di Hdi Hhi) as [_ Hflag]. congruence.
    + eauto.
  - intros c' Hc'. rewrite (rd_wr _ _ _ _ _ Hwc) in Hc'.
    destruct (Z.eqb_spec c' c) as [Heq|Hne].
    + rewrite Heq. exists idx, (spawned c g). rewrite (rd_wr_eq _ _ _ _ Hwd).
      split; [done|]. split; [lia|done].
    + destruct (H6 c' Hc') as (i & d & Hd & Hh & Hcd).
      exists i, d. rewrite (rd_wr _ _ _ _ _ Hwd).
      destruct (Z.eqb_spec i idx) as [->|_]; [congruence|done].
  - rewrite Hf. done.
Qed.

Lemma maybeSpawnFastDrop_Inv (s : State) :
  Inv s -> exists s', maybeSpawnFastDrop s = Some s' /\ Inv s'.
Proof.
  intros HI. pose proof HI as [H1 H2 H3 H4 H5 H6 H7].
  destruct (maybeSpawnFastDrop_spec s H2 H3) as (s' & Hs' & Hd & Hc & Hcase).
  exists s'. split; [done|].
  destruct Hcase as [(Hf & _)|(fidx & c & f0 & _ & Hf0 & Ha0 & Hcr & Hocc & Hwf)].
  { by apply (Inv_arrays s). }
  split; rewrite ?Hd, ?Hc; try assumption.
  - rewrite (wr_len _ _ _ _ Hwf). done.
  - intros i f Hf Ha. rewrite (rd_wr _ _ _ _ _ Hwf) in Hf.
    destruct (Z.eqb_spec i fidx) as [->|_]; [|eauto].
    injection Hf as <-. unfold fast_ok, TERM_ROWS. cbn. lia.
Qed.

(** *** stepDrops *)

Lemma advance_fields (d : Drop) :
  col (advance d) = col d /\ trail (advance d) = trail d /\
  speed (advance d) = speed d /\
  (head (advance d) = head d \/ head (advance d) = i16 (head d + 1)) /\
  0 <= age (advance d) < 256 /\
  (0 <= boost d < 256 -> 0 <= boost (advance d) < 256).
Proof.
  unfold advance. cbn.
  pose proof (u8_range (age d + 1)) as Ha.
  destruct (speed d <=? u8 (age d + 1)); cbn.
  - destruct (boost d =? 0) eqn:Hb; cbn; rewrite ?Hb; cbn.
    + apply Z.eqb_eq in Hb. repeat split; auto; lia.
    + destruct (Z.ltb_spec 0 (boost d)); cbn;
        (repeat split; auto; try lia).
      all: pose proof (u8_range (boost d - 1)); lia.
  - repeat split; auto; lia.
Qed.

Lemma advance_ok (d : Drop) :
  drop_ok d -> trail_gone (advance d) = false -> drop_ok (advance d).
Proof.
  intros (Hh & Hb & Hc & Ht & Hs & Ha & Hbo) Hgone.
  destruct (advance_fields d) as (Ec & Et & Es & Eh & Ea & Eb).
  unfold trail_gone in Hgone. apply Z.leb_gt in Hgone.
  rewrite Et in Hgone.
  unfold MAX_TRAIL, TERM_ROWS in *.
  rewrite (i16_small (trail d - 1)) in Hgone by lia.
  rewrite (i16_small (head d + 1)) in Eh by lia.
  unfold drop_ok. rewrite Ec, Et, Es. unfold MAX_TRAIL, TERM_ROWS.
  specialize (Eb Hbo). lia.
Qed.

Lemma step_drop_inactive (d : Drop) : head d = -1 -> step_drop d = d.
Proof. intros H. unfold step_drop. by rewrite H. Qed.

(** A Drop that is active after the step was active before it, kept its
    column and is well-formed. *)
Lemma step_drop_active (d : Drop) :
  drop_ok d -> head (step_drop d) <> -1 ->
  head d <> -1 /\ step_drop d = advance d /\ trail_gone (advance d) = false /\
  col (step_drop d) = col d /\ drop_ok (step_drop d).
Proof.
  intros Hok. unfold step_drop.
  destruct (Z.eqb_spec (head d) (-1)) as [Hh|Hh]; [done|].
  destruct (trail_gone (advance d)) eqn:Hg; [cbn; done|].
  intros _. destruct (advance_fields d) as (Ec & _).
  do 4 (split; [done|]). by apply advance_ok.
Qed.

Lemma stepDrops_body_spec (k : Z) (s t : State) :
  0 <= k < MAX_DROPS ->
  Inv t -> fasts t = fasts s -> global_rng t = global_rng s ->
  (forall i d, rd (drops s) i = Some d ->
       rd (drops t) i = Some (if i <? k then step_drop d else d)) ->
  exists t', stepDrops_body k t = Some t' /\
    Inv t' /\ fasts t' = fasts s /\ global_rng t' = global_rng s /\
    (forall i d, rd (drops s) i = Some d ->
       rd (drops t') i = Some (if i <? k + 1 then step_drop d else d)).
Proof.
  intros Hk HI Hf Hg Hds. pose proof HI as [H1 H2 H3 H4 H5 H6 H7].
  unfold stepDrops_body.
  destruct (rd_in_range (drops t) k) as [d Hd]; [lia|].
  rewrite Hd, bind_Some.
  assert (Hprev : forall i d0, rd (drops s) i = Some d0 -> i <> k ->
            (if i <? k + 1 then step_drop d0 else d0)
            = (if i <? k then step_drop d0 else d0)).
  { intros i d0 _ Hne.
    destruct (Z.ltb_spec i (k + 1)), (Z.ltb_spec i k); (done || lia). }
  assert (Horig : forall d0, rd (drops s) k = Some d0 -> d0 = d).
  { intros d0 H0. apply Hds in H0. rewrite Z.ltb_irrefl in H0. congruence. }
  destruct (Z.eqb_spec (head d) (-1)) as [Hh|Hh].
  { (* inactive slot: nothing happens *)
    exists t. split; [done|]. do 3 (split; [done|]).
    intros i d0 H0. destruct (Z.eq_dec i k) as [->|Hne].
    - rewrite (Horig _ H0), Hd.
      destruct (k <? k + 1); by rewrite ?step_drop_inactive.
    - rewrite (Hprev _ _ H0 Hne). auto. }
  destruct (H4 k d Hd Hh) as [Hok Hflag].
  assert (Hsd : step_drop d =
                if trail_gone (advance d)
                then set_boost 0 (set_head (-1) (advance d)) else advance d).
  { unfold step_drop. destruct (Z.eqb_spec (head d) (-1)); done. }
  destruct (advance_fields d) as (Ec & Et & Es & Eh & Ea & Eb).
  pose proof Hok as (Hh0 & Hbt & Hcr & Htr & Hsp & Hag & Hbo).
  destruct (trail_gone (advance d)) eqn:Hgone.
  - (* the trail has left the screen *)
    rewrite Ec.
    rewrite (wr_in_range (column_occupied t) (col d)) by lia.
    rewrite bind_Some.
    rewrite (wr_in_range (drops t) k) by lia. rewrite bind_Some.
    eexists. split; [reflexivity|].
    simpl_state.
    assert (Hwd : wr (drops t) k (set_boost 0 (set_head (-1) (advance d)))
                  = Some (<[Z.to_nat k := set_boost 0 (set_head (-1) (advance d))]>
                            (drops t))) by (apply wr_in_range; lia).
    assert (Hwc : wr (column_occupied t) (col d) false
                  = Some (<[Z.to_nat (col d) := false]> (column_occupied t)))
      by (apply wr_in_range; lia).
    split; [|split; [done|split; [done|]]].
    + split; simpl_state.
      * by rewrite (wr_len _ _ _ _ Hwd).
      * by rewrite (wr_len _ _ _ _ Hwc).
      * done.
      * intros i di Hdi Hhi. rewrite (rd_wr _ _ _ _ _ Hwd) in Hdi.
        rewrite (rd_wr _ _ _ _ _ Hwc).
        destruct (Z.eqb_spec i k) as [->|Hne].
        { injection Hdi as <-. cbn in Hhi. done. }
        destruct (H4 i di Hdi Hhi) as [Hoki Hfl]. split; [done|].
        destruct (Z.eqb_spec (col di) (col d)) as [Heq|_]; [|done].
        exfalso. apply Hne. eapply H5; eauto.
      * intros i j di dj Hdi Hdj Hhi Hhj Hcc.
        rewrite (rd_wr _ _ _ _ _ Hwd) in Hdi.
        rewrite (rd_wr _ _ _ _ _ Hwd) in Hdj.
        destruct (Z.eqb_spec i k) as [->|Hi].
        { injection Hdi as <-. cbn in Hhi. done. }
        destruct (Z.eqb_spec j k) as [->|Hj].
        { injection Hdj as <-. cbn in Hhj. done. }
        eauto.
      * intros c Hc. rewrite (rd_wr _ _ _ _ _ Hwc) in Hc.
        destruct (Z.eqb_spec c (col d)) as [Heq|Hne]; [discriminate|].
        destruct (H6 c Hc) as (i & di & Hdi & Hhi & Hci).
        exists i, di. rewrite (rd_wr _ _ _ _ _ Hwd).
        destruct (Z.eqb_spec i k) as [->|_]; [|done].
        congruence.
      * done.
    + intros i d0 H0. rewrite (rd_wr _ _ _ _ _ Hwd).
      destruct (Z.eqb_spec i k) as [->|Hne].
      * rewrite (Horig _ H0), Hsd.
        destruct (Z.ltb_spec k (k + 1)); [done|lia].
      * rewrite (Hprev _ _ H0 Hne). auto.
  - (* still on screen *)
    rewrite (wr_in_range (drops t) k) by lia. rewrite bind_Some.
    eexists. split; [reflexivity|].
    simpl_state.
    assert (Hwd : wr (drops t) k (advance d)
                  = Some (<[Z.to_nat k := advance d]> (drops t)))
      by (apply wr_in_range; lia).
    assert (Hok' : drop_ok (advance d)) by (by apply advance_ok).
    split; [|split; [done|split; [done|]]].
    + split; simpl_state; try done.
      * by rewrite (wr_len _ _ _ _ Hwd).
      * intros i di Hdi Hhi. rewrite (rd_wr _ _ _ _ _ Hwd) in Hdi.
        destruct (Z.eqb_spec i k) as [->|Hne]; [|eauto].
        injection Hdi as <-. rewrite Ec. done.
      * intros i j di dj Hdi Hdj Hhi Hhj Hcc.
        rewrite (rd_wr _ _ _ _ _ Hwd) in Hdi.
        rewrite (rd_wr _ _ _ _ _ Hwd) in Hdj.
        destruct (Z.eqb_spec i k) as [->|Hi], (Z.eqb_spec j k) as [->|Hj].
        { done. }
        { injection Hdi as <-. rewrite Ec in Hcc. symmetry. eapply H5; eauto. }
        { injection Hdj as <-. rewrite Ec in Hcc. eapply H5; eauto. }
        { eauto. }
      * intros c Hc. destruct (H6 c Hc) as (i & di & Hdi & Hhi & Hci).
        destruct (Z.eq_dec i k) as [->|Hne].
        { exists k, (advance d). rewrite (rd_wr_eq _ _ _ _ Hwd).
          split; [done|]. destruct Hok' as (? & _). split; [lia|].
          rewrite Ec. congruence. }
        { exists i, di. by rewrite (rd_wr_ne _ _ _ _ _ Hwd Hne). }
    + intros i d0 H0. rewrite (rd_wr _ _ _ _ _ Hwd).
      destruct (Z.eqb_spec i k) as [->|Hne].
      * rewrite (Horig _ H0), Hsd.
        destruct (Z.ltb_spec k (k + 1)); [done|lia].
      * rewrite (Hprev _ _ H0 Hne). auto.
Qed.

(** [stepDrops] never faults on a well-formed state, keeps it well-formed
    and applies [step_drop] to every slot. *)
Lemma stepDrops_spec (s : State) :
  Inv s ->
  exists s', stepDrops s = Some s' /\ Inv s' /\
    fasts s' = fasts s /\ global_rng s' = global_rng s /\
    (forall i d, rd (drops s) i = Some d ->
                 rd (drops s') i = Some (step_drop d)).
Proof.
  intros HI. unfold stepDrops.
  destruct (for_upto_inv
    (fun k t => Inv t /\ fasts t = fasts s /\ global_rng t = global_rng s /\
       forall i d, rd (drops s) i = Some d ->
                   rd (drops t) i = Some (if i <? k then step_drop d else d))
    stepDrops_body MAX_DROPS s) as (s' & Hs' & HI' & Hf & Hg & Hds).
  - unfold MAX_DROPS; lia.
  - do 3 (split; [done|]). intros i d Hd.
    pose proof (rd_Some_range _ _ _ Hd).
    destruct (Z.ltb_spec i 0); [lia|done].
  - intros k t Hk (HIt & Hft & Hgt & Hdt).
    by apply stepDrops_body_spec.
  - exists s'. do 4 (split; [done|]). intros i d Hd.
    rewrite (Hds i d Hd). pose proof (rd_Some_range _ _ _ Hd) as Hr.
    rewrite (inv_len_drops s HI) in Hr.
    destruct (Z.ltb_spec i MAX_DROPS); [done|lia].
Qed.

(** *** stepFastDrops *)

Lemma fd_same_course_refl (d : Drop) : same_course d d.
Proof. unfold same_course. lia. Qed.

Lemma fd_same_course_trans (d0 d1 d2 : Drop) :
  same_course d0 d1 -> same_course d1 d2 -> same_course d0 d2.
Proof. unfold same_course. lia. Qed.

Lemma fd_same_course_ok (d0 d : Drop) :
  same_course d0 d -> drop_ok d0 -> drop_ok d.
Proof.
  unfold same_course, drop_ok.
  intros (-> & -> & -> & -> & -> & Hb). lia.
Qed.

(** On a well-formed state the search finds the one Drop of the column. *)
Lemma findDropIndexInColumn_spec (s : State) (c : Z) :
  Inv s ->
  exists r, findDropIndexInColumn (drops s) c = Some r /\
    ((r = -1 /\ forall i d, rd (drops s) i = Some d -> head d <> -1 ->
                            col d <> c)
     \/ (exists d, rd (drops s) r = Some d /\ head d <> -1 /\ col d = c)).
Proof.
  intros HI. unfold findDropIndexInColumn.
  match goal with |- context [scan_upto MAX_DROPS ?p] =>
    destruct (scan_upto_spec p MAX_DROPS) as (r & -> & Hr) end.
  { unfold MAX_DROPS; lia. }
  { intros k Hk. destruct (rd_in_range (drops s) k) as [d Hd].
    { rewrite (inv_len_drops s HI). lia. }
    rewrite Hd. simpl. eauto. }
  destruct r as [r|]; cbn.
  - exists r. split; [done|]. right.
    destruct Hr as (k & Hk & Hpk & _).
    destruct (rd_in_range (drops s) k) as [d Hd].
    { rewrite (inv_len_drops s HI). lia. }
    rewrite Hd in Hpk. cbn in Hpk.
    destruct (Z.eqb_spec (head d) (-1)); cbn in Hpk; [discriminate|].
    destruct (Z.eqb_spec (col d) c); [|discriminate].
    injection Hpk as <-. eauto.
  - exists (-1). split; [done|]. left. split; [done|].
    intros i d Hd Hh Hc. pose proof (rd_Some_range _ _ _ Hd) as Hi.
    rewrite (inv_len_drops s HI) in Hi. specialize (Hr i Hi).
    rewrite Hd in Hr. cbn in Hr.
    destruct (Z.eqb_spec (head d) (-1)); [done|].
    destruct (Z.eqb_spec (col d) c); [discriminate|done].
Qed.

(** Replacing a Drop by one on the same course keeps the invariant. *)
Lemma Inv_same_course (t : State) (j : Z) (d d' : Drop) (ds : list Drop) :
  Inv t -> rd (drops t) j = Some d -> same_course d d' ->
  wr (drops t) j d' = Some ds ->
  Inv (set_drops ds t).
Proof.
  intros [H1 H2 H3 H4 H5 H6 H7] Hd Hsc Hw.
  pose proof Hsc as (Ec & Eh & _).
  split; simpl_state; try done.
  - by rewrite (wr_len _ _ _ _ Hw).
  - intros i di Hdi Hhi. rewrite (rd_wr _ _ _ _ _ Hw) in Hdi.
    destruct (Z.eqb_spec i j) as [->|Hne]; [|eauto].
    injection Hdi as <-. rewrite Eh in Hhi.
    destruct (H4 j d Hd Hhi) as [Hok Hfl]. rewrite Ec.
    split; [|done]. by apply (fd_same_course_ok d).
  - intros i i' di di' Hdi Hdi' Hhi Hhi' Hcc.
    rewrite (rd_wr _ _ _ _ _ Hw) in Hdi.
    rewrite (rd_wr _ _ _ _ _ Hw) in Hdi'.
    destruct (Z.eqb_spec i j) as [->|Hi], (Z.eqb_spec i' j) as [->|Hi'].
    + done.
    + injection Hdi as <-. rewrite Eh in Hhi. rewrite Ec in Hcc.
      symmetry. eapply H5; eauto.
    + injection Hdi' as <-. rewrite Eh in Hhi'. rewrite Ec in Hcc.
      eapply H5; eauto.
    + eauto.
  - intros c Hc. destruct (H6 c Hc) as (i & di & Hdi & Hhi & Hci).
    destruct (Z.eq_dec i j) as [->|Hne].
    + exists j, d'. rewrite (rd_wr_eq _ _ _ _ Hw).
      split; [done|]. rewrite Eh, Ec. split; congruence.
    + exists i, di. by rewrite (rd_wr_ne _ _ _ _ _ Hw Hne).
Qed.

Lemma Inv_set_fast (t : State) (k : Z) (f : FastDrop) (fs : list FastDrop) :
  Inv t -> wr (fasts t) k f = Some fs ->
  (f_active f = true -> fast_ok f) ->
  Inv (set_fasts fs t).
Proof.
  intros [H1 H2 H3 H4 H5 H6 H7] Hw Hok.
  split; simpl_state; try done.
  - by rewrite (wr_len _ _ _ _ Hw).
  - intros i fi Hfi Ha. rewrite (rd_wr _ _ _ _ _ Hw) in Hfi.
    destruct (Z.eqb_spec i k) as [->|Hne]; [|eauto].
    injection Hfi as <-. auto.
Qed.

(** One iteration of the loop of [stepFastDrops] on a well-formed state. *)
Lemma stepFastDrops_body_spec (k : Z) (t : State) :
  0 <= k < MAX_FAST ->
  Inv t ->
  exists t', stepFastDrops_body k t = Some t' /\ Inv t' /\
    column_occupied t' = column_occupied t /\
    global_rng t' = global_rng t /\
    (forall i d, rd (drops t) i = Some d ->
       exists d', rd (drops t') i = Some d' /\ same_course d d') /\
    (forall i, i <> k -> rd (fasts t') i = rd (fasts t) i) /\
    (forall f, rd (fasts t) k = Some f -> f_active f = true ->
       f_row f + 1 < TERM_ROWS ->
       forall j d, rd (drops t) j = Some d -> head d <> -1 ->
         col d = f_col f -> head d <= f_row f + 1 ->
         exists f' d', rd (fasts t') k = Some f' /\ f_active f' = false /\
                       rd (drops t') j = Some d' /\ 4 <= boost d').
Proof.
  intros Hk HI. pose proof HI as [H1 H2 H3 H4 H5 H6 H7].
  unfold stepFastDrops_body.
  destruct (rd_in_range (fasts t) k) as [f Hf]; [lia|].
  rewrite Hf, bind_Some.
  assert (Hrefl : forall i d, rd (drops t) i = Some d ->
            exists d', rd (drops t) i = Some d' /\ same_course d d')
    by (intros i d Hd; exists d; auto using fd_same_course_refl).
  destruct (f_active f) eqn:Hact; cbn [negb].
  2:{ exists t. split; [done|]. do 5 (split; [done|]).
      intros f0 Hf0 Ha0. congruence. }
  destruct (H7 k f Hf Hact) as (Hrow & Hsp & Hage & Hfc).
  cbn [f_age f_speed set_f_age]. rewrite Hage, Hsp.
  change (u8 (0 + 1) <? 1) with false. cbn iota.
  cbn [f_row set_f_row f_col set_f_age].
  unfold TERM_ROWS in Hrow.
  rewrite (i16_small (f_row f + 1)) by lia.
  destruct (Z.leb_spec TERM_ROWS (f_row f + 1)) as [Hoff|Hon].
  { (* the bullet leaves the screen *)
    step_wr Hw. eexists. split; [reflexivity|].
    split; [eapply Inv_set_fast; eauto; cbn; done|].
    simpl_state. do 3 (split; [done|]). split.
    - intros i Hne. by rewrite (rd_wr_ne _ _ _ _ _ Hw Hne).
    - intros f0 Hf0 _ Hlt. assert (f0 = f) by congruence. subst f0. lia. }
  destruct (findDropIndexInColumn_spec t (f_col f) HI) as (di & -> & Hdi).
  rewrite bind_Some.
  remember (set_f_row (f_row f + 1) (set_f_age 0 (set_f_age (u8 (0 + 1)) f)))
    as f1 eqn:Hf1.
  assert (Hfok : fast_ok f1).
  { rewrite Hf1. unfold fast_ok. cbn. unfold TERM_ROWS in *. lia. }
  destruct Hdi as [[-> Hnone]|(d & Hd & Hhd & Hcd)].
  { (* no crawling drop in the column *)
    change (-1 =? -1) with true. cbn iota.
    step_wr Hw. eexists. split; [reflexivity|].
    split; [eapply Inv_set_fast; eauto|].
    simpl_state. do 3 (split; [done|]). split.
    - intros i Hne. by rewrite (rd_wr_ne _ _ _ _ _ Hw Hne).
    - intros f0 Hf0 _ _ j d Hd Hhd Hcd _.
      assert (f0 = f) by congruence. subst f0.
      exfalso. eapply Hnone; eauto. }
  pose proof (rd_Some_range _ _ _ Hd) as Hdir.
  destruct (Z.eqb_spec di (-1)) as [|_]; [lia|].
  rewrite Hd, bind_Some.
  (* the Drop after the pass-through roll *)
  remember (if (i16 (head d - i16 (trail d - 1)) <=? f_row f + 1)
               && (f_row f + 1 <=? head d)
            then set_rng (splitmix32 (rng d)) d else d) as d1 eqn:Hd1.
  assert (Hsc1 : same_course d d1).
  { rewrite Hd1. destruct (_ && _); unfold same_course; cbn; lia. }
  pose proof Hsc1 as (Ec1 & Eh1 & _).
  destruct (Z.leb_spec (head d1) (f_row f + 1)) as [Hhit|Hmiss].
  - (* impact *)
    remember (set_rng (splitmix32 (splitmix32
                (rng (if boost d1 <? 4 then set_boost 4 d1 else d1))))
                (if boost d1 <? 4 then set_boost 4 d1 else d1)) as d2 eqn:Hd2.
    assert (Hsc2 : same_course d1 d2 /\ 4 <= boost d2).
    { rewrite Hd2. destruct (Z.ltb_spec (boost d1) 4);
        unfold same_course; cbn; lia. }
    destruct Hsc2 as [Hsc2 Hb2].
    step_wr Hwd. step_wr Hwf.
    eexists. split; [reflexivity|].
    assert (HI1 : Inv (set_drops l' t)).
    { apply (Inv_same_course t di d d2 l' HI Hd); [|done].
      eapply fd_same_course_trans; eauto. }
    split.
    { eapply (Inv_set_fast (set_drops _ t)); eauto; cbn; done. }
    simpl_state. do 2 (split; [done|]). split; [|split].
    + intros i d0 Hd0. rewrite (rd_wr _ _ _ _ _ Hwd).
      destruct (Z.eqb_spec i di) as [->|Hne].
      * exists d2. split; [done|]. assert (d0 = d) by congruence. subst d0.
        eapply fd_same_course_trans; eauto.
      * exists d0. auto using fd_same_course_refl.
    + intros i Hne. by rewrite (rd_wr_ne _ _ _ _ _ Hwf Hne).
    + intros f0 Hf0 _ _ j dj Hdj Hhj Hcj _.
      assert (f0 = f) by congruence. subst f0.
      assert (j = di) by (eapply H5; eauto; congruence). subst j.
      eexists _, d2. split; [eapply rd_wr_eq; eauto|].
      split; [done|]. split; [|done].
      eapply rd_wr_eq; eauto.
  - (* the bullet is still above the head *)
    step_wr Hwd. step_wr Hwf.
    eexists. split; [reflexivity|].
    assert (HI1 : Inv (set_drops l' t)).
    { by apply (Inv_same_course t di d d1 l' HI Hd). }
    split.
    { eapply (Inv_set_fast (set_drops _ t)); eauto. }
    simpl_state. do 2 (split; [done|]). split; [|split].
    + intros i d0 Hd0. rewrite (rd_wr _ _ _ _ _ Hwd).
      destruct (Z.eqb_spec i di) as [->|Hne].
      * exists d1. split; [done|]. congruence.
      * exists d0. auto using fd_same_course_refl.
    + intros i Hne. by rewrite (rd_wr_ne _ _ _ _ _ Hwf Hne).
    + intros f0 Hf0 _ _ j dj Hdj Hhj Hcj Hle.
      assert (f0 = f) by congruence. subst f0.
      assert (j = di) by (eapply H5; eauto; congruence). subst j.
      assert (dj = d) by congruence. subst dj. lia.
Qed.

(** [stepFastDrops] never faults on a well-formed state and keeps it
    well-formed; a bullet that reaches the head of the Drop of its column
    is switched off and leaves that Drop boosted. *)
Lemma stepFastDrops_spec (s : State) :
  Inv s ->
  exists s', stepFastDrops s = Some s' /\ Inv s' /\
    column_occupied s' = column_occupied s /\
    global_rng s' = global_rng s /\
    (forall i d, rd (drops s) i = Some d ->
       exists d', rd (drops s') i = Some d' /\ same_course d d') /\
    (forall i f, rd (fasts s) i = Some f -> f_active f = true ->
       f_row f + 1 < TERM_ROWS ->
       forall j d, rd (drops s) j = Some d -> head d <> -1 ->
         col d = f_col f -> head d <= f_row f + 1 ->
         exists f' d', rd (fasts s') i = Some f' /\ f_active f' = false /\
                       rd (drops s') j = Some d' /\ 4 <= boost d').
Proof.
  intros HI. unfold stepFastDrops.
  destruct (for_upto_inv
    (fun k t => Inv t /\ column_occupied t = column_occupied s /\
       global_rng t = global_rng s /\
       (forall i d, rd (drops s) i = Some d ->
          exists d', rd (drops t) i = Some d' /\ same_course d d') /\
       (forall i, k <= i -> rd (fasts t) i = rd (fasts s) i) /\
       (forall i f, i < k -> rd (fasts s) i = Some f -> f_active f = true ->
          f_row f + 1 < TERM_ROWS ->
          forall j d, rd (drops s) j = Some d -> head d <> -1 ->
            col d = f_col f -> head d <= f_row f + 1 ->
            exists f' d', rd (fasts t) i = Some f' /\ f_active f' = false /\
                          rd (drops t) j = Some d' /\ 4 <= boost d'))
    stepFastDrops_body MAX_FAST s)
    as (s' & Hs' & HI' & Hc & Hg & HA & _ & HC).
  - unfold MAX_FAST; lia.
  - split; [done|]. do 2 (split; [done|]). split; [|split].
    + intros i d Hd. exists d. auto using fd_same_course_refl.
    + done.
    + intros i f Hi Hf. apply rd_Some_range in Hf. lia.
  - intros k t Hk (HIt & Hct & Hgt & HAt & HBt & HCt).
    destruct (stepFastDrops_body_spec k t Hk HIt)
      as (t' & Ht' & HIt' & Hc' & Hg' & HA' & HB' & HC').
    exists t'. split; [done|]. split; [done|].
    split; [congruence|]. split; [congruence|]. split; [|split].
    + intros i d Hd. destruct (HAt i d Hd) as (d1 & Hd1 & Hsc1).
      destruct (HA' i d1 Hd1) as (d2 & Hd2 & Hsc2).
      exists d2. split; [done|]. eapply fd_same_course_trans; eauto.
    + intros i Hi. rewrite HB' by lia. apply HBt. lia.
    + intros i f Hi Hf Ha Hrow j d Hd Hh Hcol Hle.
      destruct (Z.eq_dec i k) as [->|Hne].
      * destruct (HAt j d Hd) as (d1 & Hd1 & Hsc1).
        pose proof Hsc1 as (Ec & Eh & _).
        assert (Hfk : rd (fasts t) k = Some f) by (rewrite HBt by lia; done).
        apply (HC' f Hfk Ha Hrow j d1 Hd1); [congruence|congruence|lia].
      * destruct (HCt i f ltac:(lia) Hf Ha Hrow j d Hd Hh Hcol Hle)
          as (f' & d1 & Hf' & Ha' & Hd1 & Hb1).
        destruct (HA' j d1 Hd1) as (d2 & Hd2 & Hsc2).
        exists f', d2. rewrite HB' by done.
        do 3 (split; [done|]). destruct Hsc2 as (_ & _ & _ & _ & _ & Hb). lia.
  - exists s'. do 5 (split; [done|]).
    intros i f Hf. apply HC; [|done]. apply rd_Some_range in Hf.
    rewrite (inv_len_fasts s HI) in Hf. lia.
Qed.

(** *** Runs *)

Lemma run_op_Inv (o : op) (s : State) :
  Inv s -> exists s', run_op o s = Some s' /\ Inv s'.
Proof.
  intros HI. destruct o; cbn.
  - by apply maybeSpawnDrop_Inv.
  - by apply maybeSpawnFastDrop_Inv.
  - destruct (stepDrops_spec s HI) as (s' & ? & ? & _). eauto.
  - destruct (stepFastDrops_spec s HI) as (s' & ? & ? & _). eauto.
Qed.

(** No sequence of calls faults, and the invariant holds after it. *)
Lemma run_Inv (ops : list op) (s : State) :
  Inv s -> exists s', run ops s = Some s' /\ Inv s'.
Proof.
  revert s. induction ops as [|o ops IH]; intros s HI; cbn.
  - eauto.
  - destruct (run_op_Inv o s HI) as (s1 & -> & HI1). rewrite bind_Some.
    by apply IH.
Qed.

Lemma run_reachable_Inv (ops : list op) (s0 s : State) :
  initial s0 = true -> run ops s0 = Some s -> Inv s.
Proof.
  intros H0 Hrun. destruct (run_Inv ops s0 (initial_Inv s0 H0)) as (s' & Hs' & HI).
  congruence.
Qed.

Lemma setupState_boot : setupState boot = Some start.
Proof. vm_compute. reflexivity. Qed.

Lemma start_initial : initial start = true.
Proof. vm_compute. reflexivity. Qed.

(** [setupState] puts any memory contents into an initial state. *)
Lemma setupState_initial (s : State) :
  len (drops s) = MAX_DROPS -> len (column_occupied s) = TERM_COLS ->
  len (fasts s) = MAX_FAST ->
  exists s', setupState s = Some s' /\ initial s' = true.
Proof.
  intros H1 H2 H3. unfold setupState.
  destruct (for_upto_inv
    (fun k ds => len ds = MAX_DROPS /\
       forall i d, rd ds i = Some d -> i < k -> head d = -1)
    (fun i ds => d ← rd ds i; wr ds i (set_boost 0 (set_head (-1) d)))
    MAX_DROPS (drops s)) as (ds & -> & Hlds & Hds).
  { unfold MAX_DROPS; lia. }
  { split; [done|]. intros i d Hd Hi. apply rd_Some_range in Hd. lia. }
  { intros k t Hk [Hl Ht].
    destruct (rd_in_range t k) as [d Hd]; [lia|]. rewrite Hd, bind_Some.
    destruct (wr_total t k (set_boost 0 (set_head (-1) d))) as [t' Hw]; [lia|].
    exists t'. split; [done|]. split; [by rewrite (wr_len _ _ _ _ Hw)|].
    intros i di Hdi Hi. rewrite (rd_wr _ _ _ _ _ Hw) in Hdi.
    destruct (Z.eqb_spec i k) as [->|Hne].
    - by injection Hdi as <-.
    - apply (Ht i); [done|lia]. }
  rewrite bind_Some.
  destruct (for_upto_inv
    (fun k co => len co = TERM_COLS /\
       forall i b, rd co i = Some b -> i < k -> b = false)
    (fun c co => wr co c false)
    TERM_COLS (column_occupied s)) as (co & -> & Hlco & Hco).
  { unfold TERM_COLS; lia. }
  { split; [done|]. intros i d Hd Hi. apply rd_Some_range in Hd. lia. }
  { intros k t Hk [Hl Ht].
    destruct (wr_total t k false) as [t' Hw]; [lia|].
    exists t'. split; [done|]. split; [by rewrite (wr_len _ _ _ _ Hw)|].
    intros i b Hb Hi. rewrite (rd_wr _ _ _ _ _ Hw) in Hb.
    destruct (Z.eqb_spec i k) as [->|Hne].
    - by injection Hb as <-.
    - apply (Ht i); [done|lia]. }
  rewrite bind_Some.
  destruct (for_upto_inv
    (fun k fs => len fs = MAX_FAST /\
       forall i f, rd fs i = Some f -> i < k -> f_active f = false)
    (fun i fs => f ← rd fs i; wr fs i (set_f_active false f))
    MAX_FAST (fasts s)) as (fs & -> & Hlfs & Hfs).
  { unfold MAX_FAST; lia. }
  { split; [done|]. intros i d Hd Hi. apply rd_Some_range in Hd. lia. }
  { intros k t Hk [Hl Ht].
    destruct (rd_in_range t k) as [f Hf]; [lia|]. rewrite Hf, bind_Some.
    destruct (wr_total t k (set_f_active false f)) as [t' Hw]; [lia|].
    exists t'. split; [done|]. split; [by rewrite (wr_len _ _ _ _ Hw)|].
    intros i fi Hfi Hi. rewrite (rd_wr _ _ _ _ _ Hw) in Hfi.
    destruct (Z.eqb_spec i k) as [->|Hne].
    - by injection Hfi as <-.
    - apply (Ht i); [done|lia]. }
  rewrite bind_Some. eexists. split; [reflexivity|].
  unfold initial. cbn [drops column_occupied fasts].
  rewrite Hlds, Hlco, Hlfs, !Z.eqb_refl. cbn [andb].
  rewrite !andb_true_iff. split; [split|].
  - apply forallb_rd. intros i d Hd. apply Z.eqb_eq.
    apply (Hds i d Hd). apply rd_Some_range in Hd. lia.
  - apply forallb_rd. intros i b Hb.
    rewrite (Hco i b Hb); [done|]. apply rd_Some_range in Hb. lia.
  - apply forallb_rd. intros i f Hf.
    rewrite (Hfs i f Hf); [done|]. apply rd_Some_range in Hf. lia.
Qed.

(** *** Column ownership *)

(** In a well-formed state a column is flagged exactly when one active
    Drop, and no other, sits in it. *)
Lemma Inv_one_owner (s : State) (c : Z) :
  Inv s ->
  (rd (column_occupied s) c = Some true <->
   exists i d, rd (drops s) i = Some d /\ head d <> -1 /\ col d = c /\
     forall j dj, rd (drops s) j = Some dj -> head dj <> -1 -> col dj = c ->
                  j = i).
Proof.
  intros [H1 H2 H3 H4 H5 H6 H7]. split.
  - intros Hc. destruct (H6 c Hc) as (i & d & Hd & Hh & Hcd).
    exists i, d. do 3 (split; [done|]).
    intros j dj Hdj Hhj Hcj. eapply H5; eauto. congruence.
  - intros (i & d & Hd & Hh & Hcd & _).
    destruct (H4 i d Hd Hh) as [_ Hfl]. congruence.
Qed.

(** A slot that [maybeSpawnDrop] activates lands in a column that was
    free. *)
Lemma spawn_into_free_column (s s' : State) :
  len (drops s) = MAX_DROPS -> len (column_occupied s) = TERM_COLS ->
  maybeSpawnDrop s = Some s' ->
  forall i d d', rd (drops s) i = Some d -> head d = -1 ->
    rd (drops s') i = Some d' -> head d' <> -1 ->
    rd (column_occupied s) (col d') = Some false.
Proof.
  intros H1 H2 Hs' i d d' Hd Hh Hd' Hh'.
  destruct (maybeSpawnDrop_spec s H1 H2) as (s1 & Hs1 & _ & Hcase).
  assert (s1 = s') by congruence. subst s1.
  destruct Hcase as [(Hds & _)|(idx & c & d0 & _ & _ & _ & _ & Hc & Hfree & _ &
                               Hwd & _)].
  - rewrite Hds in Hd'. congruence.
  - rewrite (rd_wr _ _ _ _ _ Hwd) in Hd'.
    destruct (Z.eqb_spec i idx) as [->|_]; [|congruence].
    injection Hd' as <-.
    destruct (spawned_ok c (global_rng s') Hc) as (_ & _ & ->). done.
Qed.

(** *** A forced spawn from the initial state *)

Lemma forced_spawn (s : State) :
  initial s = true ->
  Z.land (splitmix32 (global_rng s)) 0xFF <= SPAWN_CHANCE ->
  exists s' idx d,
    maybeSpawnDrop s = Some s' /\
    rd (drops s') idx = Some d /\ head d = 0 /\
    0 <= col d < TERM_COLS /\
    rd (column_occupied s) (col d) = Some false /\
    rd (column_occupied s') (col d) = Some true /\
    3 <= trail d <= MAX_TRAIL /\ 1 <= speed d <= 5 /\
    (forall j dj, rd (drops s') j = Some dj -> head dj <> -1 -> j = idx).
Proof.
  intros H0 Hroll. pose proof (initial_Inv s H0) as HI.
  pose proof HI as [H1 H2 H3 H4 H5 H6 H7].
  destruct (maybeSpawnDrop_spec s H1 H2) as (s' & Hs' & _ & Hcase).
  unfold initial in H0. rewrite !andb_true_iff in H0.
  destruct H0 as [[[_ Hall] Hfree] _].
  rewrite forallb_rd in Hall. rewrite forallb_rd in Hfree.
  destruct Hcase as [(_ & _ & [Hr|[Hfull|Hfull]])|
                     (idx & c & d0 & _ & Hd0 & _ & _ & Hc & Hfr & _ & Hwd & Hwc)].
  - lia.
  - (* slot 0 is inactive *)
    destruct (rd_in_range (drops s) 0) as [d Hd]; [unfold MAX_DROPS in *; lia|].
    specialize (Hall 0 d Hd). apply Z.eqb_eq in Hall.
    exfalso. by apply (Hfull 0 d).
  - (* column 0 is free *)
    destruct (rd_in_range (column_occupied s) 0) as [b Hb];
      [unfold TERM_COLS in *; lia|].
    specialize (Hfree 0 b Hb). rewrite (Hfull 0 b Hb) in Hfree. discriminate.
  - destruct (spawned_ok c (global_rng s') Hc) as (Hok & Hh & Hcol).
    exists s', idx, (spawned c (global_rng s')).
    split; [done|]. split; [by apply (rd_wr_eq _ _ _ _ Hwd)|].
    split; [done|]. rewrite Hcol.
    destruct Hok as (_ & _ & _ & Ht & Hsp & _).
    do 2 (split; [done|]). split; [by apply (rd_wr_eq _ _ _ _ Hwc)|].
    do 2 (split; [done|]).
    intros j dj Hdj Hhj. rewrite (rd_wr _ _ _ _ _ Hwd) in Hdj.
    destruct (Z.eqb_spec j idx) as [|_]; [done|].
    specialize (Hall j dj Hdj). apply Z.eqb_eq in Hall. done.
Qed.

(** *** Spawns that find no room *)

Lemma maybeSpawnDrop_no_room (s : State) :
  len (drops s) = MAX_DROPS -> len (column_occupied s) = TERM_COLS ->
  forallb is_active (drops s) = true \/
  forallb id (column_occupied s) = true ->
  exists s', maybeSpawnDrop s = Some s' /\
    drops s' = drops s /\ fasts s' = fasts s /\
    column_occupied s' = column_occupied s.
Proof.
  intros H1 H2 Hfull.
  destruct (maybeSpawnDrop_spec s H1 H2) as (s' & Hs' & Hf & Hcase).
  exists s'. split; [done|].
  destruct Hcase as [(Hd & Hc & _)|(idx & c & d0 & _ & Hd0 & Hh0 & _ & _ &
                                    Hfree & _)]; [done|].
  exfalso. destruct Hfull as [Hall|Hall]; rewrite forallb_rd in Hall.
  - specialize (Hall idx d0 Hd0). unfold is_active in Hall.
    rewrite Hh0 in Hall. discriminate.
  - specialize (Hall c false Hfree). discriminate.
Qed.

Lemma maybeSpawnFastDrop_no_room (s : State) :
  len (column_occupied s) = TERM_COLS -> len (fasts s) = MAX_FAST ->
  forallb negb (column_occupied s) = true \/
  forallb f_active (fasts s) = true ->
  exists s', maybeSpawnFastDrop s = Some s' /\
    drops s' = drops s /\ fasts s' = fasts s /\
    column_occupied s' = column_occupied s.
Proof.
  intros H2 H3 Hfull.
  destruct (maybeSpawnFastDrop_spec s H2 H3) as (s' & Hs' & Hd & Hc & Hcase).
  exists s'. split; [done|].
  destruct Hcase as [(Hf & _)|(fidx & c & f0 & _ & Hf0 & Ha0 & _ & Hocc & _)];
    [done|].
  exfalso. destruct Hfull as [Hall|Hall]; rewrite forallb_rd in Hall.
  - specialize (Hall c true Hocc). discriminate.
  - specialize (Hall fidx f0 Hf0). congruence.
Qed.

(** *** The head of an active Drop *)


(** *** A lone Drop of speed 1 *)

(** With [age] 0 and [speed] 1 every call moves the head. *)
Lemma advance_speed1 (d : Drop) :
  age d = 0 -> speed d = 1 ->
  head (advance d) = i16 (head d + 1) /\ age (advance d) = 0 /\
  speed (advance d) = 1 /\ col (advance d) = col d /\
  trail (advance d) = trail d.
Proof.
  intros Ha Hs. unfold advance. cbn. rewrite Ha, Hs.
  change (1 <=? u8 (0 + 1)) with true. cbn iota.
  destruct (boost d =? 0) eqn:Hb; cbn; rewrite ?Hb; cbn; auto.
Qed.

Lemma lone_after_step (i : Z) (d : Drop) (n : Z) (s : State) :
  0 <= n -> 0 <= col d < TERM_COLS -> 3 <= trail d <= MAX_TRAIL ->
  lone_after i d n s ->
  exists s', stepDrops s = Some s' /\ lone_after i d (n + 1) s'.
Proof.
  intros Hn Hcol Htrail (HI & Hothers & dn & Hdn & Ec & Et & Es & Ea & Hcase).
  destruct (stepDrops_spec s HI) as (s' & Hs' & HI' & _ & _ & Hds).
  exists s'. split; [done|]. split; [done|].
  assert (Hothers' : forall j dj, rd (drops s') j = Some dj -> j <> i ->
                                  head dj = -1).
  { intros j dj Hdj Hne. pose proof (rd_Some_range _ _ _ Hdj) as Hr.
    rewrite (inv_len_drops s' HI'), <- (inv_len_drops s HI) in Hr.
    destruct (rd_in_range (drops s) j Hr) as [d0 Hd0].
    rewrite (Hds j d0 Hd0) in Hdj. injection Hdj as <-.
    rewrite step_drop_inactive; eauto. }
  split; [done|].
  exists (step_drop dn). split; [auto|].
  (* the flag of the column follows its only possible owner *)
  assert (Hflag : forall b, (b = true <-> head (step_drop dn) <> -1) ->
            col (step_drop dn) = col d ->
            rd (column_occupied s') (col d) = Some b).
  { intros b Hb Hc.
    destruct (rd_in_range (column_occupied s') (col d)) as [b' Hb'].
    { rewrite (inv_len_cols s' HI'). done. }
    rewrite Hb'. f_equal. destruct b'.
    - apply (inv_owner s' HI') in Hb' as (j & dj & Hdj & Hhj & _).
      destruct (Z.eq_dec j i) as [->|Hne].
      + rewrite (Hds i dn Hdn) in Hdj. injection Hdj as <-.
        symmetry. by apply Hb.
      + exfalso. apply Hhj. eauto.
    - destruct b; [|done]. destruct Hb as [Hb _]. specialize (Hb eq_refl).
      destruct (inv_drop s' HI' i (step_drop dn) (Hds i dn Hdn) Hb) as [_ Hfl].
      rewrite Hc in Hfl. congruence. }
  unfold TERM_ROWS, MAX_TRAIL in *.
  destruct Hcase as [(Hlt & Hh & _)|(Hge & Hh & _)].
  - (* still active: the head moves from [n] to [n + 1] *)
    destruct (advance_speed1 dn Ea Es) as (Eh' & Ea' & Es' & Ec' & Et').
    rewrite Hh in Eh'. rewrite (i16_small (n + 1)) in Eh' by lia.
    unfold step_drop. rewrite Hh.
    destruct (Z.eqb_spec n (-1)) as [|_]; [lia|].
    unfold trail_gone. rewrite Eh', Et', Et.
    rewrite (i16_small (trail d - 1)) by lia. unfold TERM_ROWS.
    destruct (Z.leb_spec 24 (n + 1 - (trail d - 1))) as [Hgone|Hstay].
    + cbn. rewrite Ec', Et', Es', Ea'. do 4 (split; [congruence|]).
      right. split; [lia|]. split; [done|].
      apply Hflag.
      * unfold step_drop. rewrite Hh.
        destruct (Z.eqb_spec n (-1)) as [|_]; [lia|].
        unfold trail_gone. rewrite Eh', Et', Et.
        rewrite (i16_small (trail d - 1)) by lia. unfold TERM_ROWS.
        destruct (Z.leb_spec 24 (n + 1 - (trail d - 1))); [|lia].
        cbn. split; [discriminate|done].
      * unfold step_drop. rewrite Hh.
        destruct (Z.eqb_spec n (-1)) as [|_]; [lia|].
        destruct (trail_gone (advance dn)); cbn; congruence.
    + rewrite Ec', Et', Es', Ea'. do 4 (split; [congruence|]).
      left. split; [lia|]. split; [done|].
      apply Hflag.
      * unfold step_drop. rewrite Hh.
        destruct (Z.eqb_spec n (-1)) as [|_]; [lia|].
        unfold trail_gone. rewrite Eh', Et', Et.
        rewrite (i16_small (trail d - 1)) by lia. unfold TERM_ROWS.
        destruct (Z.leb_spec 24 (n + 1 - (trail d - 1))); [lia|].
        rewrite Eh'. split; [lia|done].
      * unfold step_drop. rewrite Hh.
        destruct (Z.eqb_spec n (-1)) as [|_]; [lia|].
        destruct (trail_gone (advance dn)); cbn; congruence.
  - (* already gone *)
    rewrite (step_drop_inactive dn Hh).
    do 4 (split; [done|]). right. split; [lia|]. split; [done|].
    specialize (Hflag false). rewrite (step_drop_inactive dn Hh) in Hflag.
    apply Hflag; [|done]. split; [discriminate|]. intros Hc. done.
Qed.

Lemma lone_drop_leaves (s0 : State) (ops : list op) (s : State) (i : Z)
    (d : Drop) (n : nat) :
  initial s0 = true -> run ops s0 = Some s ->
  length (List.filter is_active (drops s)) = 1%nat ->
  rd (drops s) i = Some d -> head d = 0 -> age d = 0 -> speed d = 1 ->
  exists sn dn,
    run (replicate n StepDrops) s = Some sn /\
    rd (drops sn) i = Some dn /\
    (Z.of_nat n < TERM_ROWS + trail d - 1 ->
       head dn = Z.of_nat n /\
       rd (column_occupied sn) (col d) = Some true) /\
    (TERM_ROWS + trail d - 1 <= Z.of_nat n ->
       head dn = -1 /\
       rd (column_occupied sn) (col d) = Some false).
Proof.
  intros H0 Hrun Hone Hd Hh Ha Hs.
  pose proof (run_reachable_Inv ops s0 s H0 Hrun) as HI.
  assert (Hact : head d <> -1) by lia.
  destruct (inv_drop s HI i d Hd Hact) as [(_ & _ & Hcol & Htrail & _) Hfl].
  assert (Hstart : lone_after i d 0 s).
  { split; [done|]. split.
    - intros j dj Hdj Hne.
      destruct (Z.eqb_spec (head dj) (-1)) as [|Hj]; [done|].
      exfalso. apply Hne.
      apply (filter_one_unique is_active (drops s) Hone j i dj d); auto;
        unfold is_active.
      + by destruct (Z.eqb_spec (head dj) (-1)).
      + by destruct (Z.eqb_spec (head d) (-1)).
    - exists d. do 5 (split; [done|]). left.
      unfold TERM_ROWS, MAX_TRAIL in *. split; [lia|]. done. }
  assert (Hiter : forall m t, lone_after i d (Z.of_nat m) t ->
            forall k, exists t', run (replicate k StepDrops) t = Some t' /\
                                 lone_after i d (Z.of_nat (m + k)) t').
  { intros m t Ht k. revert m t Ht.
    induction k as [|k IH]; intros m t Ht; cbn.
    - exists t. split; [done|]. by rewrite Nat.add_0_r.
    - destruct (lone_after_step i d (Z.of_nat m) t) as (t1 & -> & Ht1);
        [lia|done|done|done|].
      rewrite bind_Some.
      replace (Z.of_nat m + 1) with (Z.of_nat (S m)) in Ht1 by lia.
      destruct (IH (S m) t1 Ht1) as (t' & Hrun' & Ht').
      exists t'. split; [done|].
      by replace (m + S k)%nat with (S m + k)%nat by lia. }
  destruct (Hiter 0%nat s Hstart n) as (sn & Hsn & _ & _ & dn & Hdn & _ & _ &
                                        _ & _ & Hcase).
  exists sn, dn. do 2 (split; [done|]). cbn in Hcase.
  split; intros Hn; destruct Hcase as [(? & ? & ?)|(? & ? & ?)]; (done || lia).
Qed.

(** *** renderFrame *)

Lemma cell_total (s : State) (r c : Z) :
  len (drops s) = MAX_DROPS -> len (column_occupied s) = TERM_COLS ->
  len (fasts s) = MAX_FAST -> 0 <= c < TERM_COLS ->
  exists bc, cell s r c = Some bc.
Proof.
  intros H1 H2 H3 Hc. unfold cell.
  match goal with |- context [scan_upto MAX_FAST ?p] =>
    destruct (scan_upto_total p MAX_FAST) as (hit & ->) end.
  { unfold MAX_FAST; lia. }
  { intros k Hk. destruct (rd_in_range (fasts s) k) as [f Hf]; [lia|].
    rewrite Hf, bind_Some.
    destruct (negb (f_active f) || negb (f_col f =? c)); [eauto|].
    destruct (f_row f =? i16 r); [|eauto].
    unfold charForFast. destruct (pickChar_total (splitmix32 (f_rng f))) as [ch ->].
    rewrite bind_Some. eauto. }
  rewrite bind_Some. destruct hit as [bc|]; [eauto|].
  destruct (rd_in_range (column_occupied s) c) as [occ Hocc]; [lia|].
  rewrite Hocc, bind_Some. destruct occ; [|eauto].
  match goal with |- context [scan_upto MAX_DROPS ?p] =>
    destruct (scan_upto_total p MAX_DROPS) as (hit & ->) end.
  { unfold MAX_DROPS; lia. }
  { intros k Hk. destruct (rd_in_range (drops s) k) as [d Hd]; [lia|].
    rewrite Hd, bind_Some.
    destruct ((head d =? -1) || negb (col d =? c)); [eauto|].
    destruct ((0 <=? i16 (head d - i16 r)) && (i16 (head d - i16 r) <? trail d));
      [|eauto].
    unfold charForDrop.
    match goal with |- context [pickChar ?h] =>
      destruct (pickChar_total h) as [ch ->] end.
    rewrite bind_Some. eauto. }
  rewrite bind_Some. eauto.
Qed.

(** With nothing active every cell is blank. *)
Lemma cell_blank (s : State) (r c : Z) :
  len (drops s) = MAX_DROPS -> len (column_occupied s) = TERM_COLS ->
  len (fasts s) = MAX_FAST -> 0 <= c < TERM_COLS ->
  forallb (fun d => negb (is_active d)) (drops s) = true ->
  forallb (fun f => negb (f_active f)) (fasts s) = true ->
  cell s r c = Some (0, SPACE).
Proof.
  intros H1 H2 H3 Hc Hd Hf. rewrite forallb_rd in Hd. rewrite forallb_rd in Hf.
  unfold cell. rewrite (scan_upto_none _ MAX_FAST).
  2:{ unfold MAX_FAST; lia. }
  2:{ intros k Hk. destruct (rd_in_range (fasts s) k) as [f Hfk]; [lia|].
      rewrite Hfk, bind_Some. by rewrite (Hf k f Hfk). }
  rewrite bind_Some.
  destruct (rd_in_range (column_occupied s) c) as [occ Hocc]; [lia|].
  rewrite Hocc, bind_Some. destruct occ; [|done].
  rewrite (scan_upto_none _ MAX_DROPS); [done|unfold MAX_DROPS; lia|].
  intros k Hk. destruct (rd_in_range (drops s) k) as [d Hdk]; [lia|].
  rewrite Hdk, bind_Some. specialize (Hd k d Hdk). unfold is_active in Hd.
  destruct (head d =? -1); [done|discriminate].
Qed.

Lemma render_cell_painted (s : State) (r c n : Z) (st : Z * list event)
    (cells : list (Z * Z)) (bc : Z * Z) :
  cell s r c = Some bc -> painted n st cells ->
  exists st', render_cell s r c st = Some st' /\
              painted (n + 1) st' (cells ++ [bc]).
Proof.
  intros Hcell (Hlen & Hout & Hlast). destruct st as [last out], bc as [b ch].
  cbn [fst snd] in *. unfold render_cell. rewrite Hcell, bind_Some.
  assert (Hlen' : len (cells ++ [(b, ch)]) = n + 1).
  { unfold len in *. rewrite length_app. cbn. lia. }
  destruct (Z.eqb_spec b last) as [Heq|Hne]; cbn [negb].
  - eexists. split; [reflexivity|]. split; [done|]. cbn [fst snd].
    rewrite drop_newlines_app, Hout, spec_paint_snoc, <- Hlast.
    rewrite last_brightness_of_snoc. subst b. rewrite Z.eqb_refl. done.
  - eexists. split; [reflexivity|]. split; [done|]. cbn [fst snd].
    rewrite drop_newlines_app, Hout, spec_paint_snoc, <- Hlast.
    rewrite last_brightness_of_snoc.
    destruct (Z.eqb_spec b last); [done|]. done.
Qed.

(** [renderFrame] never faults and its trace, row terminators aside, is
    the painting of the frame's cells by the rule of the specification. *)
Lemma renderFrame_paints (s : State) (salt : Z) :
  len (drops s) = MAX_DROPS -> len (column_occupied s) = TERM_COLS ->
  len (fasts s) = MAX_FAST ->
  exists out cells,
    renderFrame s salt = Some out /\ frame_cells s = Some cells /\
    len cells = TERM_ROWS * TERM_COLS /\
    drop_newlines out = Home :: spec_paint 255 cells ++ [ResetColor].
Proof.
  intros H1 H2 H3. unfold renderFrame, frame_cells.
  destruct (for_upto_sim (fun r => painted (r * TERM_COLS))
              (render_row s)
              (fun r acc => for_upto TERM_COLS (fun c acc =>
                  bc ← cell s r c; Some (acc ++ [bc])) acc)
              TERM_ROWS (255, [Home]) [])
    as (st & cells & -> & -> & Hlen & Hout & _).
  - unfold TERM_ROWS; lia.
  - split; [done|]. split; done.
  - intros r st acc Hr HR. unfold render_row.
    destruct (for_upto_sim (fun c => painted (r * TERM_COLS + c))
                (render_cell s r)
                (fun c acc => bc ← cell s r c; Some (acc ++ [bc]))
                TERM_COLS st acc) as (st' & acc' & -> & -> & HR').
    + unfold TERM_COLS; lia.
    + by rewrite Z.add_0_r.
    + intros c st0 acc0 Hc HR0.
      destruct (cell_total s r c H1 H2 H3 Hc) as [bc Hbc].
      destruct (render_cell_painted s r c _ st0 acc0 bc Hbc HR0)
        as (st1 & Hst1 & HR1).
      exists st1, (acc0 ++ [bc]). rewrite Hbc, bind_Some.
      split; [done|]. split; [done|].
      by replace (r * TERM_COLS + (c + 1)) with (r * TERM_COLS + c + 1) by lia.
    + rewrite bind_Some.
      replace (r * TERM_COLS + TERM_COLS) with ((r + 1) * TERM_COLS) in HR' by lia.
      destruct HR' as (Hl & Ho & Hb).
      destruct (r <? TERM_ROWS - 1); eexists _, acc';
        (split; [reflexivity|]); (split; [reflexivity|]);
        (split; [done|]); cbn [fst snd]; (split; [|done]).
      * rewrite drop_newlines_app. cbn. by rewrite app_nil_r.
      * done.
  - rewrite bind_Some. exists (snd st ++ [ResetColor]), cells.
    do 3 (split; [done|]). rewrite drop_newlines_app, Hout. done.
Qed.

Lemma frame_cells_blank (s : State) :
  len (drops s) = MAX_DROPS -> len (column_occupied s) = TERM_COLS ->
  len (fasts s) = MAX_FAST ->
  forallb (fun d => negb (is_active d)) (drops s) = true ->
  forallb (fun f => negb (f_active f)) (fasts s) = true ->
  frame_cells s =
  Some (replicate (Z.to_nat (TERM_ROWS * TERM_COLS)) (0, SPACE)).
Proof.
  intros H1 H2 H3 Hd Hf. unfold frame_cells.
  destruct (for_upto_inv
    (fun r acc => acc = replicate (Z.to_nat (r * TERM_COLS)) (0, SPACE))
    (fun r acc => for_upto TERM_COLS (fun c acc =>
        bc ← cell s r c; Some (acc ++ [bc])) acc)
    TERM_ROWS []) as (cells & -> & ->); [unfold TERM_ROWS; lia|done| |done].
  intros r acc Hr ->.
  destruct (for_upto_inv
    (fun c acc => acc = replicate (Z.to_nat (r * TERM_COLS + c)) (0, SPACE))
    (fun c acc => bc ← cell s r c; Some (acc ++ [bc]))
    TERM_COLS (replicate (Z.to_nat (r * TERM_COLS)) (0, SPACE)))
    as (acc' & -> & ->).
  - unfold TERM_COLS; lia.
  - by rewrite Z.add_0_r.
  - intros c acc Hc ->. rewrite (cell_blank s r c) by done.
    rewrite bind_Some. eexists. split; [reflexivity|].
    replace (Z.to_nat (r * TERM_COLS + (c + 1)))
      with (S (Z.to_nat (r * TERM_COLS + c))) by (unfold TERM_COLS in *; lia).
    by rewrite replicate_S_end.
  - eexists. split; [reflexivity|]. f_equal. lia.
Qed.

(** A frame with nothing active: one colour change, then blanks only. *)
Lemma renderFrame_blank (s : State) (salt : Z) :
  len (drops s) = MAX_DROPS -> len (column_occupied s) = TERM_COLS ->
  len (fasts s) = MAX_FAST ->
  forallb (fun d => negb (is_active d)) (drops s) = true ->
  forallb (fun f => negb (f_active f)) (fasts s) = true ->
  exists out, renderFrame s salt = Some out /\
    chars out = replicate (Z.to_nat (TERM_ROWS * TERM_COLS)) SPACE /\
    colors out = [0].
Proof.
  intros H1 H2 H3 Hd Hf.
  destruct (renderFrame_paints s salt H1 H2 H3) as (out & cells & Hout & Hcells &
                                                    _ & Hpaint).
  rewrite (frame_cells_blank s H1 H2 H3 Hd Hf) in Hcells.
  remember (Z.to_nat (TERM_ROWS * TERM_COLS)) as n eqn:Hn.
  assert (Hc : cells = replicate n (0, SPACE)) by congruence.
  assert (Hn' : n = S (Nat.pred n)) by (rewrite Hn; reflexivity).
  exists out. split; [done|].
  rewrite <- (chars_drop_newlines out), <- (colors_drop_newlines out), Hpaint, Hc.
  rewrite Hn' at 1 3. rewrite spec_paint_first_blank.
  rewrite <- !app_assoc, !app_comm_cons.
  rewrite !chars_app, !colors_app, chars_replicate_Put, colors_replicate_Put.
  split; [|done]. rewrite Hn' at 2. rewrite replicate_S. cbn.
  by rewrite app_nil_r.
Qed.

(** *** Heads and bullets across any call *)


(** An active bullet of a reachable state is on the screen. *)
Lemma fd_reachable_fast_row (ops : list op) (s0 s : State) (i : Z)
    (f : FastDrop) :
  initial s0 = true -> run ops s0 = Some s ->
  rd (fasts s) i = Some f -> f_active f = true ->
  0 <= f_row f < TERM_ROWS.
Proof.
  intros H0 Hrun Hf Ha.
  pose proof (run_reachable_Inv ops s0 s H0 Hrun) as HI.
  by destruct (inv_fast s HI i f Hf Ha).
Qed.

End FastdropsFacts.

(** * arduino_matrix_rain_fastdrops.ino: further properties *)

Module FastdropsMore.
Import Fastdrops FastdropsFacts.

(** *** setupState *)

(** [setupState] switches every Drop and every bullet off and clears
    every flag; nothing else changes. *)
Lemma fd_setupState_exact (s : State) :
  len (drops s) = MAX_DROPS -> len (column_occupied s) = TERM_COLS ->
  len (fasts s) = MAX_FAST ->
  setupState s =
  Some (mkState (map (fun d => set_boost 0 (set_head (-1) d)) (drops s))
                (replicate (Z.to_nat TERM_COLS) false)
                (global_rng s)
                (map (set_f_active false) (fasts s))).
Proof.
  intros H1 H2 H3. unfold setupState.
  rewrite (map_loop (fun d => set_boost 0 (set_head (-1) d)) (drops s) MAX_DROPS H1).
  rewrite bind_Some.
  rewrite (fill_loop false (column_occupied s) TERM_COLS H2), bind_Some.
  rewrite (map_loop (set_f_active false) (fasts s) MAX_FAST H3), bind_Some.
  done.
Qed.

(** *** findDropIndexInColumn *)

(** In a well-formed state the lookup and the flag table agree: the
    lookup answers -1 exactly for the columns whose flag is clear, and
    otherwise the one active Drop of the column. *)
Lemma fd_find_agrees (s : State) (c : Z) :
  Inv s -> 0 <= c < TERM_COLS ->
  exists r, findDropIndexInColumn (drops s) c = Some r /\
    (r = -1 <-> rd (column_occupied s) c = Some false) /\
    (r <> -1 ->
     exists d, rd (drops s) r = Some d /\ head d <> -1 /\ col d = c /\
       forall j dj, rd (drops s) j = Some dj -> head dj <> -1 -> col dj = c ->
                    j = r).
Proof.
  intros HI Hc. pose proof HI as [H1 H2 H3 H4 H5 H6 H7].
  destruct (findDropIndexInColumn_spec s c HI) as (r & Hr & Hcase).
  exists r. split; [done|].
  destruct (rd_in_range (column_occupied s) c) as [b Hb]; [lia|].
  destruct Hcase as [[-> Hnone]|(d & Hd & Hh & Hcd)].
  - split; [|done]. split; [|done]. intros _. destruct b; [|done].
    destruct (H6 c Hb) as (i & d & Hd & Hh & Hcd).
    exfalso. by apply (Hnone i d).
  - pose proof (rd_Some_range _ _ _ Hd) as Hrr.
    destruct (H4 r d Hd Hh) as [_ Hflag]. rewrite Hcd in Hflag.
    split.
    + split; [lia|]. intros Hf. congruence.
    + intros _. exists d. do 3 (split; [done|]).
      intros j dj Hdj Hhj Hcj. apply (H5 j r dj d); (done || congruence).
Qed.

(** *** maybeSpawnFastDrop *)

(** A bullet is only ever spawned in a slot that was switched off, on row
    0 of a column in which a Drop is crawling; the Drops and the flags
    are left alone. *)
Lemma fd_spawn_fast (s : State) :
  Inv s ->
  exists s', maybeSpawnFastDrop s = Some s' /\
    drops s' = drops s /\ column_occupied s' = column_occupied s /\
    (fasts s' = fasts s \/
     exists fidx f0 f',
       rd (fasts s) fidx = Some f0 /\ f_active f0 = false /\
       wr (fasts s) fidx f' = Some (fasts s') /\
       f_active f' = true /\ f_row f' = 0 /\ f_speed f' = 1 /\ f_age f' = 0 /\
       exists j d, rd (drops s) j = Some d /\ head d <> -1 /\ col d = f_col f').
Proof.
  intros HI. pose proof HI as [H1 H2 H3 H4 H5 H6 H7].
  destruct (maybeSpawnFastDrop_spec s H2 H3) as (s' & Hs' & Hd & Hc & Hcase).
  exists s'. do 3 (split; [done|]).
  destruct Hcase as [[Hf _]|(fidx & c & f0 & _ & Hf0 & Ha0 & Hcr & Hflag & Hw)].
  - by left.
  - right. eexists fidx, f0, _. do 2 (split; [done|]). split; [exact Hw|].
    cbn. do 4 (split; [done|]). exact (H6 c Hflag).
Qed.

(** *** stepFastDrops: the fate of a bullet *)

Lemma fd_stepFast_body_fast (k : Z) (t : State) (f : FastDrop) :
  0 <= k < MAX_FAST -> Inv t -> rd (fasts t) k = Some f ->
  exists t' f', stepFastDrops_body k t = Some t' /\
    rd (fasts t') k = Some f' /\
    (f_active f = false -> f' = f) /\
    (f_active f = true ->
       f_col f' = f_col f /\ f_row f' = f_row f + 1 /\
       (f_active f' = true <->
        f_row f + 1 < TERM_ROWS /\
        forall j d, rd (drops t) j = Some d -> head d <> -1 ->
                    col d = f_col f -> f_row f + 1 < head d)).
Proof.
  intros Hk HI Hf. pose proof HI as [H1 H2 H3 H4 H5 H6 H7].
  unfold stepFastDrops_body. rewrite Hf, bind_Some.
  destruct (f_active f) eqn:Hact; cbn [negb].
  2:{ exists t, f. split; [done|]. split; [done|]. split; [done|]. discriminate. }
  destruct (H7 k f Hf Hact) as (Hrow & Hsp & Hage & Hfc).
  cbn [f_age f_speed set_f_age]. rewrite Hage, Hsp.
  change (u8 (0 + 1) <? 1) with false. cbn iota.
  cbn [f_row set_f_row f_col set_f_age].
  unfold TERM_ROWS in Hrow.
  rewrite (i16_small (f_row f + 1)) by lia.
  destruct (Z.leb_spec TERM_ROWS (f_row f + 1)) as [Hoff|Hon].
  { step_wr Hw. eexists _, _. split; [reflexivity|]. simpl_state.
    split; [eapply rd_wr_eq; eauto|]. split; [discriminate|].
    intros _. cbn. split; [done|]. split; [done|].
    split; [discriminate|]. intros [? _]. lia. }
  destruct (findDropIndexInColumn_spec t (f_col f) HI) as (di & -> & Hdi).
  rewrite bind_Some.
  destruct Hdi as [[-> Hnone]|(d & Hd & Hhd & Hcd)].
  { change (-1 =? -1) with true. cbn iota.
    step_wr Hw. eexists _, _. split; [reflexivity|]. simpl_state.
    split; [eapply rd_wr_eq; eauto|]. split; [discriminate|].
    intros _. cbn. split; [done|]. split; [done|]. split; [|done].
    intros _. split; [done|]. intros j d Hd Hh Hc. exfalso. by apply (Hnone j d). }
  pose proof (rd_Some_range _ _ _ Hd) as Hdir.
  destruct (Z.eqb_spec di (-1)) as [|_]; [lia|].
  rewrite Hd, bind_Some.
  remember (if (i16 (head d - i16 (trail d - 1)) <=? f_row f + 1)
               && (f_row f + 1 <=? head d)
            then set_rng (splitmix32 (rng d)) d else d) as d1 eqn:Hd1.
  assert (Eh1 : head d1 = head d).
  { rewrite Hd1. by destruct (_ && _). }
  rewrite Eh1.
  destruct (Z.leb_spec (head d) (f_row f + 1)) as [Hhit|Hmiss].
  - step_wr Hwd. step_wr Hwf. eexists _, _. split; [reflexivity|].
    simpl_state. split; [eapply rd_wr_eq; eauto|]. split; [discriminate|].
    intros _. cbn. split; [done|]. split; [done|].
    split; [discriminate|]. intros [_ Hall].
    specialize (Hall di d Hd Hhd Hcd). lia.
  - step_wr Hwd. step_wr Hwf. eexists _, _. split; [reflexivity|].
    simpl_state. split; [eapply rd_wr_eq; eauto|]. split; [discriminate|].
    intros _. cbn. split; [done|]. split; [done|]. split; [|done].
    intros _. split; [done|]. intros j dj Hdj Hhj Hcj.
    assert (j = di) by (apply (H5 j di dj d); (done || congruence)). subst j.
    assert (dj = d) by congruence. by subst dj.
Qed.

(** In one call of [stepFastDrops] every bullet that is switched on
    moves down exactly one row.  It stays on exactly when the new row is
    on the screen and above the head of the Drop of its column, if there
    is one.  A bullet that is switched off is left as it is. *)
Lemma fd_stepFast_moves (s : State) :
  Inv s ->
  exists s', stepFastDrops s = Some s' /\ Inv s' /\
    forall i f, rd (fasts s) i = Some f ->
      exists f', rd (fasts s') i = Some f' /\
        (f_active f = false -> f' = f) /\
        (f_active f = true ->
           f_col f' = f_col f /\ f_row f' = f_row f + 1 /\
           (f_active f' = true <->
            f_row f + 1 < TERM_ROWS /\
            forall j d, rd (drops s) j = Some d -> head d <> -1 ->
                        col d = f_col f -> f_row f + 1 < head d)).
Proof.
  intros HI. unfold stepFastDrops.
  destruct (for_upto_inv
    (fun k t => Inv t /\
       (forall i d, rd (drops s) i = Some d ->
          exists d', rd (drops t) i = Some d' /\ same_course d d') /\
       (forall i, k <= i -> rd (fasts t) i = rd (fasts s) i) /\
       (forall i f, i < k -> rd (fasts s) i = Some f ->
          exists f', rd (fasts t) i = Some f' /\
            (f_active f = false -> f' = f) /\
            (f_active f = true ->
               f_col f' = f_col f /\ f_row f' = f_row f + 1 /\
               (f_active f' = true <->
                f_row f + 1 < TERM_ROWS /\
                forall j d, rd (drops s) j = Some d -> head d <> -1 ->
                            col d = f_col f -> f_row f + 1 < head d))))
    stepFastDrops_body MAX_FAST s) as (s' & Hs' & HI' & _ & _ & HC).
  - unfold MAX_FAST; lia.
  - split; [done|]. split; [|split; [done|]].
    + intros i d Hd. exists d. auto using fd_same_course_refl.
    + intros i f Hi Hf. apply rd_Some_range in Hf. lia.
  - intros k t Hk (HIt & HAt & HBt & HCt).
    destruct (stepFastDrops_body_spec k t Hk HIt)
      as (t' & Ht' & HIt' & _ & _ & HA' & HB' & _).
    exists t'. split; [done|]. split; [done|]. split; [|split].
    + intros i d Hd. destruct (HAt i d Hd) as (d1 & Hd1 & Hsc1).
      destruct (HA' i d1 Hd1) as (d2 & Hd2 & Hsc2).
      exists d2. split; [done|]. eapply fd_same_course_trans; eauto.
    + intros i Hi. rewrite HB' by lia. apply HBt. lia.
    + intros i f Hi Hf. destruct (Z.eq_dec i k) as [->|Hne].
      * assert (Hfk : rd (fasts t) k = Some f) by (rewrite HBt by lia; done).
        destruct (fd_stepFast_body_fast k t f Hk HIt Hfk)
          as (t1 & f' & Ht1 & Hf' & Hoff & Hon).
        assert (t1 = t') by congruence. subst t1. exists f'.
        split; [done|]. split; [done|]. intros Ha.
        destruct (Hon Ha) as (E1 & E2 & Hiff). do 2 (split; [done|]).
        rewrite Hiff. split; intros [Hrow Hall]; (split; [done|]).
        -- intros j d Hd Hh Hc. destruct (HAt j d Hd) as (d1 & Hd1 & Hsc1).
           destruct Hsc1 as (Ec & Eh & _).
           rewrite <- Eh. apply (Hall j d1 Hd1); congruence.
        -- intros j d1 Hd1 Hh Hc.
           destruct (rd_in_range (drops s) j) as [d Hd].
           { apply rd_Some_range in Hd1.
             rewrite (inv_len_drops t HIt) in Hd1.
             by rewrite (inv_len_drops s HI). }
           destruct (HAt j d Hd) as (d1' & Hd1' & Hsc1).
           assert (d1' = d1) by congruence. subst d1'.
           destruct Hsc1 as (Ec & Eh & _).
           rewrite Eh. apply (Hall j d Hd); congruence.
      * rewrite HB' by done. apply HCt; [lia|done].
  - exists s'. split; [done|]. split; [done|].
    intros i f Hf. apply HC; [|done]. apply rd_Some_range in Hf.
    rewrite (inv_len_fasts s HI) in Hf. lia.
Qed.

(** *** stepDrops: a Drop of speed [v] moves every [v]-th call *)

Lemma fd_steps_iter (n : nat) (s : State) :
  Inv s ->
  exists sn, run (replicate n StepDrops) s = Some sn /\ Inv sn /\
    forall i d, rd (drops s) i = Some d ->
                rd (drops sn) i = Some (Nat.iter n step_drop d).
Proof.
  revert s. induction n as [|n IH]; intros s HI.
  - exists s. done.
  - destruct (stepDrops_spec s HI) as (s1 & Hs1 & HI1 & _ & _ & Hd1).
    destruct (IH s1 HI1) as (sn & Hsn & HIn & Hdn).
    exists sn. cbn [replicate run run_op]. rewrite Hs1, bind_Some.
    split; [done|]. split; [done|].
    intros i d Hd. rewrite (Hdn i _ (Hd1 i d Hd)). by rewrite Nat.iter_succ_r.
Qed.

Lemma fd_step_drop_boost (d : Drop) :
  0 <= boost d < 256 -> 0 <= boost (step_drop d) <= boost d.
Proof.
  intros Hb. unfold step_drop, advance, trail_gone. simpl_drop.
  split_ifs; rewrite ?u8_small by lia; lia.
Qed.

(** Where [n = m * speed + a] calls of [stepDrops] leave a Drop that
    started with its frame counter at 0, as long as its trail is still on
    the screen after [m] moves. *)
Lemma fd_iter_on_screen (d : Drop) :
  drop_ok d -> age d = 0 ->
  forall (n : nat) (m a : Z),
    0 <= m -> 0 <= a < speed d -> Z.of_nat n = m * speed d + a ->
    head d + m - (trail d - 1) < TERM_ROWS ->
    col (Nat.iter n step_drop d) = col d /\
    trail (Nat.iter n step_drop d) = trail d /\
    speed (Nat.iter n step_drop d) = speed d /\
    head (Nat.iter n step_drop d) = head d + m /\
    age (Nat.iter n step_drop d) = a /\
    0 <= boost (Nat.iter n step_drop d) <= boost d.
Proof.
  intros Hok Hage. pose proof Hok as (Hh & Htg & Hc & Ht & Hs & Ha & Hb).
  unfold TERM_ROWS, MAX_TRAIL in *.
  induction n as [|n IH]; intros m a Hm Hav Hn Hon.
  - assert (m = 0 /\ a = 0) as [-> ->] by nia. cbn. lia.
  - rewrite !Nat.iter_succ.
    assert (Hprev : (a = 0 /\ 1 <= m) \/ 1 <= a) by nia.
    destruct Hprev as [[-> Hm1]|Ha1].
    + destruct (IH (m - 1) (speed d - 1)) as (E1 & E2 & E3 & E4 & E5 & E6);
        [lia|lia|nia|lia|].
      remember (Nat.iter n step_drop d) as dn eqn:Hdn. clear Hdn IH.
      pose proof (fd_step_drop_boost dn ltac:(lia)) as Hb'.
      assert (Hu : u8 (age dn + 1) = speed d) by (rewrite u8_small; lia).
      assert (Hi : i16 (head dn + 1) = head d + m) by (rewrite i16_small; lia).
      assert (Hj : i16 (trail dn - 1) = trail d - 1) by (rewrite i16_small; lia).
      split; [|split; [|split; [|split; [|split]]]]; try lia;
        unfold step_drop, advance, trail_gone; simpl_drop;
        rewrite ?Hu, ?Hi, ?Hj, ?E3, ?Z.leb_refl; simpl_drop;
        rewrite ?Hj; split_ifs; unfold TERM_ROWS in *; lia.
    + destruct (IH m (a - 1)) as (E1 & E2 & E3 & E4 & E5 & E6);
        [lia|lia|nia|lia|].
      remember (Nat.iter n step_drop d) as dn eqn:Hdn. clear Hdn IH.
      pose proof (fd_step_drop_boost dn ltac:(lia)) as Hb'.
      assert (Hu : u8 (age dn + 1) = a) by (rewrite u8_small; lia).
      assert (Hj : i16 (trail dn - 1) = trail d - 1) by (rewrite i16_small; lia).
      assert (Hlt : (speed d <=? a) = false) by (apply Z.leb_gt; lia).
      split; [|split; [|split; [|split; [|split]]]]; try lia;
        unfold step_drop, advance, trail_gone; simpl_drop;
        rewrite ?Hu, ?Hj, ?E3, ?Hlt; simpl_drop; rewrite ?Hj; split_ifs; unfold TERM_ROWS in *; lia.
Qed.

(** The call that retires it: the first one that moves the head to row
    [TERM_ROWS + trail - 1]. *)
Lemma fd_iter_retired (d : Drop) :
  drop_ok d -> age d = 0 ->
  forall n : nat,
    (TERM_ROWS + trail d - 1 - head d) * speed d <= Z.of_nat n ->
    head (Nat.iter n step_drop d) = -1.
Proof.
  intros Hok Hage. pose proof Hok as (Hh & Htg & Hc & Ht & Hs & Ha & Hb).
  unfold TERM_ROWS, MAX_TRAIL in *.
  induction n as [|n IH]; intros Hn; [nia|].
  rewrite !Nat.iter_succ.
  destruct (Z.eq_dec ((24 + trail d - 1 - head d) * speed d) (Z.of_nat (S n)))
    as [Heq|Hne].
  - destruct (fd_iter_on_screen d Hok Hage n (24 + trail d - 1 - head d - 1)
                (speed d - 1)) as (E1 & E2 & E3 & E4 & E5 & E6);
      [lia|lia|nia|unfold TERM_ROWS; lia|].
    remember (Nat.iter n step_drop d) as dn eqn:Hdn. clear Hdn IH.
    assert (Hu : u8 (age dn + 1) = speed d) by (rewrite u8_small; lia).
    assert (Hi : i16 (head dn + 1) = 24 + trail d - 1) by (rewrite i16_small; lia).
    assert (Hj : i16 (trail dn - 1) = trail d - 1) by (rewrite i16_small; lia).
    unfold step_drop, advance, trail_gone, TERM_ROWS; simpl_drop.
    rewrite ?Hu, ?Hi, ?Hj, ?E3, ?Z.leb_refl; simpl_drop.
    rewrite ?Hj. split_ifs; unfold TERM_ROWS in *; lia.
  - rewrite step_drop_inactive; apply IH; lia.
Qed.

Lemma fd_iter_active (d : Drop) (n : nat) :
  (head d <> -1 -> drop_ok d) ->
  head (Nat.iter n step_drop d) <> -1 ->
  head d <> -1 /\ col (Nat.iter n step_drop d) = col d /\
  drop_ok (Nat.iter n step_drop d).
Proof.
  intros Hok. induction n as [|n IH]; intros Hh.
  - cbn in *. auto.
  - rewrite !Nat.iter_succ in *.
    destruct (Z.eq_dec (head (Nat.iter n step_drop d)) (-1)) as [Hin|Hact].
    { rewrite (step_drop_inactive _ Hin) in Hh. done. }
    destruct (IH Hact) as (H1 & H2 & H3).
    destruct (step_drop_active _ H3 Hh) as (_ & _ & _ & Hc & Hok').
    split; [done|]. split; [congruence|done].
Qed.

(** A Drop whose frame counter is at 0, under [n] calls of [stepDrops]
    in a well-formed state: after [m * speed + a] calls, [a < speed], its
    head has moved down [m] rows, as long as the row of its last trail
    cell is on the screen; from call [(TERM_ROWS + trail - 1 - head) *
    speed] on it is retired and its column is free. *)
Lemma fd_speed_motion (s : State) (i : Z) (d : Drop) (n : nat) :
  Inv s -> rd (drops s) i = Some d -> head d <> -1 -> age d = 0 ->
  exists sn dn,
    run (replicate n StepDrops) s = Some sn /\ rd (drops sn) i = Some dn /\
    (forall m a, 0 <= m -> 0 <= a < speed d -> Z.of_nat n = m * speed d + a ->
       head d + m - (trail d - 1) < TERM_ROWS ->
       head dn = head d + m /\ age dn = a /\
       rd (column_occupied sn) (col d) = Some true) /\
    ((TERM_ROWS + trail d - 1 - head d) * speed d <= Z.of_nat n ->
       head dn = -1 /\ rd (column_occupied sn) (col d) = Some false).
Proof.
  intros HI Hd Hh Hage. pose proof HI as [H1 H2 H3 H4 H5 H6 H7].
  destruct (H4 i d Hd Hh) as [Hok Hflag].
  destruct (fd_steps_iter n s HI) as (sn & Hsn & HIn & Hdn).
  exists sn, (Nat.iter n step_drop d). split; [done|].
  split; [by apply Hdn|]. split.
  - intros m a Hm Ha Hn Hon.
    destruct (fd_iter_on_screen d Hok Hage n m a Hm Ha Hn Hon)
      as (E1 & E2 & E3 & E4 & E5 & E6).
    split; [done|]. split; [done|].
    destruct (inv_drop sn HIn i _ (Hdn i d Hd)) as [_ Hfl].
    { destruct Hok. lia. }
    by rewrite E1 in Hfl.
  - intros Hn. split; [by apply fd_iter_retired|].
    destruct Hok as (_ & _ & Hc & _).
    destruct (rd_in_range (column_occupied sn) (col d)) as [b Hb].
    { rewrite (inv_len_cols sn HIn). done. }
    destruct b; [|done]. exfalso.
    destruct (inv_owner sn HIn _ Hb) as (j & dj' & Hdj' & Hhj' & Hcj').
    destruct (rd_in_range (drops s) j) as [dj Hdj].
    { apply rd_Some_range in Hdj'. rewrite (inv_len_drops sn HIn) in Hdj'.
      by rewrite H1. }
    rewrite (Hdn j dj Hdj) in Hdj'. assert (dj' = Nat.iter n step_drop dj) by congruence.
    subst dj'.
    destruct (fd_iter_active dj n) as (Hhj & Hcj & _); [|done|].
    { intros Hx. by destruct (H4 j dj Hdj Hx). }
    assert (j = i) by (apply (H5 j i dj d); (done || congruence)). subst j.
    assert (dj = d) by congruence. subst dj.
    apply Hhj'. apply fd_iter_retired; try done.
    by destruct (H4 i d Hd Hh).
Qed.

(** *** renderFrame *)

Lemma fd_render_cell_eq (s : State) (r c last : Z) (out : list event) :
  render_cell s r c (last, out) =
  (bc ← cell s r c;
   if negb (fst bc =? last)
   then Some (fst bc, out ++ [SetColor (fst bc); Put (snd bc)])
   else Some (last, out ++ [Put (snd bc)])).
Proof. unfold render_cell. by destruct (cell s r c) as [[b ch]|]. Qed.

(** Every cell is painted with a brightness of 0..4 and a blank or a
    character of the character set. *)
Lemma fd_cell_ok (s : State) (r c : Z) (bc : Z * Z) :
  cell s r c = Some bc -> cell_ok bc.
Proof.
  unfold cell. intros H.
  destruct (scan_upto MAX_FAST _) as [[bc1|]|] eqn:Hscan; cbn in H;
    [| |discriminate].
  - assert (bc1 = bc) by congruence. subst bc1.
    destruct (scan_upto_found _ _ _ Hscan) as (k & _ & Hk & _).
    destruct (rd (fasts s) k) as [f|]; cbn in Hk; [|discriminate].
    destruct (negb (f_active f) || negb (f_col f =? c)); [discriminate|].
    destruct (f_row f =? i16 r); [|discriminate].
    destruct (charForFast f) as [ch|] eqn:Hch; cbn in Hk; [|discriminate].
    assert (bc = (4, ch)) by congruence. subst bc.
    split; cbn; [lia|]. right. by apply (pickChar_In _ _ Hch).
  - destruct (rd (column_occupied s) c) as [occ|]; cbn in H; [|discriminate].
    destruct occ; [|by (assert (bc = (0, SPACE)) by congruence; subst bc;
                        split; cbn; [lia|left])].
    destruct (scan_upto MAX_DROPS _) as [[bc1|]|] eqn:Hscan2; cbn in H;
      [| |discriminate].
    + assert (bc1 = bc) by congruence. subst bc1.
      destruct (scan_upto_found _ _ _ Hscan2) as (k & _ & Hk & _).
      destruct (rd (drops s) k) as [d|]; cbn in Hk; [|discriminate].
      destruct ((head d =? -1) || negb (col d =? c)); [discriminate|].
      remember (i16 (head d - i16 r)) as dist eqn:Hdist.
      destruct (Z.leb_spec 0 dist); cbn [andb] in Hk; [|discriminate].
      destruct (dist <? trail d); [|discriminate].
      destruct (charForDrop d dist) as [ch|] eqn:Hch; cbn in Hk; [|discriminate].
      injection Hk as <-. split; cbn [fst snd].
      * split_ifs; rewrite ?u8_small by lia; lia.
      * right. by apply (pickChar_In _ _ Hch).
    + assert (bc = (0, SPACE)) by congruence. subst bc.
      split; cbn; [lia|by left].
Qed.

(** [renderFrame] never faults, paints the cells by the rule, and
    writes [TERM_ROWS] rows of [TERM_COLS] characters separated by CR LF,
    with nothing after the last row but the colour reset. *)
Lemma fd_frame_shape (s : State) (salt : Z) :
  len (drops s) = MAX_DROPS -> len (column_occupied s) = TERM_COLS ->
  len (fasts s) = MAX_FAST ->
  exists out cells,
    renderFrame s salt = Some out /\ frame_cells s = Some cells /\
    drop_newlines out = Home :: spec_paint 255 cells ++ [ResetColor] /\
    row_lengths out =
      replicate (Z.to_nat TERM_ROWS) (Z.to_nat TERM_COLS) /\
    newlines out = replicate (Z.to_nat (TERM_ROWS - 1)) CRLF /\
    Forall cell_ok cells.
Proof.
  intros H1 H2 H3.
  destruct (painter_frame_crlf TERM_ROWS TERM_COLS (cell s) (render_cell s) cell_ok)
    with (last0 := 255) (pre := [Home])
    as (st & cells & Hst & Hcells & Hlen & Hout & Hrows & Hnl & HP);
    try done.
  - apply fd_render_cell_eq.
  - intros r c _ Hc. by apply cell_total.
  - intros r c bc _ _. apply fd_cell_ok.
  - exists (snd st ++ [ResetColor]), cells. split.
    { unfold renderFrame.
      change (render_row s) with
        (fun r st => st ← for_upto TERM_COLS (render_cell s r) st;
           if r <? TERM_ROWS - 1 then Some (fst st, snd st ++ [CRLF])
           else Some st).
      by rewrite Hst. }
    split; [exact Hcells|]. split.
    { rewrite drop_newlines_app, Hout. done. }
    split.
    { rewrite (row_lengths_full _ _ _ Hrows). done. }
    split; [|done]. rewrite newlines_app, Hnl. cbn. by rewrite app_nil_r.
Qed.

(** A bullet on a cell is what the cell shows, whatever crawls there. *)
Lemma fd_cell_bullet (s : State) (r c i : Z) (f : FastDrop) :
  len (fasts s) = MAX_FAST ->
  rd (fasts s) i = Some f -> f_active f = true -> f_col f = c -> f_row f = r ->
  0 <= r < TERM_ROWS ->
  exists ch, cell s r c = Some (4, ch) /\ In ch CHARSET.
Proof.
  intros H3 Hf Ha Hc Hrow Hr. unfold cell.
  match goal with |- context [scan_upto MAX_FAST ?p] =>
    destruct (scan_upto_spec p MAX_FAST) as (hit & Hscan & Hspec) end.
  { unfold MAX_FAST; lia. }
  { intros k Hk. destruct (rd_in_range (fasts s) k) as [fk Hfk]; [lia|].
    rewrite Hfk, bind_Some.
    destruct (negb (f_active fk) || negb (f_col fk =? c)); [eauto|].
    destruct (f_row fk =? i16 r); [|eauto].
    unfold charForFast. destruct (pickChar_total (splitmix32 (f_rng fk))) as [ch ->].
    rewrite bind_Some. eauto. }
  rewrite Hscan, bind_Some.
  destruct hit as [bc|].
  - destruct Hspec as (k & _ & Hk & _).
    destruct (rd (fasts s) k) as [fk|]; cbn in Hk; [|discriminate].
    destruct (negb (f_active fk) || negb (f_col fk =? c)); [discriminate|].
    destruct (f_row fk =? i16 r); [|discriminate].
    destruct (charForFast fk) as [ch|] eqn:Hch; cbn in Hk; [|discriminate].
    exists ch. split; [congruence|]. by apply (pickChar_In _ _ Hch).
  - exfalso. specialize (Hspec i). rewrite Hf, bind_Some, Ha, Hc, Hrow in Hspec.
    rewrite Z.eqb_refl in Hspec. cbn [negb orb] in Hspec.
    unfold TERM_ROWS in Hr. rewrite (i16_small r), Z.eqb_refl in Hspec by lia.
    destruct (pickChar_total (splitmix32 (f_rng f))) as [ch Hch].
    unfold charForFast in Hspec. rewrite Hch, bind_Some in Hspec.
    assert (Hi : 0 <= i < MAX_FAST).
    { apply rd_Some_range in Hf. lia. }
    specialize (Hspec Hi). discriminate.
Qed.

Lemma fd_no_bullet_scan (s : State) (r c : Z) :
  len (fasts s) = MAX_FAST -> 0 <= r < TERM_ROWS ->
  (forall j f, rd (fasts s) j = Some f -> f_active f = true -> f_col f = c ->
               f_row f <> r) ->
  scan_upto MAX_FAST (fun fi =>
    f ← rd (fasts s) fi;
    if negb (f_active f) || negb (f_col f =? c) then Some None
    else if f_row f =? i16 r then
      ch ← charForFast f; Some (Some (4, ch))
    else Some None) = Some (@None (Z * Z)).
Proof.
  intros H3 Hr Hno. apply scan_upto_none; [unfold MAX_FAST; lia|].
  intros k Hk. destruct (rd_in_range (fasts s) k) as [fk Hfk]; [lia|].
  rewrite Hfk, bind_Some.
  destruct (f_active fk) eqn:Ha; cbn [negb orb]; [|done].
  destruct (Z.eqb_spec (f_col fk) c) as [Hc|]; cbn [negb]; [|done].
  unfold TERM_ROWS in Hr. rewrite (i16_small r) by lia.
  destruct (Z.eqb_spec (f_row fk) r) as [Hrow|]; [|done].
  exfalso. by apply (Hno k fk).
Qed.

(** Where no bullet is, a cell within the trail of the Drop of its
    column shows the rolling character of that distance from the head,
    with brightness 3 on the head (4 while the Drop is boosted), 2, 1 and
    0 on the three cells above it and 1 on the rest of the trail. *)
Lemma fd_cell_trail (s : State) (r c i : Z) (d : Drop) :
  Inv s -> rd (drops s) i = Some d -> head d <> -1 -> col d = c ->
  0 <= r < TERM_ROWS -> 0 <= head d - r < trail d ->
  (forall j f, rd (fasts s) j = Some f -> f_active f = true -> f_col f = c ->
               f_row f <> r) ->
  exists ch, charForDrop d (head d - r) = Some ch /\
    cell s r c =
    Some ((if head d - r =? 0 then (if boost d =? 0 then 3 else 4)
           else if head d - r <? 4 then 3 - (head d - r) else 1), ch).
Proof.
  intros HI Hd Hh Hc Hr Hin Hno. pose proof HI as [H1 H2 H3 H4 H5 H6 H7].
  destruct (H4 i d Hd Hh) as [Hok Hflag]. rewrite Hc in Hflag.
  pose proof Hok as (Hh0 & Htg & Hcr & Ht & _ & _ & Hb).
  unfold TERM_ROWS, MAX_TRAIL in *.
  assert (Hdist : forall d', head d' = head d -> i16 (head d' - i16 r) = head d - r).
  { intros d' ->. rewrite (i16_small r) by lia. rewrite i16_small; lia. }
  unfold charForDrop at 1.
  match goal with |- context [pickChar ?h] =>
    destruct (pickChar_total h) as [ch Hch] end.
  exists ch. split; [done|].
  unfold cell. rewrite (fd_no_bullet_scan s r c H3) by done.
  rewrite bind_Some, Hflag, bind_Some.
  match goal with |- context [scan_upto MAX_DROPS ?p] =>
    destruct (scan_upto_spec p MAX_DROPS) as (hit & Hscan & Hspec) end.
  { unfold MAX_DROPS; lia. }
  { intros k Hk. destruct (rd_in_range (drops s) k) as [dk Hdk]; [lia|].
    rewrite Hdk, bind_Some.
    destruct ((head dk =? -1) || negb (col dk =? c)); [eauto|].
    destruct ((0 <=? i16 (head dk - i16 r)) && (i16 (head dk - i16 r) <? trail dk));
      [|eauto].
    unfold charForDrop.
    match goal with |- context [pickChar ?h] =>
      destruct (pickChar_total h) as [ch' ->] end.
    rewrite bind_Some. eauto. }
  rewrite Hscan, bind_Some.
  assert (Hprobe : forall k dk x, rd (drops s) k = Some dk ->
            (dk0 ← rd (drops s) k;
             if (head dk0 =? -1) || negb (col dk0 =? c) then Some None
             else
               let dist := i16 (head dk0 - i16 r) in
               if (0 <=? dist) && (dist <? trail dk0) then
                 let b := if dist =? 0 then (if negb (boost dk0 =? 0) then 4 else 3)
                          else if dist <? 4 then u8 (3 - dist) else 1 in
                 ch ← charForDrop dk0 dist; Some (Some (b, ch))
               else Some None) = Some x ->
            (x = None /\ k <> i) \/
            (k = i /\
             x = Some ((if head d - r =? 0 then (if boost d =? 0 then 3 else 4)
                        else if head d - r <? 4 then 3 - (head d - r) else 1), ch))).
  { intros k dk x Hdk. rewrite Hdk, bind_Some.
    destruct (Z.eqb_spec (head dk) (-1)) as [Hin1|Hact]; cbn [orb].
    { intros Hx. left. split; [congruence|]. intros ->. congruence. }
    destruct (Z.eqb_spec (col dk) c) as [Hck|Hck]; cbn [negb].
    2:{ intros Hx. left. split; [congruence|]. intros ->. congruence. }
    assert (k = i) by (apply (H5 k i dk d); (done || congruence)). subst k.
    assert (dk = d) by congruence. subst dk.
    cbn zeta. rewrite (Hdist d eq_refl).
    destruct (Z.leb_spec 0 (head d - r)); [|lia].
    destruct (Z.ltb_spec (head d - r) (trail d)); [|lia]. cbn [andb].
    unfold charForDrop. rewrite Hch, bind_Some.
    intros Hx. right. split; [done|]. injection Hx as <-. do 2 f_equal.
    split_ifs; rewrite ?u8_small by lia; lia. }
  destruct hit as [bc|].
  - destruct Hspec as (k & Hk & Hpk & _).
    destruct (rd_in_range (drops s) k) as [dk Hdk]; [lia|].
    destruct (Hprobe k dk _ Hdk Hpk) as [[? _]|[_ Hx]]; [discriminate|].
    congruence.
  - exfalso. assert (Hi : 0 <= i < MAX_DROPS).
    { apply rd_Some_range in Hd. lia. }
    destruct (Hprobe i d _ Hd (Hspec i Hi)) as [[_ ?]|[_ ?]]; [done|discriminate].
Qed.

(** A cell with no bullet on it and outside every trail is a blank of
    brightness 0. *)
Lemma fd_cell_empty (s : State) (r c : Z) :
  Inv s -> 0 <= r < TERM_ROWS -> 0 <= c < TERM_COLS ->
  (forall j f, rd (fasts s) j = Some f -> f_active f = true -> f_col f = c ->
               f_row f <> r) ->
  (forall i d, rd (drops s) i = Some d -> head d <> -1 -> col d = c ->
               ~ (0 <= head d - r < trail d)) ->
  cell s r c = Some (0, SPACE).
Proof.
  intros HI Hr Hc Hno Hout. pose proof HI as [H1 H2 H3 H4 H5 H6 H7].
  unfold cell. rewrite (fd_no_bullet_scan s r c H3) by done.
  rewrite bind_Some.
  destruct (rd_in_range (column_occupied s) c) as [occ Hocc]; [lia|].
  rewrite Hocc, bind_Some. destruct occ; [|done].
  rewrite (scan_upto_none _ MAX_DROPS); [done|unfold MAX_DROPS; lia|].
  intros k Hk. destruct (rd_in_range (drops s) k) as [dk Hdk]; [lia|].
  rewrite Hdk, bind_Some.
  destruct (Z.eqb_spec (head dk) (-1)) as [|Hact]; cbn [orb]; [done|].
  destruct (Z.eqb_spec (col dk) c) as [Hck|]; cbn [negb]; [|done].
  destruct (H4 k dk Hdk Hact) as [Hok _].
  destruct Hok as (Hh0 & Htg & _ & Ht & _).
  unfold TERM_ROWS, MAX_TRAIL in *.
  rewrite (i16_small r) by lia. rewrite i16_small by lia.
  specialize (Hout k dk Hdk Hact Hck).
  destruct (Z.leb_spec 0 (head dk - r)); cbn [andb]; [|done].
  destruct (Z.ltb_spec (head dk - r) (trail dk)); [lia|done].
Qed.

End FastdropsMore.

Module VectorizedFacts.
Import Vectorized.

Ltac simpl_state :=
  cbn [drops fasts column_occupied global_rng drop_char_idx drop_bright_packed
       set_drops set_fasts set_column_occupied set_global_rng
       set_drop_char_idx set_drop_bright_packed].

Ltac consts :=
  unfold Core.TERM_COLS, Core.TERM_ROWS, Core.MAX_TRAIL,
         TERM_COLS, TERM_ROWS, MAX_TRAIL, MAX_DROPS, MAX_FAST in *.

Lemma vec_spawned_ok (c g : Z) :
  0 <= c < TERM_COLS ->
  Core.drop_ok (spawned c g) /\ head (spawned c g) = 0 /\
  col (spawned c g) = c /\ 3 <= trail (spawned c g) <= MAX_TRAIL.
Proof.
  intros Hc. unfold Core.drop_ok, spawned. consts.
  cbn.
  pose proof (Z.mod_pos_bound g 10 ltac:(lia)).
  pose proof (Z.mod_pos_bound (Z.shiftr g 8) 5 ltac:(lia)).
  change (12 - 2) with 10.
  rewrite (u8_small c) by lia.
  rewrite (u8_small (g mod 10 + 3)) by lia.
  rewrite (u8_small (Z.shiftr g 8 mod 5 + 1)) by lia.
  lia.
Qed.

(** The buffers of a slot are filled without a fault and stay
    well-formed. *)
Lemma vec_init_buffers_ok (idx tr r0 : Z) (ci0 bp0 : list (list Z)) :
  chars_ok MAX_DROPS ci0 -> packed_ok MAX_DROPS bp0 ->
  0 <= idx < MAX_DROPS -> 0 <= tr <= 12 ->
  exists r ci bp,
    init_buffers idx tr (r0, ci0, bp0) = Some (r, ci, bp) /\
    chars_ok MAX_DROPS ci /\ packed_ok MAX_DROPS bp.
Proof.
  intros Hci Hbp Hidx Htr. unfold init_buffers.
  set (P := fun st : Z * list (list Z) * list (list Z) =>
              chars_ok MAX_DROPS (snd (fst st)) /\ packed_ok MAX_DROPS (snd st)).
  assert (Hu : u8 idx = idx) by (apply u8_small; unfold MAX_DROPS in *; lia).
  match goal with |- context [for_upto tr ?body _] =>
    destruct (for_upto_preserves P body tr (r0, ci0, bp0)) as (st1 & -> & HP1)
  end; [lia|done| |].
  { intros k [[r ci] bp] Hk [Hc Hb]. cbn [fst snd] in *.
    destruct (chars_ok_wr2 MAX_DROPS ci idx k (pickIndex (splitmix32 r)))
      as (ci' & -> & Hc'); [done|done|lia|].
    rewrite bind_Some, Hu.
    destruct (VectorizedPacking.vec_set_slot_total MAX_DROPS bp idx k
                (if k =? 0 then 3 else if k =? 1 then 2 else 1))
      as (bp' & -> & Hb' & _); [done|done|lia|].
    rewrite bind_Some. eexists. split; [reflexivity|]. split; done. }
  rewrite bind_Some.
  match goal with |- context [for_range ?n tr ?body st1] =>
    destruct (for_range_preserves P body n tr st1) as (st2 & -> & HP2)
  end; [done| |].
  { intros k [[r ci] bp] Hk [Hc Hb]. cbn [fst snd] in *.
    unfold MAX_TRAIL in Hk.
    destruct (chars_ok_wr2 MAX_DROPS ci idx k 0)
      as (ci' & -> & Hc'); [done|done|lia|].
    rewrite bind_Some, Hu.
    destruct (VectorizedPacking.vec_set_slot_total MAX_DROPS bp idx k 0)
      as (bp' & -> & Hb' & _); [done|done|lia|].
    rewrite bind_Some. eexists. split; [reflexivity|]. split; done. }
  destruct st2 as [[r ci] bp]. destruct HP2 as [Hc Hb]. eauto 6.
Qed.

Lemma vec_Inv_rng (s : State) (g : Z) : Inv s -> Inv (set_global_rng g s).
Proof. intros [H1 H2 H3]. split; done. Qed.

(** Every path through [maybeSpawnDrop] on a well-formed state. *)
Lemma vec_maybeSpawnDrop_spec (s : State) :
  Inv s ->
  exists s', maybeSpawnDrop s = Some s' /\ Inv s' /\ fasts s' = fasts s /\
    ((drops s' = drops s /\ column_occupied s' = column_occupied s /\
      drop_bright_packed s' = drop_bright_packed s /\
      (SPAWN_CHANCE < Z.land (splitmix32 (global_rng s)) 0xFF \/
       (forall i d, rd (drops s) i = Some d -> head d <> -1) \/
       (forall c b, rd (column_occupied s) c = Some b -> b = true)))
     \/
     (exists idx c d0 d,
        Z.land (splitmix32 (global_rng s)) 0xFF <= SPAWN_CHANCE /\
        rd (drops s) idx = Some d0 /\ head d0 = -1 /\
        0 <= c < TERM_COLS /\
        rd (column_occupied s) c = Some false /\
        head d = 0 /\ col d = c /\ Core.drop_ok d /\
        wr (drops s) idx d = Some (drops s') /\
        wr (column_occupied s) c true = Some (column_occupied s'))).
Proof.
  intros HI. pose proof HI as [HT HC HP]. pose proof HT as [H1 H2 H3 _ _ _ _].
  unfold maybeSpawnDrop.
  remember (splitmix32 (global_rng s)) as g1 eqn:Hg1.
  destruct (Z.ltb_spec SPAWN_CHANCE (Z.land g1 255)) as [Hroll|Hroll].
  { eexists. split; [reflexivity|]. split; [by apply vec_Inv_rng|].
    split; [done|]. left. auto. }
  simpl_state.
  destruct (CoreFacts.inactive_slot_spec (drops s) MAX_DROPS H1) as (r1 & -> & Hr1).
  rewrite bind_Some.
  destruct r1 as [idx|]; cbn [or_minus1].
  2:{ change (-1 =? -1) with true. cbn iota.
      eexists. split; [reflexivity|]. split; [by apply vec_Inv_rng|].
      split; [done|]. left. do 3 (split; [done|]). right. left. done. }
  destruct Hr1 as (Hidx & d0 & Hd0 & Hh0).
  destruct (Z.eqb_spec idx (-1)) as [|_]; [lia|].
  remember (splitmix32 g1) as g2 eqn:Hg2.
  remember (u8 (g2 mod TERM_COLS)) as st eqn:Hst.
  destruct (CoreFacts.free_column_spec (column_occupied s) st H2)
    as (r2 & Hr2 & Hspec2).
  change Core.TERM_COLS with TERM_COLS in Hr2. cbv zeta in Hr2.
  rewrite Hr2, bind_Some.
  destruct r2 as [c|]; cbn [or_minus1].
  2:{ change (-1 =? -1) with true. cbn iota.
      eexists. split; [reflexivity|]. split; [by apply vec_Inv_rng|].
      split; [done|]. left. do 3 (split; [done|]). right. right. done. }
  destruct Hspec2 as [Hc Hfree].
  destruct (Z.eqb_spec c (-1)) as [|_]; [lia|].
  remember (splitmix32 g2) as g3 eqn:Hg3.
  destruct (vec_spawned_ok c g3 Hc) as (Hok & Hh & Hcol & Htr).
  remember (spawned c g3) as dn eqn:Hdn. clear Hdn.
  destruct (vec_init_buffers_ok idx (trail dn) (rng dn)
              (drop_char_idx s) (drop_bright_packed s))
    as (r & ci & bp & -> & Hci & Hbp); [done|done|done| |].
  { unfold MAX_TRAIL in Htr. lia. }
  rewrite bind_Some. cbv beta iota.
  step_wr Hwd. rewrite Hcol. step_wr Hwc.
  eexists. split; [reflexivity|]. simpl_state.
  assert (Hok' : Core.drop_ok (set_rng r dn))
    by (by apply CoreFacts.drop_ok_set_rng).
  assert (Hh' : head (set_rng r dn) = 0) by (destruct dn; exact Hh).
  assert (Hcol' : col (set_rng r dn) = c) by (destruct dn; exact Hcol).
  split; [|split; [reflexivity|]].
  - split; simpl_state; [|exact Hci|exact Hbp].
    apply (CoreFacts.tables_spawn MAX_DROPS MAX_FAST (drops s)
             (column_occupied s) (fasts s) idx c d0 (set_rng r dn)
             l' l'0 HT Hd0 Hh0 Hfree Hok'); [lia|exact Hcol'|exact Hwd|exact Hwc].
  - right. exists idx, c, d0, (set_rng r dn).
    subst g1. split; [exact Hroll|]. split; [exact Hd0|]. split; [exact Hh0|].
    split; [exact Hc|]. split; [exact Hfree|]. split; [exact Hh'|].
    split; [exact Hcol'|]. split; [exact Hok'|]. split; [exact Hwd|exact Hwc].
Qed.

(** Every path through [maybeSpawnFastDrop] on a well-formed state. *)
Lemma vec_maybeSpawnFastDrop_Inv (s : State) :
  Inv s ->
  exists s', maybeSpawnFastDrop s = Some s' /\ Inv s' /\
    drops s' = drops s /\ column_occupied s' = column_occupied s.
Proof.
  intros HI. pose proof HI as [HT HC HP]. pose proof HT as [H1 H2 H3 _ _ _ _].
  unfold maybeSpawnFastDrop.
  remember (splitmix32 (global_rng s)) as g1 eqn:Hg1.
  destruct (Z.ltb_spec SPAWN_FAST_CHANCE (Z.land g1 255)) as [Hroll|Hroll].
  { eexists. split; [reflexivity|]. split; [by apply vec_Inv_rng|]. done. }
  simpl_state.
  remember (splitmix32 g1) as g2 eqn:Hg2.
  remember (u8 (g2 mod TERM_COLS)) as st eqn:Hst.
  destruct (CoreFacts.occupied_column_spec (column_occupied s) st H2)
    as (r1 & Hr1 & Hs1).
  change Core.TERM_COLS with TERM_COLS in Hr1. cbv zeta in Hr1.
  rewrite Hr1, bind_Some.
  destruct r1 as [c|]; cbn [or_minus1].
  2:{ change (-1 =? -1) with true. cbn iota.
      eexists. split; [reflexivity|]. split; [by apply vec_Inv_rng|]. done. }
  destruct Hs1 as [Hc Hocc].
  destruct (Z.eqb_spec c (-1)) as [|_]; [lia|].
  destruct (CoreFacts.free_fast_spec (fasts s) MAX_FAST H3) as (r2 & -> & Hr2).
  rewrite bind_Some.
  destruct r2 as [fidx|]; cbn [or_minus1].
  2:{ change (-1 =? -1) with true. cbn iota.
      eexists. split; [reflexivity|]. split; [by apply vec_Inv_rng|]. done. }
  destruct Hr2 as (Hf & f0 & Hf0 & Ha0).
  destruct (Z.eqb_spec fidx (-1)) as [|_]; [lia|].
  remember (splitmix32 g2) as g3 eqn:Hg3.
  remember (splitmix32 g3) as g4 eqn:Hg4.
  step_wr Hw. eexists. split; [reflexivity|]. simpl_state.
  split; [|split; reflexivity].
  split; simpl_state; [|exact HC|exact HP].
  apply (CoreFacts.tables_fast MAX_DROPS MAX_FAST _ _ _ _ _ _ HT Hw).
  intros _. unfold Core.fast_ok. simpl_fast.
  rewrite (u8_small c) by (consts; lia). consts. lia.
Qed.

(** *** Crawling drops *)

Lemma vec_memmove_1_0_len (row : list Z) (n : Z) :
  0 <= n -> n + 1 <= len row ->
  exists row', memmove_1_0 row n = Some row' /\ len row' = len row.
Proof.
  intros Hn Hl. unfold memmove_1_0.
  destruct (Z.leb_spec 0 n); [|lia].
  destruct (Z.leb_spec (n + 1) (len row)); [|lia].
  cbn [andb]. eexists. split; [reflexivity|].
  unfold len in *. rewrite !length_app, !length_take, length_drop. lia.
Qed.

(** The brightness of a trail is unpacked, decayed and repacked without
    a fault. *)
Lemma vec_fade_ok (i : Z) (d : Drop) (tmp : list Z) (bp : list (list Z)) :
  packed_ok MAX_DROPS bp -> 0 <= i < MAX_DROPS -> len tmp = MAX_TRAIL ->
  3 <= trail d <= MAX_TRAIL ->
  exists tmp' bp', fade i d tmp bp = Some (tmp', bp') /\
    len tmp' = MAX_TRAIL /\ packed_ok MAX_DROPS bp'.
Proof.
  intros Hbp Hi Hl Htr. unfold fade. unfold MAX_TRAIL in *.
  set (P := fun t : list Z => len t = 12).
  match goal with |- context [for_upto (trail d) ?body tmp] =>
    destruct (for_upto_preserves P body (trail d) tmp) as (t1 & -> & HP1)
  end; [lia|done| |].
  { intros k t Hk Ht.
    destruct (VectorizedPacking.vec_get_slot_total MAX_DROPS bp i k)
      as (v & -> & _); [done|done|lia|].
    rewrite bind_Some.
    destruct (wr_total t k v) as [t' Hw]; [unfold P in Ht; lia|].
    exists t'. split; [done|]. unfold P. by rewrite (wr_len _ _ _ _ Hw). }
  rewrite bind_Some.
  match goal with |- context [for_down ?n ?i0 ?body t1] =>
    destruct (for_down_preserves P body n i0 t1) as (t2 & -> & HP2)
  end; [done| |].
  { intros k t Hk Ht. unfold P in Ht.
    destruct (rd_in_range t (k - 1)) as [prev ->]; [lia|].
    rewrite bind_Some.
    destruct (wr_total t k (if 1 <? prev then u8 (prev - 1) else 1))
      as [t' Hw]; [lia|].
    exists t'. split; [done|]. unfold P. by rewrite (wr_len _ _ _ _ Hw). }
  rewrite bind_Some. unfold P in HP2.
  step_wr Hw0.
  assert (Hl' : len l' = 12) by (by rewrite (wr_len _ _ _ _ Hw0)).
  match goal with |- context [for_upto (trail d) ?body bp] =>
    destruct (for_upto_preserves (packed_ok MAX_DROPS) body (trail d) bp)
      as (bp' & -> & HP3)
  end; [lia|done| |].
  { intros k b Hk Hb.
    destruct (rd_in_range l' k) as [v ->]; [lia|].
    rewrite bind_Some.
    destruct (VectorizedPacking.vec_set_slot_total MAX_DROPS b i k v)
      as (b' & -> & Hb' & _); [done|done|lia|].
    eauto. }
  rewrite bind_Some. eauto.
Qed.

(** An advance never faults and moves the head down by exactly one row. *)
Lemma vec_advance_spec (i : Z) (s : State) (tmp : list Z) (d : Drop) :
  Inv s -> 0 <= i < MAX_DROPS -> len tmp = MAX_TRAIL -> Core.drop_ok d ->
  exists d' ci bp tmp',
    advance i s tmp d = Some (d', ci, bp, tmp') /\
    col d' = col d /\ head d' = head d + 1 /\ trail d' = trail d /\
    speed d' = speed d /\ age d' = 0 /\ 0 <= boost d' < 256 /\
    chars_ok MAX_DROPS ci /\ packed_ok MAX_DROPS bp /\ len tmp' = MAX_TRAIL.
Proof.
  intros [HT HC HP] Hi Hl Hok.
  destruct Hok as (Hh & Htail & Hcol & Htr & Hsp & Hage & Hbo).
  unfold Core.TERM_ROWS, Core.MAX_TRAIL in *.
  unfold advance. simpl_drop.
  remember (splitmix32 (rng d)) as r1 eqn:Hr1.
  remember (splitmix32 r1) as r2 eqn:Hr2.
  destruct HC as [HC1 HC2].
  destruct (rd_in_range (drop_char_idx s) i) as [row Hrow]; [lia|].
  rewrite Hrow, bind_Some.
  pose proof (HC2 i row Hrow) as Hlen.
  destruct (Z.ltb_spec 1 (trail d)) as [_|]; [|lia].
  destruct (vec_memmove_1_0_len row (trail d - 1)) as (row1 & -> & Hlen1);
    [lia|lia|].
  rewrite bind_Some.
  destruct (wr_total row1 0 (pickIndex r2)) as [row2 Hw2]; [lia|].
  rewrite Hw2, bind_Some.
  destruct (wr_total (drop_char_idx s) i row2) as [ci Hwci]; [lia|].
  rewrite Hwci, bind_Some.
  assert (Hci : chars_ok MAX_DROPS ci).
  { apply (chars_ok_wr MAX_DROPS (drop_char_idx s) ci i row2);
      [by split| |done].
    rewrite (wr_len _ _ _ _ Hw2). lia. }
  match goal with |- context [fade i ?dd tmp (drop_bright_packed s)] =>
    destruct (vec_fade_ok i dd tmp (drop_bright_packed s))
      as (tmp' & bp & -> & Hl' & Hbp)
  end; [done|done|done|simpl_drop; unfold MAX_TRAIL; lia|].
  rewrite bind_Some. cbv beta iota.
  rewrite (i16_small (head d + 1)) by lia.
  destruct (Z.eqb_spec (boost d) 0) as [Hb0|Hb0]; cbn [negb];
    (eexists _, ci, bp, tmp'; split; [reflexivity|]; simpl_drop;
     do 5 (split; [reflexivity|]); split;
       [|split; [exact Hci|split; [exact Hbp|exact Hl']]]).
  - lia.
  - apply u8_range.
Qed.

(** One iteration of the loop of [stepDrops] on a well-formed state. *)
Lemma vec_stepDrops_body_Inv (k : Z) (s : State) (tmp : list Z) :
  0 <= k < MAX_DROPS -> Inv s -> len tmp = MAX_TRAIL ->
  exists s' tmp', stepDrops_body k (s, tmp) = Some (s', tmp') /\
    Inv s' /\ len tmp' = MAX_TRAIL /\ fasts s' = fasts s.
Proof.
  intros Hk HI Hl. pose proof HI as [HT HC HP].
  pose proof HT as [H1 H2 H3 H4 H5 H6 H7].
  unfold stepDrops_body.
  destruct (rd_in_range (drops s) k) as [d Hd]; [lia|].
  rewrite Hd, bind_Some.
  destruct (Z.eqb_spec (head d) (-1)) as [Hh|Hh].
  { exists s, tmp. done. }
  destruct (H4 k d Hd Hh) as [Hok Hflag].
  remember (set_age (u8 (age d + 1)) d) as d1 eqn:Hd1.
  assert (Hok1 : Core.drop_ok d1 /\ col d1 = col d /\ head d1 = head d /\
                 trail d1 = trail d).
  { subst d1. unfold Core.drop_ok in *. simpl_drop.
    pose proof (u8_range (age d + 1)). lia. }
  destruct Hok1 as (Hok1 & Ec1 & Eh1 & Et1).
  assert (Hadv : exists d2 ci bp tmp',
    (if speed d1 <=? age d1 then advance k s tmp d1
     else Some (d1, drop_char_idx s, drop_bright_packed s, tmp))
    = Some (d2, ci, bp, tmp') /\
    col d2 = col d /\ (head d2 = head d \/ head d2 = head d + 1) /\
    trail d2 = trail d /\ 1 <= speed d2 <= 5 /\ 0 <= age d2 < 256 /\
    0 <= boost d2 < 256 /\
    chars_ok MAX_DROPS ci /\ packed_ok MAX_DROPS bp /\ len tmp' = MAX_TRAIL).
  { destruct (speed d1 <=? age d1).
    - destruct (vec_advance_spec k s tmp d1 HI Hk Hl Hok1)
        as (d2 & ci & bp & tmp' & -> & E1 & E2 & E3 & E4 & E5 & E6 & Hci & Hbp & Hl').
      exists d2, ci, bp, tmp'. split; [reflexivity|].
      unfold Core.drop_ok in Hok1. 
      split; [congruence|]. split; [right; congruence|]. split; [congruence|].
      split; [lia|]. split; [lia|]. done.
    - exists d1, (drop_char_idx s), (drop_bright_packed s), tmp.
      split; [reflexivity|]. unfold Core.drop_ok in Hok1.
      split; [done|]. split; [left; done|]. split; [done|].
      split; [lia|]. split; [lia|]. split; [lia|]. done. }
  destruct Hadv as (d2 & ci & bp & tmp' & -> & E1 & E2 & E3 & E4 & E5 & E6
                    & Hci & Hbp & Hl').
  rewrite bind_Some. cbv beta iota.
  destruct Hok as (Hh0 & Htail & Hcol & Htr & Hsp & Hage & Hbo).
  unfold Core.TERM_ROWS, Core.TERM_COLS, Core.MAX_TRAIL in *.
  rewrite (i16_small (trail d2 - 1)) by lia.
  destruct (Z.leb_spec TERM_ROWS (head d2 - (trail d2 - 1))) as [Hgone|Hstay].
  - rewrite E1.
    destruct (wr_total (column_occupied s) (col d) false) as [co Hwco];
      [unfold Core.TERM_COLS in *; lia|].
    rewrite Hwco, bind_Some.
    step_wr Hwd.
    change (BRIGHT_BYTES_PER_DROP + 1) with 4.
    destruct (packed_ok_clear MAX_DROPS bp k Hbp Hk) as (bp' & -> & Hbp').
    rewrite bind_Some.
    eexists _, tmp'. split; [reflexivity|].
    split; [|split; [exact Hl'|reflexivity]].
    split; simpl_state; [|exact Hci|exact Hbp'].
    apply (CoreFacts.tables_retire MAX_DROPS MAX_FAST (drops s)
             (column_occupied s) (fasts s) k d
             (set_boost 0 (set_head (-1) d2)) l' co HT Hd Hh);
      [reflexivity|exact Hwco|exact Hwd].
  - step_wr Hwd.
    eexists _, tmp'. split; [reflexivity|].
    split; [|split; [exact Hl'|reflexivity]].
    split; simpl_state; [|exact Hci|exact Hbp].
    apply (CoreFacts.tables_move MAX_DROPS MAX_FAST (drops s)
             (column_occupied s) (fasts s) k d d2 l' HT Hd Hh);
      [|exact E1|exact Hwd].
    unfold Core.drop_ok, Core.TERM_ROWS, Core.TERM_COLS, Core.MAX_TRAIL.
    unfold TERM_ROWS in Hstay. lia.
Qed.

(** [stepDrops] never faults on a well-formed state, whatever the stack
    holds, and keeps the state well-formed. *)
Lemma vec_stepDrops_Inv (stack : Z -> Z) (s : State) :
  Inv s ->
  exists s', stepDrops stack s = Some s' /\ Inv s' /\ fasts s' = fasts s.
Proof.
  intros HI. unfold stepDrops.
  match goal with |- context [for_upto _ _ (s, ?t0)] =>
    remember t0 as tmp0 eqn:Htmp0;
    assert (Hl0 : len tmp0 = MAX_TRAIL)
      by (subst tmp0; unfold len; rewrite length_map, length_seq; reflexivity)
  end.
  clear Htmp0.
  destruct (for_upto_preserves
    (fun st : State * list Z =>
       Inv (fst st) /\ len (snd st) = MAX_TRAIL /\ fasts (fst st) = fasts s)
    stepDrops_body MAX_DROPS (s, tmp0)) as ([s' tmp'] & -> & HI' & _ & Hf').
  - unfold MAX_DROPS. lia.
  - done.
  - intros k [t tmp] Hk (HIt & Hlt & Hft). cbn [fst snd] in *.
    destruct (vec_stepDrops_body_Inv k t tmp Hk HIt Hlt) as (t' & tmp' & -> & ? & ? & ?).
    eexists. split; [reflexivity|]. cbn [fst snd]. split; [done|].
    split; [done|]. congruence.
  - exists s'. done.
Qed.

(** *** Fast drops *)

Lemma vec_pass_through_spec (s : State) (di : Z) (d : Drop) (row : Z) :
  Inv s -> rd (drops s) di = Some d -> head d <> -1 ->
  exists d1 ci bp,
    pass_through s di d row = Some (d1, ci, bp) /\
    Core.same_course 6 d d1 /\ boost d1 = boost d /\
    chars_ok MAX_DROPS ci /\ packed_ok MAX_DROPS bp.
Proof.
  intros [HT HC HP] Hd Hh. pose proof HT as [H1 H2 H3 H4 H5 H6 H7].
  destruct (H4 di d Hd Hh) as [(Hh0 & Htail & Hcol & Htr & Hsp & Hage & Hbo) _].
  pose proof (rd_Some_range _ _ _ Hd) as Hdi. rewrite H1 in Hdi.
  unfold Core.TERM_ROWS, Core.TERM_COLS, Core.MAX_TRAIL in *.
  assert (Hrefl : Core.same_course 6 d d) by apply CoreFacts.same_course_refl.
  unfold pass_through.
  destruct (_ && _); [|by exists d, (drop_char_idx s), (drop_bright_packed s)].
  remember (i16 (head d - row)) as dist eqn:Hdist.
  destruct (Z.leb_spec 0 dist) as [Hd0|];
    [|by exists d, (drop_char_idx s), (drop_bright_packed s)].
  destruct (Z.ltb_spec dist (trail d)) as [Hd1|];
    [|by exists d, (drop_char_idx s), (drop_bright_packed s)].
  cbn [andb]. simpl_drop.
  remember (splitmix32 (rng d)) as r1 eqn:Hr1.
  destruct (chars_ok_wr2 MAX_DROPS (drop_char_idx s) di dist (pickIndex r1))
    as (ci & -> & Hci); [done|done|lia|].
  rewrite bind_Some.
  rewrite (u8_small di) by (unfold MAX_DROPS in Hdi; lia).
  rewrite (u8_small dist) by lia.
  destruct (VectorizedPacking.vec_get_slot_total MAX_DROPS (drop_bright_packed s)
              di dist) as (cur & -> & _); [done|done|lia|].
  rewrite bind_Some.
  destruct (VectorizedPacking.vec_set_slot_total MAX_DROPS (drop_bright_packed s)
              di dist (if cur <? 3 then u8 (cur + 1) else 3))
    as (bp & -> & Hbp & _); [done|done|lia|].
  rewrite bind_Some.
  exists (set_rng r1 d), ci, bp. split; [reflexivity|].
  split; [|split; [reflexivity|split; [exact Hci|exact Hbp]]].
  unfold Core.same_course. simpl_drop. lia.
Qed.

(** A Drop boosted or rerolled by a bullet leaves the tables well-formed. *)
Lemma vec_tables_same_course (t : State) (j : Z) (d d' : Drop) (ds : list Drop) :
  Core.tables_ok MAX_DROPS MAX_FAST (drops t) (column_occupied t) (fasts t) ->
  rd (drops t) j = Some d -> head d <> -1 -> Core.same_course 6 d d' ->
  wr (drops t) j d' = Some ds ->
  Core.tables_ok MAX_DROPS MAX_FAST ds (column_occupied t) (fasts t).
Proof.
  intros HT Hd Hh Hsc Hw.
  destruct (Core.ok_drop _ _ _ _ _ HT j d Hd Hh) as [Hok _].
  apply (CoreFacts.tables_move MAX_DROPS MAX_FAST (drops t)
           (column_occupied t) (fasts t) j d d' ds HT Hd Hh);
    [|by destruct Hsc|exact Hw].
  apply (CoreFacts.same_course_ok 6 d d'); [lia|exact Hsc|exact Hok].
Qed.

(** One iteration of the loop of [stepFastDrops] on a well-formed state. *)
Lemma vec_stepFastDrops_body_spec (k : Z) (t : State) :
  0 <= k < MAX_FAST ->
  Inv t ->
  exists t', stepFastDrops_body k t = Some t' /\ Inv t' /\
    column_occupied t' = column_occupied t /\
    (forall i d, rd (drops t) i = Some d ->
       exists d', rd (drops t') i = Some d' /\ Core.same_course 6 d d') /\
    (forall i, i <> k -> rd (fasts t') i = rd (fasts t) i) /\
    (forall f, rd (fasts t) k = Some f -> f_active f = true ->
       f_row f + 1 < TERM_ROWS ->
       forall j d, rd (drops t) j = Some d -> head d <> -1 ->
         col d = f_col f -> head d <= f_row f + 1 ->
         exists f' d', rd (fasts t') k = Some f' /\ f_active f' = false /\
                       rd (drops t') j = Some d' /\ 6 <= boost d').
Proof.
  intros Hk HI. pose proof HI as [HT HC HP].
  pose proof HT as [H1 H2 H3 H4 H5 H6 H7].
  unfold stepFastDrops_body.
  destruct (rd_in_range (fasts t) k) as [f Hf]; [lia|].
  rewrite Hf, bind_Some.
  assert (Hrefl : forall i d, rd (drops t) i = Some d ->
            exists d', rd (drops t) i = Some d' /\ Core.same_course 6 d d')
    by (intros i d Hd; exists d; auto using CoreFacts.same_course_refl).
  destruct (f_active f) eqn:Hact; cbn [negb].
  2:{ exists t. split; [done|]. do 4 (split; [done|]).
      intros f0 Hf0 Ha0. congruence. }
  destruct (H7 k f Hf Hact) as (Hrow & Hsp & Hage & Hfc).
  simpl_fast. rewrite Hage, Hsp.
  change (u8 (0 + 1) <? 1) with false. cbn iota.
  unfold Core.TERM_ROWS, Core.TERM_COLS in *.
  rewrite (i16_small (f_row f + 1)) by lia.
  destruct (Z.leb_spec TERM_ROWS (f_row f + 1)) as [Hoff|Hon].
  { (* the bullet leaves the screen *)
    step_wr Hw. eexists. split; [reflexivity|].
    split.
    { split; simpl_state; [|exact HC|exact HP].
      apply (CoreFacts.tables_fast MAX_DROPS MAX_FAST _ _ _ _ _ _ HT Hw).
      simpl_fast. done. }
    simpl_state. do 2 (split; [done|]). split.
    - intros i Hne. by rewrite (rd_wr_ne _ _ _ _ _ Hw Hne).
    - intros f0 Hf0 _ Hlt. assert (f0 = f) by congruence. subst f0. lia. }
  destruct (CoreFacts.find_drop_spec (drops t) MAX_DROPS (f_col f) H1)
    as (di & Hfind & Hdi).
  unfold findDropIndexInColumn. rewrite Hfind, bind_Some.
  remember (set_f_row (f_row f + 1) (set_f_age 0 (set_f_age (u8 (0 + 1)) f)))
    as f1 eqn:Hf1.
  assert (Hfok : Core.fast_ok f1).
  { rewrite Hf1. unfold Core.fast_ok, Core.TERM_ROWS, Core.TERM_COLS.
    simpl_fast. unfold TERM_ROWS in Hon. lia. }
  assert (Hf1row : f_row f1 = f_row f + 1) by (by rewrite Hf1).
  destruct Hdi as [[-> Hnone]|(Hdir & d & Hd & Hhd & Hcd & _)].
  { (* no crawling drop in the column *)
    change (-1 =? -1) with true. cbn iota.
    step_wr Hw. eexists. split; [reflexivity|].
    split.
    { split; simpl_state; [|exact HC|exact HP].
      apply (CoreFacts.tables_fast MAX_DROPS MAX_FAST _ _ _ _ _ _ HT Hw).
      done. }
    simpl_state. do 2 (split; [done|]). split.
    - intros i Hne. by rewrite (rd_wr_ne _ _ _ _ _ Hw Hne).
    - intros f0 Hf0 _ _ j d Hd Hhd Hcd _.
      assert (f0 = f) by congruence. subst f0.
      exfalso. eapply Hnone; eauto. }
  destruct (Z.eqb_spec di (-1)) as [|_]; [lia|].
  rewrite Hd, bind_Some.
  destruct (H4 di d Hd Hhd)
    as [(Hh0 & Htail & Hcol & Htr & Hsp' & Hage' & Hbo) _].
  unfold Core.TERM_ROWS, Core.TERM_COLS, Core.MAX_TRAIL in *.
  rewrite (i16_small (trail d - 1)) by lia.
  rewrite (i16_small (head d - (trail d - 1))) by lia.
  destruct (vec_pass_through_spec t di d (f_row f + 1) HI Hd Hhd)
    as (d1 & ci & bp & -> & Hsc1 & Hb1 & Hci & Hbp).
  rewrite bind_Some. cbv beta iota.
  rewrite (u8_small di) by (unfold MAX_DROPS in Hdir; lia).
  destruct (Z.leb_spec (head d - (trail d - 1)) (f_row f + 1)) as [Hhit|Hmiss].
  - (* impact *)
    remember (set_rng (splitmix32 (splitmix32
                (rng (if boost d1 <? 6 then set_boost 6 d1 else d1))))
                (if boost d1 <? 6 then set_boost 6 d1 else d1)) as d2 eqn:Hd2.
    assert (Hsc2 : Core.same_course 6 d d2 /\ 6 <= boost d2).
    { rewrite Hd2. unfold Core.same_course in *.
      destruct (Z.ltb_spec (boost d1) 6); simpl_drop; lia. }
    destruct Hsc2 as [Hsc2 Hb2].
    destruct (VectorizedPacking.vec_set_slot_total MAX_DROPS bp di 0 3)
      as (bp' & -> & Hbp' & _); [done|lia|lia|].
    rewrite bind_Some.
    step_wr Hwd. step_wr Hwf.
    eexists. split; [reflexivity|].
    split.
    { split; simpl_state; [|exact Hci|exact Hbp'].
      apply (CoreFacts.tables_fast MAX_DROPS MAX_FAST l' _ (fasts t) k
               (set_f_active false f1) l'0); [|exact Hwf|simpl_fast; done].
      by apply (vec_tables_same_course t di d d2 l'). }
    simpl_state. split; [done|]. split; [|split].
    + intros i d0 Hd0. rewrite (rd_wr _ _ _ _ _ Hwd).
      destruct (Z.eqb_spec i di) as [->|Hne].
      * exists d2. split; [done|]. assert (d0 = d) by congruence. by subst d0.
      * exists d0. auto using CoreFacts.same_course_refl.
    + intros i Hne. by rewrite (rd_wr_ne _ _ _ _ _ Hwf Hne).
    + intros f0 Hf0 _ _ j dj Hdj Hhj Hcj _.
      assert (f0 = f) by congruence. subst f0.
      assert (j = di) by (eapply H5; eauto; congruence). subst j.
      exists (set_f_active false f1), d2.
      split; [exact (rd_wr_eq _ _ _ _ Hwf)|].
      split; [reflexivity|]. split; [exact (rd_wr_eq _ _ _ _ Hwd)|exact Hb2].
  - (* the bullet is still above the trail *)
    step_wr Hwd. step_wr Hwf.
    eexists. split; [reflexivity|].
    split.
    { split; simpl_state; [|exact Hci|exact Hbp].
      apply (CoreFacts.tables_fast MAX_DROPS MAX_FAST l' _ (fasts t) k
               f1 l'0); [|exact Hwf|done].
      by apply (vec_tables_same_course t di d d1 l'). }
    simpl_state. split; [done|]. split; [|split].
    + intros i d0 Hd0. rewrite (rd_wr _ _ _ _ _ Hwd).
      destruct (Z.eqb_spec i di) as [->|Hne].
      * exists d1. split; [done|]. assert (d0 = d) by congruence. by subst d0.
      * exists d0. auto using CoreFacts.same_course_refl.
    + intros i Hne. by rewrite (rd_wr_ne _ _ _ _ _ Hwf Hne).
    + intros f0 Hf0 _ _ j dj Hdj Hhj Hcj Hle.
      assert (f0 = f) by congruence. subst f0.
      assert (j = di) by (eapply H5; eauto; congruence). subst j.
      assert (dj = d) by congruence. subst dj. lia.
Qed.

(** [stepFastDrops] never faults on a well-formed state and keeps it
    well-formed; a bullet that reaches the head of the Drop of its column
    is switched off and leaves that Drop boosted. *)
Lemma vec_stepFastDrops_spec (s : State) :
  Inv s ->
  exists s', stepFastDrops s = Some s' /\ Inv s' /\
    column_occupied s' = column_occupied s /\
    (forall i d, rd (drops s) i = Some d ->
       exists d', rd (drops s') i = Some d' /\ Core.same_course 6 d d') /\
    (forall i f, rd (fasts s) i = Some f -> f_active f = true ->
       f_row f + 1 < TERM_ROWS ->
       forall j d, rd (drops s) j = Some d -> head d <> -1 ->
         col d = f_col f -> head d <= f_row f + 1 ->
         exists f' d', rd (fasts s') i = Some f' /\ f_active f' = false /\
                       rd (drops s') j = Some d' /\ 6 <= boost d').
Proof.
  intros HI. unfold stepFastDrops.
  destruct (for_upto_inv
    (fun k t => Inv t /\ column_occupied t = column_occupied s /\
       (forall i d, rd (drops s) i = Some d ->
          exists d', rd (drops t) i = Some d' /\ Core.same_course 6 d d') /\
       (forall i, k <= i -> rd (fasts t) i = rd (fasts s) i) /\
       (forall i f, i < k -> rd (fasts s) i = Some f -> f_active f = true ->
          f_row f + 1 < TERM_ROWS ->
          forall j d, rd (drops s) j = Some d -> head d <> -1 ->
            col d = f_col f -> head d <= f_row f + 1 ->
            exists f' d', rd (fasts t) i = Some f' /\ f_active f' = false /\
                          rd (drops t) j = Some d' /\ 6 <= boost d'))
    stepFastDrops_body MAX_FAST s)
    as (s' & Hs' & HI' & Hc & HA & _ & HC).
  - unfold MAX_FAST; lia.
  - split; [done|]. split; [done|]. split; [|split].
    + intros i d Hd. exists d. auto using CoreFacts.same_course_refl.
    + done.
    + intros i f Hi Hf. apply rd_Some_range in Hf. lia.
  - intros k t Hk (HIt & Hct & HAt & HBt & HCt).
    destruct (vec_stepFastDrops_body_spec k t Hk HIt)
      as (t' & Ht' & HIt' & Hc' & HA' & HB' & HC').
    exists t'. split; [done|]. split; [done|].
    split; [congruence|]. split; [|split].
    + intros i d Hd. destruct (HAt i d Hd) as (d1 & Hd1 & Hsc1).
      destruct (HA' i d1 Hd1) as (d2 & Hd2 & Hsc2).
      exists d2. split; [done|]. eapply CoreFacts.same_course_trans; eauto.
    + intros i Hi. rewrite HB' by lia. apply HBt. lia.
    + intros i f Hi Hf Ha Hrow j d Hd Hh Hcol Hle.
      destruct (Z.eq_dec i k) as [->|Hne].
      * destruct (HAt j d Hd) as (d1 & Hd1 & Hsc1).
        pose proof Hsc1 as (Ec & Eh & _).
        assert (Hfk : rd (fasts t) k = Some f) by (rewrite HBt by lia; done).
        apply (HC' f Hfk Ha Hrow j d1 Hd1); [congruence|congruence|lia].
      * destruct (HCt i f ltac:(lia) Hf Ha Hrow j d Hd Hh Hcol Hle)
          as (f' & d1 & Hf' & Ha' & Hd1 & Hb1).
        destruct (HA' j d1 Hd1) as (d2 & Hd2 & Hsc2).
        exists f', d2. rewrite HB' by done.
        do 3 (split; [done|]). destruct Hsc2 as (_ & _ & _ & _ & _ & Hb). lia.
  - exists s'. do 4 (split; [done|]).
    intros i f Hf. apply HC; [|done]. apply rd_Some_range in Hf.
    rewrite (Core.ok_len_fasts _ _ _ _ _ (inv_tables s HI)) in Hf. lia.
Qed.

(** *** Runs *)

Lemma vec_initial_Inv (s : State) : initial s = true -> Inv s.
Proof.
  unfold initial. rewrite !andb_true_iff, !Z.eqb_eq.
  intros [[[[[[[[[H1 H2] H3] H4] H5] H6] H7] H8] H9] H10].
  split.
  - by apply CoreFacts.tables_initial.
  - split; [done|]. rewrite forallb_rd in H8.
    intros i row Hrow. apply H8 in Hrow. by apply Z.eqb_eq in Hrow.
  - split; [done|]. by rewrite forallb_rd in H10.
Qed.

Lemma vec_run_op_Inv (o : op) (s : State) :
  Inv s -> exists s', run_op o s = Some s' /\ Inv s'.
Proof.
  intros HI. destruct o; cbn [run_op].
  - destruct (vec_maybeSpawnDrop_spec s HI) as (s' & ? & ? & _). eauto.
  - destruct (vec_maybeSpawnFastDrop_Inv s HI) as (s' & ? & ? & _). eauto.
  - destruct (vec_stepDrops_Inv stack s HI) as (s' & ? & ? & _). eauto.
  - destruct (vec_stepFastDrops_spec s HI) as (s' & ? & ? & _). eauto.
Qed.

(** No sequence of calls faults, and the invariant holds after it. *)
Lemma vec_run_Inv (ops : list op) (s : State) :
  Inv s -> exists s', run ops s = Some s' /\ Inv s'.
Proof.
  revert s. induction ops as [|o ops IH]; intros s HI; cbn [run].
  - eauto.
  - destruct (vec_run_op_Inv o s HI) as (s1 & -> & HI1). rewrite bind_Some.
    by apply IH.
Qed.

Lemma vec_run_reachable_Inv (ops : list op) (s0 s : State) :
  initial s0 = true -> run ops s0 = Some s -> Inv s.
Proof.
  intros H0 Hrun.
  destruct (vec_run_Inv ops s0 (vec_initial_Inv s0 H0)) as (s' & Hs' & HI).
  congruence.
Qed.

Lemma vec_setupState_boot : setupState boot = Some start.
Proof. vm_compute. reflexivity. Qed.

Lemma vec_start_initial : initial start = true.
Proof. vm_compute. reflexivity. Qed.

(** A spawn whose roll passes, from the state [setupState] leaves. *)
Lemma vec_forced_spawn (s : State) :
  initial s = true ->
  Z.land (splitmix32 (global_rng s)) 0xFF <= SPAWN_CHANCE ->
  exists s' idx d,
    maybeSpawnDrop s = Some s' /\
    rd (drops s') idx = Some d /\ head d = 0 /\
    0 <= col d < TERM_COLS /\
    rd (column_occupied s) (col d) = Some false /\
    rd (column_occupied s') (col d) = Some true /\
    3 <= trail d <= MAX_TRAIL /\ 1 <= speed d <= 5 /\
    (forall j dj, rd (drops s') j = Some dj -> head dj <> -1 -> j = idx).
Proof.
  intros H0 Hroll. pose proof (vec_initial_Inv s H0) as HI.
  unfold initial in H0. rewrite !andb_true_iff, !Z.eqb_eq in H0.
  destruct H0 as [[[[[[[[[H1 H2] H3] H4] H5] H6] H7] H8] H9] H10].
  rewrite forallb_rd in H4. rewrite forallb_rd in H5.
  destruct (vec_maybeSpawnDrop_spec s HI) as (s' & Hs' & HI' & _ & Hcase).
  destruct Hcase as [(_ & _ & _ & [Hr|[Hfull|Hfull]])
                    |(idx & c & d0 & d & _ & Hd0 & Hh0 & Hc & Hfree & Hh & Hcol
                      & Hok & Hwd & Hwc)].
  - lia.
  - exfalso. destruct (rd_in_range (drops s) 0) as [d Hd];
      [rewrite H1; unfold MAX_DROPS; lia|].
    apply (Hfull 0 d Hd). apply H4 in Hd. by apply Z.eqb_eq in Hd.
  - exfalso. destruct (rd_in_range (column_occupied s) 0) as [b Hb];
      [rewrite H2; unfold TERM_COLS; lia|].
    pose proof (Hfull 0 b Hb). apply H5 in Hb. subst b. discriminate.
  - exists s', idx, d. split; [done|].
    split; [exact (rd_wr_eq _ _ _ _ Hwd)|]. split; [done|].
    rewrite Hcol. split; [done|]. split; [done|].
    split; [exact (rd_wr_eq _ _ _ _ Hwc)|].
    destruct Hok as (_ & _ & _ & Htr & Hsp & _).
    split; [exact Htr|]. split; [exact Hsp|].
    intros j dj Hdj Hhj. rewrite (rd_wr _ _ _ _ _ Hwd) in Hdj.
    destruct (Z.eqb_spec j idx) as [->|Hne]; [done|].
    apply H4 in Hdj. apply Z.eqb_eq in Hdj. done.
Qed.

(** Every slot of every reachable state holds a brightness of 0..3. *)
Lemma vec_reachable_slot_range (ops : list op) (s0 s : State) (i slot : Z) :
  initial s0 = true -> run ops s0 = Some s ->
  0 <= i < MAX_DROPS -> 0 <= slot < MAX_TRAIL ->
  exists v, get_bright_slot (drop_bright_packed s) i slot = Some v /\
            0 <= v <= 3.
Proof.
  intros H0 Hrun Hi Hslot.
  destruct (vec_run_reachable_Inv ops s0 s H0 Hrun) as [_ _ HP].
  apply (VectorizedPacking.vec_get_slot_total MAX_DROPS); [done|done|].
  unfold MAX_TRAIL in Hslot. lia.
Qed.

(** An active bullet of a reachable state is on the screen. *)
Lemma vec_reachable_fast_row (ops : list op) (s0 s : State) (i : Z) (f : FastDrop) :
  initial s0 = true -> run ops s0 = Some s ->
  rd (fasts s) i = Some f -> f_active f = true ->
  0 <= f_row f < TERM_ROWS.
Proof.
  intros H0 Hrun Hf Ha.
  destruct (vec_run_reachable_Inv ops s0 s H0 Hrun) as [HT _ _].
  destruct (Core.ok_fast _ _ _ _ _ HT i f Hf Ha) as [Hrow _]. exact Hrow.
Qed.
End VectorizedFacts.

(** * matrix_rain_vectorized.ino: further properties *)

Module VectorizedMore.
Import Vectorized VectorizedRender VectorizedFacts.

(** *** renderFrame *)

Lemma vec_render_cell_eq (s : State) (r c last : Z) (out : list event) :
  render_cell s r c (last, out) =
  (bc ← cell s r c;
   if negb (fst bc =? last)
   then Some (fst bc, out ++ [SetColor (fst bc); Put (snd bc)])
   else Some (last, out ++ [Put (snd bc)])).
Proof. unfold render_cell. by destruct (cell s r c) as [[b ch]|]. Qed.

Lemma vec_charForFast_total (f : FastDrop) :
  exists ch, charForFast f = Some ch /\ In ch CHARSET.
Proof.
  unfold charForFast.
  destruct (charset_at_idx_total (u8 (splitmix32 (f_rng f) mod CHARSET_LEN)))
    as [ch Hch].
  exists ch. split; [done|]. by apply (charset_at_idx_In _ _ Hch).
Qed.

(** In a well-formed state no cell of the screen makes [renderFrame]
    read outside a table, and every cell is painted with a brightness of
    0..4 and a blank or a character of the character set. *)
Lemma vec_cell_spec (s : State) (r c : Z) :
  Inv s -> 0 <= r < TERM_ROWS -> 0 <= c < TERM_COLS ->
  exists bc, cell s r c = Some bc /\ cell_ok bc.
Proof.
  intros HI Hr Hc. pose proof HI as [[H1 H2 H3 H4 H5 H6 H7] [Hcl Hcr] Hp].
  unfold cell. consts.
  match goal with |- context [scan_upto 12 ?p] =>
    destruct (scan_upto_spec p 12) as (hit & Hscan & Hspec) end; [lia| |].
  { intros k Hk. destruct (rd_in_range (fasts s) k) as [f Hf]; [lia|].
    rewrite Hf, bind_Some.
    destruct (negb (f_active f) || negb (f_col f =? c)); [eauto|].
    destruct (vec_charForFast_total f) as (ch & Hch & _).
    destruct (f_row f =? i16 r); [rewrite Hch, bind_Some; eauto|].
    destruct (f_row f - 1 =? i16 r); [rewrite Hch, bind_Some; eauto|eauto]. }
  rewrite Hscan, bind_Some. destruct hit as [bc|].
  { exists bc. split; [done|].
    destruct Hspec as (k & _ & Hk & _).
    destruct (rd (fasts s) k) as [f|]; cbn in Hk; [|discriminate].
    destruct (negb (f_active f) || negb (f_col f =? c)); [discriminate|].
    destruct (vec_charForFast_total f) as (ch & Hch & Hin).
    rewrite Hch in Hk. cbn in Hk.
    destruct (f_row f =? i16 r).
    { injection Hk as <-. split; cbn; [lia|by right]. }
    destruct (f_row f - 1 =? i16 r); [|discriminate].
    injection Hk as <-. split; cbn; [lia|by right]. }
  destruct (rd_in_range (column_occupied s) c) as [occ Hocc]; [lia|].
  rewrite Hocc, bind_Some. destruct occ.
  2:{ eexists. split; [reflexivity|]. split; cbn; [lia|by left]. }
  assert (Hprobe : forall k, 0 <= k < 35 ->
    exists x,
      (d ← rd (drops s) k;
       if (head d =? -1) || negb (col d =? c) then Some None
       else
         let dist := i16 (head d - i16 r) in
         if (0 <=? dist) && (dist <? trail d) then
           b ← get_bright_slot (drop_bright_packed s) k (u8 dist);
           idx ← rd2 (drop_char_idx s) k dist;
           ch ← charset_at_idx idx;
           Some (Some (b, ch))
         else Some None) = Some x /\
      match x with Some bc => cell_ok bc | None => True end).
  { intros k Hk. destruct (rd_in_range (drops s) k) as [d Hd]; [lia|].
    rewrite Hd, bind_Some.
    destruct (Z.eqb_spec (head d) (-1)) as [|Hact]; cbn [orb];
      [by exists None|].
    destruct (negb (col d =? c)); [by exists None|].
    destruct (H4 k d Hd Hact) as [Hok _].
    destruct Hok as (Hh0 & Htg & _ & Ht & _). consts.
    cbn zeta. rewrite (i16_small r) by lia.
    rewrite (i16_small (head d - r)) by lia.
    destruct (Z.leb_spec 0 (head d - r)); cbn [andb]; [|by exists None].
    destruct (Z.ltb_spec (head d - r) (trail d)); [|by exists None].
    rewrite u8_small by lia.
    destruct (VectorizedPacking.vec_get_slot_total 35 (drop_bright_packed s)
                k (head d - r) Hp) as (b & -> & Hb); [lia|lia|].
    rewrite bind_Some.
    destruct (rd_in_range (drop_char_idx s) k) as [row Hrow]; [lia|].
    pose proof (Hcr k row Hrow) as Hlen.
    destruct (rd_in_range row (head d - r)) as [idx Hidx]; [lia|].
    unfold rd2. rewrite Hrow, bind_Some, Hidx, bind_Some.
    destruct (charset_at_idx_total idx) as [ch Hch].
    rewrite Hch, bind_Some. eexists. split; [reflexivity|].
    split; cbn; [lia|]. right. by apply (charset_at_idx_In _ _ Hch). }
  match goal with |- context [scan_upto 35 ?p] =>
    destruct (scan_upto_spec p 35) as (hit & Hscan2 & Hspec2) end; [lia| |].
  { intros k Hk. destruct (Hprobe k Hk) as (x & Hx & _). eauto. }
  rewrite Hscan2, bind_Some. eexists. split; [reflexivity|].
  destruct hit as [bc|]; [|split; cbn; [lia|by left]].
  destruct Hspec2 as (k & Hk & Hpk & _).
  destruct (Hprobe k Hk) as (x & Hx & Hok).
  assert (Hx' : Some x = Some (Some bc)) by (rewrite <- Hx; exact Hpk).
  injection Hx' as ->. done.
Qed.

(** [renderFrame] never faults in a well-formed state, paints the cells
    by the rule, and writes [TERM_ROWS] rows of [TERM_COLS] characters
    separated by CR LF. *)
Lemma vec_frame_shape (s : State) (salt : Z) :
  Inv s ->
  exists out cells,
    renderFrame s salt = Some out /\ frame_cells s = Some cells /\
    len cells = TERM_ROWS * TERM_COLS /\
    drop_newlines out = Home :: spec_paint 255 cells ++ [ResetColor] /\
    row_lengths out =
      replicate (Z.to_nat TERM_ROWS) (Z.to_nat TERM_COLS) /\
    newlines out = replicate (Z.to_nat (TERM_ROWS - 1)) CRLF /\
    Forall cell_ok cells.
Proof.
  intros HI.
  destruct (painter_frame_crlf TERM_ROWS TERM_COLS (cell s) (render_cell s) cell_ok)
    with (last0 := 255) (pre := [Home])
    as (st & cells & Hst & Hcells & Hlen & Hout & Hrows & Hnl & HP);
    try done.
  - apply vec_render_cell_eq.
  - intros r c Hr Hc. destruct (vec_cell_spec s r c HI Hr Hc) as (bc & ? & _).
    eauto.
  - intros r c bc Hr Hc Hbc.
    destruct (vec_cell_spec s r c HI Hr Hc) as (bc' & ? & ?). congruence.
  - exists (snd st ++ [ResetColor]), cells. split.
    { unfold renderFrame.
      change (render_row s) with
        (fun r st => st ← for_upto TERM_COLS (render_cell s r) st;
           if r <? TERM_ROWS - 1 then Some (fst st, snd st ++ [CRLF])
           else Some st).
      by rewrite Hst. }
    split; [exact Hcells|]. split; [exact Hlen|]. split.
    { rewrite drop_newlines_app, Hout. done. }
    split.
    { rewrite (row_lengths_full _ _ _ Hrows). done. }
    split; [|done]. rewrite newlines_app, Hnl. cbn. by rewrite app_nil_r.
Qed.

(** *** stepDrops: the decay of the brightness *)

(** What the unpack, shift-and-decay and repack loops of an advance leave
    in the packed table: the head slot holds 3, slot [k] of the trail
    holds what slot [k - 1] held, one less but never below 1, and no
    other slot of any Drop changes. *)
Lemma vec_fade_exact (i : Z) (d : Drop) (tmp : list Z) (bp : list (list Z)) :
  packed_ok MAX_DROPS bp -> 0 <= i < MAX_DROPS -> len tmp = MAX_TRAIL ->
  3 <= trail d <= MAX_TRAIL ->
  exists tmp' bp', fade i d tmp bp = Some (tmp', bp') /\
    packed_ok MAX_DROPS bp' /\
    get_bright_slot bp' i 0 = Some 3 /\
    (forall k v, 1 <= k < trail d ->
       get_bright_slot bp i (k - 1) = Some v ->
       get_bright_slot bp' i k = Some (if 1 <? v then v - 1 else 1)) /\
    (forall j slot, 0 <= slot < MAX_TRAIL -> j <> i \/ trail d <= slot ->
       get_bright_slot bp' j slot = get_bright_slot bp j slot).
Proof.
  intros Hbp Hi Hl Htr. unfold fade. unfold MAX_TRAIL in *.
  (* unpack *)
  match goal with |- context [for_upto (trail d) ?body tmp] =>
    destruct (for_upto_inv
      (fun k t => len t = 12 /\
         forall j, 0 <= j < k -> rd t j = get_bright_slot bp i j)
      body (trail d) tmp) as (t1 & -> & Hl1 & Hu1)
  end; [lia|split; [done|intros; lia]| |].
  { intros k t Hk (Hlt & Ht).
    destruct (VectorizedPacking.vec_get_slot_total MAX_DROPS bp i k)
      as (v & Hv & _); [done|done|lia|].
    rewrite Hv, bind_Some.
    destruct (wr_total t k v) as [t' Hw]; [lia|].
    exists t'. split; [done|]. split; [by rewrite (wr_len _ _ _ _ Hw)|].
    intros j Hj. rewrite (rd_wr _ _ _ _ _ Hw).
    destruct (Z.eqb_spec j k) as [->|]; [done|]. apply Ht. lia. }
  rewrite bind_Some.
  (* shift and decay *)
  match goal with |- context [for_down ?n ?i0 ?body t1] =>
    destruct (for_down_inv
      (fun k t => len t = 12 /\
         (forall j, 0 <= j <= k -> rd t j = rd t1 j) /\
         (forall j, k < j < trail d ->
            rd t j = (fun prev => if 1 <? prev then u8 (prev - 1) else 1)
                       <$> rd t1 (j - 1)))
      body n i0 t1) as (t2 & -> & Hl2 & Hlow & Hhigh)
  end.
  { split; [done|]. split; [done|]. intros; lia. }
  { intros k t Hk (Hlt & Hlo & Hhi).
    rewrite (Hlo (k - 1)) by lia.
    destruct (rd_in_range t1 (k - 1)) as [prev Hprev]; [lia|].
    rewrite Hprev, bind_Some.
    destruct (wr_total t k (if 1 <? prev then u8 (prev - 1) else 1))
      as [t' Hw]; [lia|].
    exists t'. split; [done|]. split; [by rewrite (wr_len _ _ _ _ Hw)|].
    split.
    - intros j Hj. rewrite (rd_wr_ne _ _ _ _ _ Hw) by lia. apply Hlo. lia.
    - intros j Hj. rewrite (rd_wr _ _ _ _ _ Hw).
      destruct (Z.eqb_spec j k) as [->|]; [by rewrite Hprev|]. apply Hhi. lia. }
  rewrite bind_Some.
  replace (trail d - 1 - Z.of_nat (Z.to_nat (trail d - 1))) with 0 in * by lia.
  step_wr Hw0.
  assert (Hl3 : len l' = 12) by (by rewrite (wr_len _ _ _ _ Hw0)).
  (* what the array holds before it is packed again *)
  assert (Hval : forall k, 0 <= k < trail d ->
            exists v, rd l' k = Some v /\ 0 <= v <= 3 /\
              (k = 0 -> v = 3) /\
              (1 <= k -> forall w, get_bright_slot bp i (k - 1) = Some w ->
                         v = if 1 <? w then w - 1 else 1)).
  { intros k Hk. rewrite (rd_wr _ _ _ _ _ Hw0).
    destruct (Z.eqb_spec k 0) as [->|Hk0].
    - exists 3. split; [by destruct (negb _)|]. split; [lia|]. split; [done|lia].
    - rewrite (Hhigh k) by lia. rewrite (Hu1 (k - 1)) by lia.
      destruct (VectorizedPacking.vec_get_slot_total MAX_DROPS bp i (k - 1))
        as (w & Hw & Hwr); [done|done|lia|].
      rewrite Hw. cbn [fmap option_fmap option_map].
      eexists. split; [reflexivity|].
      split; [destruct (Z.ltb_spec 1 w); rewrite ?u8_small by lia; lia|].
      split; [lia|]. intros _ w' Hw'. assert (w' = w) by congruence. subst w'.
      destruct (Z.ltb_spec 1 w); rewrite ?u8_small by lia; lia. }
  (* repack *)
  match goal with |- context [for_upto (trail d) ?body bp] =>
    destruct (for_upto_inv
      (fun k b => packed_ok MAX_DROPS b /\
         (forall j, 0 <= j < k -> get_bright_slot b i j = rd l' j) /\
         (forall j slot, 0 <= slot < 12 -> j <> i \/ k <= slot ->
            get_bright_slot b j slot = get_bright_slot bp j slot))
      body (trail d) bp) as (bp' & -> & Hbp' & Hdone & Hrest)
  end; [lia|split; [done|split; [intros; lia|done]]| |].
  { intros k b Hk (Hb & Hd & Hr).
    destruct (Hval k Hk) as (v & Hv & Hvr & _).
    rewrite Hv, bind_Some.
    destruct (VectorizedPacking.vec_set_slot_total MAX_DROPS b i k v)
      as (b' & Hb' & Hok' & Hsame & Hother); [done|done|lia|].
    exists b'. split; [done|]. split; [done|]. split.
    - intros j Hj. destruct (Z.eq_dec j k) as [->|Hne].
      + rewrite Hsame, Hv. f_equal. apply land3_small. lia.
      + rewrite Hother by (lia || (right; lia)). apply Hd. lia.
    - intros j slot Hslot Hj. rewrite Hother by (lia || (destruct Hj; [left|right]; lia)).
      apply Hr; [done|]. destruct Hj; [by left|right; lia]. }
  rewrite bind_Some. exists l', bp'. split; [done|]. split; [done|].
  split; [|split].
  - rewrite Hdone by lia. destruct (Hval 0) as (v & Hv & _ & H0 & _); [lia|].
    rewrite Hv. f_equal. by apply H0.
  - intros k v Hk Hv. rewrite Hdone by lia.
    destruct (Hval k) as (v' & Hv' & _ & _ & H1); [lia|].
    rewrite Hv'. f_equal. apply H1; [lia|done].
  - exact Hrest.
Qed.

(** *** stepFastDrops: the fate of a bullet *)

Lemma vec_stepFast_body_fast (k : Z) (t : State) (f : FastDrop) :
  0 <= k < MAX_FAST -> Inv t -> rd (fasts t) k = Some f ->
  exists t' f', stepFastDrops_body k t = Some t' /\
    rd (fasts t') k = Some f' /\
    (f_active f = false -> f' = f) /\
    (f_active f = true ->
       f_col f' = f_col f /\ f_row f' = f_row f + 1 /\
       (f_active f' = true <->
        f_row f + 1 < TERM_ROWS /\
        forall j d, rd (drops t) j = Some d -> head d <> -1 ->
                    col d = f_col f -> f_row f + 1 < head d - (trail d - 1))).
Proof.
  intros Hk HI Hf. pose proof HI as [HT HC HP].
  pose proof HT as [H1 H2 H3 H4 H5 H6 H7].
  unfold stepFastDrops_body. rewrite Hf, bind_Some.
  destruct (f_active f) eqn:Hact; cbn [negb].
  2:{ exists t, f. split; [done|]. split; [done|]. split; [done|]. discriminate. }
  destruct (H7 k f Hf Hact) as (Hrow & Hsp & Hage & Hfc).
  simpl_fast. rewrite Hage, Hsp.
  change (u8 (0 + 1) <? 1) with false. cbn iota.
  unfold Core.TERM_ROWS, Core.TERM_COLS in *.
  rewrite (i16_small (f_row f + 1)) by lia.
  destruct (Z.leb_spec TERM_ROWS (f_row f + 1)) as [Hoff|Hon].
  { step_wr Hw. eexists _, _. split; [reflexivity|]. simpl_state.
    split; [eapply rd_wr_eq; eauto|]. split; [discriminate|].
    intros _. cbn. split; [done|]. split; [done|].
    split; [discriminate|]. intros [? _]. lia. }
  destruct (CoreFacts.find_drop_spec (drops t) MAX_DROPS (f_col f) H1)
    as (di & Hfind & Hdi).
  unfold findDropIndexInColumn. rewrite Hfind, bind_Some.
  destruct Hdi as [[-> Hnone]|(Hdir & d & Hd & Hhd & Hcd & _)].
  { change (-1 =? -1) with true. cbn iota.
    step_wr Hw. eexists _, _. split; [reflexivity|]. simpl_state.
    split; [eapply rd_wr_eq; eauto|]. split; [discriminate|].
    intros _. cbn. split; [done|]. split; [done|]. split; [|done].
    intros _. split; [done|]. intros j d Hd Hh Hc. exfalso. by apply (Hnone j d). }
  destruct (Z.eqb_spec di (-1)) as [|_]; [lia|].
  rewrite Hd, bind_Some.
  destruct (H4 di d Hd Hhd)
    as [(Hh0 & Htail & Hcol & Htr & Hsp' & Hage' & Hbo) _].
  unfold Core.TERM_ROWS, Core.TERM_COLS, Core.MAX_TRAIL in *.
  rewrite (i16_small (trail d - 1)) by lia.
  rewrite (i16_small (head d - (trail d - 1))) by lia.
  destruct (vec_pass_through_spec t di d (f_row f + 1) HI Hd Hhd)
    as (d1 & ci & bp & -> & Hsc1 & Hb1 & Hci & Hbp).
  rewrite bind_Some. cbv beta iota.
  rewrite (u8_small di) by (unfold MAX_DROPS in Hdir; lia).
  destruct (Z.leb_spec (head d - (trail d - 1)) (f_row f + 1)) as [Hhit|Hmiss].
  - destruct (VectorizedPacking.vec_set_slot_total MAX_DROPS bp di 0 3)
      as (bp' & -> & Hbp' & _); [done|lia|lia|].
    rewrite bind_Some.
    step_wr Hwd. step_wr Hwf. eexists _, _. split; [reflexivity|].
    simpl_state. split; [eapply rd_wr_eq; eauto|]. split; [discriminate|].
    intros _. cbn. split; [done|]. split; [done|].
    split; [discriminate|]. intros [_ Hall].
    specialize (Hall di d Hd Hhd Hcd). lia.
  - step_wr Hwd. step_wr Hwf. eexists _, _. split; [reflexivity|].
    simpl_state. split; [eapply rd_wr_eq; eauto|]. split; [discriminate|].
    intros _. cbn. split; [done|]. split; [done|]. split; [|done].
    intros _. split; [done|]. intros j dj Hdj Hhj Hcj.
    assert (j = di) by (apply (H5 j di dj d); (done || congruence)). subst j.
    assert (dj = d) by congruence. by subst dj.
Qed.

(** In one call of [stepFastDrops] every bullet that is switched on
    moves down exactly one row.  It stays on exactly when the new row is
    on the screen and above the last cell of the trail of the Drop of its
    column, if there is one: a bullet is stopped by the tail of a trail,
    not by its head. *)
Lemma vec_stepFast_moves (s : State) :
  Inv s ->
  exists s', stepFastDrops s = Some s' /\ Inv s' /\
    forall i f, rd (fasts s) i = Some f ->
      exists f', rd (fasts s') i = Some f' /\
        (f_active f = false -> f' = f) /\
        (f_active f = true ->
           f_col f' = f_col f /\ f_row f' = f_row f + 1 /\
           (f_active f' = true <->
            f_row f + 1 < TERM_ROWS /\
            forall j d, rd (drops s) j = Some d -> head d <> -1 ->
                        col d = f_col f ->
                        f_row f + 1 < head d - (trail d - 1))).
Proof.
  intros HI. unfold stepFastDrops.
  destruct (for_upto_inv
    (fun k t => Inv t /\
       (forall i d, rd (drops s) i = Some d ->
          exists d', rd (drops t) i = Some d' /\ Core.same_course 6 d d') /\
       (forall i, k <= i -> rd (fasts t) i = rd (fasts s) i) /\
       (forall i f, i < k -> rd (fasts s) i = Some f ->
          exists f', rd (fasts t) i = Some f' /\
            (f_active f = false -> f' = f) /\
            (f_active f = true ->
               f_col f' = f_col f /\ f_row f' = f_row f + 1 /\
               (f_active f' = true <->
                f_row f + 1 < TERM_ROWS /\
                forall j d, rd (drops s) j = Some d -> head d <> -1 ->
                            col d = f_col f ->
                            f_row f + 1 < head d - (trail d - 1)))))
    stepFastDrops_body MAX_FAST s) as (s' & Hs' & HI' & _ & _ & HC).
  - unfold MAX_FAST; lia.
  - split; [done|]. split; [|split; [done|]].
    + intros i d Hd. exists d. auto using CoreFacts.same_course_refl.
    + intros i f Hi Hf. apply rd_Some_range in Hf. lia.
  - intros k t Hk (HIt & HAt & HBt & HCt).
    destruct (vec_stepFastDrops_body_spec k t Hk HIt)
      as (t' & Ht' & HIt' & _ & HA' & HB' & _).
    exists t'. split; [done|]. split; [done|]. split; [|split].
    + intros i d Hd. destruct (HAt i d Hd) as (d1 & Hd1 & Hsc1).
      destruct (HA' i d1 Hd1) as (d2 & Hd2 & Hsc2).
      exists d2. split; [done|]. eapply CoreFacts.same_course_trans; eauto.
    + intros i Hi. rewrite HB' by lia. apply HBt. lia.
    + intros i f Hi Hf. destruct (Z.eq_dec i k) as [->|Hne].
      * assert (Hfk : rd (fasts t) k = Some f) by (rewrite HBt by lia; done).
        destruct (vec_stepFast_body_fast k t f Hk HIt Hfk)
          as (t1 & f' & Ht1 & Hf' & Hoff & Hon).
        assert (t1 = t') by congruence. subst t1. exists f'.
        split; [done|]. split; [done|]. intros Ha.
        destruct (Hon Ha) as (E1 & E2 & Hiff). do 2 (split; [done|]).
        rewrite Hiff. split; intros [Hrow Hall]; (split; [done|]).
        -- intros j d Hd Hh Hc. destruct (HAt j d Hd) as (d1 & Hd1 & Hsc1).
           destruct Hsc1 as (Ec & Eh & Et & _).
           rewrite <- Eh, <- Et. apply (Hall j d1 Hd1); congruence.
        -- intros j d1 Hd1 Hh Hc.
           destruct (rd_in_range (drops s) j) as [d Hd].
           { apply rd_Some_range in Hd1.
             destruct HIt as [[Hlt _ _ _ _ _ _] _ _].
             destruct HI as [[Hls _ _ _ _ _ _] _ _]. lia. }
           destruct (HAt j d Hd) as (d1' & Hd1' & Hsc1).
           assert (d1' = d1) by congruence. subst d1'.
           destruct Hsc1 as (Ec & Eh & Et & _).
           rewrite Eh, Et. apply (Hall j d Hd); congruence.
      * rewrite HB' by done. apply HCt; [lia|done].
  - exists s'. split; [done|]. split; [done|].
    intros i f Hf. apply HC; [|done]. apply rd_Some_range in Hf.
    destruct HI as [[_ _ Hlf _ _ _ _] _ _]. lia.
Qed.

End VectorizedMore.

Module VectorizedFixedFacts.
Import VectorizedFixed.

Lemma fx_get_slot_total (n : Z) (packed : list (list Z)) (i slot : Z) :
  packed_ok n packed -> 0 <= i < n -> 0 <= slot < 12 ->
  exists v, get_bright_slot packed i slot = Some v /\ 0 <= v <= 3.
Proof. apply Window16Slots.w16_get_slot_total. Qed.

Lemma fx_set_slot_total (n : Z) (packed : list (list Z)) (i slot v : Z) :
  packed_ok n packed -> 0 <= i < n -> 0 <= slot < 12 ->
  exists packed', set_bright_slot packed i slot v = Some packed' /\
    packed_ok n packed' /\
    get_bright_slot packed' i slot = Some (Z.land v 3) /\
    (forall j slot', 0 <= slot' < 12 -> (j <> i \/ slot' <> slot) ->
       get_bright_slot packed' j slot' = get_bright_slot packed j slot').
Proof. apply Window16Slots.w16_set_slot_total. Qed.

Ltac simpl_state :=
  cbn [drops fasts column_occupied global_rng drop_char_idx drop_bright_packed
       set_drops set_fasts set_column_occupied set_global_rng
       set_drop_char_idx set_drop_bright_packed].

Ltac consts :=
  unfold Core.TERM_COLS, Core.TERM_ROWS, Core.MAX_TRAIL,
         TERM_COLS, TERM_ROWS, MAX_TRAIL, MAX_DROPS, MAX_FAST in *.

Lemma fx_spawned_ok (c g : Z) :
  0 <= c < TERM_COLS ->
  Core.drop_ok (spawned c g) /\ head (spawned c g) = 0 /\
  col (spawned c g) = c /\ 3 <= trail (spawned c g) <= MAX_TRAIL.
Proof.
  intros Hc. unfold Core.drop_ok, spawned. consts.
  cbn.
  pose proof (Z.mod_pos_bound g 10 ltac:(lia)).
  pose proof (Z.mod_pos_bound (Z.shiftr g 8) 5 ltac:(lia)).
  change (12 - 2) with 10.
  rewrite (u8_small c) by lia.
  rewrite (u8_small (g mod 10 + 3)) by lia.
  rewrite (u8_small (Z.shiftr g 8 mod 5 + 1)) by lia.
  lia.
Qed.

(** The buffers of a slot are filled without a fault and stay
    well-formed. *)
Lemma fx_init_buffers_ok (idx tr r0 : Z) (ci0 bp0 : list (list Z)) :
  chars_ok MAX_DROPS ci0 -> packed_ok MAX_DROPS bp0 ->
  0 <= idx < MAX_DROPS -> 0 <= tr <= 12 ->
  exists r ci bp,
    init_buffers idx tr (r0, ci0, bp0) = Some (r, ci, bp) /\
    chars_ok MAX_DROPS ci /\ packed_ok MAX_DROPS bp.
Proof.
  intros Hci Hbp Hidx Htr. unfold init_buffers.
  set (P := fun st : Z * list (list Z) * list (list Z) =>
              chars_ok MAX_DROPS (snd (fst st)) /\ packed_ok MAX_DROPS (snd st)).
  assert (Hu : u8 idx = idx) by (apply u8_small; unfold MAX_DROPS in *; lia).
  match goal with |- context [for_upto tr ?body _] =>
    destruct (for_upto_preserves P body tr (r0, ci0, bp0)) as (st1 & -> & HP1)
  end; [lia|done| |].
  { intros k [[r ci] bp] Hk [Hc Hb]. cbn [fst snd] in *.
    destruct (chars_ok_wr2 MAX_DROPS ci idx k (pickIndex (splitmix32 r)))
      as (ci' & -> & Hc'); [done|done|lia|].
    rewrite bind_Some, Hu.
    destruct (fx_set_slot_total MAX_DROPS bp idx k
                (if k =? 0 then 3 else if k =? 1 then 2 else 1))
      as (bp' & -> & Hb' & _); [done|done|lia|].
    rewrite bind_Some. eexists. split; [reflexivity|]. split; done. }
  rewrite bind_Some.
  match goal with |- context [for_range ?n tr ?body st1] =>
    destruct (for_range_preserves P body n tr st1) as (st2 & -> & HP2)
  end; [done| |].
  { intros k [[r ci] bp] Hk [Hc Hb]. cbn [fst snd] in *.
    unfold MAX_TRAIL in Hk.
    destruct (chars_ok_wr2 MAX_DROPS ci idx k 0)
      as (ci' & -> & Hc'); [done|done|lia|].
    rewrite bind_Some, Hu.
    destruct (fx_set_slot_total MAX_DROPS bp idx k 0)
      as (bp' & -> & Hb' & _); [done|done|lia|].
    rewrite bind_Some. eexists. split; [reflexivity|]. split; done. }
  destruct st2 as [[r ci] bp]. destruct HP2 as [Hc Hb]. eauto 6.
Qed.

Lemma fx_Inv_rng (s : State) (g : Z) : Inv s -> Inv (set_global_rng g s).
Proof. intros [H1 H2 H3]. split; done. Qed.

(** Every path through [maybeSpawnDrop] on a well-formed state. *)
Lemma fx_maybeSpawnDrop_spec (s : State) :
  Inv s ->
  exists s', maybeSpawnDrop s = Some s' /\ Inv s' /\ fasts s' = fasts s /\
    ((drops s' = drops s /\ column_occupied s' = column_occupied s /\
      drop_bright_packed s' = drop_bright_packed s /\
      (SPAWN_CHANCE < Z.land (splitmix32 (global_rng s)) 0xFF \/
       (forall i d, rd (drops s) i = Some d -> head d <> -1) \/
       (forall c b, rd (column_occupied s) c = Some b -> b = true)))
     \/
     (exists idx c d0 d,
        Z.land (splitmix32 (global_rng s)) 0xFF <= SPAWN_CHANCE /\
        rd (drops s) idx = Some d0 /\ head d0 = -1 /\
        0 <= c < TERM_COLS /\
        rd (column_occupied s) c = Some false /\
        head d = 0 /\ col d = c /\ Core.drop_ok d /\
        wr (drops s) idx d = Some (drops s') /\
        wr (column_occupied s) c true = Some (column_occupied s'))).
Proof.
  intros HI. pose proof HI as [HT HC HP]. pose proof HT as [H1 H2 H3 _ _ _ _].
  unfold maybeSpawnDrop.
  remember (splitmix32 (global_rng s)) as g1 eqn:Hg1.
  destruct (Z.ltb_spec SPAWN_CHANCE (Z.land g1 255)) as [Hroll|Hroll].
  { eexists. split; [reflexivity|]. split; [by apply fx_Inv_rng|].
    split; [done|]. left. auto. }
  simpl_state.
  destruct (CoreFacts.inactive_slot_spec (drops s) MAX_DROPS H1) as (r1 & -> & Hr1).
  rewrite bind_Some.
  destruct r1 as [idx|]; cbn [or_minus1].
  2:{ change (-1 =? -1) with true. cbn iota.
      eexists. split; [reflexivity|]. split; [by apply fx_Inv_rng|].
      split; [done|]. left. do 3 (split; [done|]). right. left. done. }
  destruct Hr1 as (Hidx & d0 & Hd0 & Hh0).
  destruct (Z.eqb_spec idx (-1)) as [|_]; [lia|].
  remember (splitmix32 g1) as g2 eqn:Hg2.
  remember (u8 (g2 mod TERM_COLS)) as st eqn:Hst.
  destruct (CoreFacts.free_column_spec (column_occupied s) st H2)
    as (r2 & Hr2 & Hspec2).
  change Core.TERM_COLS with TERM_COLS in Hr2. cbv zeta in Hr2.
  rewrite Hr2, bind_Some.
  destruct r2 as [c|]; cbn [or_minus1].
  2:{ change (-1 =? -1) with true. cbn iota.
      eexists. split; [reflexivity|]. split; [by apply fx_Inv_rng|].
      split; [done|]. left. do 3 (split; [done|]). right. right. done. }
  destruct Hspec2 as [Hc Hfree].
  destruct (Z.eqb_spec c (-1)) as [|_]; [lia|].
  remember (splitmix32 g2) as g3 eqn:Hg3.
  destruct (fx_spawned_ok c g3 Hc) as (Hok & Hh & Hcol & Htr).
  remember (spawned c g3) as dn eqn:Hdn. clear Hdn.
  destruct (fx_init_buffers_ok idx (trail dn) (rng dn)
              (drop_char_idx s) (drop_bright_packed s))
    as (r & ci & bp & -> & Hci & Hbp); [done|done|done| |].
  { unfold MAX_TRAIL in Htr. lia. }
  rewrite bind_Some. cbv beta iota.
  step_wr Hwd. rewrite Hcol. step_wr Hwc.
  eexists. split; [reflexivity|]. simpl_state.
  assert (Hok' : Core.drop_ok (set_rng r dn))
    by (by apply CoreFacts.drop_ok_set_rng).
  assert (Hh' : head (set_rng r dn) = 0) by (destruct dn; exact Hh).
  assert (Hcol' : col (set_rng r dn) = c) by (destruct dn; exact Hcol).
  split; [|split; [reflexivity|]].
  - split; simpl_state; [|exact Hci|exact Hbp].
    apply (CoreFacts.tables_spawn MAX_DROPS MAX_FAST (drops s)
             (column_occupied s) (fasts s) idx c d0 (set_rng r dn)
             l' l'0 HT Hd0 Hh0 Hfree Hok'); [lia|exact Hcol'|exact Hwd|exact Hwc].
  - right. exists idx, c, d0, (set_rng r dn).
    subst g1. split; [exact Hroll|]. split; [exact Hd0|]. split; [exact Hh0|].
    split; [exact Hc|]. split; [exact Hfree|]. split; [exact Hh'|].
    split; [exact Hcol'|]. split; [exact Hok'|]. split; [exact Hwd|exact Hwc].
Qed.

(** Every path through [maybeSpawnFastDrop] on a well-formed state. *)
Lemma fx_maybeSpawnFastDrop_Inv (s : State) :
  Inv s ->
  exists s', maybeSpawnFastDrop s = Some s' /\ Inv s' /\
    drops s' = drops s /\ column_occupied s' = column_occupied s.
Proof.
  intros HI. pose proof HI as [HT HC HP]. pose proof HT as [H1 H2 H3 _ _ _ _].
  unfold maybeSpawnFastDrop.
  remember (splitmix32 (global_rng s)) as g1 eqn:Hg1.
  destruct (Z.ltb_spec SPAWN_FAST_CHANCE (Z.land g1 255)) as [Hroll|Hroll].
  { eexists. split; [reflexivity|]. split; [by apply fx_Inv_rng|]. done. }
  simpl_state.
  remember (splitmix32 g1) as g2 eqn:Hg2.
  remember (u8 (g2 mod TERM_COLS)) as st eqn:Hst.
  destruct (CoreFacts.occupied_column_spec (column_occupied s) st H2)
    as (r1 & Hr1 & Hs1).
  change Core.TERM_COLS with TERM_COLS in Hr1. cbv zeta in Hr1.
  rewrite Hr1, bind_Some.
  destruct r1 as [c|]; cbn [or_minus1].
  2:{ change (-1 =? -1) with true. cbn iota.
      eexists. split; [reflexivity|]. split; [by apply fx_Inv_rng|]. done. }
  destruct Hs1 as [Hc Hocc].
  destruct (Z.eqb_spec c (-1)) as [|_]; [lia|].
  destruct (CoreFacts.free_fast_spec (fasts s) MAX_FAST H3) as (r2 & -> & Hr2).
  rewrite bind_Some.
  destruct r2 as [fidx|]; cbn [or_minus1].
  2:{ change (-1 =? -1) with true. cbn iota.
      eexists. split; [reflexivity|]. split; [by apply fx_Inv_rng|]. done. }
  destruct Hr2 as (Hf & f0 & Hf0 & Ha0).
  destruct (Z.eqb_spec fidx (-1)) as [|_]; [lia|].
  remember (splitmix32 g2) as g3 eqn:Hg3.
  remember (splitmix32 g3) as g4 eqn:Hg4.
  step_wr Hw. eexists. split; [reflexivity|]. simpl_state.
  split; [|split; reflexivity].
  split; simpl_state; [|exact HC|exact HP].
  apply (CoreFacts.tables_fast MAX_DROPS MAX_FAST _ _ _ _ _ _ HT Hw).
  intros _. unfold Core.fast_ok. simpl_fast.
  rewrite (u8_small c) by (consts; lia). consts. lia.
Qed.


(** *** Crawling drops *)

Lemma fx_memmove_1_0_len (row : list Z) (n : Z) :
  0 <= n -> n + 1 <= len row ->
  exists row', memmove_1_0 row n = Some row' /\ len row' = len row.
Proof.
  intros Hn Hl. unfold memmove_1_0.
  destruct (Z.leb_spec 0 n); [|lia].
  destruct (Z.leb_spec (n + 1) (len row)); [|lia].
  cbn [andb]. eexists. split; [reflexivity|].
  unfold len in *. rewrite !length_app, !length_take, length_drop. lia.
Qed.


(** The brightness part of an advance never faults, whatever [new_bright]
    holds. *)
Lemma fx_fade_ok (i : Z) (d : Drop) (junk : Z -> Z) (bp : list (list Z)) :
  packed_ok MAX_DROPS bp -> 0 <= i < MAX_DROPS ->
  3 <= trail d <= MAX_TRAIL ->
  exists bp', fade i d junk bp = Some bp' /\ packed_ok MAX_DROPS bp'.
Proof.
  intros Hbp Hi Htr. unfold fade. unfold MAX_TRAIL in *.
  match goal with |- context [for_upto (trail d) ?body tt] =>
    destruct (for_upto_preserves (fun _ : unit => True) body (trail d) tt)
      as (u & -> & _)
  end; [lia|done| |].
  { intros k t Hk _.
    destruct (fx_get_slot_total MAX_DROPS bp i k) as (v & -> & _);
      [done|done|lia|].
    rewrite bind_Some. eauto. }
  rewrite bind_Some.
  destruct (fx_set_slot_total MAX_DROPS bp i 0 3) as (bp1 & -> & Hbp1 & _);
    [done|done|lia|].
  rewrite bind_Some.
  match goal with |- context [for_range ?n 1 ?body bp1] =>
    destruct (for_range_preserves (packed_ok MAX_DROPS) body n 1 bp1)
      as (bp2 & -> & Hbp2)
  end; [done| |].
  { intros k b Hk Hb.
    destruct (fx_set_slot_total MAX_DROPS b i k (u8 (3 - u8 (3 * k / trail d))))
      as (b' & -> & Hb' & _); [done|done|lia|]. eauto. }
  rewrite bind_Some.
  match goal with |- context [for_upto (trail d) ?body bp2] =>
    destruct (for_upto_preserves (packed_ok MAX_DROPS) body (trail d) bp2)
      as (bp3 & -> & Hbp3)
  end; [lia|done| |].
  { intros k b Hk Hb.
    destruct (fx_set_slot_total MAX_DROPS b i k (u8 (junk k)))
      as (b' & -> & Hb' & _); [done|done|lia|]. eauto. }
  eauto.
Qed.

(** An advance never faults and moves the head down by exactly one row. *)
Lemma fx_advance_spec (i : Z) (s : State) (junk : Z -> Z) (d : Drop) :
  Inv s -> 0 <= i < MAX_DROPS -> Core.drop_ok d ->
  exists d' ci bp,
    advance i s junk d = Some (d', ci, bp) /\
    col d' = col d /\ head d' = head d + 1 /\ trail d' = trail d /\
    speed d' = speed d /\ age d' = 0 /\ boost d' = boost d /\
    chars_ok MAX_DROPS ci /\ packed_ok MAX_DROPS bp.
Proof.
  intros [HT HC HP] Hi Hok.
  destruct Hok as (Hh & Htail & Hcol & Htr & Hsp & Hage & Hbo).
  unfold Core.TERM_ROWS, Core.MAX_TRAIL in *.
  unfold advance. simpl_drop.
  remember (splitmix32 (rng d)) as r1 eqn:Hr1.
  remember (splitmix32 r1) as r2 eqn:Hr2.
  destruct HC as [HC1 HC2].
  destruct (rd_in_range (drop_char_idx s) i) as [row Hrow]; [lia|].
  rewrite Hrow, bind_Some.
  pose proof (HC2 i row Hrow) as Hlen.
  destruct (Z.ltb_spec 1 (trail d)) as [_|]; [|lia].
  destruct (fx_memmove_1_0_len row (trail d - 1)) as (row1 & -> & Hlen1);
    [lia|lia|].
  rewrite bind_Some.
  destruct (wr_total row1 0 (pickIndex r2)) as [row2 Hw2]; [lia|].
  rewrite Hw2, bind_Some.
  destruct (wr_total (drop_char_idx s) i row2) as [ci Hwci]; [lia|].
  rewrite Hwci, bind_Some.
  assert (Hci : chars_ok MAX_DROPS ci).
  { apply (chars_ok_wr MAX_DROPS (drop_char_idx s) ci i row2);
      [by split| |done].
    rewrite (wr_len _ _ _ _ Hw2). lia. }
  match goal with |- context [fade i ?dd junk (drop_bright_packed s)] =>
    destruct (fx_fade_ok i dd junk (drop_bright_packed s))
      as (bp & -> & Hbp)
  end; [done|done|simpl_drop; unfold MAX_TRAIL; lia|].
  rewrite bind_Some.
  rewrite (i16_small (head d + 1)) by lia.
  eexists _, ci, bp. split; [reflexivity|]. simpl_drop.
  do 6 (split; [reflexivity|]). split; [exact Hci|exact Hbp].
Qed.

(** Clearing the character indices of a slot. *)
Lemma chars_ok_clear (n : Z) (ci : list (list Z)) (i : Z) :
  chars_ok n ci -> 0 <= i < n ->
  exists ci', for_upto 12 (fun k ci => wr2 ci i k 0) ci = Some ci' /\
              chars_ok n ci'.
Proof.
  intros Hci Hi.
  apply (for_upto_preserves (chars_ok n)); [lia|done|].
  intros k t Hk Ht. by apply chars_ok_wr2.
Qed.

(** One iteration of the loop of [stepDrops] on a well-formed state. *)
Lemma fx_stepDrops_body_Inv (stack : Z -> Z -> Z) (k : Z) (s : State) :
  0 <= k < MAX_DROPS -> Inv s ->
  exists s', stepDrops_body stack k s = Some s' /\
    Inv s' /\ fasts s' = fasts s.
Proof.
  intros Hk HI. pose proof HI as [HT HC HP].
  pose proof HT as [H1 H2 H3 H4 H5 H6 H7].
  unfold stepDrops_body.
  destruct (rd_in_range (drops s) k) as [d Hd]; [lia|].
  rewrite Hd, bind_Some.
  destruct (Z.eqb_spec (head d) (-1)) as [Hh|Hh].
  { exists s. done. }
  destruct (H4 k d Hd Hh) as [Hok Hflag].
  remember (set_age (u8 (age d + 1)) d) as d1 eqn:Hd1.
  assert (Hok1 : Core.drop_ok d1 /\ col d1 = col d /\ head d1 = head d /\
                 trail d1 = trail d /\ boost d1 = boost d).
  { subst d1. unfold Core.drop_ok in *. simpl_drop.
    pose proof (u8_range (age d + 1)). lia. }
  destruct Hok1 as (Hok1 & Ec1 & Eh1 & Et1 & Eb1).
  assert (Hadv : exists d2 ci bp,
    (if speed d1 <=? age d1 then advance k s (stack k) d1
     else Some (d1, drop_char_idx s, drop_bright_packed s))
    = Some (d2, ci, bp) /\
    col d2 = col d /\ (head d2 = head d \/ head d2 = head d + 1) /\
    trail d2 = trail d /\ 1 <= speed d2 <= 5 /\ 0 <= age d2 < 256 /\
    0 <= boost d2 < 256 /\
    chars_ok MAX_DROPS ci /\ packed_ok MAX_DROPS bp).
  { destruct (speed d1 <=? age d1).
    - destruct (fx_advance_spec k s (stack k) d1 HI Hk Hok1)
        as (d2 & ci & bp & -> & E1 & E2 & E3 & E4 & E5 & E6 & Hci & Hbp).
      exists d2, ci, bp. split; [reflexivity|].
      unfold Core.drop_ok in Hok1.
      split; [congruence|]. split; [right; congruence|]. split; [congruence|].
      split; [lia|]. split; [lia|]. split; [lia|]. done.
    - exists d1, (drop_char_idx s), (drop_bright_packed s).
      split; [reflexivity|]. unfold Core.drop_ok in Hok1.
      split; [done|]. split; [left; done|]. split; [done|].
      split; [lia|]. split; [lia|]. split; [lia|]. done. }
  destruct Hadv as (d2 & ci & bp & -> & E1 & E2 & E3 & E4 & E5 & E6
                    & Hci & Hbp).
  rewrite bind_Some. cbv beta iota zeta.
  remember (if negb (boost d2 =? 0) then set_boost (u8 (boost d2 - 1)) d2
            else d2) as d3 eqn:Hd3.
  assert (Hd3' : col d3 = col d /\ head d3 = head d2 /\ trail d3 = trail d /\
                 speed d3 = speed d2 /\ age d3 = age d2 /\ 0 <= boost d3 < 256).
  { subst d3. destruct (boost d2 =? 0); cbn [negb]; simpl_drop.
    - done.
    - pose proof (u8_range (boost d2 - 1)). done. }
  destruct Hd3' as (F1 & F2 & F3 & F4 & F5 & F6). clear Hd3.
  destruct Hok as (Hh0 & Htail & Hcol & Htr & Hsp & Hage & Hbo).
  unfold Core.TERM_ROWS, Core.TERM_COLS, Core.MAX_TRAIL in *.
  rewrite (i16_small (trail d3 - 1)) by lia.
  destruct (Z.leb_spec TERM_ROWS (head d3 - (trail d3 - 1))) as [Hgone|Hstay].
  - rewrite F1.
    destruct (wr_total (column_occupied s) (col d) false) as [co Hwco];
      [lia|].
    rewrite Hwco, bind_Some.
    step_wr Hwd.
    change (BRIGHT_BYTES_PER_DROP + 1) with 4.
    destruct (packed_ok_clear MAX_DROPS bp k Hbp Hk) as (bp' & -> & Hbp').
    rewrite bind_Some.
    change MAX_TRAIL with 12.
    destruct (chars_ok_clear MAX_DROPS ci k Hci Hk) as (ci' & -> & Hci').
    rewrite bind_Some.
    eexists. split; [reflexivity|]. split; [|reflexivity].
    split; simpl_state; [|exact Hci'|exact Hbp'].
    apply (CoreFacts.tables_retire MAX_DROPS MAX_FAST (drops s)
             (column_occupied s) (fasts s) k d
             (set_boost 0 (set_head (-1) d3)) l' co HT Hd Hh);
      [reflexivity|exact Hwco|exact Hwd].
  - step_wr Hwd.
    eexists. split; [reflexivity|]. split; [|reflexivity].
    split; simpl_state; [|exact Hci|exact Hbp].
    apply (CoreFacts.tables_move MAX_DROPS MAX_FAST (drops s)
             (column_occupied s) (fasts s) k d d3 l' HT Hd Hh);
      [|exact F1|exact Hwd].
    unfold Core.drop_ok, Core.TERM_ROWS, Core.TERM_COLS, Core.MAX_TRAIL.
    unfold TERM_ROWS in Hstay. lia.
Qed.

(** [stepDrops] never faults on a well-formed state, whatever the stack
    holds, and keeps the state well-formed. *)
Lemma fx_stepDrops_Inv (stack : Z -> Z -> Z) (s : State) :
  Inv s ->
  exists s', stepDrops stack s = Some s' /\ Inv s' /\ fasts s' = fasts s.
Proof.
  intros HI. unfold stepDrops.
  apply (for_upto_preserves (fun t => Inv t /\ fasts t = fasts s)).
  - unfold MAX_DROPS. lia.
  - done.
  - intros k t Hk (HIt & Hft).
    destruct (fx_stepDrops_body_Inv stack k t Hk HIt) as (t' & -> & ? & ?).
    eexists. split; [reflexivity|]. split; [done|]. congruence.
Qed.

(** *** Fast drops *)

Lemma fx_pass_through_spec (s : State) (di : Z) (d : Drop) (f : FastDrop) :
  Inv s -> rd (drops s) di = Some d -> head d <> -1 ->
  0 <= f_row f < TERM_ROWS ->
  exists f1 ci bp,
    pass_through s di d f = Some (f1, ci, bp) /\
    f_active f1 = f_active f /\ f_col f1 = f_col f /\ f_row f1 = f_row f /\
    f_speed f1 = f_speed f /\ f_age f1 = f_age f /\
    chars_ok MAX_DROPS ci /\ packed_ok MAX_DROPS bp.
Proof.
  intros [HT HC HP] Hd Hh Hrow. pose proof HT as [H1 H2 H3 H4 H5 H6 H7].
  destruct (H4 di d Hd Hh) as [(Hh0 & Htail & Hcol & Htr & Hsp & Hage & Hbo) _].
  pose proof (rd_Some_range _ _ _ Hd) as Hdi. rewrite H1 in Hdi.
  unfold Core.TERM_ROWS, Core.TERM_COLS, Core.MAX_TRAIL, TERM_ROWS in *.
  unfold pass_through.
  destruct (_ && _); [|by exists f, (drop_char_idx s), (drop_bright_packed s)].
  remember (i16 (f_row f - head d)) as dist eqn:Hdist.
  destruct (Z.leb_spec 0 dist) as [Hd0|];
    [|by exists f, (drop_char_idx s), (drop_bright_packed s)].
  destruct (Z.ltb_spec dist (trail d)) as [Hd1|];
    [|by exists f, (drop_char_idx s), (drop_bright_packed s)].
  cbn [andb]. simpl_fast.
  remember (splitmix32 (f_rng f)) as r1 eqn:Hr1.
  destruct (chars_ok_wr2 MAX_DROPS (drop_char_idx s) di dist (pickIndex r1))
    as (ci & -> & Hci); [done|done|lia|].
  rewrite bind_Some.
  rewrite (u8_small di) by (unfold MAX_DROPS in Hdi; lia).
  rewrite (u8_small dist) by lia.
  destruct (fx_get_slot_total MAX_DROPS (drop_bright_packed s)
              di dist) as (cur & -> & _); [done|done|lia|].
  rewrite bind_Some.
  destruct (fx_set_slot_total MAX_DROPS (drop_bright_packed s)
              di dist (if cur <? 3 then u8 (cur + 1) else 3))
    as (bp & -> & Hbp & _); [done|done|lia|].
  rewrite bind_Some.
  exists (set_f_rng r1 f), ci, bp. split; [reflexivity|].
  simpl_fast. do 5 (split; [reflexivity|]). split; [exact Hci|exact Hbp].
Qed.

(** A Drop boosted or rerolled by a bullet leaves the tables well-formed. *)
Lemma fx_tables_same_course (t : State) (j : Z) (d d' : Drop) (ds : list Drop) :
  Core.tables_ok MAX_DROPS MAX_FAST (drops t) (column_occupied t) (fasts t) ->
  rd (drops t) j = Some d -> head d <> -1 -> Core.same_course 8 d d' ->
  wr (drops t) j d' = Some ds ->
  Core.tables_ok MAX_DROPS MAX_FAST ds (column_occupied t) (fasts t).
Proof.
  intros HT Hd Hh Hsc Hw.
  destruct (Core.ok_drop _ _ _ _ _ HT j d Hd Hh) as [Hok _].
  apply (CoreFacts.tables_move MAX_DROPS MAX_FAST (drops t)
           (column_occupied t) (fasts t) j d d' ds HT Hd Hh);
    [|by destruct Hsc|exact Hw].
  apply (CoreFacts.same_course_ok 8 d d'); [lia|exact Hsc|exact Hok].
Qed.


(** One iteration of the loop of [stepFastDrops] on a well-formed state. *)
Lemma fx_stepFastDrops_body_Inv (k : Z) (t : State) :
  0 <= k < MAX_FAST -> Inv t ->
  exists t', stepFastDrops_body k t = Some t' /\ Inv t'.
Proof.
  intros Hk HI. pose proof HI as [HT HC HP].
  pose proof HT as [H1 H2 H3 H4 H5 H6 H7].
  unfold stepFastDrops_body.
  destruct (rd_in_range (fasts t) k) as [f Hf]; [lia|].
  rewrite Hf, bind_Some.
  destruct (f_active f) eqn:Hact; cbn [negb].
  2:{ exists t. done. }
  destruct (H7 k f Hf Hact) as (Hrow & Hsp & Hage & Hfc).
  simpl_fast. rewrite Hage, Hsp.
  change (u8 (0 + 1) <? 1) with false. cbn iota.
  unfold Core.TERM_ROWS, Core.TERM_COLS in *.
  rewrite (i16_small (f_row f + 1)) by lia.
  remember (splitmix32 (f_rng f)) as r1 eqn:Hr1.
  destruct (Z.leb_spec TERM_ROWS (f_row f + 1)) as [Hoff|Hon].
  { step_wr Hw. eexists. split; [reflexivity|].
    split; simpl_state; [|exact HC|exact HP].
    apply (CoreFacts.tables_fast MAX_DROPS MAX_FAST _ _ _ _ _ _ HT Hw).
    simpl_fast. done. }
  destruct (CoreFacts.find_drop_spec (drops t) MAX_DROPS (f_col f) H1)
    as (di & Hfind & Hdi).
  unfold findDropIndexInColumn. rewrite Hfind, bind_Some.
  remember (set_f_rng r1 (set_f_row (f_row f + 1)
              (set_f_age 0 (set_f_age (u8 (0 + 1)) f)))) as f1 eqn:Hf1.
  assert (Hfok : Core.fast_ok f1).
  { rewrite Hf1. unfold Core.fast_ok, Core.TERM_ROWS, Core.TERM_COLS.
    simpl_fast. unfold TERM_ROWS in Hon. lia. }
  destruct Hdi as [[-> Hnone]|(Hdir & d & Hd & Hhd & Hcd & _)].
  { change (-1 =? -1) with true. cbn iota.
    step_wr Hw. eexists. split; [reflexivity|].
    split; simpl_state; [|exact HC|exact HP].
    apply (CoreFacts.tables_fast MAX_DROPS MAX_FAST _ _ _ _ _ _ HT Hw).
    done. }
  destruct (Z.eqb_spec di (-1)) as [|_]; [lia|].
  rewrite Hd, bind_Some.
  destruct (H4 di d Hd Hhd)
    as [(Hh0 & Htail & Hcol & Htr & Hsp' & Hage' & Hbo) _].
  unfold Core.TERM_ROWS, Core.TERM_COLS, Core.MAX_TRAIL in *.
  rewrite (i16_small (trail d - 1)) by lia.
  rewrite (i16_small (head d - (trail d - 1))) by lia.
  destruct Hfok as (G1 & G2 & G3 & G4).
  destruct (fx_pass_through_spec t di d f1 HI Hd Hhd)
    as (f2 & ci & bp & -> & P1 & P2 & P3 & P4 & P5 & Hci & Hbp).
  { unfold Core.TERM_ROWS in G1. exact G1. }
  rewrite bind_Some. cbv beta iota.
  rewrite (u8_small di) by (unfold MAX_DROPS in Hdir; lia).
  assert (Hfok2 : Core.fast_ok f2).
  { unfold Core.fast_ok. rewrite P3, P4, P5, P2. done. }
  destruct (Z.leb_spec (head d - (trail d - 1)) (f_row f2)) as [Hhit|Hmiss].
  - remember (set_rng (splitmix32 (splitmix32
                (rng (if boost d <? 8 then set_boost 8 d else d))))
                (if boost d <? 8 then set_boost 8 d else d)) as d2 eqn:Hd2.
    assert (Hsc2 : Core.same_course 8 d d2).
    { rewrite Hd2. unfold Core.same_course in *.
      destruct (Z.ltb_spec (boost d) 8); simpl_drop; lia. }
    destruct (fx_set_slot_total MAX_DROPS bp di 0 3)
      as (bp' & -> & Hbp' & _); [done|lia|lia|].
    rewrite bind_Some.
    step_wr Hwd. step_wr Hwf.
    eexists. split; [reflexivity|].
    split; simpl_state; [|exact Hci|exact Hbp'].
    apply (CoreFacts.tables_fast MAX_DROPS MAX_FAST l' _ (fasts t) k
             (set_f_active false f2) l'0); [|exact Hwf|simpl_fast; done].
    by apply (fx_tables_same_course t di d d2 l').
  - step_wr Hwf.
    eexists. split; [reflexivity|].
    split; simpl_state; [|exact Hci|exact Hbp].
    by apply (CoreFacts.tables_fast MAX_DROPS MAX_FAST _ _ (fasts t) k
             f2 l').
Qed.

Lemma fx_stepFastDrops_Inv (s : State) :
  Inv s -> exists s', stepFastDrops s = Some s' /\ Inv s'.
Proof.
  intros HI. unfold stepFastDrops.
  apply (for_upto_preserves Inv); [unfold MAX_FAST; lia|done|].
  intros k t Hk HIt. by apply fx_stepFastDrops_body_Inv.
Qed.

(** *** Runs *)

Lemma fx_initial_Inv (s : State) : initial s = true -> Inv s.
Proof.
  unfold initial. rewrite !andb_true_iff, !Z.eqb_eq.
  intros [[[[[[[[[H1 H2] H3] H4] H5] H6] H7] H8] H9] H10].
  split.
  - by apply CoreFacts.tables_initial.
  - split; [done|]. rewrite forallb_rd in H8.
    intros i row Hrow. apply H8 in Hrow. by apply Z.eqb_eq in Hrow.
  - split; [done|]. by rewrite forallb_rd in H10.
Qed.

Lemma fx_run_op_Inv (o : op) (s : State) :
  Inv s -> exists s', run_op o s = Some s' /\ Inv s'.
Proof.
  intros HI. destruct o; cbn [run_op].
  - destruct (fx_maybeSpawnDrop_spec s HI) as (s' & ? & ? & _). eauto.
  - destruct (fx_maybeSpawnFastDrop_Inv s HI) as (s' & ? & ? & _). eauto.
  - destruct (fx_stepDrops_Inv stack s HI) as (s' & ? & ? & _). eauto.
  - by apply fx_stepFastDrops_Inv.
Qed.

(** No sequence of calls faults, and the invariant holds after it. *)
Lemma fx_run_Inv (ops : list op) (s : State) :
  Inv s -> exists s', run ops s = Some s' /\ Inv s'.
Proof.
  revert s. induction ops as [|o ops IH]; intros s HI; cbn [run].
  - eauto.
  - destruct (fx_run_op_Inv o s HI) as (s1 & -> & HI1). rewrite bind_Some.
    by apply IH.
Qed.

Lemma fx_run_reachable_Inv (ops : list op) (s0 s : State) :
  initial s0 = true -> run ops s0 = Some s -> Inv s.
Proof.
  intros H0 Hrun.
  destruct (fx_run_Inv ops s0 (fx_initial_Inv s0 H0)) as (s' & Hs' & HI).
  congruence.
Qed.

Lemma fx_setupState_boot : setupState boot = Some start.
Proof. vm_compute. reflexivity. Qed.

Lemma fx_start_initial : initial start = true.
Proof. vm_compute. reflexivity. Qed.

(** Every slot of every reachable state holds a brightness of 0..3. *)
Lemma fx_reachable_slot_range (ops : list op) (s0 s : State) (i slot : Z) :
  initial s0 = true -> run ops s0 = Some s ->
  0 <= i < MAX_DROPS -> 0 <= slot < MAX_TRAIL ->
  exists v, get_bright_slot (drop_bright_packed s) i slot = Some v /\
            0 <= v <= 3.
Proof.
  intros H0 Hrun Hi Hslot.
  destruct (fx_run_reachable_Inv ops s0 s H0 Hrun) as [_ _ HP].
  apply (fx_get_slot_total MAX_DROPS); [done|done|].
  unfold MAX_TRAIL in Hslot. lia.
Qed.

End VectorizedFixedFacts.

(** * matrix_rain_vectorized_fixed.ino: further properties *)

Module VectorizedFixedMore.
Import VectorizedFixed VectorizedFixedRender VectorizedFixedFacts.

(** *** renderFrame *)

Lemma fx_render_cell_eq (s : State) (r c last : Z) (out : list event) :
  render_cell s r c (last, out) =
  (bc ← cell s r c;
   if negb (fst bc =? last)
   then Some (fst bc, out ++ [SetColor (fst bc); Put (snd bc)])
   else Some (last, out ++ [Put (snd bc)])).
Proof. unfold render_cell. by destruct (cell s r c) as [[b ch]|]. Qed.

Lemma fx_charForFast_total (f : FastDrop) :
  exists ch, charForFast f = Some ch /\ In ch CHARSET.
Proof.
  unfold charForFast.
  destruct (charset_at_idx_total (u8 (f_rng f mod CHARSET_LEN))) as [ch Hch].
  exists ch. split; [done|]. by apply (charset_at_idx_In _ _ Hch).
Qed.

(** In a well-formed state no cell of the screen makes [renderFrame]
    read outside a table, and every cell is painted with a brightness of
    0..4 and a blank or a character of the character set. *)
Lemma fx_cell_spec (s : State) (r c : Z) :
  Inv s -> 0 <= r < TERM_ROWS -> 0 <= c < TERM_COLS ->
  exists bc, cell s r c = Some bc /\ cell_ok bc.
Proof.
  intros HI Hr Hc. pose proof HI as [[H1 H2 H3 H4 H5 H6 H7] [Hcl Hcr] Hp].
  unfold cell. consts.
  match goal with |- context [scan_upto 16 ?p] =>
    destruct (scan_upto_spec p 16) as (hit & Hscan & Hspec) end; [lia| |].
  { intros k Hk. destruct (rd_in_range (fasts s) k) as [f Hf]; [lia|].
    rewrite Hf, bind_Some.
    destruct (negb (f_active f) || negb (f_col f =? c)); [eauto|].
    destruct (fx_charForFast_total f) as (ch & Hch & _).
    destruct (f_row f =? i16 r); [rewrite Hch, bind_Some; eauto|].
    destruct (f_row f - 1 =? i16 r); [rewrite Hch, bind_Some; eauto|eauto]. }
  rewrite Hscan, bind_Some. destruct hit as [bc|].
  { exists bc. split; [done|].
    destruct Hspec as (k & _ & Hk & _).
    destruct (rd (fasts s) k) as [f|]; cbn in Hk; [|discriminate].
    destruct (negb (f_active f) || negb (f_col f =? c)); [discriminate|].
    destruct (fx_charForFast_total f) as (ch & Hch & Hin).
    rewrite Hch in Hk. cbn in Hk.
    destruct (f_row f =? i16 r).
    { injection Hk as <-. split; cbn; [lia|by right]. }
    destruct (f_row f - 1 =? i16 r); [|discriminate].
    injection Hk as <-. split; cbn; [lia|by right]. }
  destruct (rd_in_range (column_occupied s) c) as [occ Hocc]; [lia|].
  rewrite Hocc, bind_Some. destruct occ.
  2:{ eexists. split; [reflexivity|]. split; cbn; [lia|by left]. }
  assert (Hprobe : forall k, 0 <= k < 35 ->
    exists x,
      (d ← rd (drops s) k;
       if (head d =? -1) || negb (col d =? c) then Some None
       else
         let dist := i16 (i16 r - head d) in
         if (0 <=? dist) && (dist <? trail d) then
           b ← (if (dist =? 0) && (0 <? boost d) then Some 4
                else get_bright_slot (drop_bright_packed s) k (u8 dist));
           idx ← rd2 (drop_char_idx s) k dist;
           ch ← charset_at_idx idx;
           Some (Some (b, ch))
         else Some None) = Some x /\
      match x with Some bc => cell_ok bc | None => True end).
  { intros k Hk. destruct (rd_in_range (drops s) k) as [d Hd]; [lia|].
    rewrite Hd, bind_Some.
    destruct (Z.eqb_spec (head d) (-1)) as [|Hact]; cbn [orb];
      [by exists None|].
    destruct (negb (col d =? c)); [by exists None|].
    destruct (H4 k d Hd Hact) as [Hok _].
    destruct Hok as (Hh0 & Htg & _ & Ht & _). consts.
    cbn zeta. rewrite (i16_small r) by lia.
    rewrite (i16_small (r - head d)) by lia.
    destruct (Z.leb_spec 0 (r - head d)); cbn [andb]; [|by exists None].
    destruct (Z.ltb_spec (r - head d) (trail d)); [|by exists None].
    rewrite u8_small by lia.
    assert (Hb : exists b,
      (if (r - head d =? 0) && (0 <? boost d) then Some 4
       else get_bright_slot (drop_bright_packed s) k (r - head d)) = Some b /\
      0 <= b <= 4).
    { destruct ((r - head d =? 0) && (0 <? boost d)).
      - exists 4. split; [done|lia].
      - destruct (fx_get_slot_total 35 (drop_bright_packed s) k (r - head d) Hp)
          as (b & Hb & Hbr); [lia|lia|].
        exists b. split; [done|lia]. }
    destruct Hb as (b & -> & Hb). rewrite bind_Some.
    destruct (rd_in_range (drop_char_idx s) k) as [row Hrow]; [lia|].
    pose proof (Hcr k row Hrow) as Hlen.
    destruct (rd_in_range row (r - head d)) as [idx Hidx]; [lia|].
    unfold rd2. rewrite Hrow, bind_Some, Hidx, bind_Some.
    destruct (charset_at_idx_total idx) as [ch Hch].
    rewrite Hch, bind_Some. eexists. split; [reflexivity|].
    split; cbn; [lia|]. right. by apply (charset_at_idx_In _ _ Hch). }
  match goal with |- context [scan_upto 35 ?p] =>
    destruct (scan_upto_spec p 35) as (hit & Hscan2 & Hspec2) end; [lia| |].
  { intros k Hk. destruct (Hprobe k Hk) as (x & Hx & _). eauto. }
  rewrite Hscan2, bind_Some. eexists. split; [reflexivity|].
  destruct hit as [bc|]; [|split; cbn; [lia|by left]].
  destruct Hspec2 as (k & Hk & Hpk & _).
  destruct (Hprobe k Hk) as (x & Hx & Hok).
  assert (Hx' : Some x = Some (Some bc)) by (rewrite <- Hx; exact Hpk).
  injection Hx' as ->. done.
Qed.

(** [renderFrame] never faults in a well-formed state, paints the cells
    by the rule, and writes [TERM_ROWS] rows of [TERM_COLS] characters
    separated by CR LF. *)
Lemma fx_frame_shape (s : State) (salt : Z) :
  Inv s ->
  exists out cells,
    renderFrame s salt = Some out /\ frame_cells s = Some cells /\
    len cells = TERM_ROWS * TERM_COLS /\
    drop_newlines out = Home :: spec_paint 255 cells ++ [ResetColor] /\
    row_lengths out =
      replicate (Z.to_nat TERM_ROWS) (Z.to_nat TERM_COLS) /\
    newlines out = replicate (Z.to_nat (TERM_ROWS - 1)) CRLF /\
    Forall cell_ok cells.
Proof.
  intros HI.
  destruct (painter_frame_crlf TERM_ROWS TERM_COLS (cell s) (render_cell s) cell_ok)
    with (last0 := 255) (pre := [Home])
    as (st & cells & Hst & Hcells & Hlen & Hout & Hrows & Hnl & HP);
    try done.
  - apply fx_render_cell_eq.
  - intros r c Hr Hc. destruct (fx_cell_spec s r c HI Hr Hc) as (bc & ? & _).
    eauto.
  - intros r c bc Hr Hc Hbc.
    destruct (fx_cell_spec s r c HI Hr Hc) as (bc' & ? & ?). congruence.
  - exists (snd st ++ [ResetColor]), cells. split.
    { unfold renderFrame.
      change (render_row s) with
        (fun r st => st ← for_upto TERM_COLS (render_cell s r) st;
           if r <? TERM_ROWS - 1 then Some (fst st, snd st ++ [CRLF])
           else Some st).
      by rewrite Hst. }
    split; [exact Hcells|]. split; [exact Hlen|]. split.
    { rewrite drop_newlines_app, Hout. done. }
    split.
    { rewrite (row_lengths_full _ _ _ Hrows). done. }
    split; [|done]. rewrite newlines_app, Hnl. cbn. by rewrite app_nil_r.
Qed.

(** *** stepDrops: what an advance leaves in the packed table *)

(** The head brightness and the linear ramp that an advance stores are
    overwritten at once from [new_bright], an array that is never
    assigned: slot [k] of the trail ends up with the two low bits of
    whatever [new_bright[k]] holds, and no other slot changes. *)
Lemma fx_fade_junk (i : Z) (d : Drop) (junk : Z -> Z) (bp : list (list Z)) :
  packed_ok MAX_DROPS bp -> 0 <= i < MAX_DROPS ->
  3 <= trail d <= MAX_TRAIL ->
  exists bp', fade i d junk bp = Some bp' /\ packed_ok MAX_DROPS bp' /\
    (forall k, 0 <= k < trail d ->
       get_bright_slot bp' i k = Some (Z.land (u8 (junk k)) 3)) /\
    (forall j slot, 0 <= slot < MAX_TRAIL -> j <> i \/ trail d <= slot ->
       get_bright_slot bp' j slot = get_bright_slot bp j slot).
Proof.
  intros Hbp Hi Htr. unfold fade. unfold MAX_TRAIL in *.
  match goal with |- context [for_upto (trail d) ?body tt] =>
    destruct (for_upto_preserves (fun _ : unit => True) body (trail d) tt)
      as (u & -> & _)
  end; [lia|done| |].
  { intros k t Hk _.
    destruct (fx_get_slot_total MAX_DROPS bp i k) as (v & -> & _);
      [done|done|lia|].
    rewrite bind_Some. eauto. }
  rewrite bind_Some.
  destruct (fx_set_slot_total MAX_DROPS bp i 0 3)
    as (bp1 & -> & Hbp1 & _ & Hother1); [done|done|lia|].
  rewrite bind_Some.
  match goal with |- context [for_range ?n 1 ?body bp1] =>
    destruct (for_range_preserves
      (fun b => packed_ok MAX_DROPS b /\
         forall j slot, 0 <= slot < 12 -> j <> i \/ trail d <= slot ->
           get_bright_slot b j slot = get_bright_slot bp j slot)
      body n 1 bp1) as (bp2 & -> & Hbp2 & Hother2)
  end.
  { split; [done|]. intros j slot Hs Hj. apply Hother1; [done|].
    destruct Hj; [by left|right; lia]. }
  { intros k b Hk (Hb & Hr).
    destruct (fx_set_slot_total MAX_DROPS b i k (u8 (3 - u8 (3 * k / trail d))))
      as (b' & -> & Hb' & _ & Ho); [done|done|lia|].
    eexists. split; [reflexivity|]. split; [done|].
    intros j slot Hs Hj. rewrite Ho; [by apply Hr|done|].
    destruct Hj; [by left|right; lia]. }
  rewrite bind_Some.
  match goal with |- context [for_upto (trail d) ?body bp2] =>
    destruct (for_upto_inv
      (fun k b => packed_ok MAX_DROPS b /\
         (forall j, 0 <= j < k ->
            get_bright_slot b i j = Some (Z.land (u8 (junk j)) 3)) /\
         (forall j slot, 0 <= slot < 12 -> j <> i \/ trail d <= slot ->
            get_bright_slot b j slot = get_bright_slot bp j slot))
      body (trail d) bp2) as (bp3 & -> & Hbp3 & Hdone & Hother3)
  end; [lia|split; [done|split; [intros; lia|done]]| |].
  { intros k b Hk (Hb & Hd & Hr).
    destruct (fx_set_slot_total MAX_DROPS b i k (u8 (junk k)))
      as (b' & -> & Hb' & Hsame & Ho); [done|done|lia|].
    eexists. split; [reflexivity|]. split; [done|]. split.
    - intros j Hj. destruct (Z.eq_dec j k) as [->|Hne]; [done|].
      rewrite Ho by (lia || (right; lia)). apply Hd. lia.
    - intros j slot Hs Hj. rewrite Ho; [by apply Hr|done|].
      destruct Hj; [by left|right; lia]. }
  exists bp3. done.
Qed.

(** *** stepFastDrops: where a bullet rerolls a character *)

(** With the distance counted as [f.row - d.head], the pass-through block
    changes the buffers only for a bullet that is on the head row, and
    then only slot 0. *)
Lemma fx_pass_only_head (s : State) (di : Z) (d : Drop) (f : FastDrop) :
  Inv s -> rd (drops s) di = Some d -> head d <> -1 ->
  0 <= f_row f < TERM_ROWS ->
  exists f1 ci bp,
    pass_through s di d f = Some (f1, ci, bp) /\
    (f_row f <> head d ->
       f1 = f /\ ci = drop_char_idx s /\ bp = drop_bright_packed s) /\
    (forall j slot, 0 <= slot < MAX_TRAIL -> j <> di \/ slot <> 0 ->
       get_bright_slot bp j slot =
       get_bright_slot (drop_bright_packed s) j slot).
Proof.
  intros [HT HC HP] Hd Hh Hrow. pose proof HT as [H1 H2 H3 H4 H5 H6 H7].
  destruct (H4 di d Hd Hh) as [(Hh0 & Htail & Hcol & Htr & Hsp & Hage & Hbo) _].
  pose proof (rd_Some_range _ _ _ Hd) as Hdi. rewrite H1 in Hdi.
  unfold Core.TERM_ROWS, Core.TERM_COLS, Core.MAX_TRAIL, TERM_ROWS, MAX_TRAIL in *.
  unfold pass_through.
  rewrite (i16_small (trail d - 1)) by lia.
  rewrite (i16_small (head d - (trail d - 1))) by lia.
  rewrite (i16_small (f_row f - head d)) by lia.
  destruct (Z.leb_spec (head d - (trail d - 1)) (f_row f)); cbn [andb];
    [|by exists f, (drop_char_idx s), (drop_bright_packed s)].
  destruct (Z.leb_spec (f_row f) (head d));
    [|by exists f, (drop_char_idx s), (drop_bright_packed s)].
  destruct (Z.leb_spec 0 (f_row f - head d)) as [Hd0|]; cbn [andb];
    [|by exists f, (drop_char_idx s), (drop_bright_packed s)].
  destruct (Z.ltb_spec (f_row f - head d) (trail d)) as [Hd1|];
    [|by exists f, (drop_char_idx s), (drop_bright_packed s)].
  assert (Hz : f_row f - head d = 0) by lia. rewrite Hz.
  simpl_fast.
  destruct (chars_ok_wr2 MAX_DROPS (drop_char_idx s) di 0
              (pickIndex (splitmix32 (f_rng f))))
    as (ci & -> & Hci); [done|done|lia|].
  rewrite bind_Some.
  rewrite (u8_small di) by (unfold MAX_DROPS in Hdi; lia).
  change (u8 0) with 0.
  destruct (fx_get_slot_total MAX_DROPS (drop_bright_packed s) di 0)
    as (cur & -> & _); [done|done|lia|].
  rewrite bind_Some.
  destruct (fx_set_slot_total MAX_DROPS (drop_bright_packed s)
              di 0 (if cur <? 3 then u8 (cur + 1) else 3))
    as (bp & -> & Hbp & _ & Ho); [done|done|lia|].
  rewrite bind_Some. eexists _, ci, bp. split; [reflexivity|].
  split; [lia|]. intros j slot Hs Hj. by apply Ho.
Qed.

End VectorizedFixedMore.

Module ColorizedFacts.
Import Colorized.

Ltac simpl_state :=
  cbn [drops fasts column_occupied global_rng drop_char_idx drop_bright_packed
       set_drops set_fasts set_column_occupied set_global_rng
       set_drop_char_idx set_drop_bright_packed].

Ltac consts :=
  unfold Core.TERM_COLS, Core.TERM_ROWS, Core.MAX_TRAIL,
         TERM_COLS, TERM_ROWS, MAX_TRAIL, MAX_DROPS, MAX_FAST in *.

Lemma cz_get_slot_total (n : Z) (packed : list (list Z)) (i slot : Z) :
  packed_ok n packed -> 0 <= i < n -> 0 <= slot < 12 ->
  exists v, get_bright_slot packed i slot = Some v /\ 0 <= v <= 3.
Proof. apply Window16Slots.w16_get_slot_total. Qed.

Lemma cz_set_slot_total (n : Z) (packed : list (list Z)) (i slot v : Z) :
  packed_ok n packed -> 0 <= i < n -> 0 <= slot < 12 ->
  exists packed', set_bright_slot packed i slot v = Some packed' /\
    packed_ok n packed' /\
    get_bright_slot packed' i slot = Some (Z.land v 3) /\
    (forall j slot', 0 <= slot' < 12 -> (j <> i \/ slot' <> slot) ->
       get_bright_slot packed' j slot' = get_bright_slot packed j slot').
Proof. apply Window16Slots.w16_set_slot_total. Qed.

Lemma rows_kept_refl (i : Z) (bp : list (list Z)) : rows_kept i bp bp.
Proof. by intros j slot _ _. Qed.

Lemma rows_kept_trans (i : Z) (bp0 bp1 bp2 : list (list Z)) :
  rows_kept i bp0 bp1 -> rows_kept i bp1 bp2 -> rows_kept i bp0 bp2.
Proof.
  intros H1 H2 j slot Hj Hs. rewrite (H2 j slot Hj Hs). by apply H1.
Qed.

Lemma cz_spawned_ok (c g : Z) :
  0 <= c < TERM_COLS ->
  Core.drop_ok (spawned c g) /\ head (spawned c g) = 0 /\
  col (spawned c g) = c /\ 3 <= trail (spawned c g) <= MAX_TRAIL.
Proof.
  intros Hc. unfold Core.drop_ok, spawned. consts.
  cbn.
  pose proof (Z.mod_pos_bound g 10 ltac:(lia)).
  pose proof (Z.mod_pos_bound (Z.shiftr g 8) 5 ltac:(lia)).
  change (12 - 2) with 10.
  rewrite (u8_small c) by lia.
  rewrite (u8_small (g mod 10 + 3)) by lia.
  rewrite (u8_small (Z.shiftr g 8 mod 5 + 1)) by lia.
  lia.
Qed.

(** The buffers of a slot are filled without a fault, stay well-formed,
    and the head slot comes out dark: the 4 stored there is cut to two
    bits. *)
Lemma cz_init_buffers_ok (idx tr r0 : Z) (ci0 bp0 : list (list Z)) :
  chars_ok MAX_DROPS ci0 -> packed_ok MAX_DROPS bp0 ->
  0 <= idx < MAX_DROPS -> 3 <= tr <= 12 ->
  exists r ci bp,
    init_buffers idx tr (r0, ci0, bp0) = Some (r, ci, bp) /\
    chars_ok MAX_DROPS ci /\ packed_ok MAX_DROPS bp /\
    get_bright_slot bp idx 0 = Some 0 /\ rows_kept idx bp0 bp.
Proof.
  intros Hci Hbp Hidx Htr. unfold init_buffers.
  assert (Hu : u8 idx = idx) by (apply u8_small; unfold MAX_DROPS in *; lia).
  set (P := fun (k : Z) (st : Z * list (list Z) * list (list Z)) =>
              chars_ok MAX_DROPS (snd (fst st)) /\ packed_ok MAX_DROPS (snd st) /\
              (0 < k -> get_bright_slot (snd st) idx 0 = Some 0) /\
              rows_kept idx bp0 (snd st)).
  match goal with |- context [for_upto tr ?body _] =>
    destruct (for_upto_inv P body tr (r0, ci0, bp0))
      as (st1 & -> & HP1)
  end; [lia| | |].
  { unfold P. cbn [fst snd]. split; [done|]. split; [done|].
    split; [lia|apply rows_kept_refl]. }
  { intros k [[r ci] bp] Hk (Hc & Hb & H0 & Hk0). cbn [fst snd] in *.
    destruct (chars_ok_wr2 MAX_DROPS ci idx k (pickIndex (splitmix32 r)))
      as (ci' & -> & Hc'); [done|done|lia|].
    rewrite bind_Some, Hu.
    destruct (cz_set_slot_total MAX_DROPS bp idx k
                (if k =? 0 then 4 else if k =? 1 then 3 else 1))
      as (bp' & -> & Hb' & Hsame & Hother); [done|done|lia|].
    rewrite bind_Some. eexists. split; [reflexivity|].
    unfold P. cbn [fst snd]. split; [done|]. split; [done|]. split.
    - intros _. destruct (Z.eqb_spec k 0) as [->|Hne].
      + exact Hsame.
      + rewrite Hother by lia. apply H0. lia.
    - apply (rows_kept_trans idx bp0 bp bp'); [done|].
      intros j slot Hj Hs. apply Hother; [done|by left]. }
  rewrite bind_Some.
  set (Q := fun st : Z * list (list Z) * list (list Z) =>
              chars_ok MAX_DROPS (snd (fst st)) /\ packed_ok MAX_DROPS (snd st) /\
              get_bright_slot (snd st) idx 0 = Some 0 /\
              rows_kept idx bp0 (snd st)).
  match goal with |- context [for_range ?n tr ?body st1] =>
    destruct (for_range_preserves Q body n tr st1) as (st2 & -> & HQ2)
  end.
  { destruct HP1 as (? & ? & H0 & ?). unfold Q. do 2 (split; [done|]).
    split; [apply H0; lia|done]. }
  { intros k [[r ci] bp] Hk (Hc & Hb & H0 & Hk0). cbn [fst snd] in *.
    unfold MAX_TRAIL in Hk.
    destruct (chars_ok_wr2 MAX_DROPS ci idx k 0)
      as (ci' & -> & Hc'); [done|done|lia|].
    rewrite bind_Some, Hu.
    destruct (cz_set_slot_total MAX_DROPS bp idx k 0)
      as (bp' & -> & Hb' & _ & Hother); [done|done|lia|].
    rewrite bind_Some. eexists. split; [reflexivity|].
    unfold Q. cbn [fst snd]. split; [done|]. split; [done|]. split.
    - rewrite Hother by lia. exact H0.
    - apply (rows_kept_trans idx bp0 bp bp'); [done|].
      intros j slot Hj Hs. apply Hother; [done|by left]. }
  destruct st2 as [[r ci] bp]. destruct HQ2 as (Hc & Hb & H0 & Hk0).
  cbn [fst snd] in *. exists r, ci, bp. done.
Qed.

Lemma cz_Inv_rng (s : State) (g : Z) : Inv s -> Inv (set_global_rng g s).
Proof. intros [H1 H2 H3 H4]. split; done. Qed.

(** Every path through [maybeSpawnDrop] on a well-formed state. *)
Lemma cz_maybeSpawnDrop_spec (s : State) :
  Inv s ->
  exists s', maybeSpawnDrop s = Some s' /\ Inv s' /\ fasts s' = fasts s /\
    ((drops s' = drops s /\ column_occupied s' = column_occupied s /\
      drop_bright_packed s' = drop_bright_packed s /\
      (SPAWN_CHANCE < Z.land (splitmix32 (global_rng s)) 0xFF \/
       (forall i d, rd (drops s) i = Some d -> head d <> -1) \/
       (forall c b, rd (column_occupied s) c = Some b -> b = true)))
     \/
     (exists idx c d0 d,
        Z.land (splitmix32 (global_rng s)) 0xFF <= SPAWN_CHANCE /\
        rd (drops s) idx = Some d0 /\ head d0 = -1 /\
        0 <= c < TERM_COLS /\
        rd (column_occupied s) c = Some false /\
        head d = 0 /\ col d = c /\ age d = 0 /\ boost d = 0 /\
        Core.drop_ok d /\
        speed d = u8 (Z.shiftr (splitmix32 (splitmix32 (global_rng s))) 8
                        mod 5 + 1) /\
        wr (drops s) idx d = Some (drops s') /\
        wr (column_occupied s) c true = Some (column_occupied s'))).
Proof.
  intros HI. pose proof HI as [HT HC HP HH].
  pose proof HT as [H1 H2 H3 _ _ _ _].
  unfold maybeSpawnDrop.
  remember (splitmix32 (global_rng s)) as g1 eqn:Hg1.
  destruct (Z.ltb_spec SPAWN_CHANCE (Z.land g1 255)) as [Hroll|Hroll].
  { eexists. split; [reflexivity|]. split; [by apply cz_Inv_rng|].
    split; [done|]. left. auto. }
  simpl_state.
  destruct (CoreFacts.inactive_slot_spec (drops s) MAX_DROPS H1) as (r1 & -> & Hr1).
  rewrite bind_Some.
  destruct r1 as [idx|]; cbn [or_minus1].
  2:{ change (-1 =? -1) with true. cbn iota.
      eexists. split; [reflexivity|]. split; [by apply cz_Inv_rng|].
      split; [done|]. left. do 3 (split; [done|]). right. left. done. }
  destruct Hr1 as (Hidx & d0 & Hd0 & Hh0).
  destruct (Z.eqb_spec idx (-1)) as [|_]; [lia|].
  remember (splitmix32 g1) as g2 eqn:Hg2.
  remember (u8 (g2 mod TERM_COLS)) as st eqn:Hst.
  destruct (CoreFacts.free_column_spec (column_occupied s) st H2)
    as (r2 & Hr2 & Hspec2).
  change Core.TERM_COLS with TERM_COLS in Hr2. cbv zeta in Hr2.
  rewrite Hr2, bind_Some.
  destruct r2 as [c|]; cbn [or_minus1].
  2:{ change (-1 =? -1) with true. cbn iota.
      eexists. split; [reflexivity|]. split; [by apply cz_Inv_rng|].
      split; [done|]. left. do 3 (split; [done|]). right. right. done. }
  destruct Hspec2 as [Hc Hfree].
  destruct (Z.eqb_spec c (-1)) as [|_]; [lia|].
  destruct (cz_spawned_ok c g2 Hc) as (Hok & Hh & Hcol & Htr).
  assert (Hage : age (spawned c g2) = 0) by reflexivity.
  assert (Hbo : boost (spawned c g2) = 0) by reflexivity.
  assert (Hsp : speed (spawned c g2) = u8 (Z.shiftr g2 8 mod 5 + 1))
    by reflexivity.
  remember (spawned c g2) as dn eqn:Hdn. clear Hdn.
  destruct (cz_init_buffers_ok idx (trail dn) (rng dn)
              (drop_char_idx s) (drop_bright_packed s))
    as (r & ci & bp & -> & Hci & Hbp & Hz & Hkept); [done|done|done| |].
  { unfold MAX_TRAIL in Htr. lia. }
  rewrite bind_Some. cbv beta iota.
  step_wr Hwd. rewrite Hcol. step_wr Hwc.
  eexists. split; [reflexivity|]. simpl_state.
  assert (Hok' : Core.drop_ok (set_rng r dn))
    by (by apply CoreFacts.drop_ok_set_rng).
  assert (Hh' : head (set_rng r dn) = 0) by (destruct dn; exact Hh).
  assert (Hcol' : col (set_rng r dn) = c) by (destruct dn; exact Hcol).
  assert (Hage' : age (set_rng r dn) = 0) by (destruct dn; exact Hage).
  assert (Hbo' : boost (set_rng r dn) = 0) by (destruct dn; exact Hbo).
  assert (Hsp' : speed (set_rng r dn) = u8 (Z.shiftr g2 8 mod 5 + 1))
    by (destruct dn; exact Hsp).
  split; [|split; [reflexivity|]].
  - split; simpl_state; [|exact Hci|exact Hbp|].
    + apply (CoreFacts.tables_spawn MAX_DROPS MAX_FAST (drops s)
             (column_occupied s) (fasts s) idx c d0 (set_rng r dn)
             l' l'0 HT Hd0 Hh0 Hfree Hok'); [lia|exact Hcol'|exact Hwd|exact Hwc].
    + intros i d Hd Hhd. rewrite (rd_wr _ _ _ _ _ Hwd) in Hd.
      destruct (Z.eqb_spec i idx) as [->|Hne].
      * injection Hd as <-. rewrite Hh'. split; [unfold TERM_ROWS; lia|done].
      * destruct (HH i d Hd Hhd) as [Hlt Hz0]. split; [done|].
        rewrite (Hkept i 0 Hne) by lia. done.
  - right. exists idx, c, d0, (set_rng r dn).
    subst g1 g2. split; [exact Hroll|]. split; [exact Hd0|]. split; [exact Hh0|].
    split; [exact Hc|]. split; [exact Hfree|]. split; [exact Hh'|].
    split; [exact Hcol'|]. split; [exact Hage'|]. split; [exact Hbo'|].
    split; [exact Hok'|]. split; [exact Hsp'|].
    split; [exact Hwd|exact Hwc].
Qed.

(** Every path through [maybeSpawnFastDrop] on a well-formed state. *)
Lemma cz_maybeSpawnFastDrop_Inv (s : State) :
  Inv s ->
  exists s', maybeSpawnFastDrop s = Some s' /\ Inv s' /\
    drops s' = drops s /\ column_occupied s' = column_occupied s.
Proof.
  intros HI. pose proof HI as [HT HC HP HH].
  pose proof HT as [H1 H2 H3 _ _ _ _].
  unfold maybeSpawnFastDrop.
  remember (splitmix32 (global_rng s)) as g1 eqn:Hg1.
  destruct (Z.ltb_spec SPAWN_FAST_CHANCE (Z.land g1 255)) as [Hroll|Hroll].
  { eexists. split; [reflexivity|]. split; [by apply cz_Inv_rng|]. done. }
  simpl_state.
  remember (splitmix32 g1) as g2 eqn:Hg2.
  remember (u8 (g2 mod TERM_COLS)) as st eqn:Hst.
  destruct (CoreFacts.occupied_column_spec (column_occupied s) st H2)
    as (r1 & Hr1 & Hs1).
  change Core.TERM_COLS with TERM_COLS in Hr1. cbv zeta in Hr1.
  rewrite Hr1, bind_Some.
  destruct r1 as [c|]; cbn [or_minus1].
  2:{ change (-1 =? -1) with true. cbn iota.
      eexists. split; [reflexivity|]. split; [by apply cz_Inv_rng|]. done. }
  destruct Hs1 as [Hc Hocc].
  destruct (Z.eqb_spec c (-1)) as [|_]; [lia|].
  destruct (CoreFacts.free_fast_spec (fasts s) MAX_FAST H3) as (r2 & -> & Hr2).
  rewrite bind_Some.
  destruct r2 as [fidx|]; cbn [or_minus1].
  2:{ change (-1 =? -1) with true. cbn iota.
      eexists. split; [reflexivity|]. split; [by apply cz_Inv_rng|]. done. }
  destruct Hr2 as (Hf & f0 & Hf0 & Ha0).
  destruct (Z.eqb_spec fidx (-1)) as [|_]; [lia|].
  remember (splitmix32 g2) as g3 eqn:Hg3.
  remember (splitmix32 g3) as g4 eqn:Hg4.
  step_wr Hw. eexists. split; [reflexivity|]. simpl_state.
  split; [|split; reflexivity].
  split; simpl_state; [|exact HC|exact HP|exact HH].
  apply (CoreFacts.tables_fast MAX_DROPS MAX_FAST _ _ _ _ _ _ HT Hw).
  intros _. unfold Core.fast_ok. simpl_fast.
  rewrite (u8_small c) by (consts; lia). consts. lia.
Qed.

(** *** Crawling drops *)

(** An advance never faults, and it leaves every slot of the trail dark:
    the first loop stores 4, that is 0, in the slots behind the head, and
    the head slot was dark already. *)
Lemma cz_advance_spec (i : Z) (s : State) (d : Drop) :
  chars_ok MAX_DROPS (drop_char_idx s) ->
  packed_ok MAX_DROPS (drop_bright_packed s) ->
  0 <= i < MAX_DROPS -> 3 <= trail d <= 12 ->
  get_bright_slot (drop_bright_packed s) i 0 = Some 0 ->
  exists ci bp,
    advance i s d =
      Some (set_rng (splitmix32 (splitmix32 (rng d)))
              (set_head (i16 (head d + 1)) (set_age 0 d)), ci, bp) /\
    chars_ok MAX_DROPS ci /\ packed_ok MAX_DROPS bp /\
    (forall k, 0 <= k < trail d -> get_bright_slot bp i k = Some 0) /\
    rows_kept i (drop_bright_packed s) bp.
Proof.
  intros HC HP Hi Htr Hz. unfold advance. simpl_drop.
  remember (splitmix32 (rng d)) as r1 eqn:Hr1.
  remember (splitmix32 r1) as r2 eqn:Hr2.
  rewrite (u8_small (trail d - 1)) by lia.
  set (bp0 := drop_bright_packed s) in *.
  set (P := fun (k : Z) (st : list (list Z) * list (list Z)) =>
              chars_ok MAX_DROPS (fst st) /\ packed_ok MAX_DROPS (snd st) /\
              get_bright_slot (snd st) i 0 = Some 0 /\
              (forall m, k < m <= trail d - 1 ->
                 get_bright_slot (snd st) i m = Some 0) /\
              rows_kept i bp0 (snd st)).
  match goal with |- context [for_down ?n ?i0 ?body (drop_char_idx s, bp0)] =>
    destruct (for_down_inv P body n i0 (drop_char_idx s, bp0))
      as ([ci1 bp1] & -> & HP1)
  end.
  { unfold P. cbn [fst snd]. do 3 (split; [done|]).
    split; [intros m Hm; lia|apply rows_kept_refl]. }
  { intros k [ci bp] Hk (Hc & Hb & H0 & Hd & Hk0). cbn [fst snd] in *.
    rewrite Z2Nat.id in Hk by lia.
    destruct Hc as [Hc1 Hc2].
    unfold rd2.
    destruct (rd_in_range ci i) as [row Hrow]; [lia|].
    rewrite Hrow, bind_Some.
    destruct (rd_in_range row (k - 1)) as [prev ->];
      [rewrite (Hc2 i row Hrow); lia|].
    rewrite bind_Some.
    destruct (chars_ok_wr2 MAX_DROPS ci i k prev) as (ci' & -> & Hc');
      [by split|done|lia|].
    rewrite bind_Some.
    destruct (cz_set_slot_total MAX_DROPS bp i k 4)
      as (bp' & -> & Hb' & Hsame & Hother); [done|done|lia|].
    rewrite bind_Some. eexists. split; [reflexivity|].
    unfold P. cbn [fst snd]. split; [done|]. split; [done|]. split; [|split].
    - rewrite Hother by lia. exact H0.
    - intros m Hm. destruct (Z.eq_dec m k) as [->|Hne].
      + exact Hsame.
      + rewrite Hother by lia. apply Hd. lia.
    - apply (rows_kept_trans i bp0 bp bp'); [done|].
      intros j slot Hj Hs. apply Hother; [done|by left]. }
  rewrite Z2Nat.id in HP1 by lia.
  replace (trail d - 1 - (trail d - 1)) with 0 in HP1 by lia.
  destruct HP1 as (Hc1 & Hb1 & H01 & Hd1 & Hk1). cbn [fst snd] in *.
  rewrite bind_Some. cbv beta iota.
  destruct (chars_ok_wr2 MAX_DROPS ci1 i 0 (pickIndex r2)) as (ci2 & -> & Hc2);
    [done|done|lia|].
  rewrite bind_Some.
  set (Q := fun bp : list (list Z) =>
              packed_ok MAX_DROPS bp /\
              (forall m, 0 <= m < trail d -> get_bright_slot bp i m = Some 0) /\
              rows_kept i bp0 bp).
  match goal with |- context [for_down ?n ?i0 ?body bp1] =>
    destruct (for_down_preserves Q body n i0 bp1) as (bp2 & -> & HQ2)
  end.
  { unfold Q. split; [done|]. split; [|done].
    intros m Hm. destruct (Z.eq_dec m 0) as [->|Hne]; [done|].
    apply Hd1. lia. }
  { intros k bp Hk (Hb & Hd & Hk0). rewrite Z2Nat.id in Hk by lia.
    rewrite (Hd (k - 1)) by lia. rewrite bind_Some.
    destruct (cz_set_slot_total MAX_DROPS bp i k 0)
      as (bp' & -> & Hb' & Hsame & Hother); [done|done|lia|].
    eexists. split; [reflexivity|]. unfold Q. split; [done|]. split.
    - intros m Hm. destruct (Z.eq_dec m k) as [->|Hne].
      + exact Hsame.
      + rewrite Hother by lia. apply Hd. lia.
    - apply (rows_kept_trans i bp0 bp bp'); [done|].
      intros j slot Hj Hs. apply Hother; [done|by left]. }
  destruct HQ2 as (Hb2 & Hd2 & Hk2).
  rewrite bind_Some. rewrite (Hd2 0) by lia. rewrite bind_Some.
  destruct (cz_set_slot_total MAX_DROPS bp2 i 0
              (if 0 <? boost d then 4 else 0))
    as (bp3 & -> & Hb3 & Hsame & Hother); [done|done|lia|].
  rewrite bind_Some.
  exists ci2, bp3. split; [reflexivity|]. split; [done|]. split; [done|].
  split.
  - intros m Hm. destruct (Z.eq_dec m 0) as [->|Hne].
    + rewrite Hsame. by destruct (0 <? boost d).
    + rewrite Hother by lia. apply Hd2. lia.
  - apply (rows_kept_trans i bp0 bp2 bp3); [done|].
    intros j slot Hj Hs. apply Hother; [done|by left].
Qed.

(** The loop that computes [all_faded] never faults. *)
Lemma cz_all_faded_total (i : Z) (d : Drop) (bp : list (list Z)) :
  packed_ok MAX_DROPS bp -> 0 <= i < MAX_DROPS -> 3 <= trail d <= 12 ->
  exists af, all_faded i d bp = Some af.
Proof.
  intros Hb Hi Htr. unfold all_faded.
  destruct (for_upto_preserves (fun _ : bool => True)
    (fun k af => v ← get_bright_slot bp i k;
                 Some (if 0 <? v then false else af)) (trail d) true)
    as (af & -> & _); [lia|done| |eauto].
  intros k t Hk _.
  destruct (cz_get_slot_total MAX_DROPS bp i k) as (v & -> & _);
    [done|done|lia|].
  rewrite bind_Some. eauto.
Qed.

(** On a dark trail it answers [true]. *)
Lemma cz_all_faded_dark (i : Z) (d : Drop) (bp : list (list Z)) :
  0 <= trail d ->
  (forall k, 0 <= k < trail d -> get_bright_slot bp i k = Some 0) ->
  all_faded i d bp = Some true.
Proof.
  intros Htr Hd. unfold all_faded.
  destruct (for_upto_preserves (fun af : bool => af = true)
    (fun k af => v ← get_bright_slot bp i k;
                 Some (if 0 <? v then false else af)) (trail d) true)
    as (af & -> & ->); [lia|done| |done].
  intros k t Hk ->. rewrite (Hd k Hk), bind_Some. eauto.
Qed.

(** One iteration of the loop of [stepDrops] on a well-formed state. *)
Lemma cz_stepDrops_body_spec (k : Z) (s : State) :
  0 <= k < MAX_DROPS -> Inv s ->
  exists s', stepDrops_body k s = Some s' /\ Inv s' /\
    fasts s' = fasts s /\
    (forall i, i <> k -> rd (drops s') i = rd (drops s) i) /\
    (forall d, rd (drops s) k = Some d -> rd (drops s') k = Some (step_drop d)).
Proof.
  intros Hk HI. pose proof HI as [HT HC HP HH].
  pose proof HT as [H1 H2 H3 H4 H5 H6 H7].
  unfold stepDrops_body.
  destruct (rd_in_range (drops s) k) as [d Hd]; [lia|].
  rewrite Hd, bind_Some.
  destruct (Z.eqb_spec (head d) (-1)) as [Hh|Hh].
  { exists s. do 4 (split; [done|]). intros d0 Hd0.
    assert (d0 = d) by congruence. subst d0.
    unfold step_drop. rewrite Hh. done. }
  destruct (H4 k d Hd Hh) as [Hok Hflag].
  destruct (HH k d Hd Hh) as [Hrow Hz].
  destruct Hok as (Hh0 & Htail & Hcol & Htr & Hsp & Hage & Hbo).
  unfold Core.TERM_ROWS, Core.TERM_COLS, Core.MAX_TRAIL, TERM_ROWS in *.
  assert (Hstep : step_drop d =
    let d1 := set_age (u8 (age d + 1)) d in
    let d2 := if speed d1 <=? age d1
              then set_rng (splitmix32 (splitmix32 (rng d1)))
                     (set_head (i16 (head d1 + 1)) (set_age 0 d1))
              else d1 in
    let d3 := if negb (boost d2 =? 0) then set_boost (u8 (boost d2 - 1)) d2
              else d2 in
    if 24 <=? head d3 then set_boost 0 (set_head (-1) d3) else d3).
  { unfold step_drop. destruct (Z.eqb_spec (head d) (-1)); [done|reflexivity]. }
  cbv zeta in Hstep.
  remember (set_age (u8 (age d + 1)) d) as d1 eqn:Hd1.
  assert (Hf1 : col d1 = col d /\ head d1 = head d /\ trail d1 = trail d /\
                speed d1 = speed d /\ 0 <= age d1 < 256 /\ boost d1 = boost d).
  { subst d1. simpl_drop. pose proof (u8_range (age d + 1)). done. }
  destruct Hf1 as (A1 & A2 & A3 & A4 & A5 & A6).
  assert (Hother : forall (ds : list Drop) x, wr (drops s) k x = Some ds ->
            forall i, i <> k -> rd ds i = rd (drops s) i).
  { intros ds x Hw i Hne. by rewrite (rd_wr_ne _ _ _ _ _ Hw Hne). }
  destruct (speed d1 <=? age d1) eqn:Hadv.
  - (* the head moves *)
    destruct (cz_advance_spec k s d1 HC HP Hk) as (ci & bp & -> & Hci & Hbp
                                                   & Hdark & Hkept);
      [lia|done|].
    rewrite bind_Some. cbv beta iota.
    remember (set_rng (splitmix32 (splitmix32 (rng d1)))
                (set_head (i16 (head d1 + 1)) (set_age 0 d1))) as d2 eqn:Hd2.
    assert (Hf2 : col d2 = col d /\ head d2 = head d + 1 /\
                  trail d2 = trail d /\ speed d2 = speed d /\ age d2 = 0 /\
                  boost d2 = boost d).
    { subst d2. simpl_drop. rewrite A2, (i16_small (head d + 1)) by lia. done. }
    destruct Hf2 as (B1 & B2 & B3 & B4 & B5 & B6).
    remember (if negb (boost d2 =? 0) then set_boost (u8 (boost d2 - 1)) d2
              else d2) as d3 eqn:Hd3.
    assert (Hf3 : col d3 = col d /\ head d3 = head d + 1 /\
                  trail d3 = trail d /\ speed d3 = speed d /\ age d3 = 0 /\
                  0 <= boost d3 < 256).
    { subst d3. destruct (boost d2 =? 0); cbn [negb]; simpl_drop.
      - rewrite B6. done.
      - pose proof (u8_range (boost d2 - 1)). done. }
    destruct Hf3 as (C1 & C2 & C3 & C4 & C5 & C6).
    rewrite (cz_all_faded_dark k d3 bp);
      [|lia|intros m Hm; apply Hdark; lia].
    rewrite bind_Some. cbn [andb].
    assert (Hkeep : forall i di, i <> k -> rd (drops s) i = Some di ->
              head di <> -1 ->
              head di < 24 /\ get_bright_slot bp i 0 = Some 0).
    { intros i di Hne Hdi Hhi. destruct (HH i di Hdi Hhi) as [? ?].
      split; [done|]. rewrite (Hkept i 0 Hne) by lia. done. }
    destruct (Z.leb_spec 24 (head d3)) as [Hgone|Hstay].
    + rewrite C1.
      destruct (wr_total (column_occupied s) (col d) false) as [co Hwco];
        [lia|].
      rewrite Hwco, bind_Some. step_wr Hwd.
      eexists. split; [reflexivity|]. simpl_state.
      split; [|split; [reflexivity|split; [exact (Hother _ _ Hwd)|]]].
      * split; simpl_state; [|exact Hci|exact Hbp|].
        -- apply (CoreFacts.tables_retire MAX_DROPS MAX_FAST (drops s)
                    (column_occupied s) (fasts s) k d
                    (set_boost 0 (set_head (-1) d3)) l' co HT Hd Hh);
             [reflexivity|exact Hwco|exact Hwd].
        -- intros i di Hdi Hhi. rewrite (rd_wr _ _ _ _ _ Hwd) in Hdi.
           destruct (Z.eqb_spec i k) as [->|Hne].
           ++ injection Hdi as <-. done.
           ++ by apply (Hkeep i di).
      * intros d0 Hd0. assert (d0 = d) by congruence. subst d0.
        rewrite (rd_wr_eq _ _ _ _ Hwd), Hstep.
        destruct (Z.leb_spec 24 (head d3)); [done|lia].
    + step_wr Hwd.
      eexists. split; [reflexivity|]. simpl_state.
      split; [|split; [reflexivity|split; [exact (Hother _ _ Hwd)|]]].
      * split; simpl_state; [|exact Hci|exact Hbp|].
        -- apply (CoreFacts.tables_move MAX_DROPS MAX_FAST (drops s)
                    (column_occupied s) (fasts s) k d d3 l' HT Hd Hh);
             [|exact C1|exact Hwd].
           unfold Core.drop_ok, Core.TERM_ROWS, Core.TERM_COLS, Core.MAX_TRAIL.
           lia.
        -- intros i di Hdi Hhi. rewrite (rd_wr _ _ _ _ _ Hwd) in Hdi.
           destruct (Z.eqb_spec i k) as [->|Hne].
           ++ injection Hdi as <-. split; [unfold TERM_ROWS; lia|].
              apply Hdark. lia.
           ++ by apply (Hkeep i di).
      * intros d0 Hd0. assert (d0 = d) by congruence. subst d0.
        rewrite (rd_wr_eq _ _ _ _ Hwd), Hstep.
        destruct (Z.leb_spec 24 (head d3)); [lia|done].
  - (* the head stays *)
    rewrite bind_Some. cbv beta iota.
    remember (if negb (boost d1 =? 0) then set_boost (u8 (boost d1 - 1)) d1
              else d1) as d3 eqn:Hd3.
    assert (Hf3 : col d3 = col d /\ head d3 = head d /\
                  trail d3 = trail d /\ speed d3 = speed d /\
                  0 <= age d3 < 256 /\ 0 <= boost d3 < 256).
    { subst d3. destruct (boost d1 =? 0); cbn [negb]; simpl_drop.
      - rewrite A6. done.
      - pose proof (u8_range (boost d1 - 1)). done. }
    destruct Hf3 as (C1 & C2 & C3 & C4 & C5 & C6).
    destruct (cz_all_faded_total k d3 (drop_bright_packed s) HP Hk)
      as (af & ->); [lia|].
    rewrite bind_Some.
    destruct (Z.leb_spec 24 (head d3)) as [|_]; [lia|].
    rewrite andb_false_r.
    step_wr Hwd.
    eexists. split; [reflexivity|]. simpl_state.
    split; [|split; [reflexivity|split; [exact (Hother _ _ Hwd)|]]].
    * split; simpl_state; [|exact HC|exact HP|].
      -- apply (CoreFacts.tables_move MAX_DROPS MAX_FAST (drops s)
                  (column_occupied s) (fasts s) k d d3 l' HT Hd Hh);
           [|exact C1|exact Hwd].
         unfold Core.drop_ok, Core.TERM_ROWS, Core.TERM_COLS, Core.MAX_TRAIL.
         lia.
      -- intros i di Hdi Hhi. rewrite (rd_wr _ _ _ _ _ Hwd) in Hdi.
         destruct (Z.eqb_spec i k) as [->|Hne].
         ++ injection Hdi as <-. split; [unfold TERM_ROWS; lia|done].
         ++ by apply (HH i di).
    * intros d0 Hd0. assert (d0 = d) by congruence. subst d0.
      rewrite (rd_wr_eq _ _ _ _ Hwd), Hstep.
      destruct (Z.leb_spec 24 (head d3)); [lia|done].
Qed.

(** [stepDrops] never faults on a well-formed state, keeps it well-formed
    and applies [step_drop] to every slot. *)
Lemma cz_stepDrops_spec (s : State) :
  Inv s ->
  exists s', stepDrops s = Some s' /\ Inv s' /\ fasts s' = fasts s /\
    (forall i d, rd (drops s) i = Some d ->
                 rd (drops s') i = Some (step_drop d)).
Proof.
  intros HI. unfold stepDrops.
  destruct (for_upto_inv
    (fun k t => Inv t /\ fasts t = fasts s /\
       forall i d, rd (drops s) i = Some d ->
                   rd (drops t) i = Some (if i <? k then step_drop d else d))
    stepDrops_body MAX_DROPS s) as (s' & Hs' & HI' & Hf & Hds).
  - unfold MAX_DROPS; lia.
  - do 2 (split; [done|]). intros i d Hd.
    pose proof (rd_Some_range _ _ _ Hd).
    destruct (Z.ltb_spec i 0); [lia|done].
  - intros k t Hk (HIt & Hft & Hdt).
    destruct (cz_stepDrops_body_spec k t Hk HIt)
      as (t' & Ht' & HIt' & Hft' & Hoth & Hk').
    exists t'. split; [done|]. split; [done|]. split; [congruence|].
    intros i d Hd. pose proof (Hdt i d Hd) as Hti.
    destruct (Z.eq_dec i k) as [->|Hne].
    + destruct (Z.ltb_spec k k); [lia|].
      rewrite (Hk' d Hti). destruct (Z.ltb_spec k (k + 1)); [done|lia].
    + rewrite (Hoth i Hne), Hti.
      destruct (Z.ltb_spec i k), (Z.ltb_spec i (k + 1)); try done; lia.
  - exists s'. do 3 (split; [done|]). intros i d Hd.
    rewrite (Hds i d Hd). pose proof (rd_Some_range _ _ _ Hd) as Hr.
    rewrite (Core.ok_len_drops _ _ _ _ _ (inv_tables s HI)) in Hr.
    destruct (Z.ltb_spec i MAX_DROPS); [done|lia].
Qed.

(** *** Fast drops *)

Lemma cz_pass_through_spec (s : State) (di : Z) (d : Drop) (f : FastDrop)
    (slot : Z) :
  Inv s -> rd (drops s) di = Some d -> head d <> -1 ->
  exists f1 ci bp,
    pass_through s di d f slot = Some (f1, ci, bp) /\
    f_active f1 = f_active f /\ f_col f1 = f_col f /\ f_row f1 = f_row f /\
    f_speed f1 = f_speed f /\ f_age f1 = f_age f /\
    chars_ok MAX_DROPS ci /\ packed_ok MAX_DROPS bp /\
    (forall j, j <> di \/ slot <> 0 ->
       get_bright_slot bp j 0 = get_bright_slot (drop_bright_packed s) j 0).
Proof.
  intros [HT HC HP HH] Hd Hh. pose proof HT as [H1 H2 H3 H4 H5 H6 H7].
  destruct (H4 di d Hd Hh) as [(Hh0 & Htail & Hcol & Htr & Hsp & Hage & Hbo) _].
  pose proof (rd_Some_range _ _ _ Hd) as Hdi. rewrite H1 in Hdi.
  unfold Core.TERM_ROWS, Core.TERM_COLS, Core.MAX_TRAIL in *.
  unfold pass_through.
  destruct (Z.leb_spec 0 slot) as [Hs0|];
    [|by exists f, (drop_char_idx s), (drop_bright_packed s)].
  destruct (Z.ltb_spec slot (trail d)) as [Hs1|];
    [|by exists f, (drop_char_idx s), (drop_bright_packed s)].
  cbn [andb]. simpl_fast.
  remember (splitmix32 (f_rng f)) as r1 eqn:Hr1.
  destruct (chars_ok_wr2 MAX_DROPS (drop_char_idx s) di slot (pickIndex r1))
    as (ci & -> & Hci); [done|done|lia|].
  rewrite bind_Some.
  rewrite (u8_small di) by (unfold MAX_DROPS in Hdi; lia).
  rewrite (u8_small slot) by lia.
  destruct (cz_get_slot_total MAX_DROPS (drop_bright_packed s) di slot)
    as (b & -> & _); [done|done|lia|].
  rewrite bind_Some.
  destruct (b <? 3).
  - destruct (cz_set_slot_total MAX_DROPS (drop_bright_packed s)
                di slot (u8 (b + 1)))
      as (bp & -> & Hbp & _ & Hother); [done|done|lia|].
    rewrite bind_Some.
    exists (set_f_rng r1 f), ci, bp. split; [reflexivity|].
    simpl_fast. do 5 (split; [reflexivity|]). split; [exact Hci|].
    split; [exact Hbp|]. intros j Hj. apply Hother; [lia|].
    destruct Hj; [by left|right; lia].
  - rewrite bind_Some.
    exists (set_f_rng r1 f), ci, (drop_bright_packed s).
    split; [reflexivity|].
    simpl_fast. do 5 (split; [reflexivity|]). done.
Qed.

(** A Drop boosted or rerolled by a bullet leaves the tables well-formed. *)
Lemma cz_tables_same_course (t : State) (j : Z) (d d' : Drop) (ds : list Drop) :
  Core.tables_ok MAX_DROPS MAX_FAST (drops t) (column_occupied t) (fasts t) ->
  rd (drops t) j = Some d -> head d <> -1 -> Core.same_course 8 d d' ->
  wr (drops t) j d' = Some ds ->
  Core.tables_ok MAX_DROPS MAX_FAST ds (column_occupied t) (fasts t).
Proof.
  intros HT Hd Hh Hsc Hw.
  destruct (Core.ok_drop _ _ _ _ _ HT j d Hd Hh) as [Hok _].
  apply (CoreFacts.tables_move MAX_DROPS MAX_FAST (drops t)
           (column_occupied t) (fasts t) j d d' ds HT Hd Hh);
    [|by destruct Hsc|exact Hw].
  apply (CoreFacts.same_course_ok 8 d d'); [lia|exact Hsc|exact Hok].
Qed.

(** One iteration of the loop of [stepFastDrops] on a well-formed state:
    a bullet that lands exactly on the head row of the Drop of its column
    is switched off and leaves that Drop boosted. *)
Lemma cz_stepFastDrops_body_spec (k : Z) (t : State) :
  0 <= k < MAX_FAST ->
  Inv t ->
  exists t', stepFastDrops_body k t = Some t' /\ Inv t' /\
    column_occupied t' = column_occupied t /\
    (forall i d, rd (drops t) i = Some d ->
       exists d', rd (drops t') i = Some d' /\ Core.same_course 8 d d') /\
    (forall i, i <> k -> rd (fasts t') i = rd (fasts t) i) /\
    (forall f, rd (fasts t) k = Some f -> f_active f = true ->
       f_row f + 1 < TERM_ROWS ->
       forall j d, rd (drops t) j = Some d -> head d <> -1 ->
         col d = f_col f -> head d = f_row f + 1 ->
         exists f' d', rd (fasts t') k = Some f' /\ f_active f' = false /\
                       rd (drops t') j = Some d' /\ 8 <= boost d').
Proof.
  intros Hk HI. pose proof HI as [HT HC HP HH].
  pose proof HT as [H1 H2 H3 H4 H5 H6 H7].
  unfold stepFastDrops_body.
  destruct (rd_in_range (fasts t) k) as [f Hf]; [lia|].
  rewrite Hf, bind_Some.
  assert (Hrefl : forall i d, rd (drops t) i = Some d ->
            exists d', rd (drops t) i = Some d' /\ Core.same_course 8 d d')
    by (intros i d Hd; exists d; auto using CoreFacts.same_course_refl).
  destruct (f_active f) eqn:Hact; cbn [negb].
  2:{ exists t. split; [done|]. do 4 (split; [done|]).
      intros f0 Hf0 Ha0. congruence. }
  destruct (H7 k f Hf Hact) as (Hrow & Hsp & Hage & Hfc).
  simpl_fast. rewrite Hage, Hsp.
  change (u8 (0 + 1) <? 1) with false. cbn iota.
  unfold Core.TERM_ROWS, Core.TERM_COLS in *.
  rewrite (i16_small (f_row f + 1)) by lia.
  remember (splitmix32 (f_rng f)) as r1 eqn:Hr1.
  destruct (Z.leb_spec TERM_ROWS (f_row f + 1)) as [Hoff|Hon].
  { step_wr Hw. eexists. split; [reflexivity|].
    split.
    { split; simpl_state; [|exact HC|exact HP|exact HH].
      apply (CoreFacts.tables_fast MAX_DROPS MAX_FAST _ _ _ _ _ _ HT Hw).
      simpl_fast. done. }
    simpl_state. do 2 (split; [done|]). split.
    - intros i Hne. by rewrite (rd_wr_ne _ _ _ _ _ Hw Hne).
    - intros f0 Hf0 _ Hlt. assert (f0 = f) by congruence. subst f0. lia. }
  destruct (CoreFacts.find_drop_spec (drops t) MAX_DROPS (f_col f) H1)
    as (di & Hfind & Hdi).
  unfold findDropIndexInColumn. rewrite Hfind, bind_Some.
  remember (set_f_rng r1 (set_f_row (f_row f + 1)
              (set_f_age 0 (set_f_age (u8 (0 + 1)) f)))) as f1 eqn:Hf1.
  assert (Hfok : Core.fast_ok f1 /\ f_row f1 = f_row f + 1).
  { rewrite Hf1. unfold Core.fast_ok, Core.TERM_ROWS, Core.TERM_COLS.
    simpl_fast. unfold TERM_ROWS in Hon. lia. }
  destruct Hfok as [Hfok Hf1row].
  destruct Hdi as [[-> Hnone]|(Hdir & d & Hd & Hhd & Hcd & _)].
  { change (-1 =? -1) with true. cbn iota.
    step_wr Hw. eexists. split; [reflexivity|].
    split.
    { split; simpl_state; [|exact HC|exact HP|exact HH].
      apply (CoreFacts.tables_fast MAX_DROPS MAX_FAST _ _ _ _ _ _ HT Hw).
      done. }
    simpl_state. do 2 (split; [done|]). split.
    - intros i Hne. by rewrite (rd_wr_ne _ _ _ _ _ Hw Hne).
    - intros f0 Hf0 _ _ j d Hd Hhd Hcd _.
      assert (f0 = f) by congruence. subst f0.
      exfalso. eapply Hnone; eauto. }
  destruct (Z.eqb_spec di (-1)) as [|_]; [lia|].
  rewrite Hd, bind_Some.
  destruct (H4 di d Hd Hhd)
    as [(Hh0 & Htail & Hcol & Htr & Hsp' & Hage' & Hbo) _].
  destruct (HH di d Hd Hhd) as [Hdrow Hz].
  unfold Core.TERM_ROWS, Core.TERM_COLS, Core.MAX_TRAIL, TERM_ROWS in *.
  rewrite (i16_small (f_row f + 1 - head d)) by lia.
  destruct (cz_pass_through_spec t di d f1 (f_row f + 1 - head d) HI Hd Hhd)
    as (f2 & ci & bp & -> & P1 & P2 & P3 & P4 & P5 & Hci & Hbp & Hz').
  rewrite bind_Some. cbv beta iota.
  rewrite (u8_small di) by (unfold MAX_DROPS in Hdir; lia).
  assert (Hfok2 : Core.fast_ok f2).
  { unfold Core.fast_ok in *. rewrite P3, P4, P5, P2. done. }
  destruct (Z.eqb_spec (f_row f + 1 - head d) 0) as [Hhit|Hmiss].
  - (* on the head row *)
    remember (set_rng (splitmix32 (splitmix32
                (rng (if boost d <? 8 then set_boost 8 d else d))))
                (if boost d <? 8 then set_boost 8 d else d)) as d2 eqn:Hd2.
    assert (Hsc2 : Core.same_course 8 d d2 /\ 8 <= boost d2).
    { rewrite Hd2. unfold Core.same_course in *.
      destruct (Z.ltb_spec (boost d) 8); simpl_drop; lia. }
    destruct Hsc2 as [Hsc2 Hb2].
    destruct (cz_set_slot_total MAX_DROPS bp di 0 4)
      as (bp' & -> & Hbp' & Hsame & Hother); [done|lia|lia|].
    rewrite bind_Some.
    step_wr Hwd. step_wr Hwf.
    eexists. split; [reflexivity|].
    split.
    { split; simpl_state; [|exact Hci|exact Hbp'|].
      - apply (CoreFacts.tables_fast MAX_DROPS MAX_FAST l' _ (fasts t) k
                 (set_f_active false f2) l'0); [|exact Hwf|simpl_fast; done].
        by apply (cz_tables_same_course t di d d2 l').
      - intros i di0 Hdi0 Hhi0. rewrite (rd_wr _ _ _ _ _ Hwd) in Hdi0.
        destruct (Z.eqb_spec i di) as [->|Hne].
        + injection Hdi0 as <-. destruct Hsc2 as (_ & Eh & _).
          split; [unfold TERM_ROWS; lia|exact Hsame].
        + destruct (HH i di0 Hdi0 Hhi0) as [? Hz0]. split; [done|].
          rewrite Hother by (lia || by left). rewrite Hz' by (by left).
          exact Hz0. }
    simpl_state. split; [done|]. split; [|split].
    + intros i d0 Hd0. rewrite (rd_wr _ _ _ _ _ Hwd).
      destruct (Z.eqb_spec i di) as [->|Hne].
      * exists d2. split; [done|]. assert (d0 = d) by congruence. by subst d0.
      * exists d0. auto using CoreFacts.same_course_refl.
    + intros i Hne. by rewrite (rd_wr_ne _ _ _ _ _ Hwf Hne).
    + intros f0 Hf0 _ _ j dj Hdj Hhj Hcj _.
      assert (f0 = f) by congruence. subst f0.
      assert (j = di) by (eapply H5; eauto; congruence). subst j.
      exists (set_f_active false f2), d2.
      split; [exact (rd_wr_eq _ _ _ _ Hwf)|].
      split; [reflexivity|]. split; [exact (rd_wr_eq _ _ _ _ Hwd)|exact Hb2].
  - (* anywhere else *)
    step_wr Hwf.
    eexists. split; [reflexivity|].
    split.
    { split; simpl_state; [|exact Hci|exact Hbp|].
      - by apply (CoreFacts.tables_fast MAX_DROPS MAX_FAST _ _ (fasts t) k
                    f2 l').
      - intros i di0 Hdi0 Hhi0.
        destruct (HH i di0 Hdi0 Hhi0) as [? Hz0]. split; [done|].
        rewrite Hz' by (right; lia). exact Hz0. }
    simpl_state. split; [done|]. split; [exact Hrefl|]. split.
    + intros i Hne. by rewrite (rd_wr_ne _ _ _ _ _ Hwf Hne).
    + intros f0 Hf0 _ _ j dj Hdj Hhj Hcj Heq.
      assert (f0 = f) by congruence. subst f0.
      assert (j = di) by (eapply H5; eauto; congruence). subst j.
      assert (dj = d) by congruence. subst dj. lia.
Qed.

(** [stepFastDrops] never faults on a well-formed state and keeps it
    well-formed. *)
Lemma cz_stepFastDrops_spec (s : State) :
  Inv s ->
  exists s', stepFastDrops s = Some s' /\ Inv s' /\
    column_occupied s' = column_occupied s /\
    (forall i d, rd (drops s) i = Some d ->
       exists d', rd (drops s') i = Some d' /\ Core.same_course 8 d d') /\
    (forall i f, rd (fasts s) i = Some f -> f_active f = true ->
       f_row f + 1 < TERM_ROWS ->
       forall j d, rd (drops s) j = Some d -> head d <> -1 ->
         col d = f_col f -> head d = f_row f + 1 ->
         exists f' d', rd (fasts s') i = Some f' /\ f_active f' = false /\
                       rd (drops s') j = Some d' /\ 8 <= boost d').
Proof.
  intros HI. unfold stepFastDrops.
  destruct (for_upto_inv
    (fun k t => Inv t /\ column_occupied t = column_occupied s /\
       (forall i d, rd (drops s) i = Some d ->
          exists d', rd (drops t) i = Some d' /\ Core.same_course 8 d d') /\
       (forall i, k <= i -> rd (fasts t) i = rd (fasts s) i) /\
       (forall i f, i < k -> rd (fasts s) i = Some f -> f_active f = true ->
          f_row f + 1 < TERM_ROWS ->
          forall j d, rd (drops s) j = Some d -> head d <> -1 ->
            col d = f_col f -> head d = f_row f + 1 ->
            exists f' d', rd (fasts t) i = Some f' /\ f_active f' = false /\
                          rd (drops t) j = Some d' /\ 8 <= boost d'))
    stepFastDrops_body MAX_FAST s)
    as (s' & Hs' & HI' & Hc & HA & _ & HC).
  - unfold MAX_FAST; lia.
  - split; [done|]. split; [done|]. split; [|split].
    + intros i d Hd. exists d. auto using CoreFacts.same_course_refl.
    + done.
    + intros i f Hi Hf. apply rd_Some_range in Hf. lia.
  - intros k t Hk (HIt & Hct & HAt & HBt & HCt).
    destruct (cz_stepFastDrops_body_spec k t Hk HIt)
      as (t' & Ht' & HIt' & Hc' & HA' & HB' & HC').
    exists t'. split; [done|]. split; [done|].
    split; [congruence|]. split; [|split].
    + intros i d Hd. destruct (HAt i d Hd) as (d1 & Hd1 & Hsc1).
      destruct (HA' i d1 Hd1) as (d2 & Hd2 & Hsc2).
      exists d2. split; [done|]. eapply CoreFacts.same_course_trans; eauto.
    + intros i Hi. rewrite HB' by lia. apply HBt. lia.
    + intros i f Hi Hf Ha Hrow j d Hd Hh Hcol Hle.
      destruct (Z.eq_dec i k) as [->|Hne].
      * destruct (HAt j d Hd) as (d1 & Hd1 & Hsc1).
        pose proof Hsc1 as (Ec & Eh & _).
        assert (Hfk : rd (fasts t) k = Some f) by (rewrite HBt by lia; done).
        apply (HC' f Hfk Ha Hrow j d1 Hd1); [congruence|congruence|lia].
      * destruct (HCt i f ltac:(lia) Hf Ha Hrow j d Hd Hh Hcol Hle)
          as (f' & d1 & Hf' & Ha' & Hd1 & Hb1).
        destruct (HA' j d1 Hd1) as (d2 & Hd2 & Hsc2).
        exists f', d2. rewrite HB' by done.
        do 3 (split; [done|]). destruct Hsc2 as (_ & _ & _ & _ & _ & Hb). lia.
  - exists s'. do 4 (split; [done|]).
    intros i f Hf. apply HC; [|done]. apply rd_Some_range in Hf.
    rewrite (Core.ok_len_fasts _ _ _ _ _ (inv_tables s HI)) in Hf. lia.
Qed.

(** *** Runs *)

Lemma cz_initial_Inv (s : State) : initial s = true -> Inv s.
Proof.
  unfold initial. rewrite !andb_true_iff, !Z.eqb_eq.
  intros [[[[[[[[[H1 H2] H3] H4] H5] H6] H7] H8] H9] H10].
  split.
  - by apply CoreFacts.tables_initial.
  - split; [done|]. rewrite forallb_rd in H8.
    intros i row Hrow. apply H8 in Hrow. by apply Z.eqb_eq in Hrow.
  - split; [done|]. by rewrite forallb_rd in H10.
  - rewrite forallb_rd in H4. intros i d Hd Hh. apply H4 in Hd.
    apply Z.eqb_eq in Hd. done.
Qed.

Lemma cz_run_op_Inv (o : op) (s : State) :
  Inv s -> exists s', run_op o s = Some s' /\ Inv s'.
Proof.
  intros HI. destruct o; cbn [run_op].
  - destruct (cz_maybeSpawnDrop_spec s HI) as (s' & ? & ? & _). eauto.
  - destruct (cz_maybeSpawnFastDrop_Inv s HI) as (s' & ? & ? & _). eauto.
  - destruct (cz_stepDrops_spec s HI) as (s' & ? & ? & _). eauto.
  - destruct (cz_stepFastDrops_spec s HI) as (s' & ? & ? & _). eauto.
Qed.

(** No sequence of calls faults, and the invariant holds after it. *)
Lemma cz_run_Inv (ops : list op) (s : State) :
  Inv s -> exists s', run ops s = Some s' /\ Inv s'.
Proof.
  revert s. induction ops as [|o ops IH]; intros s HI; cbn [run].
  - eauto.
  - destruct (cz_run_op_Inv o s HI) as (s1 & -> & HI1). rewrite bind_Some.
    by apply IH.
Qed.

Lemma cz_run_reachable_Inv (ops : list op) (s0 s : State) :
  initial s0 = true -> run ops s0 = Some s -> Inv s.
Proof.
  intros H0 Hrun.
  destruct (cz_run_Inv ops s0 (cz_initial_Inv s0 H0)) as (s' & Hs' & HI).
  congruence.
Qed.

Lemma cz_setupState_boot : setupState boot = Some start.
Proof. vm_compute. reflexivity. Qed.

Lemma cz_start_initial : initial start = true.
Proof. vm_compute. reflexivity. Qed.

(** Every slot of every reachable state holds a brightness of 0..3. *)
Lemma cz_reachable_slot_range (ops : list op) (s0 s : State) (i slot : Z) :
  initial s0 = true -> run ops s0 = Some s ->
  0 <= i < MAX_DROPS -> 0 <= slot < MAX_TRAIL ->
  exists v, get_bright_slot (drop_bright_packed s) i slot = Some v /\
            0 <= v <= 3.
Proof.
  intros H0 Hrun Hi Hslot.
  destruct (cz_run_reachable_Inv ops s0 s H0 Hrun) as [_ _ HP _].
  apply (cz_get_slot_total MAX_DROPS); [done|done|].
  unfold MAX_TRAIL in Hslot. lia.
Qed.

(** *** A lone Drop at speed 1 *)

Lemma cz_step_drop_inactive (d : Drop) : head d = -1 -> step_drop d = d.
Proof. intros Hh. unfold step_drop. by rewrite Hh. Qed.

Lemma cz_step_drop_speed1 (d : Drop) :
  0 <= head d < TERM_ROWS -> age d = 0 -> speed d = 1 ->
  col (step_drop d) = col d /\ trail (step_drop d) = trail d /\
  speed (step_drop d) = 1 /\ age (step_drop d) = 0 /\
  head (step_drop d) = (if TERM_ROWS <=? head d + 1 then -1 else head d + 1).
Proof.
  unfold TERM_ROWS. intros Hh Ha Hs. unfold step_drop.
  destruct (Z.eqb_spec (head d) (-1)) as [|_]; [lia|].
  simpl_drop. rewrite Ha, Hs.
  change (1 <=? u8 (0 + 1)) with true. cbn iota.
  rewrite (i16_small (head d + 1)) by lia. simpl_drop. unfold TERM_ROWS.
  destruct (boost d =? 0); cbn [negb]; simpl_drop;
    destruct (24 <=? head d + 1); simpl_drop; done.
Qed.

Lemma cz_lone_after_step (i : Z) (d : Drop) (n : Z) (s : State) :
  0 <= n -> 0 <= col d < TERM_COLS ->
  lone_after i d n s ->
  exists s', stepDrops s = Some s' /\ lone_after i d (n + 1) s'.
Proof.
  intros Hn Hcol (HI & Hothers & dn & Hdn & Ec & Et & Es & Ea & Hcase).
  destruct (cz_stepDrops_spec s HI) as (s' & Hs' & HI' & _ & Hds).
  exists s'. split; [done|]. split; [done|].
  pose proof (inv_tables s HI) as HT. pose proof (inv_tables s' HI') as HT'.
  assert (Hothers' : forall j dj, rd (drops s') j = Some dj -> j <> i ->
                                  head dj = -1).
  { intros j dj Hdj Hne. pose proof (rd_Some_range _ _ _ Hdj) as Hr.
    rewrite (Core.ok_len_drops _ _ _ _ _ HT'),
            <- (Core.ok_len_drops _ _ _ _ _ HT) in Hr.
    destruct (rd_in_range (drops s) j Hr) as [d0 Hd0].
    rewrite (Hds j d0 Hd0) in Hdj. injection Hdj as <-.
    rewrite cz_step_drop_inactive; eauto. }
  split; [done|].
  exists (step_drop dn). split; [auto|].
  (* the flag of the column follows its only possible owner *)
  assert (Hflag : forall b, (b = true <-> head (step_drop dn) <> -1) ->
            col (step_drop dn) = col d ->
            rd (column_occupied s') (col d) = Some b).
  { intros b Hb Hc.
    destruct (rd_in_range (column_occupied s') (col d)) as [b' Hb'].
    { rewrite (Core.ok_len_cols _ _ _ _ _ HT'). done. }
    rewrite Hb'. f_equal. destruct b'.
    - apply (Core.ok_owner _ _ _ _ _ HT') in Hb' as (j & dj & Hdj & Hhj & _).
      destruct (Z.eq_dec j i) as [->|Hne].
      + rewrite (Hds i dn Hdn) in Hdj. injection Hdj as <-.
        symmetry. by apply Hb.
      + exfalso. apply Hhj. eauto.
    - destruct b; [|done]. destruct Hb as [Hb _]. specialize (Hb eq_refl).
      destruct (Core.ok_drop _ _ _ _ _ HT' i (step_drop dn) (Hds i dn Hdn) Hb)
        as [_ Hfl].
      rewrite Hc in Hfl. congruence. }
  destruct Hcase as [(Hlt & Hh & _)|(Hge & Hh & _)].
  - (* still active: the head moves from [n] to [n + 1] *)
    destruct (cz_step_drop_speed1 dn) as (Ec' & Et' & Es' & Ea' & Eh');
      [lia|done|done|].
    rewrite Hh in Eh'. unfold TERM_ROWS in *.
    do 4 (split; [congruence|]).
    destruct (Z.leb_spec 24 (n + 1)) as [Hgone|Hstay].
    + right. split; [lia|]. split; [done|].
      apply Hflag; [|congruence]. rewrite Eh'. split; [discriminate|done].
    + left. split; [lia|]. split; [done|].
      apply Hflag; [|congruence]. rewrite Eh'. split; [lia|done].
  - (* already gone *)
    rewrite (cz_step_drop_inactive dn Hh).
    do 4 (split; [done|]). right. split; [lia|]. split; [done|].
    specialize (Hflag false). rewrite (cz_step_drop_inactive dn Hh) in Hflag.
    apply Hflag; [|done]. split; [discriminate|]. intros Hc. done.
Qed.

(** A lone Drop at speed 1 that starts at head row 0 is on row [n] after
    [n] calls of [stepDrops] while [n] is on the screen; the call that
    takes its head row to [TERM_ROWS] retires it and clears the flag of
    its column. *)
Lemma cz_lone_drop_leaves (s0 : State) (ops : list op) (s : State) (i : Z)
    (d : Drop) (n : nat) :
  initial s0 = true -> run ops s0 = Some s ->
  length (List.filter is_active (drops s)) = 1%nat ->
  rd (drops s) i = Some d -> head d = 0 -> age d = 0 -> speed d = 1 ->
  exists sn dn,
    run (replicate n StepDrops) s = Some sn /\
    rd (drops sn) i = Some dn /\
    (Z.of_nat n < TERM_ROWS ->
       head dn = Z.of_nat n /\
       rd (column_occupied sn) (col d) = Some true) /\
    (TERM_ROWS <= Z.of_nat n ->
       head dn = -1 /\
       rd (column_occupied sn) (col d) = Some false).
Proof.
  intros H0 Hrun Hone Hd Hh Ha Hs.
  pose proof (cz_run_reachable_Inv ops s0 s H0 Hrun) as HI.
  assert (Hact : head d <> -1) by lia.
  destruct (Core.ok_drop _ _ _ _ _ (inv_tables s HI) i d Hd Hact)
    as [(_ & _ & Hcol & Htrail & _) Hfl].
  assert (Hstart : lone_after i d 0 s).
  { split; [done|]. split.
    - intros j dj Hdj Hne.
      destruct (Z.eqb_spec (head dj) (-1)) as [|Hj]; [done|].
      exfalso. apply Hne.
      apply (filter_one_unique is_active (drops s) Hone j i dj d); auto;
        unfold is_active.
      + by destruct (Z.eqb_spec (head dj) (-1)).
      + by destruct (Z.eqb_spec (head d) (-1)).
    - exists d. do 5 (split; [done|]). left.
      unfold TERM_ROWS. split; [lia|]. done. }
  assert (Hiter : forall m t, lone_after i d (Z.of_nat m) t ->
            forall k, exists t', run (replicate k StepDrops) t = Some t' /\
                                 lone_after i d (Z.of_nat (m + k)) t').
  { intros m t Ht k. revert m t Ht.
    induction k as [|k IH]; intros m t Ht; cbn [replicate run run_op].
    - exists t. split; [done|]. by rewrite Nat.add_0_r.
    - destruct (cz_lone_after_step i d (Z.of_nat m) t) as (t1 & -> & Ht1);
        [lia|done|done|].
      rewrite bind_Some.
      replace (Z.of_nat m + 1) with (Z.of_nat (S m)) in Ht1 by lia.
      destruct (IH (S m) t1 Ht1) as (t' & Hrun' & Ht').
      exists t'. split; [done|].
      by replace (m + S k)%nat with (S m + k)%nat by lia. }
  destruct (Hiter 0%nat s Hstart n) as (sn & Hsn & _ & _ & dn & Hdn & _ & _ &
                                        _ & _ & Hcase).
  exists sn, dn. do 2 (split; [done|]). cbn [Nat.add] in Hcase.
  split; intros Hn; destruct Hcase as [(? & ? & ?)|(? & ? & ?)]; (done || lia).
Qed.
End ColorizedFacts.

(** * matrix_rain_vectorized_final.ino: further properties *)

Module ColorizedMore.
Import Colorized ColorizedRender ColorizedFacts.

(** *** renderFrame *)

Lemma cz_render_cell_eq (s : State) (r c last : Z) (out : list event) :
  render_cell s r c (last, out) =
  (bc ← cell s r c;
   if negb (fst bc =? last)
   then Some (fst bc, out ++ [SetColor (fst bc); Put (snd bc)])
   else Some (last, out ++ [Put (snd bc)])).
Proof. unfold render_cell. by destruct (cell s r c) as [[b ch]|]. Qed.

Lemma cz_charForFast_total (f : FastDrop) :
  exists ch, charForFast f = Some ch /\ In ch CHARSET.
Proof.
  unfold charForFast.
  destruct (charset_at_idx_total (u8 (f_rng f mod CHARSET_LEN))) as [ch Hch].
  exists ch. split; [done|]. by apply (charset_at_idx_In _ _ Hch).
Qed.

(** The brightness [map] and [constrain] compute for a slot: 1 on the
    top cell of the trail, 2 down to the middle, 3 below it, and 4 on the
    last cell. *)
Lemma cz_slot_brightness (tr slot : Z) :
  3 <= tr <= 12 -> 0 <= slot < tr ->
  exists m, arduino_map slot tr 0 3 1 = Some m /\
    (if slot =? tr - 1 then 4 else u8 (constrain (u8 m) 0 3))
    = slot_brightness tr slot.
Proof.
  intros Ht Hs.
  assert (Hcases : (tr = 3 \/ tr = 4 \/ tr = 5 \/ tr = 6 \/ tr = 7 \/ tr = 8 \/
                    tr = 9 \/ tr = 10 \/ tr = 11 \/ tr = 12)) by lia.
  assert (Hslot : (slot = 0 \/ slot = 1 \/ slot = 2 \/ slot = 3 \/ slot = 4 \/
                   slot = 5 \/ slot = 6 \/ slot = 7 \/ slot = 8 \/ slot = 9 \/
                   slot = 10 \/ slot = 11)) by lia.
  destruct Hcases as [->|[->|[->|[->|[->|[->|[->|[->|[->| ->]]]]]]]]];
    destruct Hslot as [->|[->|[->|[->|[->|[->|[->|[->|[->|[->|[->| ->]]]]]]]]]]];
    try lia; (eexists; split; [reflexivity|]; vm_compute; reflexivity).
Qed.

Lemma cz_slot_brightness_range (tr slot : Z) :
  1 <= slot_brightness tr slot <= 4.
Proof. unfold slot_brightness. split_ifs; lia. Qed.

(** In a well-formed state no cell of the screen makes [renderFrame]
    read outside a table or divide by zero, and every cell is painted
    with a brightness of 0..4 and a blank or a character of the character
    set. *)
Lemma cz_cell_spec (s : State) (r c : Z) :
  Inv s -> 0 <= r < TERM_ROWS -> 0 <= c < TERM_COLS ->
  exists bc, cell s r c = Some bc /\ cell_ok bc.
Proof.
  intros HI Hr Hc.
  pose proof HI as [[H1 H2 H3 H4 H5 H6 H7] [Hcl Hcr] Hp Hhead].
  unfold cell. consts.
  match goal with |- context [scan_upto 16 ?p] =>
    destruct (scan_upto_spec p 16) as (hit & Hscan & Hspec) end; [lia| |].
  { intros k Hk. destruct (rd_in_range (fasts s) k) as [f Hf]; [lia|].
    rewrite Hf, bind_Some.
    destruct (negb (f_active f) || negb (f_col f =? c)); [eauto|].
    destruct (cz_charForFast_total f) as (ch & Hch & _).
    destruct (f_row f =? r); [rewrite Hch, bind_Some; eauto|].
    destruct (f_row f - 1 =? r); [rewrite Hch, bind_Some; eauto|eauto]. }
  rewrite Hscan, bind_Some. destruct hit as [bc|].
  { exists bc. split; [done|].
    destruct Hspec as (k & _ & Hk & _).
    destruct (rd (fasts s) k) as [f|]; cbn in Hk; [|discriminate].
    destruct (negb (f_active f) || negb (f_col f =? c)); [discriminate|].
    destruct (cz_charForFast_total f) as (ch & Hch & Hin).
    rewrite Hch in Hk. cbn in Hk.
    destruct (f_row f =? r).
    { injection Hk as <-. split; cbn; [lia|by right]. }
    destruct (f_row f - 1 =? r); [|discriminate].
    injection Hk as <-. split; cbn; [lia|by right]. }
  destruct (rd_in_range (column_occupied s) c) as [occ Hocc]; [lia|].
  rewrite Hocc, bind_Some. destruct occ.
  2:{ eexists. split; [reflexivity|]. split; cbn; [lia|by left]. }
  assert (Hprobe : forall k, 0 <= k < 35 ->
    exists x,
      (d ← rd (drops s) k;
       if (head d =? -1) || negb (col d =? c) then Some None
       else
         let slot := i16 (r - head d) in
         if (0 <=? slot) && (slot <? trail d) then
           idx ← rd2 (drop_char_idx s) k slot;
           ch ← charset_at_idx idx;
           m ← arduino_map slot (trail d) 0 3 1;
           let brightness := u8 m in
           let brightness := u8 (constrain brightness 0 3) in
           let brightness := if slot =? trail d - 1 then 4 else brightness in
           Some (Some (brightness, ch))
         else Some None) = Some x /\
      match x with Some bc => cell_ok bc | None => True end).
  { intros k Hk. destruct (rd_in_range (drops s) k) as [d Hd]; [lia|].
    rewrite Hd, bind_Some.
    destruct (Z.eqb_spec (head d) (-1)) as [|Hact]; cbn [orb];
      [by exists None|].
    destruct (negb (col d =? c)); [by exists None|].
    destruct (H4 k d Hd Hact) as [Hok _].
    destruct Hok as (Hh0 & Htg & _ & Ht & _). consts.
    cbn zeta. rewrite (i16_small (r - head d)) by lia.
    destruct (Z.leb_spec 0 (r - head d)); cbn [andb]; [|by exists None].
    destruct (Z.ltb_spec (r - head d) (trail d)); [|by exists None].
    destruct (rd_in_range (drop_char_idx s) k) as [row Hrow]; [lia|].
    pose proof (Hcr k row Hrow) as Hlen.
    destruct (rd_in_range row (r - head d)) as [idx Hidx]; [lia|].
    unfold rd2. rewrite Hrow, bind_Some, Hidx, bind_Some.
    destruct (charset_at_idx_total idx) as [ch Hch].
    rewrite Hch, bind_Some.
    destruct (cz_slot_brightness (trail d) (r - head d)) as (m & -> & Hm);
      [lia|lia|].
    rewrite bind_Some, Hm. eexists. split; [reflexivity|].
    pose proof (cz_slot_brightness_range (trail d) (r - head d)).
    split; cbn [fst snd]; [lia|]. right. by apply (charset_at_idx_In _ _ Hch). }
  match goal with |- context [scan_upto 35 ?p] =>
    destruct (scan_upto_spec p 35) as (hit & Hscan2 & Hspec2) end; [lia| |].
  { intros k Hk. destruct (Hprobe k Hk) as (x & Hx & _). eauto. }
  rewrite Hscan2, bind_Some. eexists. split; [reflexivity|].
  destruct hit as [bc|]; [|split; cbn; [lia|by left]].
  destruct Hspec2 as (k & Hk & Hpk & _).
  destruct (Hprobe k Hk) as (x & Hx & Hok).
  assert (Hx' : Some x = Some (Some bc)) by (rewrite <- Hx; exact Hpk).
  injection Hx' as ->. done.
Qed.

(** [renderFrame] never faults in a well-formed state.  It selects
    colour 2 before the first cell, then paints the cells by the rule
    from a last brightness of 255, so the first cell always sends a
    colour of its own; it writes [TERM_ROWS] rows of [TERM_COLS]
    characters separated by CR LF. *)
Lemma cz_frame_shape (s : State) :
  Inv s ->
  exists out cells,
    renderFrame s = Some out /\ frame_cells s = Some cells /\
    len cells = TERM_ROWS * TERM_COLS /\
    drop_newlines out =
      Home :: SetColor 2 :: spec_paint 255 cells ++ [ResetColor] /\
    row_lengths out =
      replicate (Z.to_nat TERM_ROWS) (Z.to_nat TERM_COLS) /\
    newlines out = replicate (Z.to_nat (TERM_ROWS - 1)) CRLF /\
    Forall cell_ok cells.
Proof.
  intros HI.
  destruct (painter_frame_crlf TERM_ROWS TERM_COLS (cell s) (render_cell s) cell_ok)
    with (last0 := 255) (pre := [Home; SetColor 2])
    as (st & cells & Hst & Hcells & Hlen & Hout & Hrows & Hnl & HP);
    try done.
  - apply cz_render_cell_eq.
  - intros r c Hr Hc. destruct (cz_cell_spec s r c HI Hr Hc) as (bc & ? & _).
    eauto.
  - intros r c bc Hr Hc Hbc.
    destruct (cz_cell_spec s r c HI Hr Hc) as (bc' & ? & ?). congruence.
  - exists (snd st ++ [ResetColor]), cells. split.
    { unfold renderFrame.
      change (render_row s) with
        (fun r st => st ← for_upto TERM_COLS (render_cell s r) st;
           if r <? TERM_ROWS - 1 then Some (fst st, snd st ++ [CRLF])
           else Some st).
      by rewrite Hst. }
    split; [exact Hcells|]. split; [exact Hlen|]. split.
    { rewrite drop_newlines_app, Hout. done. }
    split.
    { rewrite (row_lengths_full _ _ _ Hrows). done. }
    split; [|done]. rewrite newlines_app, Hnl. cbn. by rewrite app_nil_r.
Qed.

(** Where no bullet is on the cell or on the row below it, a cell within
    the trail of the Drop of its column shows the stored character of its
    slot with the brightness of the slot's position; the packed
    brightness of the slot plays no part. *)
Lemma cz_cell_trail (s : State) (r c i : Z) (d : Drop) :
  Inv s -> rd (drops s) i = Some d -> head_row d <> -1 -> col d = c ->
  0 <= r < TERM_ROWS -> 0 <= r - head_row d < trail d ->
  (forall j f, rd (fasts s) j = Some f -> f_active f = true -> f_col f = c ->
               f_row f <> r /\ f_row f - 1 <> r) ->
  exists idx ch,
    rd2 (drop_char_idx s) i (r - head_row d) = Some idx /\
    charset_at_idx idx = Some ch /\
    cell s r c = Some (slot_brightness (trail d) (r - head_row d), ch).
Proof.
  intros HI Hd Hh Hc Hr Hin Hno.
  pose proof HI as [[H1 H2 H3 H4 H5 H6 H7] [Hcl Hcr] Hp Hhead].
  destruct (H4 i d Hd Hh) as [Hok Hflag]. rewrite Hc in Hflag.
  pose proof Hok as (Hh0 & Htg & Hcrg & Ht & _ & _ & Hb).
  pose proof (rd_Some_range _ _ _ Hd) as Hir.
  consts.
  destruct (rd_in_range (drop_char_idx s) i) as [row Hrow]; [lia|].
  pose proof (Hcr i row Hrow) as Hlen.
  destruct (rd_in_range row (r - head d)) as [idx Hidx]; [lia|].
  destruct (charset_at_idx_total idx) as [ch Hch].
  exists idx, ch. split; [unfold rd2; by rewrite Hrow, bind_Some|].
  split; [done|].
  unfold cell. rewrite (scan_upto_none _ MAX_FAST).
  2:{ unfold MAX_FAST; lia. }
  2:{ intros k Hk. destruct (rd_in_range (fasts s) k) as [fk Hfk];
        [unfold MAX_FAST in *; lia|].
      rewrite Hfk, bind_Some.
      destruct (f_active fk) eqn:Ha; cbn [negb orb]; [|done].
      destruct (Z.eqb_spec (f_col fk) c) as [Hck|]; cbn [negb]; [|done].
      destruct (Hno k fk Hfk Ha Hck) as [N1 N2].
      destruct (Z.eqb_spec (f_row fk) r); [done|].
      destruct (Z.eqb_spec (f_row fk - 1) r); done. }
  rewrite bind_Some, Hflag, bind_Some.
  assert (Hprobe : forall k dk x, rd (drops s) k = Some dk ->
    (d ← rd (drops s) k;
     if (head d =? -1) || negb (col d =? c) then Some None
     else
       let slot := i16 (r - head d) in
       if (0 <=? slot) && (slot <? trail d) then
         idx ← rd2 (drop_char_idx s) k slot;
         ch ← charset_at_idx idx;
         m ← arduino_map slot (trail d) 0 3 1;
         let brightness := u8 m in
         let brightness := u8 (constrain brightness 0 3) in
         let brightness := if slot =? trail d - 1 then 4 else brightness in
         Some (Some (brightness, ch))
       else Some None) = Some x ->
    (x = None /\ k <> i) \/
    (k = i /\ x = Some (slot_brightness (trail d) (r - head d), ch))).
  { intros k dk x Hdk. rewrite Hdk, bind_Some.
    destruct (Z.eqb_spec (head dk) (-1)) as [Hin1|Hact]; cbn [orb].
    { intros Hx. left. split; [congruence|]. intros ->. congruence. }
    destruct (Z.eqb_spec (col dk) c) as [Hck|Hck]; cbn [negb].
    2:{ intros Hx. left. split; [congruence|]. intros ->. congruence. }
    assert (k = i) by (apply (H5 k i dk d); (done || congruence)). subst k.
    assert (dk = d) by congruence. subst dk.
    cbn zeta. rewrite (i16_small (r - head d)) by lia.
    destruct (Z.leb_spec 0 (r - head d)); [|lia].
    destruct (Z.ltb_spec (r - head d) (trail d)); [|lia]. cbn [andb].
    unfold rd2. rewrite Hrow, bind_Some, Hidx, bind_Some, Hch, bind_Some.
    destruct (cz_slot_brightness (trail d) (r - head d)) as (m & -> & Hm);
      [lia|lia|].
    rewrite bind_Some, Hm. intros Hx. right. split; [done|]. congruence. }
  match goal with |- context [scan_upto MAX_DROPS ?p] =>
    destruct (scan_upto_spec p MAX_DROPS) as (hit & Hscan & Hspec) end.
  { unfold MAX_DROPS; lia. }
  { intros k Hk.
    destruct (cz_cell_spec s r c HI) as (bc & Hbc & _); [unfold TERM_ROWS; lia|
      unfold TERM_COLS; lia|].
    destruct (rd_in_range (drops s) k) as [dk Hdk]; [unfold MAX_DROPS in *; lia|].
    rewrite Hdk, bind_Some.
    destruct (Z.eqb_spec (head dk) (-1)) as [|Hact]; cbn [orb]; [eauto|].
    destruct (negb (col dk =? c)); [eauto|].
    destruct (H4 k dk Hdk Hact) as [Hokk _].
    destruct Hokk as (Hk0 & Hktg & _ & Hkt & _). consts.
    cbn zeta. rewrite (i16_small (r - head dk)) by lia.
    destruct (Z.leb_spec 0 (r - head dk)); cbn [andb]; [|eauto].
    destruct (Z.ltb_spec (r - head dk) (trail dk)); [|eauto].
    destruct (rd_in_range (drop_char_idx s) k) as [rowk Hrowk]; [lia|].
    pose proof (Hcr k rowk Hrowk) as Hlenk.
    destruct (rd_in_range rowk (r - head dk)) as [idxk Hidxk]; [lia|].
    unfold rd2. rewrite Hrowk, bind_Some, Hidxk, bind_Some.
    destruct (charset_at_idx_total idxk) as [chk ->]. rewrite bind_Some.
    destruct (cz_slot_brightness (trail dk) (r - head dk)) as (m & -> & _);
      [lia|lia|].
    rewrite bind_Some. eauto. }
  rewrite Hscan, bind_Some.
  destruct hit as [bc|].
  - destruct Hspec as (k & Hk & Hpk & _).
    destruct (rd_in_range (drops s) k) as [dk Hdk]; [unfold MAX_DROPS in *; lia|].
    destruct (Hprobe k dk _ Hdk Hpk) as [[? _]|[_ Hx]]; [discriminate|].
    congruence.
  - exfalso. assert (Hi : 0 <= i < MAX_DROPS) by (unfold MAX_DROPS; lia).
    destruct (Hprobe i d _ Hd (Hspec i Hi)) as [[_ ?]|[_ ?]]; [done|discriminate].
Qed.

(** *** The head slot *)

(** The brightness 4 that [maybeSpawnDrop], [stepDrops] and an impact
    store in slot 0 does not fit in two bits, so the head slot of every
    active Drop reads 0. *)
Lemma cz_head_slot_dark (s : State) (i : Z) (d : Drop) :
  Inv s -> rd (drops s) i = Some d -> head_row d <> -1 ->
  0 <= head_row d < TERM_ROWS /\
  get_bright_slot (drop_bright_packed s) i 0 = Some 0.
Proof.
  intros HI Hd Hh. destruct (inv_head s HI i d Hd Hh) as [H1 H2].
  split; [|done]. split; [|done].
  destruct (Core.ok_drop _ _ _ _ _ (inv_tables s HI) i d Hd Hh) as [Hok _].
  by destruct Hok.
Qed.

(** *** stepFastDrops: the fate of a bullet and of the Drop below it *)

(** One iteration of the loop of [stepFastDrops]: the bullet moves down
    one row and stays on unless it leaves the screen or lands exactly on
    the head row of the Drop of its column; a Drop it does not land on
    is left as it is. *)
Lemma cz_stepFast_body_fast (k : Z) (t : State) (f : FastDrop) :
  0 <= k < MAX_FAST -> Inv t -> rd (fasts t) k = Some f ->
  exists t' f', stepFastDrops_body k t = Some t' /\
    rd (fasts t') k = Some f' /\
    (f_active f = false -> f' = f) /\
    (f_active f = true ->
       f_col f' = f_col f /\ f_row f' = f_row f + 1 /\
       (f_active f' = true <->
        f_row f + 1 < TERM_ROWS /\
        forall j d, rd (drops t) j = Some d -> head d <> -1 ->
                    col d = f_col f -> head d <> f_row f + 1)) /\
    (forall j d, rd (drops t) j = Some d ->
       ~ (f_active f = true /\ col d = f_col f /\ head d = f_row f + 1) ->
       rd (drops t') j = Some d).
Proof.
  intros Hk HI Hf. pose proof HI as [HT HC HP HH].
  pose proof HT as [H1 H2 H3 H4 H5 H6 H7].
  unfold stepFastDrops_body. rewrite Hf, bind_Some.
  destruct (f_active f) eqn:Hact; cbn [negb].
  2:{ exists t, f. split; [done|]. split; [done|]. split; [done|].
      split; [discriminate|done]. }
  destruct (H7 k f Hf Hact) as (Hrow & Hsp & Hage & Hfc).
  simpl_fast. rewrite Hage, Hsp.
  change (u8 (0 + 1) <? 1) with false. cbn iota.
  unfold Core.TERM_ROWS, Core.TERM_COLS in *.
  rewrite (i16_small (f_row f + 1)) by lia.
  remember (splitmix32 (f_rng f)) as r1 eqn:Hr1. clear Hr1.
  destruct (Z.leb_spec TERM_ROWS (f_row f + 1)) as [Hoff|Hon].
  { step_wr Hw. eexists _, _. split; [reflexivity|]. simpl_state.
    split; [eapply rd_wr_eq; eauto|]. split; [discriminate|].
    split; [|done].
    intros _. cbn. split; [done|]. split; [done|].
    split; [discriminate|]. intros [? _]. lia. }
  destruct (CoreFacts.find_drop_spec (drops t) MAX_DROPS (f_col f) H1)
    as (di & Hfind & Hdi).
  unfold findDropIndexInColumn. rewrite Hfind, bind_Some.
  remember (set_f_rng r1 (set_f_row (f_row f + 1)
              (set_f_age 0 (set_f_age (u8 (0 + 1)) f)))) as f1 eqn:Hf1.
  assert (Hf1c : f_active f1 = true /\ f_col f1 = f_col f /\
                 f_row f1 = f_row f + 1).
  { rewrite Hf1. simpl_fast. done. }
  destruct Hf1c as (Hf1a & Hf1c & Hf1r).
  destruct Hdi as [[-> Hnone]|(Hdir & d & Hd & Hhd & Hcd & _)].
  { change (-1 =? -1) with true. cbn iota.
    step_wr Hw. eexists _, _. split; [reflexivity|]. simpl_state.
    split; [eapply rd_wr_eq; eauto|]. split; [discriminate|].
    split; [|done].
    intros _. split; [done|]. split; [done|]. split; [|done].
    intros _. split; [done|]. intros j d Hd Hh Hc. exfalso.
    by apply (Hnone j d). }
  destruct (Z.eqb_spec di (-1)) as [|_]; [lia|].
  rewrite Hd, bind_Some.
  destruct (H4 di d Hd Hhd)
    as [(Hh0 & Htail & Hcol & Htr & Hsp' & Hage' & Hbo) _].
  destruct (HH di d Hd Hhd) as [Hdrow Hz].
  unfold Core.TERM_ROWS, Core.TERM_COLS, Core.MAX_TRAIL, TERM_ROWS in *.
  rewrite (i16_small (f_row f + 1 - head d)) by lia.
  destruct (cz_pass_through_spec t di d f1 (f_row f + 1 - head d) HI Hd Hhd)
    as (f2 & ci & bp & -> & P1 & P2 & P3 & P4 & P5 & Hci & Hbp & Hz').
  rewrite bind_Some. cbv beta iota.
  rewrite (u8_small di) by (unfold MAX_DROPS in Hdir; lia).
  destruct (Z.eqb_spec (f_row f + 1 - head d) 0) as [Hhit|Hmiss].
  - (* on the head row *)
    destruct (cz_set_slot_total MAX_DROPS bp di 0 4)
      as (bp' & -> & Hbp' & _); [done|lia|lia|].
    rewrite bind_Some.
    step_wr Hwd. step_wr Hwf.
    eexists _, _. split; [reflexivity|]. simpl_state.
    split; [eapply rd_wr_eq; eauto|]. split; [discriminate|]. split.
    + intros _. simpl_fast. rewrite P2, P3, Hf1c, Hf1r.
      split; [done|]. split; [done|]. split; [discriminate|].
      intros [_ Hall]. specialize (Hall di d Hd Hhd Hcd). lia.
    + intros j dj Hdj Hno. rewrite (rd_wr _ _ _ _ _ Hwd).
      destruct (Z.eqb_spec j di) as [->|Hne]; [|done].
      exfalso. apply Hno. assert (dj = d) by congruence. subst dj.
      split; [done|]. split; [done|]. lia.
  - (* anywhere else *)
    step_wr Hwf.
    eexists _, _. split; [reflexivity|]. simpl_state.
    split; [eapply rd_wr_eq; eauto|]. split; [discriminate|].
    split; [|done].
    intros _. rewrite P1, P2, P3, Hf1a, Hf1c, Hf1r.
    split; [done|]. split; [done|]. split; [|done].
    intros _. split; [done|]. intros j dj Hdj Hhj Hcj.
    assert (j = di) by (apply (H5 j di dj d); (done || congruence)). subst j.
    assert (dj = d) by congruence. subst dj. lia.
Qed.

(** In one call of [stepFastDrops] every bullet that is switched on
    moves down exactly one row.  It is switched off exactly when the new
    row is off the screen or is the head row of the Drop of its column:
    a bullet on any other row of the column, above or below the head
    row, stays on.  A Drop on whose head row no bullet of its column
    lands is left as it is. *)
Lemma cz_stepFast_moves (s : State) :
  Inv s ->
  exists s', stepFastDrops s = Some s' /\ Inv s' /\
    (forall i f, rd (fasts s) i = Some f ->
       exists f', rd (fasts s') i = Some f' /\
         (f_active f = false -> f' = f) /\
         (f_active f = true ->
            f_col f' = f_col f /\ f_row f' = f_row f + 1 /\
            (f_active f' = true <->
             f_row f + 1 < TERM_ROWS /\
             forall j d, rd (drops s) j = Some d -> head d <> -1 ->
                         col d = f_col f -> head d <> f_row f + 1))) /\
    (forall j d, rd (drops s) j = Some d ->
       (forall i f, rd (fasts s) i = Some f -> f_active f = true ->
                    f_col f = col d -> f_row f + 1 <> head d) ->
       rd (drops s') j = Some d).
Proof.
  intros HI. unfold stepFastDrops.
  destruct (for_upto_inv
    (fun k t => Inv t /\
       (forall i d, rd (drops s) i = Some d ->
          exists d', rd (drops t) i = Some d' /\ Core.same_course 8 d d') /\
       (forall i, k <= i -> rd (fasts t) i = rd (fasts s) i) /\
       (forall i f, i < k -> rd (fasts s) i = Some f ->
          exists f', rd (fasts t) i = Some f' /\
            (f_active f = false -> f' = f) /\
            (f_active f = true ->
               f_col f' = f_col f /\ f_row f' = f_row f + 1 /\
               (f_active f' = true <->
                f_row f + 1 < TERM_ROWS /\
                forall j d, rd (drops s) j = Some d -> head d <> -1 ->
                            col d = f_col f -> head d <> f_row f + 1))) /\
       (forall j d, rd (drops s) j = Some d ->
          (forall i f, i < k -> rd (fasts s) i = Some f -> f_active f = true ->
                       f_col f = col d -> f_row f + 1 <> head d) ->
          rd (drops t) j = Some d))
    stepFastDrops_body MAX_FAST s) as (s' & Hs' & HI' & _ & _ & HC & HD).
  - unfold MAX_FAST; lia.
  - split; [done|]. split; [|split; [done|split]].
    + intros i d Hd. exists d. auto using CoreFacts.same_course_refl.
    + intros i f Hi Hf. apply rd_Some_range in Hf. lia.
    + done.
  - intros k t Hk (HIt & HAt & HBt & HCt & HDt).
    destruct (cz_stepFastDrops_body_spec k t Hk HIt)
      as (t' & Ht' & HIt' & _ & HA' & HB' & _).
    exists t'. split; [done|]. split; [done|]. split; [|split; [|split]].
    + intros i d Hd. destruct (HAt i d Hd) as (d1 & Hd1 & Hsc1).
      destruct (HA' i d1 Hd1) as (d2 & Hd2 & Hsc2).
      exists d2. split; [done|]. eapply CoreFacts.same_course_trans; eauto.
    + intros i Hi. rewrite HB' by lia. apply HBt. lia.
    + intros i f Hi Hf. destruct (Z.eq_dec i k) as [->|Hne].
      * assert (Hfk : rd (fasts t) k = Some f) by (rewrite HBt by lia; done).
        destruct (cz_stepFast_body_fast k t f Hk HIt Hfk)
          as (t1 & f' & Ht1 & Hf' & Hoff & Hon & _).
        assert (t1 = t') by congruence. subst t1. exists f'.
        split; [done|]. split; [done|]. intros Ha.
        destruct (Hon Ha) as (E1 & E2 & Hiff). do 2 (split; [done|]).
        rewrite Hiff. split; intros [Hrow Hall]; (split; [done|]).
        -- intros j d Hd Hh Hc. destruct (HAt j d Hd) as (d1 & Hd1 & Hsc1).
           destruct Hsc1 as (Ec & Eh & _).
           rewrite <- Eh. apply (Hall j d1 Hd1); congruence.
        -- intros j d1 Hd1 Hh Hc.
           destruct (rd_in_range (drops s) j) as [d Hd].
           { apply rd_Some_range in Hd1.
             destruct HIt as [[Hlt _ _ _ _ _ _] _ _ _].
             destruct HI as [[Hls _ _ _ _ _ _] _ _ _]. lia. }
           destruct (HAt j d Hd) as (d1' & Hd1' & Hsc1).
           assert (d1' = d1) by congruence. subst d1'.
           destruct Hsc1 as (Ec & Eh & _).
           rewrite Eh. apply (Hall j d Hd); congruence.
      * rewrite HB' by done. apply HCt; [lia|done].
    + intros j d Hd Hno.
      assert (Hdt : rd (drops t) j = Some d).
      { apply HDt; [done|]. intros i f Hi. apply Hno. lia. }
      destruct (rd_in_range (fasts t) k) as [f Hfk].
      { destruct HIt as [[_ _ Hlf _ _ _ _] _ _ _]. lia. }
      destruct (cz_stepFast_body_fast k t f Hk HIt Hfk)
        as (t1 & f' & Ht1 & _ & _ & _ & Hkeep).
      assert (t1 = t') by congruence. subst t1.
      apply (Hkeep j d Hdt). intros (Ha & Hc & Hh).
      assert (Hfs : rd (fasts s) k = Some f) by (rewrite <- HBt by lia; done).
      apply (Hno k f); [lia|done|done|done|lia].
  - exists s'. split; [done|]. split; [done|]. split.
    + intros i f Hf. apply HC; [|done]. apply rd_Some_range in Hf.
      destruct HI as [[_ _ Hlf _ _ _ _] _ _ _]. lia.
    + intros j d Hd Hno. apply HD; [done|]. intros i f _. apply Hno.
Qed.

End ColorizedMore.

Module RainOptFacts.
Import RainOpt.

Ltac simpl_col :=
  cbn [head trail speed age rng set_head set_trail set_speed set_age set_rng].

Lemma ro_col_ok_spec (col : Column) :
  col_ok col = true <->
  -1 <= head col < TERM_ROWS + trail col /\ 0 <= trail col <= 12.
Proof.
  unfold col_ok. change MAX_TRAIL with 12.
  rewrite !andb_true_iff, !Z.leb_le, Z.ltb_lt. lia.
Qed.




(** A loop that rewrites every column in place. *)
Lemma ro_map_loop (f : Column -> Column) (cols : list Column) :
  len cols = TERM_COLS ->
  exists cols',
    for_upto TERM_COLS (fun c cols => col ← rd cols c; wr cols c (f col)) cols
    = Some cols' /\
    len cols' = TERM_COLS /\
    forall c col, rd cols c = Some col -> rd cols' c = Some (f col).
Proof.
  intros Hl.
  destruct (for_upto_inv
    (fun k t => len t = TERM_COLS /\
       forall c col, rd cols c = Some col ->
                     rd t c = Some (if c <? k then f col else col))
    (fun c cols => col ← rd cols c; wr cols c (f col)) TERM_COLS cols)
    as (cols' & Hrun & Hl' & Hall).
  - unfold TERM_COLS. lia.
  - split; [done|]. intros c col Hc. pose proof (rd_Some_range _ _ _ Hc).
    destruct (Z.ltb_spec c 0); [lia|done].
  - intros k t Hk (Hlt & Ht).
    destruct (rd_in_range cols k) as [col0 Hcol0]; [lia|].
    pose proof (Ht k col0 Hcol0) as Htk.
    destruct (Z.ltb_spec k k); [lia|].
    rewrite Htk, bind_Some.
    destruct (wr_total t k (f col0)) as [t' Hw]; [lia|].
    exists t'. split; [done|]. split; [by rewrite (wr_len _ _ _ _ Hw)|].
    intros c col Hc. rewrite (rd_wr _ _ _ _ _ Hw).
    destruct (Z.eqb_spec c k) as [->|Hne].
    + assert (col = col0) by congruence. subst col.
      destruct (Z.ltb_spec k (k + 1)); [done|lia].
    + rewrite (Ht c col Hc).
      destruct (Z.ltb_spec c k), (Z.ltb_spec c (k + 1)); try done; lia.
  - exists cols'. split; [done|]. split; [done|].
    intros c col Hc. rewrite (Hall c col Hc).
    pose proof (rd_Some_range _ _ _ Hc).
    destruct (Z.ltb_spec c TERM_COLS); [done|lia].
Qed.

Lemma ro_stepColumns_spec (cols : list Column) :
  len cols = TERM_COLS ->
  exists cols', stepColumns cols = Some cols' /\ len cols' = TERM_COLS /\
    forall c col, rd cols c = Some col -> rd cols' c = Some (step_col col).
Proof. apply (ro_map_loop step_col). Qed.

Lemma ro_maybeSpawnHeads_spec (cols : list Column) :
  len cols = TERM_COLS ->
  exists cols', maybeSpawnHeads cols = Some cols' /\ len cols' = TERM_COLS /\
    forall c col, rd cols c = Some col -> rd cols' c = Some (spawn_head col).
Proof. apply (ro_map_loop spawn_head). Qed.

Lemma ro_cols_ok_spec (cols : list Column) :
  cols_ok cols = true <->
  len cols = TERM_COLS /\
  forall c col, rd cols c = Some col -> col_ok col = true.
Proof.
  unfold cols_ok. by rewrite andb_true_iff, Z.eqb_eq, forallb_rd.
Qed.



(** *** renderFrame *)

Lemma ro_brightnessFor_total (cols : list Column) (c r : Z) :
  len cols = TERM_COLS -> 0 <= c < TERM_COLS ->
  exists b, brightnessFor cols c r = Some b.
Proof.
  intros Hl Hc. unfold brightnessFor.
  destruct (rd_in_range cols c) as [col ->]; [lia|]. rewrite bind_Some.
  repeat match goal with |- context [if ?b then _ else _] => destruct b end;
    eauto.
Qed.

Lemma ro_cell_total (cols : list Column) (salt r c : Z) :
  len cols = TERM_COLS -> 0 <= c < TERM_COLS ->
  exists bc, cell cols salt r c = Some bc.
Proof.
  intros Hl Hc. unfold cell.
  destruct (ro_brightnessFor_total cols c r Hl Hc) as [b ->]. rewrite bind_Some.
  destruct (b =? 0).
  - rewrite bind_Some. eauto.
  - unfold charFor.
    match goal with |- context [pickChar ?h] =>
      destruct (pickChar_total h) as [ch ->] end.
    rewrite bind_Some. eauto.
Qed.

Lemma ro_cell_blank (cols : list Column) (salt r c : Z) :
  len cols = TERM_COLS -> 0 <= c < TERM_COLS ->
  forallb (fun col => head col =? -1) cols = true ->
  cell cols salt r c = Some (0, SPACE).
Proof.
  intros Hl Hc Hb. rewrite forallb_rd in Hb. unfold cell, brightnessFor.
  destruct (rd_in_range cols c) as [col Hcol]; [lia|].
  rewrite Hcol, bind_Some, (Hb c col Hcol), bind_Some. done.
Qed.

Lemma paint_each_snoc (cells : list (Z * Z)) (bc : Z * Z) :
  paint_each (cells ++ [bc]) =
  paint_each cells ++ [SetColor (fst bc); Put (snd bc); ResetColor].
Proof. unfold paint_each. rewrite flat_map_app. cbn. by rewrite ?app_nil_r. Qed.

Lemma ro_render_cell_painted (cols : list Column) (salt r c n : Z)
    (out : list event) (cells : list (Z * Z)) (bc : Z * Z) :
  cell cols salt r c = Some bc -> painted_each n out cells ->
  exists out', render_cell cols salt r c out = Some out' /\
               painted_each (n + 1) out' (cells ++ [bc]).
Proof.
  intros Hcell (Hlen & Hout). unfold cell in Hcell. unfold render_cell.
  destruct (brightnessFor cols c r) as [b|]; [|discriminate].
  rewrite bind_Some. rewrite bind_Some in Hcell.
  destruct (if b =? 0 then Some SPACE
            else charFor c r (u32 (salt + u32 (Z.shiftl r 8)))) as [ch|];
    [|discriminate].
  rewrite bind_Some. rewrite bind_Some in Hcell.
  assert (Hbc : bc = (b, ch)) by congruence. subst bc.
  eexists. split; [reflexivity|]. split.
  - unfold len in *. rewrite length_app. cbn. lia.
  - rewrite drop_newlines_app, Hout, paint_each_snoc. done.
Qed.

(** [renderFrame] never faults, and its trace, row terminators aside,
    selects and resets the colour around each of the frame's cells. *)
Lemma renderFrame_paints_each (cols : list Column) (salt : Z) :
  len cols = TERM_COLS ->
  exists out cells,
    renderFrame cols salt = Some out /\ frame_cells cols salt = Some cells /\
    len cells = TERM_ROWS * TERM_COLS /\
    drop_newlines out = Home :: paint_each cells.
Proof.
  intros Hl. unfold renderFrame, frame_cells.
  destruct (for_upto_sim (fun r => painted_each (r * TERM_COLS))
              (render_row cols salt)
              (fun r acc => for_upto TERM_COLS (fun c acc =>
                  bc ← cell cols salt r c; Some (acc ++ [bc])) acc)
              TERM_ROWS [Home] [])
    as (out & cells & -> & -> & Hlen & Hout).
  - unfold TERM_ROWS; lia.
  - split; done.
  - intros r out acc Hr HR. unfold render_row.
    destruct (for_upto_sim (fun c => painted_each (r * TERM_COLS + c))
                (render_cell cols salt r)
                (fun c acc => bc ← cell cols salt r c; Some (acc ++ [bc]))
                TERM_COLS out acc) as (out' & acc' & -> & -> & HR').
    + unfold TERM_COLS; lia.
    + by rewrite Z.add_0_r.
    + intros c out0 acc0 Hc HR0.
      destruct (ro_cell_total cols salt r c Hl Hc) as [bc Hbc].
      destruct (ro_render_cell_painted cols salt r c _ out0 acc0 bc Hbc HR0)
        as (out1 & Hout1 & HR1).
      exists out1, (acc0 ++ [bc]). rewrite Hbc, bind_Some.
      split; [done|]. split; [done|].
      by replace (r * TERM_COLS + (c + 1)) with (r * TERM_COLS + c + 1) by lia.
    + rewrite bind_Some.
      replace (r * TERM_COLS + TERM_COLS) with ((r + 1) * TERM_COLS) in HR' by lia.
      destruct HR' as (Hl' & Ho).
      eexists _, acc'. split; [reflexivity|]. split; [reflexivity|].
      split; [done|]. rewrite drop_newlines_app. cbn. by rewrite app_nil_r.
  - exists out, cells. done.
Qed.

Lemma colors_paint_each (cells : list (Z * Z)) :
  colors (paint_each cells) = map fst cells.
Proof.
  induction cells as [|bc cells IH]; [done|].
  cbn. unfold paint_each in IH. unfold colors in *. cbn. by rewrite IH.
Qed.

Lemma chars_paint_each (cells : list (Z * Z)) :
  chars (paint_each cells) = map snd cells.
Proof.
  induction cells as [|bc cells IH]; [done|].
  cbn. unfold paint_each in IH. unfold chars in *. cbn. by rewrite IH.
Qed.

Lemma ro_frame_cells_blank (cols : list Column) (salt : Z) :
  len cols = TERM_COLS ->
  forallb (fun col => head col =? -1) cols = true ->
  frame_cells cols salt =
  Some (replicate (Z.to_nat (TERM_ROWS * TERM_COLS)) (0, SPACE)).
Proof.
  intros Hl Hb. unfold frame_cells.
  destruct (for_upto_inv
    (fun r acc => acc = replicate (Z.to_nat (r * TERM_COLS)) (0, SPACE))
    (fun r acc => for_upto TERM_COLS (fun c acc =>
        bc ← cell cols salt r c; Some (acc ++ [bc])) acc)
    TERM_ROWS []) as (cells & -> & ->); [unfold TERM_ROWS; lia|done| |done].
  intros r acc Hr ->.
  destruct (for_upto_inv
    (fun c acc => acc = replicate (Z.to_nat (r * TERM_COLS + c)) (0, SPACE))
    (fun c acc => bc ← cell cols salt r c; Some (acc ++ [bc]))
    TERM_COLS (replicate (Z.to_nat (r * TERM_COLS)) (0, SPACE)))
    as (acc' & -> & ->).
  - unfold TERM_COLS; lia.
  - by rewrite Z.add_0_r.
  - intros c acc Hc ->. rewrite (ro_cell_blank cols salt r c) by done.
    rewrite bind_Some. eexists. split; [reflexivity|].
    replace (Z.to_nat (r * TERM_COLS + (c + 1)))
      with (S (Z.to_nat (r * TERM_COLS + c))) by (unfold TERM_COLS in *; lia).
    by rewrite replicate_S_end.
  - eexists. split; [reflexivity|]. f_equal. lia.
Qed.

(** What [setupColumns] leaves behind is well-formed, whatever the clock
    says. *)
Lemma ro_setupColumns_ok (micros : Z -> Z) (cols : list Column) :
  len cols = TERM_COLS ->
  exists cols', setupColumns micros cols = Some cols' /\ cols_ok cols' = true.
Proof.
  intros Hl. unfold setupColumns.
  match goal with |- context [for_upto TERM_COLS ?body cols] =>
    destruct (for_upto_inv
      (fun k t => len t = TERM_COLS /\
         forall c col, 0 <= c < k -> rd t c = Some col -> col_ok col = true)
      body TERM_COLS cols) as (cols' & -> & Hl' & Hok)
  end.
  - unfold TERM_COLS. lia.
  - split; [done|]. intros c col Hc. lia.
  - intros k t Hk (Hlt & Ht).
    destruct (rd_in_range t k) as [col0 ->]; [lia|]. rewrite bind_Some.
    cbv zeta. simpl_col.
    remember (splitmix32 (splitmix32 (Z.lxor (u32 (micros k))
                (u32 (k * 2654435761))))) as r1 eqn:Hr1.
    remember (splitmix32 r1) as r2 eqn:Hr2.
    match goal with |- context [wr t k ?x] =>
      destruct (wr_total t k x) as [t' Hw]; [lia|] end.
    exists t'. split; [done|]. split; [by rewrite (wr_len _ _ _ _ Hw)|].
    intros c col Hc Hcol. rewrite (rd_wr _ _ _ _ _ Hw) in Hcol.
    destruct (Z.eqb_spec c k) as [->|Hne]; [|apply (Ht c col); [lia|done]].
    injection Hcol as <-. apply ro_col_ok_spec. simpl_col.
    change (MAX_TRAIL - 2) with 10.
    pose proof (Z.mod_pos_bound r1 10 ltac:(lia)).
    rewrite (u8_small (r1 mod 10 + 3)) by lia. unfold TERM_ROWS. lia.
  - exists cols'. split; [done|]. apply ro_cols_ok_spec. split; [done|].
    intros c col Hc. apply (Hok c col); [|done].
    apply rd_Some_range in Hc. lia.
Qed.
End RainOptFacts.

(** * Arduino_rain_opt.ino: further properties *)

Module RainOptMore.
Import RainOpt RainOptRun RainOptFacts.

Lemma ro_col_wf_spec (col : Column) :
  col_wf col = true <->
  -1 <= head col < TERM_ROWS + trail col /\ 3 <= trail col <= 12 /\
  1 <= speed col <= 5 /\ 0 <= age col < speed col.
Proof.
  unfold col_wf. change MAX_TRAIL with 12.
  rewrite !andb_true_iff, !Z.leb_le, !Z.ltb_lt. lia.
Qed.

Lemma ro_cols_wf_spec (cols : list Column) :
  cols_wf cols = true <->
  len cols = TERM_COLS /\
  forall c col, rd cols c = Some col -> col_wf col = true.
Proof.
  unfold cols_wf. rewrite andb_true_iff, Z.eqb_eq, forallb_rd. done.
Qed.

Lemma ro_spawn_head_wf (col : Column) :
  col_wf col = true -> col_wf (spawn_head col) = true.
Proof.
  rewrite !ro_col_wf_spec. intros (Hh & Ht & Hs & Ha).
  unfold spawn_head, TERM_ROWS in *. change (MAX_TRAIL - 2) with 10.
  destruct (head col =? -1); [|done]. simpl_col.
  remember (splitmix32 (rng col)) as v eqn:Hv.
  destruct (Z.land v 255 <? 24); simpl_col; [|done].
  pose proof (Z.mod_pos_bound v 10 ltac:(lia)).
  pose proof (Z.mod_pos_bound (Z.shiftr v 8) 5 ltac:(lia)).
  rewrite !u8_small by lia. lia.
Qed.

Lemma ro_step_col_wf (col : Column) :
  col_wf col = true -> col_wf (step_col col) = true.
Proof.
  rewrite !ro_col_wf_spec. intros (Hh & Ht & Hs & Ha).
  unfold step_col, TERM_ROWS in *.
  destruct (Z.eqb_spec (head col) (-1)); cbn [negb]; [done|]. simpl_col.
  rewrite (u8_small (age col + 1)) by lia.
  destruct (Z.leb_spec (speed col) (age col + 1)); simpl_col; [|lia].
  rewrite (i8_small (head col + 1)) by lia.
  destruct (Z.leb_spec (24 + trail col) (head col + 1)); simpl_col; [|lia].
  destruct (Z.land (splitmix32 (rng col)) 127 <? 48); simpl_col; lia.
Qed.

Lemma ro_cols_wf_map (f : Column -> Column) (cols cols' : list Column) :
  (forall col, col_wf col = true -> col_wf (f col) = true) ->
  cols_wf cols = true -> len cols' = TERM_COLS ->
  (forall c col, rd cols c = Some col -> rd cols' c = Some (f col)) ->
  cols_wf cols' = true.
Proof.
  intros Hf Hok Hl Hmap. apply ro_cols_wf_spec in Hok as [Hl0 Hall].
  apply ro_cols_wf_spec. split; [done|]. intros c col' Hc.
  destruct (rd_in_range cols c) as [col Hcol].
  { apply rd_Some_range in Hc. lia. }
  rewrite (Hmap c col Hcol) in Hc. injection Hc as <-.
  apply Hf. by apply (Hall c).
Qed.

(** *** setupColumns *)

(** Whatever the clock says, [setupColumns] leaves every column switched
    off, with a trail of 3..12 cells, a speed of 1..5 and its frame
    counter at 0. *)
Lemma ro_setup_spec (micros : Z -> Z) (cols : list Column) :
  len cols = TERM_COLS ->
  exists cols', setupColumns micros cols = Some cols' /\
    len cols' = TERM_COLS /\
    forall c col, rd cols' c = Some col ->
      head col = -1 /\ 3 <= trail col <= 12 /\ 1 <= speed col <= 5 /\
      age col = 0.
Proof.
  intros Hl. unfold setupColumns.
  match goal with |- context [for_upto TERM_COLS ?body cols] =>
    destruct (for_upto_inv
      (fun k t => len t = TERM_COLS /\
         forall c col, 0 <= c < k -> rd t c = Some col ->
           head col = -1 /\ 3 <= trail col <= 12 /\ 1 <= speed col <= 5 /\
           age col = 0)
      body TERM_COLS cols) as (cols' & -> & Hl' & Hok)
  end.
  - unfold TERM_COLS. lia.
  - split; [done|]. intros c col Hc. lia.
  - intros k t Hk (Hlt & Ht).
    destruct (rd_in_range t k) as [col0 ->]; [lia|]. rewrite bind_Some.
    cbv zeta. simpl_col.
    remember (splitmix32 (splitmix32 (Z.lxor (u32 (micros k))
                (u32 (k * 2654435761))))) as r1 eqn:Hr1.
    remember (splitmix32 r1) as r2 eqn:Hr2.
    match goal with |- context [wr t k ?x] =>
      destruct (wr_total t k x) as [t' Hw]; [lia|] end.
    exists t'. split; [done|]. split; [by rewrite (wr_len _ _ _ _ Hw)|].
    intros c col Hc Hcol. rewrite (rd_wr _ _ _ _ _ Hw) in Hcol.
    destruct (Z.eqb_spec c k) as [->|Hne]; [|apply (Ht c col); [lia|done]].
    injection Hcol as <-. simpl_col.
    change (MAX_TRAIL - 2) with 10.
    pose proof (Z.mod_pos_bound r1 10 ltac:(lia)).
    pose proof (Z.mod_pos_bound r2 5 ltac:(lia)).
    rewrite (u8_small (r1 mod 10 + 3)) by lia.
    rewrite (u8_small (r2 mod 5 + 1)) by lia. lia.
  - exists cols'. split; [done|]. split; [done|].
    intros c col Hc. apply (Hok c col); [|done].
    apply rd_Some_range in Hc. lia.
Qed.

Lemma ro_setup_wf (micros : Z -> Z) :
  exists cols, setup micros = Some cols /\ cols_wf cols = true.
Proof.
  destruct (ro_setup_spec micros boot) as (cols & Hs & Hl & Hall); [done|].
  exists cols. split; [done|]. apply ro_cols_wf_spec. split; [done|].
  intros c col Hc. apply ro_col_wf_spec.
  destruct (Hall c col Hc) as (-> & ? & ? & ->). unfold TERM_ROWS. lia.
Qed.

(** *** renderFrame *)

(** [renderFrame] never faults; it writes [TERM_ROWS] rows of
    [TERM_COLS] characters and ends every one of them, the last one too,
    with a bare line feed. *)
Lemma ro_frame_shape (cols : list Column) (salt : Z) :
  len cols = TERM_COLS ->
  exists out,
    renderFrame cols salt = Some out /\
    row_lengths out =
      replicate (Z.to_nat TERM_ROWS) (Z.to_nat TERM_COLS) ++ [0%nat] /\
    newlines out = replicate (Z.to_nat TERM_ROWS) LF.
Proof.
  intros Hl. unfold renderFrame.
  destruct (for_upto_inv
    (fun r out =>
       rows_of out = (replicate (Z.to_nat r) (Z.to_nat TERM_COLS), 0%nat) /\
       newlines out = replicate (Z.to_nat r) LF)
    (render_row cols salt) TERM_ROWS [Home]) as (out & Hout & Hrows & Hnl).
  - unfold TERM_ROWS; lia.
  - done.
  - intros r out Hr (Hrows & Hnl). unfold render_row.
    destruct (for_upto_inv
      (fun c out =>
         rows_of out = (replicate (Z.to_nat r) (Z.to_nat TERM_COLS), Z.to_nat c) /\
         newlines out = replicate (Z.to_nat r) LF)
      (render_cell cols salt r) TERM_COLS out) as (out' & -> & Hrows' & Hnl').
    + unfold TERM_COLS; lia.
    + done.
    + intros c out0 Hc (Hr0 & Hn0).
      destruct (ro_cell_total cols salt r c Hl Hc) as [[b ch] Hbc].
      unfold cell in Hbc. unfold render_cell.
      destruct (brightnessFor cols c r) as [b'|]; [|discriminate].
      rewrite bind_Some. rewrite bind_Some in Hbc.
      destruct (if b' =? 0 then Some SPACE
                else charFor c r (u32 (salt + u32 (Z.shiftl r 8)))) as [ch'|];
        [|discriminate].
      rewrite bind_Some. eexists. split; [reflexivity|]. split.
      * rewrite rows_of_app, Hr0. cbn. f_equal. lia.
      * rewrite newlines_app, Hn0. cbn. by rewrite app_nil_r.
    + rewrite bind_Some. eexists. split; [reflexivity|].
      replace (Z.to_nat (r + 1)) with (S (Z.to_nat r)) by lia. split.
      * rewrite rows_of_app, Hrows', replicate_S_end. done.
      * rewrite newlines_app, Hnl', replicate_S_end. done.
  - exists out. split; [done|]. split; [|done].
    unfold row_lengths. by rewrite Hrows.
Qed.

(** *** The lit part of a column *)

(** A column that is switched on lights the rows from [head - trail] to
    [head], both included: one cell more than its trail is long. *)
Lemma ro_lit_rows (cols : list Column) (c r : Z) (col : Column) :
  rd cols c = Some col ->
  lit cols c r = true <->
  head col <> -1 /\ head col - trail col <= r <= head col.
Proof.
  intros Hc. unfold lit, brightnessFor. rewrite Hc, bind_Some.
  destruct (Z.eqb_spec (head col) (-1)) as [Hh|Hh]; [cbn; split; [done|tauto]|].
  destruct (Z.ltb_spec (head col - r) 0); cbn [orb]; [cbn; split; [done|lia]|].
  destruct (Z.ltb_spec (trail col) (head col - r)); [cbn; split; [done|lia]|].
  split; [lia|]. intros _.
  destruct (head col - r =? 0); [done|].
  destruct (head col - r =? 1); [done|].
  destruct (head col - r =? 2); done.
Qed.

(** A well-formed column that is switched on has a lit cell on the
    screen: [stepColumns] takes the head away in the very call that
    would move the last lit cell off the bottom row. *)
Lemma ro_lit_on_screen (cols : list Column) (c : Z) (col : Column) :
  rd cols c = Some col -> col_wf col = true -> head col <> -1 ->
  exists r, 0 <= r < TERM_ROWS /\ lit cols c r = true.
Proof.
  intros Hc Hwf Hh. apply ro_col_wf_spec in Hwf as (Hhr & Ht & _).
  unfold TERM_ROWS in *.
  exists (Z.min (head col) 23). split; [lia|].
  rewrite (ro_lit_rows cols c _ col Hc). lia.
Qed.

(** *** setup and loop *)

Lemma ro_loop_wf (cols : list Column) (salt : Z) :
  cols_wf cols = true ->
  exists cols' out,
    loop (cols, salt) = Some (cols', splitmix32 salt, out) /\
    cols_wf cols' = true /\
    row_lengths out =
      replicate (Z.to_nat TERM_ROWS) (Z.to_nat TERM_COLS) ++ [0%nat].
Proof.
  intros Hwf. pose proof Hwf as Hwf0.
  apply ro_cols_wf_spec in Hwf0 as [Hl Hall]. unfold loop.
  destruct (ro_maybeSpawnHeads_spec cols Hl) as (c1 & -> & Hl1 & Hm1).
  rewrite bind_Some.
  assert (Hwf1 : cols_wf c1 = true).
  { apply (ro_cols_wf_map spawn_head cols); try done.
    apply ro_spawn_head_wf. }
  destruct (ro_stepColumns_spec c1 Hl1) as (c2 & -> & Hl2 & Hm2).
  rewrite bind_Some.
  assert (Hwf2 : cols_wf c2 = true).
  { apply (ro_cols_wf_map step_col c1); try done. apply ro_step_col_wf. }
  destruct (ro_frame_shape c2 salt Hl2) as (out & -> & Hrows & _).
  rewrite bind_Some. exists c2, out. done.
Qed.

(** Whatever the clock says at start-up, [setup] and any number of
    passes of [loop] run without a fault; the columns stay well-formed,
    so that the head, an [int8_t], never leaves -1..35, and every pass
    draws a full frame. *)
Lemma ro_loops_wf (n : nat) (cols : list Column) (salt : Z) :
  cols_wf cols = true ->
  exists cols' salt' frames,
    loops n (cols, salt) = Some (cols', salt', frames) /\
    cols_wf cols' = true /\ length frames = n /\
    Forall (fun out => row_lengths out =
              replicate (Z.to_nat TERM_ROWS) (Z.to_nat TERM_COLS) ++ [0%nat])
           frames.
Proof.
  revert cols salt. induction n as [|n IH]; intros cols salt Hwf.
  - exists cols, salt, []. cbn. done.
  - destruct (ro_loop_wf cols salt Hwf) as (c1 & out & Hloop & Hwf1 & Hrows).
    destruct (IH c1 (splitmix32 salt) Hwf1) as (c2 & s2 & fr & Hrun & Hwf2 & Hlen & Hall).
    exists c2, s2, (out :: fr). cbn [loops]. rewrite Hloop, bind_Some.
    rewrite Hrun, bind_Some. split; [done|]. split; [done|].
    split; [cbn; lia|]. by constructor.
Qed.

End RainOptMore.
(** * arduino_matrix_rain_fixed_v2.ino *)

(** ** Loops that commute with a change of representation *)

Lemma for_range_commute {A B : Type} (e : A -> B)
    (f : Z -> A -> option A) (g : Z -> B -> option B) :
  (forall k a, g k (e a) = e <$> f k a) ->
  forall (n : nat) (i : Z) (a : A),
    for_range n i g (e a) = e <$> for_range n i f a.
Proof.
  intros H. induction n as [|n IH]; intros i a; [done|].
  cbn [for_range]. rewrite H. destruct (f i a) as [a'|]; [|done].
  cbn. apply IH.
Qed.

Lemma scan_range_ext {R : Type} (p q : Z -> option (option R)) :
  (forall k, p k = q k) ->
  forall (n : nat) (i : Z), scan_range n i p = scan_range n i q.
Proof.
  intros H. induction n as [|n IH]; intros i; [done|].
  cbn [scan_range]. rewrite H. destruct (q i) as [[x|]|]; try done. apply IH.
Qed.

Lemma scan_upto_ext {R : Type} (p q : Z -> option (option R)) (n : Z) :
  (forall k, p k = q k) -> scan_upto n p = scan_upto n q.
Proof. intros H. by apply scan_range_ext. Qed.

Lemma wr_map {A B : Type} (f : A -> B) (l : list A) (i : Z) (x : A) :
  wr (map f l) i (f x) = map f <$> wr l i x.
Proof.
  destruct (Z.leb_spec 0 i) as [Hi|Hi]; [destruct (Z.ltb_spec i (len l)) as [Hl|Hl]|].
  - rewrite !wr_in_range by (rewrite ?len_map; lia). cbn.
    f_equal. symmetry. apply list_fmap_insert.
  - destruct (wr l i x) as [l'|] eqn:E.
    { apply wr_Some in E. lia. }
    destruct (wr (map f l) i (f x)) as [l'|] eqn:E'; [|done].
    apply wr_Some in E'. rewrite len_map in E'. lia.
  - destruct (wr l i x) as [l'|] eqn:E.
    { apply wr_Some in E. lia. }
    destruct (wr (map f l) i (f x)) as [l'|] eqn:E'; [|done].
    apply wr_Some in E'. lia.
Qed.

(** A loop that returns has kept what every iteration that returns
    keeps. *)
Lemma for_range_Some_inv {St : Type} (P : Z -> St -> Prop)
    (body : Z -> St -> option St) :
  forall (n : nat) (i : Z) (s s' : St),
    (forall k t t', i <= k < i + Z.of_nat n -> body k t = Some t' ->
                    P k t -> P (k + 1) t') ->
    for_range n i body s = Some s' -> P i s -> P (i + Z.of_nat n) s'.
Proof.
  induction n as [|n IH]; intros i s s' Hb H HP.
  - cbn in H. injection H as <-. by rewrite Z.add_0_r.
  - cbn [for_range] in H. destruct (body i s) as [t|] eqn:E; [|discriminate].
    cbn in H. replace (i + Z.of_nat (S n)) with (i + 1 + Z.of_nat n) by lia.
    apply (IH (i + 1) t s'); [|done|].
    + intros k u u' Hk. apply Hb. lia.
    + apply (Hb i s t); [lia|done|done].
Qed.

Lemma for_upto_Some_inv {St : Type} (P : Z -> St -> Prop)
    (body : Z -> St -> option St) (n : Z) (s s' : St) :
  0 <= n ->
  (forall k t t', 0 <= k < n -> body k t = Some t' -> P k t -> P (k + 1) t') ->
  for_upto n body s = Some s' -> P 0 s -> P n s'.
Proof.
  intros Hn Hb H HP.
  replace n with (0 + Z.of_nat (Z.to_nat n)) by lia.
  apply (for_range_Some_inv P body _ _ s s'); [|done|done].
  intros k t t' Hk. apply Hb. lia.
Qed.

(** ** The drops of fixed_v2 are the drops of fastdrops *)

Module FixedV2SimFacts.
Import FixedV2Sim.

Lemma v2_embed_fields (d : FixedV2.Drop) :
  col (as_fastdrop d) = FixedV2.col d /\
  head (as_fastdrop d) = FixedV2.head d /\
  trail (as_fastdrop d) = FixedV2.trail d /\
  speed (as_fastdrop d) = FixedV2.speed d /\
  age (as_fastdrop d) = FixedV2.age d /\
  rng (as_fastdrop d) = FixedV2.rng d /\
  boost (as_fastdrop d) = 0.
Proof. done. Qed.

Lemma v2_sim_spawned (c g : Z) :
  Fastdrops.spawned c g = as_fastdrop (FixedV2.spawned c g).
Proof. reflexivity. Qed.

Lemma v2_sim_spawn_store (s : FixedV2.State) (g1 g2 g3 : Z)
    (ds' : list FixedV2.Drop) (co' : list bool) :
  (Some co' ≫= fun co =>
     Some (Fastdrops.mkState (map as_fastdrop ds') co g3
             (Fastdrops.fasts
                (Fastdrops.set_global_rng g2
                   (Fastdrops.set_global_rng g1 (as_fastdrops s))))))
  = as_fastdrops <$>
    (Some co' ≫= fun co => Some (FixedV2.mkState ds' co g3)).
Proof. reflexivity. Qed.

Lemma v2_sim_maybeSpawnDrop (s : FixedV2.State) :
  Fastdrops.maybeSpawnDrop (as_fastdrops s) =
  as_fastdrops <$> FixedV2.maybeSpawnDrop s.
Proof.
  unfold Fastdrops.maybeSpawnDrop, FixedV2.maybeSpawnDrop.
  change (Fastdrops.global_rng (as_fastdrops s)) with (FixedV2.global_rng s).
  remember (splitmix32 (FixedV2.global_rng s)) as g1 eqn:E1. clear E1.
  change Fastdrops.SPAWN_CHANCE with FixedV2.SPAWN_CHANCE.
  destruct (FixedV2.SPAWN_CHANCE <? Z.land g1 255); [reflexivity|].
  change (Fastdrops.drops (Fastdrops.set_global_rng g1 (as_fastdrops s)))
    with (map as_fastdrop (FixedV2.drops s)).
  change (FixedV2.drops (FixedV2.set_global_rng g1 s)) with (FixedV2.drops s).
  change Fastdrops.MAX_DROPS with FixedV2.MAX_DROPS.
  rewrite (scan_upto_ext
    (fun i => d ← rd (map as_fastdrop (FixedV2.drops s)) i;
              Some (if head d =? -1 then Some i else None))
    (fun i => d ← rd (FixedV2.drops s) i;
              Some (if FixedV2.head d =? -1 then Some i else None))
    FixedV2.MAX_DROPS).
  2:{ intros k. rewrite rd_map. by destruct (rd (FixedV2.drops s) k). }
  destruct (scan_upto FixedV2.MAX_DROPS _) as [r|]; [|reflexivity].
  rewrite !bind_Some.
  destruct (or_minus1 r =? -1); [reflexivity|].
  remember (splitmix32 g1) as g2 eqn:E2. clear E2.
  remember (splitmix32 g2) as g3 eqn:E3. clear E3.
  change Fastdrops.TERM_COLS with FixedV2.TERM_COLS.
  change (Fastdrops.column_occupied
            (Fastdrops.set_global_rng g2
               (Fastdrops.set_global_rng g1 (as_fastdrops s))))
    with (FixedV2.column_occupied s).
  change (FixedV2.column_occupied
            (FixedV2.set_global_rng g2 (FixedV2.set_global_rng g1 s)))
    with (FixedV2.column_occupied s).
  destruct (scan_upto FixedV2.TERM_COLS _) as [r2|]; [|reflexivity].
  rewrite !bind_Some.
  destruct (or_minus1 r2 =? -1); [reflexivity|].
  change (Fastdrops.drops
            (Fastdrops.set_global_rng g2
               (Fastdrops.set_global_rng g1 (as_fastdrops s))))
    with (map as_fastdrop (FixedV2.drops s)).
  change (FixedV2.drops
            (FixedV2.set_global_rng g2 (FixedV2.set_global_rng g1 s)))
    with (FixedV2.drops s).
  rewrite v2_sim_spawned, wr_map.
  destruct (wr (FixedV2.drops s) (or_minus1 r) _) as [ds'|]; [|reflexivity].
  cbn [fmap option_fmap option_map mbind option_bind].
  change (col (as_fastdrop ?d)) with (FixedV2.col d).
  destruct (wr (FixedV2.column_occupied s) _ true) as [co'|]; [|reflexivity].
  exact (v2_sim_spawn_store s g1 g2 g3 ds' co').
Qed.

Lemma v2_sim_advance (d : FixedV2.Drop) :
  Fastdrops.advance (as_fastdrop d) = as_fastdrop (FixedV2.advance d).
Proof.
  unfold Fastdrops.advance, FixedV2.advance. destruct d as [c h t sp a r].
  cbn. destruct (sp <=? u8 (a + 1)); done.
Qed.

Lemma v2_sim_stepDrops_body (k : Z) (s : FixedV2.State) :
  Fastdrops.stepDrops_body k (as_fastdrops s) =
  as_fastdrops <$> FixedV2.stepDrops_body k s.
Proof.
  destruct s as [ds co g].
  unfold Fastdrops.stepDrops_body, FixedV2.stepDrops_body, as_fastdrops.
  cbn [Fastdrops.drops Fastdrops.column_occupied FixedV2.drops
       FixedV2.column_occupied FixedV2.global_rng].
  rewrite rd_map. destruct (rd ds k) as [d|]; [|done].
  cbn [fmap option_fmap option_map mbind option_bind].
  change (head (as_fastdrop d)) with (FixedV2.head d).
  destruct (FixedV2.head d =? -1); [done|].
  rewrite v2_sim_advance.
  change (Fastdrops.trail_gone (as_fastdrop ?x)) with (FixedV2.trail_gone x).
  destruct (FixedV2.trail_gone (FixedV2.advance d)).
  - change (col (as_fastdrop ?x)) with (FixedV2.col x).
    destruct (wr co _ false) as [co'|]; [|done].
    cbn [fmap option_fmap option_map mbind option_bind].
    change (set_boost 0 (set_head (-1) (as_fastdrop ?x)))
      with (as_fastdrop (FixedV2.set_head (-1) x)).
    rewrite wr_map. destruct (wr ds k _) as [ds'|]; done.
  - rewrite wr_map. destruct (wr ds k _) as [ds'|]; done.
Qed.

Lemma v2_sim_stepDrops (s : FixedV2.State) :
  Fastdrops.stepDrops (as_fastdrops s) = as_fastdrops <$> FixedV2.stepDrops s.
Proof.
  unfold Fastdrops.stepDrops, FixedV2.stepDrops, for_upto.
  change Fastdrops.MAX_DROPS with FixedV2.MAX_DROPS.
  apply for_range_commute. intros k a. apply v2_sim_stepDrops_body.
Qed.

Lemma v2_sim_run_op (o : FixedV2.op) (s : FixedV2.State) :
  Fastdrops.run_op (as_op o) (as_fastdrops s) =
  as_fastdrops <$> FixedV2.run_op o s.
Proof.
  destruct o; [apply v2_sim_maybeSpawnDrop | apply v2_sim_stepDrops].
Qed.

Lemma v2_sim_run (ops : list FixedV2.op) (s : FixedV2.State) :
  Fastdrops.run (map as_op ops) (as_fastdrops s) =
  as_fastdrops <$> FixedV2.run ops s.
Proof.
  revert s. induction ops as [|o ops IH]; intros s; [done|].
  cbn [map Fastdrops.run FixedV2.run]. rewrite v2_sim_run_op.
  destruct (FixedV2.run_op o s) as [s'|]; [|done].
  cbn [fmap option_fmap option_map mbind option_bind]. apply IH.
Qed.

Lemma v2_forallb_map {A B : Type} (f : A -> B) (p : B -> bool) (l : list A) :
  forallb p (map f l) = forallb (fun x => p (f x)) l.
Proof. induction l as [|x l IH]; [done|]. cbn. by rewrite IH. Qed.

Lemma v2_sim_initial (s : FixedV2.State) :
  FixedV2.initial s = true -> Fastdrops.initial (as_fastdrops s) = true.
Proof.
  unfold FixedV2.initial, Fastdrops.initial, as_fastdrops.
  cbn [Fastdrops.drops Fastdrops.column_occupied Fastdrops.fasts].
  rewrite len_map, v2_forallb_map.
  change Fastdrops.MAX_DROPS with FixedV2.MAX_DROPS.
  change Fastdrops.TERM_COLS with FixedV2.TERM_COLS.
  intros H. rewrite !andb_true_iff in H. destruct H as [[[H1 H2] H3] H4].
  rewrite !andb_true_iff. repeat split; done.
Qed.

Lemma v2_sim_Inv (s : FixedV2.State) :
  Fastdrops.Inv (as_fastdrops s) -> FixedV2.Inv s.
Proof.
  intros [Hld Hlc _ Hd Hu Ho _]. unfold as_fastdrops in *.
  cbn [Fastdrops.drops Fastdrops.column_occupied] in *.
  rewrite len_map in Hld.
  constructor; try done.
  - intros i d Hi Hh.
    destruct (Hd i (as_fastdrop d)) as [Hok Hc].
    { rewrite rd_map, Hi. done. }
    { done. }
    split; [|done]. unfold Fastdrops.drop_ok in Hok. cbn in Hok.
    unfold FixedV2.drop_ok.
    change Fastdrops.TERM_ROWS with FixedV2.TERM_ROWS in Hok.
    change Fastdrops.TERM_COLS with FixedV2.TERM_COLS in Hok.
    change Fastdrops.MAX_TRAIL with FixedV2.MAX_TRAIL in Hok.
    tauto.
  - intros i j di dj Hi Hj Hhi Hhj Hc.
    apply (Hu i j (as_fastdrop di) (as_fastdrop dj));
      rewrite ?rd_map, ?Hi, ?Hj; done.
  - intros c Hc. destruct (Ho c Hc) as (i & d & Hi & Hh & Hcol).
    rewrite rd_map in Hi. destruct (rd (FixedV2.drops s) i) as [d0|] eqn:E;
      [|discriminate].
    injection Hi as <-. exists i, d0. done.
Qed.

(** No fast drop is on any cell of a state of fixed_v2. *)
Lemma v2_no_bullets (r c : Z) :
  scan_upto Fastdrops.MAX_FAST (fun fi =>
    f ← rd (Fastdrops.fasts Fastdrops.start) fi;
    if negb (f_active f) || negb (f_col f =? c) then Some None
    else if f_row f =? i16 r then
      ch ← Fastdrops.charForFast f; Some (Some (4, ch))
    else Some None) = Some (@None (Z * Z)).
Proof. reflexivity. Qed.

Lemma v2_sim_charForDrop (d : FixedV2.Drop) (dist : Z) :
  Fastdrops.charForDrop (as_fastdrop d) dist = FixedV2.charForDrop d dist.
Proof. reflexivity. Qed.

Lemma v2_sim_cell (s : FixedV2.State) (r c : Z) :
  Fastdrops.cell (as_fastdrops s) r c = FixedV2.cell s r c.
Proof.
  unfold Fastdrops.cell, FixedV2.cell.
  change (Fastdrops.fasts (as_fastdrops s)) with (Fastdrops.fasts Fastdrops.start).
  rewrite v2_no_bullets, bind_Some.
  change (Fastdrops.column_occupied (as_fastdrops s))
    with (FixedV2.column_occupied s).
  destruct (rd (FixedV2.column_occupied s) c) as [[|]|]; [|reflexivity..].
  rewrite !bind_Some.
  change (Fastdrops.drops (as_fastdrops s))
    with (map as_fastdrop (FixedV2.drops s)).
  change Fastdrops.MAX_DROPS with FixedV2.MAX_DROPS.
  f_equal. apply scan_upto_ext. intros k.
  rewrite rd_map. destruct (rd (FixedV2.drops s) k) as [d|]; [|reflexivity].
  cbn [fmap option_fmap option_map mbind option_bind].
  rewrite v2_sim_charForDrop.
  change (head (as_fastdrop d)) with (FixedV2.head d).
  change (col (as_fastdrop d)) with (FixedV2.col d).
  change (trail (as_fastdrop d)) with (FixedV2.trail d).
  change (boost (as_fastdrop d)) with 0.
  reflexivity.
Qed.

End FixedV2SimFacts.

Module FixedV2Facts.
Import FixedV2.

Lemma v2_consts :
  TERM_COLS = 80 /\ TERM_ROWS = 24 /\ MAX_DROPS = 25 /\ MAX_TRAIL = 12.
Proof. done. Qed.

(** *** setupState *)

Lemma v2_setupState_exact (s : State) :
  len (drops s) = MAX_DROPS -> len (column_occupied s) = TERM_COLS ->
  setupState s =
  Some (mkState (map (set_head (-1)) (drops s))
                (replicate (Z.to_nat TERM_COLS) false)
                (global_rng s)).
Proof.
  intros H1 H2. unfold setupState.
  rewrite (map_loop (set_head (-1)) (drops s) MAX_DROPS H1), bind_Some.
  rewrite (fill_loop false (column_occupied s) TERM_COLS H2), bind_Some.
  done.
Qed.

Lemma v2_setupState_initial (s : State) :
  len (drops s) = MAX_DROPS -> len (column_occupied s) = TERM_COLS ->
  exists s', setupState s = Some s' /\ initial s' = true.
Proof.
  intros H1 H2. rewrite (v2_setupState_exact s H1 H2). eexists. split; [done|].
  unfold initial. cbn [drops column_occupied].
  rewrite len_map, len_replicate, H1.
  rewrite !andb_true_iff. split; [split; [split|]|].
  - apply Z.eqb_refl.
  - done.
  - apply forallb_forall. intros d Hd. apply in_map_iff in Hd.
    destruct Hd as (d0 & <- & _). done.
  - apply forallb_forall. intros b Hb. apply list_elem_of_In in Hb.
    apply elem_of_replicate in Hb. by destruct Hb as [-> _].
Qed.

(** *** Runs *)

Lemma v2_run_Inv (ops : list op) (s0 : State) :
  initial s0 = true -> exists s, run ops s0 = Some s /\ Inv s.
Proof.
  intros H0.
  pose proof (Fastdrops_initial := FixedV2SimFacts.v2_sim_initial s0 H0).
  apply FastdropsFacts.initial_Inv in Fastdrops_initial.
  destruct (FastdropsFacts.run_Inv (map FixedV2Sim.as_op ops) _ Fastdrops_initial)
    as (t & Ht & HI).
  rewrite FixedV2SimFacts.v2_sim_run in Ht.
  destruct (run ops s0) as [s|]; [|discriminate].
  injection Ht as <-. exists s. split; [done|].
  by apply FixedV2SimFacts.v2_sim_Inv.
Qed.

Lemma v2_run_reachable_Inv (ops : list op) (s0 s : State) :
  initial s0 = true -> run ops s0 = Some s -> Inv s.
Proof.
  intros H0 Hr. destruct (v2_run_Inv ops s0 H0) as (s' & Hs' & HI).
  congruence.
Qed.

(** *** renderFrame *)

Lemma v2_render_cell_eq (s : State) (r c last : Z) (out : list output) :
  render_cell s r c (last, out) =
  (bc ← cell s r c;
   if negb (fst bc =? last)
   then Some (fst bc, out ++ map Ev [SetColor (fst bc); Put (snd bc)])
   else Some (last, out ++ map Ev [Put (snd bc)])).
Proof. unfold render_cell. by destruct (cell s r c) as [[b ch]|]. Qed.

Lemma v2_cell_total (s : State) (r c : Z) :
  len (drops s) = MAX_DROPS -> len (column_occupied s) = TERM_COLS ->
  0 <= c < TERM_COLS ->
  exists bc, cell s r c = Some bc.
Proof.
  intros H1 H2 Hc. rewrite <- FixedV2SimFacts.v2_sim_cell.
  apply FastdropsFacts.cell_total; try done.
  unfold FixedV2Sim.as_fastdrops. cbn [Fastdrops.drops]. by rewrite len_map.
Qed.

(** A cell is blank and dark, or a character of the character set with
    a brightness of 0..3. *)
Lemma v2_cell_ok (s : State) (r c : Z) (bc : Z * Z) :
  cell s r c = Some bc -> cell_ok bc /\ fst bc <= 3.
Proof.
  unfold cell. intros H.
  destruct (rd (column_occupied s) c) as [occ|]; cbn in H; [|discriminate].
  destruct occ; [|by (assert (bc = (0, SPACE)) by congruence; subst bc;
                      split; [split; cbn; [lia|left]|cbn; lia])].
  destruct (scan_upto MAX_DROPS _) as [[bc1|]|] eqn:Hscan2; cbn in H;
    [| |discriminate].
  + assert (bc1 = bc) by congruence. subst bc1.
    destruct (scan_upto_found _ _ _ Hscan2) as (k & _ & Hk & _).
    destruct (rd (drops s) k) as [d|]; cbn in Hk; [|discriminate].
    destruct ((head d =? -1) || negb (col d =? c)); [discriminate|].
    remember (i16 (head d - i16 r)) as dist eqn:Hdist.
    destruct (Z.leb_spec 0 dist); cbn [andb] in Hk; [|discriminate].
    destruct (dist <? trail d); [|discriminate].
    destruct (charForDrop d dist) as [ch|] eqn:Hch; cbn in Hk; [|discriminate].
    injection Hk as <-. cbn [fst snd].
    assert (Hb : 0 <= (if dist =? 0 then 3
                       else if dist <? 4 then u8 (3 - dist) else 1) <= 3).
    { destruct (Z.eqb_spec dist 0); [lia|].
      destruct (Z.ltb_spec dist 4); [|lia].
      rewrite u8_small by lia. lia. }
    split; [split; cbn [fst snd]; [lia|]|lia].
    right. by apply (pickChar_In _ _ Hch).
  + assert (bc = (0, SPACE)) by congruence. subst bc.
    split; [split; cbn; [lia|by left]|cbn; lia].
Qed.

Lemma v2_as_events_app (o1 o2 : list output) :
  as_events (o1 ++ o2) = as_events o1 ++ as_events o2.
Proof. unfold as_events. apply map_app. Qed.

Lemma v2_as_events_Ev (es : list event) : as_events (map Ev es) = es.
Proof. unfold as_events. rewrite map_map. apply map_id. Qed.

Lemma v2_bufs_app (o1 o2 : list output) : bufs (o1 ++ o2) = bufs o1 ++ bufs o2.
Proof. unfold bufs. apply flat_map_app. Qed.

(** The 16-byte buffer holds every cursor move of a frame in full. *)
Lemma v2_moves_fit :
  map (fun r => snprintf_move 16 (u16 (r + 2)) 1) (seqZ 0 (TERM_ROWS - 1)) =
  map cursor_to (seqZ 2 (TERM_ROWS - 1)).
Proof. vm_compute. reflexivity. Qed.

Lemma v2_render_cell_bufs (s : State) (r c : Z) (st st' : Z * list output) :
  render_cell s r c st = Some st' -> bufs (snd st') = bufs (snd st).
Proof.
  destruct st as [last out]. rewrite v2_render_cell_eq.
  destruct (cell s r c) as [bc|]; cbn; [|discriminate].
  destruct (negb (fst bc =? last)); intros H; injection H as <-;
    cbn [snd]; rewrite v2_bufs_app; cbn; by rewrite app_nil_r.
Qed.

Lemma v2_render_row_bufs (s : State) (r : Z) (st st' : Z * list output) :
  render_row s r st = Some st' ->
  bufs (snd st') =
  bufs (snd st) ++
  (if r <? TERM_ROWS - 1 then [snprintf_move 16 (u16 (r + 2)) 1] else []).
Proof.
  unfold render_row. intros H.
  destruct (for_upto TERM_COLS (render_cell s r) st) as [st1|] eqn:E;
    cbn in H; [|discriminate].
  assert (H1 : bufs (snd st1) = bufs (snd st)).
  { apply (for_upto_Some_inv (fun _ t => bufs (snd t) = bufs (snd st))
             (render_cell s r) TERM_COLS st st1); try done.
    intros k t t' _ Hk Ht. by rewrite (v2_render_cell_bufs _ _ _ _ _ Hk). }
  destruct (r <? TERM_ROWS - 1); injection H as <-; cbn [snd fst].
  - rewrite v2_bufs_app, H1. done.
  - by rewrite app_nil_r.
Qed.

(** [renderFrame] never faults.  It writes [TERM_ROWS] rows of
    [TERM_COLS] characters painted by the rule; between two rows it moves
    the cursor to column 1 of the next row, and none of these moves is
    cut short by the buffer it is formatted in. *)
Lemma v2_frame_shape (s : State) (salt : Z) :
  len (drops s) = MAX_DROPS -> len (column_occupied s) = TERM_COLS ->
  exists out cells,
    renderFrame s salt = Some out /\ frame_cells s = Some cells /\
    drop_newlines (as_events out) =
      Home :: spec_paint 255 cells ++ [ResetColor] /\
    row_lengths (as_events out) =
      replicate (Z.to_nat TERM_ROWS) (Z.to_nat TERM_COLS) /\
    bufs out = map cursor_to (seqZ 2 (TERM_ROWS - 1)) /\
    Forall (fun bc => cell_ok bc /\ fst bc <= 3) cells.
Proof.
  intros H1 H2.
  destruct (painter_frame
    (fun t es => t ++ map Ev es)
    (fun r t => t ++ [Buf (snprintf_move 16 (u16 (r + 2)) 1)])
    as_events TERM_ROWS TERM_COLS (cell s) (render_cell s)
    (fun bc => cell_ok bc /\ fst bc <= 3))
    with (last0 := 255) (pre := [Ev Home])
    as (st & cells & Hst & Hcells & Hlen & Hout & Hrows & Hnl & HP);
    try done.
  - intros t es. by rewrite v2_as_events_app, v2_as_events_Ev.
  - intros r t. by rewrite v2_as_events_app.
  - apply v2_render_cell_eq.
  - intros r c _ Hc. by apply v2_cell_total.
  - intros r c bc _ _. apply v2_cell_ok.
  - change (fun r st => st ← for_upto TERM_COLS (render_cell s r) st;
              if r <? TERM_ROWS - 1
              then Some (fst st,
                         snd st ++ [Buf (snprintf_move 16 (u16 (r + 2)) 1)])
              else Some st)
      with (render_row s) in Hst.
    exists (snd st ++ [Ev ResetColor]), cells. split.
    { unfold renderFrame. by rewrite Hst. }
    split; [exact Hcells|]. split.
    { rewrite v2_as_events_app, drop_newlines_app, Hout. done. }
    split.
    { rewrite v2_as_events_app. cbn [as_events map].
      rewrite (row_lengths_full _ _ _ Hrows). done. }
    split; [|done].
    rewrite v2_bufs_app. cbn [bufs flat_map]. rewrite app_nil_r.
    rewrite <- v2_moves_fit.
    assert (Hb : bufs (snd st) =
                 map (fun r => snprintf_move 16 (u16 (r + 2)) 1)
                     (seqZ 0 (Z.min TERM_ROWS (TERM_ROWS - 1)))).
    { apply (for_upto_Some_inv
               (fun k t => bufs (snd t) =
                  map (fun r => snprintf_move 16 (u16 (r + 2)) 1)
                      (seqZ 0 (Z.min k (TERM_ROWS - 1))))
               (render_row s) TERM_ROWS (255, [Ev Home]) st); try done.
      intros k t t' Hk Hrow Ht.
      rewrite (v2_render_row_bufs _ _ _ _ Hrow), Ht.
      destruct (Z.ltb_spec k (TERM_ROWS - 1)).
      - replace (Z.min k (TERM_ROWS - 1)) with k by lia.
        replace (Z.min (k + 1) (TERM_ROWS - 1)) with (k + 1) by lia.
        rewrite seqZ_app by lia. rewrite map_app. f_equal.
      - rewrite app_nil_r. f_equal. f_equal.
        unfold TERM_ROWS in *. lia. }
    rewrite Hb. done.
Qed.

End FixedV2Facts.

(** * The claims *)

Import Scenarios.

Ltac by_running :=
  vm_compute; repeat split; first [reflexivity | discriminate | lia].

(** ** C1 *)

(** C1: from the state [setupState] leaves, no sequence of spawn and step
    calls of arduino_matrix_rain_fastdrops.ino faults, and afterwards the
    flag of a column is set exactly when one active Drop, and no other,
    has that column; a slot that [maybeSpawnDrop] activates takes a
    column whose flag was clear. *)
Theorem C1_one_crawling_drop_per_column (s0 : Fastdrops.State)
    (ops : list Fastdrops.op) :
  Fastdrops.initial s0 = true ->
  exists s, Fastdrops.run ops s0 = Some s /\
    (forall c,
       rd (Fastdrops.column_occupied s) c = Some true <->
       exists i d, rd (Fastdrops.drops s) i = Some d /\ head d <> -1 /\
         col d = c /\
         forall j dj, rd (Fastdrops.drops s) j = Some dj -> head dj <> -1 ->
                      col dj = c -> j = i) /\
    (forall s' i d d',
       Fastdrops.maybeSpawnDrop s = Some s' ->
       rd (Fastdrops.drops s) i = Some d -> head d = -1 ->
       rd (Fastdrops.drops s') i = Some d' -> head d' <> -1 ->
       rd (Fastdrops.column_occupied s) (col d') = Some false).
Proof.
  intros H0.
  destruct (FastdropsFacts.run_Inv ops s0 (FastdropsFacts.initial_Inv s0 H0))
    as (s & Hrun & HI).
  exists s. split; [done|]. split.
  - intros c. by apply FastdropsFacts.Inv_one_owner.
  - intros s' i d d' Hs'.
    apply (FastdropsFacts.spawn_into_free_column s s');
      [apply (Fastdrops.inv_len_drops s HI)
      |apply (Fastdrops.inv_len_cols s HI)|done].
Qed.

Lemma C1_witness :
  exists s, Fastdrops.run fd_before_impact Fastdrops.start = Some s /\
    (forall c,
       rd (Fastdrops.column_occupied s) c = Some true <->
       exists i d, rd (Fastdrops.drops s) i = Some d /\ head d <> -1 /\
         col d = c /\
         forall j dj, rd (Fastdrops.drops s) j = Some dj -> head dj <> -1 ->
                      col dj = c -> j = i) /\
    (forall s' i d d',
       Fastdrops.maybeSpawnDrop s = Some s' ->
       rd (Fastdrops.drops s) i = Some d -> head d = -1 ->
       rd (Fastdrops.drops s') i = Some d' -> head d' <> -1 ->
       rd (Fastdrops.column_occupied s) (col d') = Some false).
Proof.
  apply (C1_one_crawling_drop_per_column Fastdrops.start fd_before_impact).
  by_running.
Defined.

(** ** C2 *)

(** C2 (amended): in every reachable state, a bullet that is still on the
    screen after its move and has then reached or passed the head of the
    active Drop of its column is switched off by that call of
    [stepFastDrops], and the Drop is left with a non-zero boost (4 at
    least in arduino_matrix_rain_fastdrops.ino, 6 at least in
    matrix_rain_vectorized.ino).  In matrix_rain_vectorized_final.ino
    this holds exactly when the bullet lands on the head row (the boost is
    then 8 at least): a bullet whose new row is any other row of the
    column, past the head row included, stays switched on, and a Drop is
    left as it was, its boost with it, by a call in which no bullet of
    its column lands on its head row. *)
Theorem C2_bullet_meets_head :
  (forall s0 ops s,
     Fastdrops.initial s0 = true -> Fastdrops.run ops s0 = Some s ->
     exists s', Fastdrops.stepFastDrops s = Some s' /\
       forall i f j d,
         rd (Fastdrops.fasts s) i = Some f -> f_active f = true ->
         f_row f + 1 < Fastdrops.TERM_ROWS ->
         rd (Fastdrops.drops s) j = Some d -> head d <> -1 ->
         col d = f_col f -> head d <= f_row f + 1 ->
         exists f' d',
           rd (Fastdrops.fasts s') i = Some f' /\ f_active f' = false /\
           rd (Fastdrops.drops s') j = Some d' /\ 4 <= boost d') /\
  (forall s0 ops s,
     Vectorized.initial s0 = true -> Vectorized.run ops s0 = Some s ->
     exists s', Vectorized.stepFastDrops s = Some s' /\
       forall i f j d,
         rd (Vectorized.fasts s) i = Some f -> f_active f = true ->
         f_row f + 1 < Vectorized.TERM_ROWS ->
         rd (Vectorized.drops s) j = Some d -> head d <> -1 ->
         col d = f_col f -> head d <= f_row f + 1 ->
         exists f' d',
           rd (Vectorized.fasts s') i = Some f' /\ f_active f' = false /\
           rd (Vectorized.drops s') j = Some d' /\ 6 <= boost d') /\
  (forall s0 ops s,
     Colorized.initial s0 = true -> Colorized.run ops s0 = Some s ->
     exists s', Colorized.stepFastDrops s = Some s' /\
       (forall i f j d,
          rd (Colorized.fasts s) i = Some f -> f_active f = true ->
          f_row f + 1 < Colorized.TERM_ROWS ->
          rd (Colorized.drops s) j = Some d -> head d <> -1 ->
          col d = f_col f -> head d = f_row f + 1 ->
          exists f' d',
            rd (Colorized.fasts s') i = Some f' /\ f_active f' = false /\
            rd (Colorized.drops s') j = Some d' /\ 8 <= boost d') /\
       (forall i f j d,
          rd (Colorized.fasts s) i = Some f -> f_active f = true ->
          f_row f + 1 < Colorized.TERM_ROWS ->
          rd (Colorized.drops s) j = Some d -> head d <> -1 ->
          col d = f_col f -> head d <> f_row f + 1 ->
          exists f',
            rd (Colorized.fasts s') i = Some f' /\ f_active f' = true /\
            f_col f' = f_col f /\ f_row f' = f_row f + 1) /\
       (forall j d,
          rd (Colorized.drops s) j = Some d ->
          forallb (fun f => negb (f_active f && (f_col f =? col d)
                                  && (f_row f + 1 =? head d)))
                  (Colorized.fasts s) = true ->
          rd (Colorized.drops s') j = Some d)).
Proof.
  split; [|split].
  - intros s0 ops s H0 Hrun.
    pose proof (FastdropsFacts.run_reachable_Inv ops s0 s H0 Hrun) as HI.
    destruct (FastdropsFacts.stepFastDrops_spec s HI)
      as (s' & Hs' & _ & _ & _ & _ & Hhit).
    exists s'. split; [done|].
    intros i f j d Hf Ha Hrow Hd Hh Hc Hle. by apply (Hhit i f Hf Ha Hrow j d).
  - intros s0 ops s H0 Hrun.
    pose proof (VectorizedFacts.vec_run_reachable_Inv ops s0 s H0 Hrun) as HI.
    destruct (VectorizedFacts.vec_stepFastDrops_spec s HI)
      as (s' & Hs' & _ & _ & _ & Hhit).
    exists s'. split; [done|].
    intros i f j d Hf Ha Hrow Hd Hh Hc Hle. by apply (Hhit i f Hf Ha Hrow j d).
  - intros s0 ops s H0 Hrun.
    pose proof (ColorizedFacts.cz_run_reachable_Inv ops s0 s H0 Hrun) as HI.
    destruct (ColorizedFacts.cz_stepFastDrops_spec s HI)
      as (s' & Hs' & _ & _ & _ & Hhit).
    destruct (ColorizedMore.cz_stepFast_moves s HI)
      as (s1 & Hs1 & _ & Hfate & Hkeep).
    assert (s1 = s') by congruence. subst s1.
    exists s'. split; [done|]. split; [|split].
    + intros i f j d Hf Ha Hrow Hd Hh Hc Hle.
      by apply (Hhit i f Hf Ha Hrow j d).
    + intros i f j d Hf Ha Hrow Hd Hh Hc Hne.
      destruct (Hfate i f Hf) as (f' & Hf' & _ & Hon).
      destruct (Hon Ha) as (Ec & Er & Hiff).
      exists f'. split; [done|]. split; [|done].
      apply Hiff. split; [done|].
      intros j0 d0 Hd0 Hh0 Hc0.
      assert (j0 = j).
      { destruct HI as [HT _ _ _].
        apply (Core.ok_unique _ _ _ _ _ HT j0 j d0 d); (done || congruence). }
      subst j0. assert (d0 = d) by congruence. by subst d0.
    + intros j d Hd Hno. apply (Hkeep j d Hd).
      intros i f Hf Ha Hc Hrow.
      pose proof (proj1 (forallb_rd _ _) Hno i f Hf) as Hp. cbn beta in Hp.
      rewrite Ha, Hc, Hrow, !Z.eqb_refl in Hp. discriminate.
Qed.

(** The three sketches from their boot seeds, each at the first call of
    [stepFastDrops] in which a bullet meets a head; and
    matrix_rain_vectorized_final.ino four passes earlier, where bullet 0
    moves from row 0 to row 1, past the head row 0 of Drop 0, stays
    switched on and leaves the Drop as it was. *)
Lemma C2_witness :
  (exists s', Fastdrops.stepFastDrops
                (fd_after fd_before_impact Fastdrops.start) = Some s' /\
     exists f' d', rd (Fastdrops.fasts s') 0 = Some f' /\ f_active f' = false /\
                   rd (Fastdrops.drops s') 1 = Some d' /\ 4 <= boost d') /\
  (exists s', Vectorized.stepFastDrops
                (vec_after vec_before_impact Vectorized.start) = Some s' /\
     exists f' d', rd (Vectorized.fasts s') 0 = Some f' /\ f_active f' = false /\
                   rd (Vectorized.drops s') 0 = Some d' /\ 6 <= boost d') /\
  (exists s', Colorized.stepFastDrops
                (cz_after cz_before_impact Colorized.start) = Some s' /\
     exists f' d', rd (Colorized.fasts s') 2 = Some f' /\ f_active f' = false /\
                   rd (Colorized.drops s') 0 = Some d' /\ 8 <= boost d') /\
  (exists s', Colorized.stepFastDrops
                (cz_after cz_before_miss Colorized.start) = Some s' /\
     (exists f', rd (Colorized.fasts s') 0 = Some f' /\ f_active f' = true /\
                 f_row f' = 1) /\
     rd (Colorized.drops s') 0
     = rd (Colorized.drops (cz_after cz_before_miss Colorized.start)) 0).
Proof.
  destruct C2_bullet_meets_head as (HF & HV & HC).
  split; [|split; [|split]].
  - destruct (HF Fastdrops.start fd_before_impact
                (fd_after fd_before_impact Fastdrops.start))
      as (s' & Hs' & Hhit); [by_running|by_running|].
    exists s'. split; [done|].
    apply (Hhit 0
             (default no_fast
                (rd (Fastdrops.fasts (fd_after fd_before_impact Fastdrops.start)) 0))
             1
             (default no_drop
                (rd (Fastdrops.drops (fd_after fd_before_impact Fastdrops.start)) 1)));
      by_running.
  - destruct (HV Vectorized.start vec_before_impact
                (vec_after vec_before_impact Vectorized.start))
      as (s' & Hs' & Hhit); [by_running|by_running|].
    exists s'. split; [done|].
    apply (Hhit 0
             (default no_fast
                (rd (Vectorized.fasts (vec_after vec_before_impact Vectorized.start)) 0))
             0
             (default no_drop
                (rd (Vectorized.drops (vec_after vec_before_impact Vectorized.start)) 0)));
      by_running.
  - destruct (HC Colorized.start cz_before_impact
                (cz_after cz_before_impact Colorized.start))
      as (s' & Hs' & Hhit & _ & _); [by_running|by_running|].
    exists s'. split; [done|].
    apply (Hhit 2
             (default no_fast
                (rd (Colorized.fasts (cz_after cz_before_impact Colorized.start)) 2))
             0
             (default no_drop
                (rd (Colorized.drops (cz_after cz_before_impact Colorized.start)) 0)));
      by_running.
  - destruct (HC Colorized.start cz_before_miss
                (cz_after cz_before_miss Colorized.start))
      as (s' & Hs' & _ & Hmiss & Hkeep); [by_running|by_running|].
    exists s'. split; [done|]. split.
    + destruct (Hmiss 0
                  (default no_fast
                     (rd (Colorized.fasts
                            (cz_after cz_before_miss Colorized.start)) 0))
                  0
                  (default no_drop
                     (rd (Colorized.drops
                            (cz_after cz_before_miss Colorized.start)) 0)))
        as (f' & Hf' & Ha' & _ & Hr'); [by_running..|].
      exists f'. split; [exact Hf'|]. split; [exact Ha'|].
      rewrite Hr'. by_running.
    + rewrite (Hkeep 0
                 (default no_drop
                    (rd (Colorized.drops
                           (cz_after cz_before_miss Colorized.start)) 0)));
        by_running.
Defined.

(** matrix_rain_vectorized_final.ino from its boot seed, pass 14 of
    [loop]: bullet 0, switched off until then, is spawned on row 0 in the
    column of Drop 0, whose head row is 0.  The call of [stepFastDrops]
    moves the bullet to row 1, past the head row, and leaves it switched
    on and the boost of the Drop at 0. *)
Lemma C2_counterexample :
  (s13 ← Colorized.run (concat (replicate 13 Colorized.tick)) Colorized.start;
   s ← Colorized.run cz_before_miss Colorized.start;
   s' ← Colorized.stepFastDrops s;
   f0 ← rd (Colorized.fasts s13) 0;
   f ← rd (Colorized.fasts s) 0;
   d ← rd (Colorized.drops s) 0;
   f' ← rd (Colorized.fasts s') 0;
   d' ← rd (Colorized.drops s') 0;
   Some (f_active f0,
         (f_active f, f_row f, f_col f =? col d, head d),
         (f_active f', f_row f', head d', boost d')))
  = Some (false, (true, 0, true, 0), (true, 1, 0, 0)).
Proof. vm_compute. reflexivity. Qed.

(** ** C3 *)

(** C3: a Drop of speed 1 at head row 0 that is the only active one, in any
    reachable state, under [n] calls of [stepDrops].  In
    arduino_matrix_rain_fastdrops.ino its head is on row [n] and the flag
    of its column is set while [n < TERM_ROWS + trail - 1]; from call
    [TERM_ROWS + trail - 1] on, the head is the sentinel and the flag is
    clear.  In matrix_rain_vectorized_final.ino the same holds with
    [TERM_ROWS] in place of [TERM_ROWS + trail - 1].  So the Drop is gone
    before [TERM_ROWS + trail] calls are over, and the flag falls in the
    call that retires it. *)
Theorem C3_lone_drop_leaves :
  (forall s0 ops s i d (n : nat),
     Fastdrops.initial s0 = true -> Fastdrops.run ops s0 = Some s ->
     length (List.filter is_active (Fastdrops.drops s)) = 1%nat ->
     rd (Fastdrops.drops s) i = Some d ->
     head d = 0 -> age d = 0 -> speed d = 1 ->
     exists sn dn,
       Fastdrops.run (replicate n Fastdrops.StepDrops) s = Some sn /\
       rd (Fastdrops.drops sn) i = Some dn /\
       (Z.of_nat n < Fastdrops.TERM_ROWS + trail d - 1 ->
          head dn = Z.of_nat n /\
          rd (Fastdrops.column_occupied sn) (col d) = Some true) /\
       (Fastdrops.TERM_ROWS + trail d - 1 <= Z.of_nat n ->
          head dn = -1 /\
          rd (Fastdrops.column_occupied sn) (col d) = Some false)) /\
  (forall s0 ops s i d (n : nat),
     Colorized.initial s0 = true -> Colorized.run ops s0 = Some s ->
     length (List.filter is_active (Colorized.drops s)) = 1%nat ->
     rd (Colorized.drops s) i = Some d ->
     head d = 0 -> age d = 0 -> speed d = 1 ->
     exists sn dn,
       Colorized.run (replicate n Colorized.StepDrops) s = Some sn /\
       rd (Colorized.drops sn) i = Some dn /\
       (Z.of_nat n < Colorized.TERM_ROWS ->
          head dn = Z.of_nat n /\
          rd (Colorized.column_occupied sn) (col d) = Some true) /\
       (Colorized.TERM_ROWS <= Z.of_nat n ->
          head dn = -1 /\
          rd (Colorized.column_occupied sn) (col d) = Some false)).
Proof.
  split.
  - intros s0 ops s i d n. apply FastdropsFacts.lone_drop_leaves.
  - intros s0 ops s i d n. apply ColorizedFacts.cz_lone_drop_leaves.
Qed.

(** Both sketches, seeded so that the first spawn has speed 1, after
    [TERM_ROWS + trail] calls of [stepDrops]: 24 + 7 and 24 + 9. *)
Lemma C3_witness :
  (exists sn dn,
     Fastdrops.run (replicate 31 Fastdrops.StepDrops) fd_lone = Some sn /\
     rd (Fastdrops.drops sn) 0 = Some dn /\ head dn = -1 /\
     rd (Fastdrops.column_occupied sn) 11 = Some false) /\
  (exists sn dn,
     Colorized.run (replicate 33 Colorized.StepDrops) cz_lone = Some sn /\
     rd (Colorized.drops sn) 0 = Some dn /\ head dn = -1 /\
     rd (Colorized.column_occupied sn) 36 = Some false).
Proof.
  destruct C3_lone_drop_leaves as (HF & HC). split.
  - destruct (HF (Fastdrops.set_global_rng 133 Fastdrops.start)
                [Fastdrops.SpawnDrop] fd_lone 0
                (default no_drop (rd (Fastdrops.drops fd_lone) 0)) 31%nat)
      as (sn & dn & Hrun & Hdn & _ & Hgone); [by_running..|].
    destruct Hgone as [Hh Hfl]; [by_running|].
    assert (Hc : col (default no_drop (rd (Fastdrops.drops fd_lone) 0)) = 11)
      by by_running.
    rewrite Hc in Hfl.
    exists sn, dn. split; [exact Hrun|]. split; [exact Hdn|].
    split; [exact Hh|exact Hfl].
  - destruct (HC (Colorized.set_global_rng 0 Colorized.start)
                [Colorized.SpawnDrop] cz_lone 0
                (default no_drop (rd (Colorized.drops cz_lone) 0)) 33%nat)
      as (sn & dn & Hrun & Hdn & _ & Hgone); [by_running..|].
    destruct Hgone as [Hh Hfl]; [by_running|].
    assert (Hc : col (default no_drop (rd (Colorized.drops cz_lone) 0)) = 36)
      by by_running.
    rewrite Hc in Hfl.
    exists sn, dn. split; [exact Hrun|]. split; [exact Hdn|].
    split; [exact Hh|exact Hfl].
Defined.

(** ** C4 *)

(** C4: from a state as [setupState] leaves it, a call of
    [maybeSpawnDrop] whose roll passes activates exactly one slot: its
    head is on row 0, its column was free and is flagged now, its trail is
    within 3..MAX_TRAIL and its speed within 1..5
    (arduino_matrix_rain_fastdrops.ino and matrix_rain_vectorized.ino). *)
Theorem C4_forced_spawn :
  (forall s,
     Fastdrops.initial s = true ->
     Z.land (splitmix32 (Fastdrops.global_rng s)) 0xFF
       <= Fastdrops.SPAWN_CHANCE ->
     exists s' idx d,
       Fastdrops.maybeSpawnDrop s = Some s' /\
       rd (Fastdrops.drops s') idx = Some d /\ head d = 0 /\
       0 <= col d < Fastdrops.TERM_COLS /\
       rd (Fastdrops.column_occupied s) (col d) = Some false /\
       rd (Fastdrops.column_occupied s') (col d) = Some true /\
       3 <= trail d <= Fastdrops.MAX_TRAIL /\ 1 <= speed d <= 5 /\
       (forall j dj, rd (Fastdrops.drops s') j = Some dj -> head dj <> -1 ->
                     j = idx)) /\
  (forall s,
     Vectorized.initial s = true ->
     Z.land (splitmix32 (Vectorized.global_rng s)) 0xFF
       <= Vectorized.SPAWN_CHANCE ->
     exists s' idx d,
       Vectorized.maybeSpawnDrop s = Some s' /\
       rd (Vectorized.drops s') idx = Some d /\ head d = 0 /\
       0 <= col d < Vectorized.TERM_COLS /\
       rd (Vectorized.column_occupied s) (col d) = Some false /\
       rd (Vectorized.column_occupied s') (col d) = Some true /\
       3 <= trail d <= Vectorized.MAX_TRAIL /\ 1 <= speed d <= 5 /\
       (forall j dj, rd (Vectorized.drops s') j = Some dj -> head dj <> -1 ->
                     j = idx)).
Proof.
  split.
  - apply FastdropsFacts.forced_spawn.
  - apply VectorizedFacts.vec_forced_spawn.
Qed.

(** Both sketches seeded with 0: the low byte of the first draw is below
    the spawn chance. *)
Lemma C4_witness :
  (exists s' idx d,
     Fastdrops.maybeSpawnDrop (Fastdrops.set_global_rng 0 Fastdrops.start)
       = Some s' /\
     rd (Fastdrops.drops s') idx = Some d /\ head d = 0 /\
     3 <= trail d <= Fastdrops.MAX_TRAIL /\ 1 <= speed d <= 5) /\
  (exists s' idx d,
     Vectorized.maybeSpawnDrop (Vectorized.set_global_rng 0 Vectorized.start)
       = Some s' /\
     rd (Vectorized.drops s') idx = Some d /\ head d = 0 /\
     3 <= trail d <= Vectorized.MAX_TRAIL /\ 1 <= speed d <= 5).
Proof.
  destruct C4_forced_spawn as (HF & HV). split.
  - destruct (HF (Fastdrops.set_global_rng 0 Fastdrops.start))
      as (s' & idx & d & Hs' & Hd & Hh & _ & _ & _ & Ht & Hsp & _);
      [by_running|by_running|].
    exists s', idx, d. split; [exact Hs'|]. split; [exact Hd|].
    split; [exact Hh|]. split; [exact Ht|exact Hsp].
  - destruct (HV (Vectorized.set_global_rng 0 Vectorized.start))
      as (s' & idx & d & Hs' & Hd & Hh & _ & _ & _ & Ht & Hsp & _);
      [by_running|by_running|].
    exists s', idx, d. split; [exact Hs'|]. split; [exact Hd|].
    split; [exact Hh|]. split; [exact Ht|exact Hsp].
Defined.

(** ** C5 *)

(** C5: in every state the three packed sketches reach from the state
    [setupState] leaves, by any sequence of spawn and step calls and
    whatever the uninitialised arrays of [stepDrops] hold, every slot of
    every drop reads as a brightness of 0..3. *)
Theorem C5_slots_in_range :
  (forall s0 ops s i slot,
     Vectorized.initial s0 = true -> Vectorized.run ops s0 = Some s ->
     0 <= i < Vectorized.MAX_DROPS -> 0 <= slot < Vectorized.MAX_TRAIL ->
     exists v,
       Vectorized.get_bright_slot (Vectorized.drop_bright_packed s) i slot
         = Some v /\ 0 <= v <= 3) /\
  (forall s0 ops s i slot,
     VectorizedFixed.initial s0 = true ->
     VectorizedFixed.run ops s0 = Some s ->
     0 <= i < VectorizedFixed.MAX_DROPS ->
     0 <= slot < VectorizedFixed.MAX_TRAIL ->
     exists v,
       VectorizedFixed.get_bright_slot
         (VectorizedFixed.drop_bright_packed s) i slot = Some v /\
       0 <= v <= 3) /\
  (forall s0 ops s i slot,
     Colorized.initial s0 = true -> Colorized.run ops s0 = Some s ->
     0 <= i < Colorized.MAX_DROPS -> 0 <= slot < Colorized.MAX_TRAIL ->
     exists v,
       Colorized.get_bright_slot (Colorized.drop_bright_packed s) i slot
         = Some v /\ 0 <= v <= 3).
Proof.
  split; [|split].
  - intros s0 ops s i slot. apply VectorizedFacts.vec_reachable_slot_range.
  - intros s0 ops s i slot.
    apply VectorizedFixedFacts.fx_reachable_slot_range.
  - intros s0 ops s i slot. apply ColorizedFacts.cz_reachable_slot_range.
Qed.

(** The head slot of Drop 0 after some passes of [loop] from the boot
    seed. *)
Lemma C5_witness :
  (exists v,
     Vectorized.get_bright_slot
       (Vectorized.drop_bright_packed
          (vec_after vec_before_impact Vectorized.start)) 0 0 = Some v /\
     0 <= v <= 3) /\
  (exists v,
     VectorizedFixed.get_bright_slot
       (VectorizedFixed.drop_bright_packed
          (fx_after (concat (replicate 14 fx_tick)) VectorizedFixed.start))
       0 0 = Some v /\
     0 <= v <= 3) /\
  (exists v,
     Colorized.get_bright_slot
       (Colorized.drop_bright_packed
          (cz_after cz_before_impact Colorized.start)) 0 0 = Some v /\
     0 <= v <= 3).
Proof.
  destruct C5_slots_in_range as (HV & HX & HC). split; [|split].
  - apply (HV Vectorized.start vec_before_impact); by_running.
  - apply (HX VectorizedFixed.start (concat (replicate 14 fx_tick)));
      by_running.
  - apply (HC Colorized.start cz_before_impact); by_running.
Defined.

(** ** C6 *)

(** C6: in a table of the declared shape, storing a value of 0..3 in a
    slot of [0, MAX_TRAIL) and reading the slot back gives the value, for
    the packing of each of the three sketches; and the byte-spanning
    branch of matrix_rain_vectorized.ino, which no even bit offset
    reaches, gives the value back as well. *)
Theorem C6_packed_round_trip :
  (forall packed i slot v,
     packed_okb Vectorized.MAX_DROPS packed = true ->
     0 <= i < Vectorized.MAX_DROPS -> 0 <= slot < Vectorized.MAX_TRAIL ->
     0 <= v <= 3 ->
     exists packed',
       Vectorized.set_bright_slot packed i slot v = Some packed' /\
       Vectorized.get_bright_slot packed' i slot = Some v) /\
  (forall packed i slot v,
     packed_okb VectorizedFixed.MAX_DROPS packed = true ->
     0 <= i < VectorizedFixed.MAX_DROPS ->
     0 <= slot < VectorizedFixed.MAX_TRAIL ->
     0 <= v <= 3 ->
     exists packed',
       VectorizedFixed.set_bright_slot packed i slot v = Some packed' /\
       VectorizedFixed.get_bright_slot packed' i slot = Some v) /\
  (forall packed i slot v,
     packed_okb Colorized.MAX_DROPS packed = true ->
     0 <= i < Colorized.MAX_DROPS -> 0 <= slot < Colorized.MAX_TRAIL ->
     0 <= v <= 3 ->
     exists packed',
       Colorized.set_bright_slot packed i slot v = Some packed' /\
       Colorized.get_bright_slot packed' i slot = Some v) /\
  (forall row byteIdx val,
     0 <= byteIdx -> byteIdx + 1 < len row -> 0 <= val <= 3 ->
     exists row',
       Vectorized.set_at row byteIdx 7 val = Some row' /\
       Vectorized.get_at row' byteIdx 7 = Some val).
Proof.
  split; [|split; [|split]].
  - intros packed i slot v Hok Hi Hs Hv. apply packed_okb_spec in Hok.
    destruct (VectorizedPacking.vec_set_slot_total Vectorized.MAX_DROPS
                packed i slot v Hok Hi Hs) as (packed' & Hset & _ & Hget & _).
    exists packed'. split; [done|]. by rewrite Hget, land3_small.
  - intros packed i slot v Hok Hi Hs Hv. apply packed_okb_spec in Hok.
    destruct (VectorizedFixedFacts.fx_set_slot_total VectorizedFixed.MAX_DROPS
                packed i slot v Hok Hi Hs) as (packed' & Hset & _ & Hget & _).
    exists packed'. split; [done|]. by rewrite Hget, land3_small.
  - intros packed i slot v Hok Hi Hs Hv. apply packed_okb_spec in Hok.
    destruct (ColorizedFacts.cz_set_slot_total Colorized.MAX_DROPS
                packed i slot v Hok Hi Hs) as (packed' & Hset & _ & Hget & _).
    exists packed'. split; [done|]. by rewrite Hget, land3_small.
  - apply VectorizedPacking.spanning_branch_roundtrip.
Qed.

(** Slot 7 of drop 3 in a zeroed table, and a two-byte row of all ones. *)
Lemma C6_witness :
  (exists packed',
     Vectorized.set_bright_slot
       (replicate 35 [0; 0; 0; 0]) 3 7 3 = Some packed' /\
     Vectorized.get_bright_slot packed' 3 7 = Some 3) /\
  (exists packed',
     VectorizedFixed.set_bright_slot
       (replicate 35 [0; 0; 0; 0]) 3 7 2 = Some packed' /\
     VectorizedFixed.get_bright_slot packed' 3 7 = Some 2) /\
  (exists packed',
     Colorized.set_bright_slot
       (replicate 35 [0; 0; 0; 0]) 3 11 1 = Some packed' /\
     Colorized.get_bright_slot packed' 3 11 = Some 1) /\
  (exists row',
     Vectorized.set_at [255; 255] 0 7 2 = Some row' /\
     Vectorized.get_at row' 0 7 = Some 2).
Proof.
  destruct C6_packed_round_trip as (HV & HX & HC & HS).
  split; [|split; [|split]].
  - apply HV; by_running.
  - apply HX; by_running.
  - apply HC; by_running.
  - apply HS; by_running.
Defined.

(** ** C7 *)




(** ** C8 *)

(** C8 (amended): in arduino_matrix_rain_fastdrops.ino [renderFrame]
    never faults in a reachable state, and its trace, row terminators
    aside, is the cursor-home sequence, the cells in scan order with a
    colour escape before exactly those whose brightness differs from the
    cell before (255 before the first), and the colour reset; with
    nothing active every character is a blank and the only colour escape
    is the one for brightness 0.  In Arduino_rain_opt.ino [renderFrame]
    never faults either, but sends a colour escape before and a colour
    reset after every cell: one escape per cell of the frame, whatever
    the brightness of its neighbour; with nothing active every character
    is a blank. *)
Theorem C8_colour_escapes :
  (forall s0 ops s salt,
     Fastdrops.initial s0 = true -> Fastdrops.run ops s0 = Some s ->
     exists out cells,
       Fastdrops.renderFrame s salt = Some out /\
       Fastdrops.frame_cells s = Some cells /\
       len cells = Fastdrops.TERM_ROWS * Fastdrops.TERM_COLS /\
       drop_newlines out = Home :: spec_paint 255 cells ++ [ResetColor] /\
       (forallb (fun d => negb (is_active d)) (Fastdrops.drops s) = true ->
        forallb (fun f => negb (f_active f)) (Fastdrops.fasts s) = true ->
        chars out =
          replicate (Z.to_nat (Fastdrops.TERM_ROWS * Fastdrops.TERM_COLS))
                    SPACE /\
        colors out = [0])) /\
  (forall cols salt,
     len cols = RainOpt.TERM_COLS ->
     exists out cells,
       RainOpt.renderFrame cols salt = Some out /\
       RainOpt.frame_cells cols salt = Some cells /\
       len cells = RainOpt.TERM_ROWS * RainOpt.TERM_COLS /\
       drop_newlines out = Home :: RainOpt.paint_each cells /\
       colors out = map fst cells /\
       (forallb (fun col => RainOpt.head col =? -1) cols = true ->
        chars out =
          replicate (Z.to_nat (RainOpt.TERM_ROWS * RainOpt.TERM_COLS))
                    SPACE)).
Proof.
  split.
  - intros s0 ops s salt H0 Hrun.
    pose proof (FastdropsFacts.run_reachable_Inv ops s0 s H0 Hrun) as HI.
    pose proof (Fastdrops.inv_len_drops s HI) as H1.
    pose proof (Fastdrops.inv_len_cols s HI) as H2.
    pose proof (Fastdrops.inv_len_fasts s HI) as H3.
    destruct (FastdropsFacts.renderFrame_paints s salt H1 H2 H3)
      as (out & cells & Hout & Hcells & Hlen & Hpaint).
    exists out, cells. do 4 (split; [done|]).
    intros Hd Hf.
    destruct (FastdropsFacts.renderFrame_blank s salt H1 H2 H3 Hd Hf)
      as (out' & Hout' & Hch & Hco).
    assert (out' = out) by congruence. subst out'. done.
  - intros cols salt Hl.
    destruct (RainOptFacts.renderFrame_paints_each cols salt Hl)
      as (out & cells & Hout & Hcells & Hlen & Hpaint).
    exists out, cells. do 4 (split; [done|]).
    assert (Hco : colors out = map fst cells).
    { rewrite <- (colors_drop_newlines out), Hpaint.
      apply (RainOptFacts.colors_paint_each cells). }
    split; [done|]. intros Hb.
    rewrite (RainOptFacts.ro_frame_cells_blank cols salt Hl Hb) in Hcells.
    remember (Z.to_nat (RainOpt.TERM_ROWS * RainOpt.TERM_COLS)) as n eqn:Hn.
    assert (Hc : cells = replicate n (0, SPACE)) by congruence.
    rewrite <- (chars_drop_newlines out), Hpaint, Hc.
    change (chars (Home :: ?l)) with (chars l).
    rewrite RainOptFacts.chars_paint_each.
    clear. induction n as [|n IH]; [done|]. cbn. by rewrite IH.
Qed.

(** A blank frame of each sketch. *)
Lemma C8_witness :
  (exists out,
     Fastdrops.renderFrame Fastdrops.start 0 = Some out /\
     chars out = replicate 1920 SPACE /\ colors out = [0]) /\
  (exists out,
     RainOpt.renderFrame RainOpt.blank 0 = Some out /\
     chars out = replicate 1440 SPACE).
Proof.
  destruct C8_colour_escapes as (HF & HR). split.
  - destruct (HF Fastdrops.start [] Fastdrops.start 0)
      as (out & cells & Hout & _ & _ & _ & Hblank); [by_running..|].
    destruct Hblank as [Hch Hco]; [by_running..|].
    exists out. split; [exact Hout|]. split; [exact Hch|exact Hco].
  - destruct (HR RainOpt.blank 0)
      as (out & cells & Hout & _ & _ & _ & _ & Hblank); [by_running|].
    exists out. split; [exact Hout|]. apply Hblank. by_running.
Defined.

(** Arduino_rain_opt.ino drawing a frame with every column switched off:
    all 1440 characters are blanks, and 1440 colour escapes are sent. *)
Lemma C8_counterexample :
  (out ← RainOpt.renderFrame RainOpt.blank 0;
   Some (length (colors out), length (chars out),
         forallb (Z.eqb SPACE) (chars out)))
  = Some (1440%nat, 1440%nat, true).
Proof. vm_compute. reflexivity. Qed.

(** ** C9 *)

(** C9: in arduino_matrix_rain_fastdrops.ino, with the tables at their
    declared sizes, [maybeSpawnDrop] returns without a fault and leaves
    the three tables as they were when no slot is inactive or no column
    is free; so does [maybeSpawnFastDrop] when no column is occupied or
    no bullet slot is free. *)
Theorem C9_nothing_to_spawn :
  (forall s,
     len (Fastdrops.drops s) = Fastdrops.MAX_DROPS ->
     len (Fastdrops.column_occupied s) = Fastdrops.TERM_COLS ->
     forallb is_active (Fastdrops.drops s) = true \/
     forallb id (Fastdrops.column_occupied s) = true ->
     exists s',
       Fastdrops.maybeSpawnDrop s = Some s' /\
       Fastdrops.drops s' = Fastdrops.drops s /\
       Fastdrops.fasts s' = Fastdrops.fasts s /\
       Fastdrops.column_occupied s' = Fastdrops.column_occupied s) /\
  (forall s,
     len (Fastdrops.column_occupied s) = Fastdrops.TERM_COLS ->
     len (Fastdrops.fasts s) = Fastdrops.MAX_FAST ->
     forallb negb (Fastdrops.column_occupied s) = true \/
     forallb f_active (Fastdrops.fasts s) = true ->
     exists s',
       Fastdrops.maybeSpawnFastDrop s = Some s' /\
       Fastdrops.drops s' = Fastdrops.drops s /\
       Fastdrops.fasts s' = Fastdrops.fasts s /\
       Fastdrops.column_occupied s' = Fastdrops.column_occupied s).
Proof.
  split.
  - apply FastdropsFacts.maybeSpawnDrop_no_room.
  - apply FastdropsFacts.maybeSpawnFastDrop_no_room.
Qed.

(** A state with every slot crawling, and the state [setupState] leaves,
    which has no occupied column. *)
Lemma C9_witness :
  (exists s',
     Fastdrops.maybeSpawnDrop fd_full = Some s' /\
     Fastdrops.drops s' = Fastdrops.drops fd_full /\
     Fastdrops.fasts s' = Fastdrops.fasts fd_full /\
     Fastdrops.column_occupied s' = Fastdrops.column_occupied fd_full) /\
  (exists s',
     Fastdrops.maybeSpawnFastDrop Fastdrops.start = Some s' /\
     Fastdrops.drops s' = Fastdrops.drops Fastdrops.start /\
     Fastdrops.fasts s' = Fastdrops.fasts Fastdrops.start /\
     Fastdrops.column_occupied s'
       = Fastdrops.column_occupied Fastdrops.start).
Proof.
  destruct C9_nothing_to_spawn as (HD & HF). split.
  - apply (HD fd_full); [by_running|by_running|left; by_running].
  - apply (HF Fastdrops.start); [by_running|by_running|left; by_running].
Defined.

(** ** C10 *)

(** C10: in every state that arduino_matrix_rain_fastdrops.ino and
    matrix_rain_vectorized.ino reach from the state [setupState] leaves,
    so wherever a frame is drawn, a bullet that is switched on has its
    row within [0, TERM_ROWS). *)
Theorem C10_bullets_on_screen :
  (forall s0 ops s i f,
     Fastdrops.initial s0 = true -> Fastdrops.run ops s0 = Some s ->
     rd (Fastdrops.fasts s) i = Some f -> f_active f = true ->
     0 <= f_row f < Fastdrops.TERM_ROWS) /\
  (forall s0 ops s i f,
     Vectorized.initial s0 = true -> Vectorized.run ops s0 = Some s ->
     rd (Vectorized.fasts s) i = Some f -> f_active f = true ->
     0 <= f_row f < Vectorized.TERM_ROWS).
Proof.
  split.
  - intros s0 ops s i f. apply FastdropsFacts.fd_reachable_fast_row.
  - intros s0 ops s i f. apply VectorizedFacts.vec_reachable_fast_row.
Qed.

(** Bullet 0 of each sketch just before its first impact. *)
Lemma C10_witness :
  0 <= f_row (default no_fast
                (rd (Fastdrops.fasts
                       (fd_after fd_before_impact Fastdrops.start)) 0))
    < Fastdrops.TERM_ROWS /\
  0 <= f_row (default no_fast
                (rd (Vectorized.fasts
                       (vec_after vec_before_impact Vectorized.start)) 0))
    < Vectorized.TERM_ROWS.
Proof.
  destruct C10_bullets_on_screen as (HF & HV). split.
  - apply (HF Fastdrops.start fd_before_impact
              (fd_after fd_before_impact Fastdrops.start) 0); by_running.
  - apply (HV Vectorized.start vec_before_impact
              (vec_after vec_before_impact Vectorized.start) 0); by_running.
Defined.
(** * Further properties of the sketches *)

Import Scenarios.

(** A test that holds of every element of a table holds of the element
    at every index. *)
Lemma forallb_at {A : Type} (p : A -> bool) (l : list A) (i : Z) (x : A) :
  forallb p l = true -> rd l i = Some x -> p x = true.
Proof. intros H. by apply (proj1 (forallb_rd p l) H). Qed.

(** ** arduino_matrix_rain_fastdrops.ino *)

(** X1: with the three tables at their declared sizes, [setupState] of
    arduino_matrix_rain_fastdrops.ino returns without a fault; it sets the
    head of every Drop to -1 and its boost to 0, clears every column flag
    and switches every fast drop off, and leaves every other field and the
    generator as they were. *)
Theorem X1_fd_setupState (s : Fastdrops.State) :
  len (Fastdrops.drops s) = Fastdrops.MAX_DROPS ->
  len (Fastdrops.column_occupied s) = Fastdrops.TERM_COLS ->
  len (Fastdrops.fasts s) = Fastdrops.MAX_FAST ->
  Fastdrops.setupState s =
  Some (Fastdrops.mkState
          (map (fun d => set_boost 0 (set_head (-1) d)) (Fastdrops.drops s))
          (replicate (Z.to_nat Fastdrops.TERM_COLS) false)
          (Fastdrops.global_rng s)
          (map (set_f_active false) (Fastdrops.fasts s))).
Proof.
  intros Hdrops Hcols Hfasts.
  exact (FastdropsMore.fd_setupState_exact s Hdrops Hcols Hfasts).
Qed.

(** The zero-initialised globals. *)
Lemma X1_witness : Fastdrops.setupState Fastdrops.boot = Some Fastdrops.start.
Proof.
  rewrite (X1_fd_setupState Fastdrops.boot); [reflexivity | by_running ..].
Defined.

(** X2: in every reachable state of arduino_matrix_rain_fastdrops.ino,
    [findDropIndexInColumn] agrees with the column flags: it returns -1
    exactly for the columns whose flag is clear, and otherwise the index of
    the one active Drop of the column. *)
Theorem X2_fd_lookup_agrees_with_flags (s0 s : Fastdrops.State)
    (ops : list Fastdrops.op) (c : Z) :
  Fastdrops.initial s0 = true -> Fastdrops.run ops s0 = Some s ->
  0 <= c < Fastdrops.TERM_COLS ->
  exists r, Fastdrops.findDropIndexInColumn (Fastdrops.drops s) c = Some r /\
    (r = -1 <-> rd (Fastdrops.column_occupied s) c = Some false) /\
    (r <> -1 ->
     exists d, rd (Fastdrops.drops s) r = Some d /\ head d <> -1 /\ col d = c /\
       forall j dj, rd (Fastdrops.drops s) j = Some dj -> head dj <> -1 ->
                    col dj = c -> j = r).
Proof.
  intros H0 Hrun Hc. apply FastdropsMore.fd_find_agrees; [|done].
  by apply (FastdropsFacts.run_reachable_Inv ops s0).
Qed.

(** Column 12 of the state before the first impact: Drop 4 crawls
    there. *)
Lemma X2_witness :
  exists r,
    Fastdrops.findDropIndexInColumn
      (Fastdrops.drops (fd_after fd_before_impact Fastdrops.start)) 12
      = Some r /\
    (r <> -1 ->
     exists d, rd (Fastdrops.drops (fd_after fd_before_impact Fastdrops.start)) r
                 = Some d /\ head d <> -1 /\ col d = 12).
Proof.
  destruct (X2_fd_lookup_agrees_with_flags Fastdrops.start
              (fd_after fd_before_impact Fastdrops.start) fd_before_impact 12)
    as (r & Hr & _ & Hd); [by_running..|].
  exists r. split; [exact Hr|]. intros Hne.
  destruct (Hd Hne) as (d & H1 & H2 & H3 & _).
  exists d. split; [exact H1|]. split; [exact H2|exact H3].
Defined.

(** X3: in every reachable state, [maybeSpawnFastDrop] returns without a
    fault and changes neither the Drops nor the column flags; when it
    launches a fast drop it takes a slot that was inactive and puts the
    fast drop on row 0, with speed 1 and age 0, in the column of an active
    Drop. *)
Theorem X3_fd_fast_drop_launch (s0 s : Fastdrops.State)
    (ops : list Fastdrops.op) :
  Fastdrops.initial s0 = true -> Fastdrops.run ops s0 = Some s ->
  exists s', Fastdrops.maybeSpawnFastDrop s = Some s' /\
    Fastdrops.drops s' = Fastdrops.drops s /\
    Fastdrops.column_occupied s' = Fastdrops.column_occupied s /\
    (Fastdrops.fasts s' = Fastdrops.fasts s \/
     exists fidx f0 f',
       rd (Fastdrops.fasts s) fidx = Some f0 /\ f_active f0 = false /\
       wr (Fastdrops.fasts s) fidx f' = Some (Fastdrops.fasts s') /\
       f_active f' = true /\ f_row f' = 0 /\ f_speed f' = 1 /\ f_age f' = 0 /\
       exists j d, rd (Fastdrops.drops s) j = Some d /\ head d <> -1 /\
                   col d = f_col f').
Proof.
  intros H0 Hrun. apply FastdropsMore.fd_spawn_fast.
  by apply (FastdropsFacts.run_reachable_Inv ops s0).
Qed.

Lemma X3_witness :
  exists s',
    Fastdrops.maybeSpawnFastDrop (fd_after fd_before_impact Fastdrops.start)
      = Some s' /\
    Fastdrops.drops s'
      = Fastdrops.drops (fd_after fd_before_impact Fastdrops.start).
Proof.
  destruct (X3_fd_fast_drop_launch Fastdrops.start
              (fd_after fd_before_impact Fastdrops.start) fd_before_impact)
    as (s' & Hs' & Hd & _); [by_running..|].
  exists s'. split; [exact Hs'|exact Hd].
Defined.

(** X4: in every reachable state, [stepFastDrops] returns without a
    fault; an inactive fast drop is left as it is, and an active one moves
    down exactly one row in its column.  It is still active afterwards
    exactly when its new row is on the screen and above the head of every
    active Drop of its column. *)
Theorem X4_fd_fast_drop_fate (s0 s : Fastdrops.State)
    (ops : list Fastdrops.op) :
  Fastdrops.initial s0 = true -> Fastdrops.run ops s0 = Some s ->
  exists s', Fastdrops.stepFastDrops s = Some s' /\
    forall i f, rd (Fastdrops.fasts s) i = Some f ->
      exists f', rd (Fastdrops.fasts s') i = Some f' /\
        (f_active f = false -> f' = f) /\
        (f_active f = true ->
           f_col f' = f_col f /\ f_row f' = f_row f + 1 /\
           (f_active f' = true <->
            f_row f + 1 < Fastdrops.TERM_ROWS /\
            forall j d, rd (Fastdrops.drops s) j = Some d -> head d <> -1 ->
                        col d = f_col f -> f_row f + 1 < head d)).
Proof.
  intros H0 Hrun.
  destruct (FastdropsMore.fd_stepFast_moves s
              (FastdropsFacts.run_reachable_Inv ops s0 s H0 Hrun))
    as (s' & Hs' & _ & H).
  exists s'. split; [exact Hs'|exact H].
Qed.

(** Fast drop 1 of the state before the first impact is on row 3. *)
Lemma X4_witness :
  exists s' f',
    Fastdrops.stepFastDrops (fd_after fd_before_impact Fastdrops.start)
      = Some s' /\
    rd (Fastdrops.fasts s') 1 = Some f' /\ f_row f' = 4.
Proof.
  destruct (X4_fd_fast_drop_fate Fastdrops.start
              (fd_after fd_before_impact Fastdrops.start) fd_before_impact)
    as (s' & Hs' & H); [by_running..|].
  destruct (H 1 (default no_fast
                   (rd (Fastdrops.fasts
                          (fd_after fd_before_impact Fastdrops.start)) 1)))
    as (f' & Hf' & _ & Hmove); [by_running|].
  destruct Hmove as (_ & Hrow & _); [by_running|].
  exists s', f'. split; [exact Hs'|]. split; [exact Hf'|].
  rewrite Hrow. by_running.
Defined.

(** X5: a Drop of a reachable state that is active with age 0 moves at
    its own speed under [stepDrops], whatever the other Drops do: after
    [n = m * speed + a] calls ([a] below the speed) its head is [m] rows
    lower and its age is [a], and its column is still flagged, as long as
    the last cell of its trail is on the screen; and once
    [(TERM_ROWS + trail - 1 - head) * speed] calls have been made it is
    inactive and its column is free. *)
Theorem X5_fd_drop_motion (s0 s : Fastdrops.State) (ops : list Fastdrops.op)
    (i : Z) (d : Drop) (n : nat) :
  Fastdrops.initial s0 = true -> Fastdrops.run ops s0 = Some s ->
  rd (Fastdrops.drops s) i = Some d -> head d <> -1 -> age d = 0 ->
  exists sn dn,
    Fastdrops.run (replicate n Fastdrops.StepDrops) s = Some sn /\
    rd (Fastdrops.drops sn) i = Some dn /\
    (forall m a, 0 <= m -> 0 <= a < speed d -> Z.of_nat n = m * speed d + a ->
       head d + m - (trail d - 1) < Fastdrops.TERM_ROWS ->
       head dn = head d + m /\ age dn = a /\
       rd (Fastdrops.column_occupied sn) (col d) = Some true) /\
    ((Fastdrops.TERM_ROWS + trail d - 1 - head d) * speed d <= Z.of_nat n ->
       head dn = -1 /\ rd (Fastdrops.column_occupied sn) (col d) = Some false).
Proof.
  intros H0 Hrun. apply FastdropsMore.fd_speed_motion.
  by apply (FastdropsFacts.run_reachable_Inv ops s0).
Qed.

(** Drop 4 of the state before the first impact has its head on row 18
    and speed 2: five calls later the head is on row 20 and the age is
    1. *)
Lemma X5_witness :
  exists sn dn,
    Fastdrops.run (replicate 5 Fastdrops.StepDrops)
      (fd_after fd_before_impact Fastdrops.start) = Some sn /\
    rd (Fastdrops.drops sn) 4 = Some dn /\ head dn = 20 /\ age dn = 1.
Proof.
  destruct (X5_fd_drop_motion Fastdrops.start
              (fd_after fd_before_impact Fastdrops.start) fd_before_impact 4
              (default no_drop
                 (rd (Fastdrops.drops
                        (fd_after fd_before_impact Fastdrops.start)) 4))
              5%nat)
    as (sn & dn & Hsn & Hdn & Hon & _); [by_running..|].
  destruct (Hon 2 1) as (Hh & Ha & _); [by_running..|].
  exists sn, dn. split; [exact Hsn|]. split; [exact Hdn|].
  split; [rewrite Hh; by_running|exact Ha].
Defined.

(** X6: with the three tables at their declared sizes, [renderFrame] of
    arduino_matrix_rain_fastdrops.ino returns without a fault; the frame
    has [TERM_ROWS] rows of [TERM_COLS] characters each, separated by CR
    LF with none after the last row, and every cell is a blank or a
    character of the character set with a brightness of 0..4. *)
Theorem X6_fd_frame_rows (s : Fastdrops.State) (salt : Z) :
  len (Fastdrops.drops s) = Fastdrops.MAX_DROPS ->
  len (Fastdrops.column_occupied s) = Fastdrops.TERM_COLS ->
  len (Fastdrops.fasts s) = Fastdrops.MAX_FAST ->
  exists out cells,
    Fastdrops.renderFrame s salt = Some out /\
    Fastdrops.frame_cells s = Some cells /\
    row_lengths out =
      replicate (Z.to_nat Fastdrops.TERM_ROWS) (Z.to_nat Fastdrops.TERM_COLS) /\
    newlines out = replicate (Z.to_nat (Fastdrops.TERM_ROWS - 1)) CRLF /\
    Forall cell_ok cells.
Proof.
  intros H1 H2 H3.
  destruct (FastdropsMore.fd_frame_shape s salt H1 H2 H3)
    as (out & cells & Hout & Hcells & _ & Hrows & Hnl & Hok).
  exists out, cells. done.
Qed.

Lemma X6_witness :
  exists out,
    Fastdrops.renderFrame (fd_after fd_before_impact Fastdrops.start) 0
      = Some out /\
    row_lengths out = replicate 24 80%nat /\
    newlines out = replicate 23 CRLF.
Proof.
  destruct (X6_fd_frame_rows (fd_after fd_before_impact Fastdrops.start) 0)
    as (out & cells & Hout & _ & Hrows & Hnl & _); [by_running..|].
  exists out. split; [exact Hout|]. split; [exact Hrows|exact Hnl].
Defined.

(** X7: an active fast drop that is on the screen is what its cell
    shows, whatever crawls there: the cell has brightness 4 and a
    character of the character set. *)
Theorem X7_fd_fast_drop_on_top (s : Fastdrops.State) (i : Z) (f : FastDrop) :
  len (Fastdrops.fasts s) = Fastdrops.MAX_FAST ->
  rd (Fastdrops.fasts s) i = Some f -> f_active f = true ->
  0 <= f_row f < Fastdrops.TERM_ROWS ->
  exists ch, Fastdrops.cell s (f_row f) (f_col f) = Some (4, ch) /\
             In ch CHARSET.
Proof.
  intros Hl Hf Ha Hr.
  by apply (FastdropsMore.fd_cell_bullet s (f_row f) (f_col f) i f).
Qed.

(** Fast drop 1 of the state before the first impact: row 3 of column
    69, inside the trail of Drop 7. *)
Lemma X7_witness :
  exists ch,
    Fastdrops.cell (fd_after fd_before_impact Fastdrops.start) 3 69
      = Some (4, ch).
Proof.
  destruct (X7_fd_fast_drop_on_top
              (fd_after fd_before_impact Fastdrops.start) 1
              (default no_fast
                 (rd (Fastdrops.fasts
                        (fd_after fd_before_impact Fastdrops.start)) 1)))
    as (ch & Hch & _); [by_running..|].
  exists ch. exact Hch.
Defined.

(** X8: in a reachable state, a cell of the screen that lies in the
    trail of an active Drop, [dist] rows above its head, and holds no
    fast drop shows the character [charForDrop] gives for that distance,
    with brightness 3 on the head (4 while the Drop is boosted), 2, 1 and
    0 on the next three cells, and 1 on all the cells above them. *)
Theorem X8_fd_trail_brightness (s0 s : Fastdrops.State)
    (ops : list Fastdrops.op) (i r : Z) (d : Drop) :
  Fastdrops.initial s0 = true -> Fastdrops.run ops s0 = Some s ->
  rd (Fastdrops.drops s) i = Some d -> head d <> -1 ->
  0 <= r < Fastdrops.TERM_ROWS -> 0 <= head d - r < trail d ->
  forallb (fun f => negb (f_active f && (f_col f =? col d) && (f_row f =? r)))
          (Fastdrops.fasts s) = true ->
  exists ch, Fastdrops.charForDrop d (head d - r) = Some ch /\
    Fastdrops.cell s r (col d) =
    Some ((if head d - r =? 0 then (if boost d =? 0 then 3 else 4)
           else if head d - r <? 4 then 3 - (head d - r) else 1), ch).
Proof.
  intros H0 Hrun Hd Hh Hr Hdist Hnb.
  apply (FastdropsMore.fd_cell_trail s r (col d) i d); try done.
  - by apply (FastdropsFacts.run_reachable_Inv ops s0).
  - intros j f Hf Ha Hc Hrow.
    pose proof (forallb_at _ _ j f Hnb Hf) as Hp. cbn beta in Hp.
    rewrite Ha, Hc, Hrow, !Z.eqb_refl in Hp. discriminate.
Qed.

(** Drop 4 of the state before the first impact has its head on row 18
    of column 12: the cell one row above it has brightness 2. *)
Lemma X8_witness :
  exists ch,
    Fastdrops.cell (fd_after fd_before_impact Fastdrops.start) 17 12
      = Some (2, ch).
Proof.
  destruct (X8_fd_trail_brightness Fastdrops.start
              (fd_after fd_before_impact Fastdrops.start) fd_before_impact
              4 17
              (default no_drop
                 (rd (Fastdrops.drops
                        (fd_after fd_before_impact Fastdrops.start)) 4)))
    as (ch & _ & Hcell); [by_running..|].
  exists ch.
  assert (Hc : col (default no_drop
                      (rd (Fastdrops.drops
                             (fd_after fd_before_impact Fastdrops.start)) 4))
               = 12) by by_running.
  rewrite Hc in Hcell. rewrite Hcell. by_running.
Defined.

(** X9: in a reachable state, a cell of the screen that holds no fast
    drop and lies in the trail of no active Drop is drawn as a blank of
    brightness 0. *)
Theorem X9_fd_empty_cell (s0 s : Fastdrops.State) (ops : list Fastdrops.op)
    (r c : Z) :
  Fastdrops.initial s0 = true -> Fastdrops.run ops s0 = Some s ->
  0 <= r < Fastdrops.TERM_ROWS -> 0 <= c < Fastdrops.TERM_COLS ->
  forallb (fun f => negb (f_active f && (f_col f =? c) && (f_row f =? r)))
          (Fastdrops.fasts s) = true ->
  forallb (fun d => negb (is_active d && (col d =? c)
                          && (0 <=? head d - r) && (head d - r <? trail d)))
          (Fastdrops.drops s) = true ->
  Fastdrops.cell s r c = Some (0, SPACE).
Proof.
  intros H0 Hrun Hr Hc Hnb Hnd.
  apply FastdropsMore.fd_cell_empty; try done.
  - by apply (FastdropsFacts.run_reachable_Inv ops s0).
  - intros j f Hf Ha Hcol Hrow.
    pose proof (forallb_at _ _ j f Hnb Hf) as Hp. cbn beta in Hp.
    rewrite Ha, Hcol, Hrow, !Z.eqb_refl in Hp. discriminate.
  - intros i d Hd Hh Hcol Hin.
    pose proof (forallb_at _ _ i d Hnd Hd) as Hp. cbn beta in Hp.
    unfold is_active in Hp. rewrite Hcol, Z.eqb_refl in Hp.
    destruct (Z.eqb_spec (head d) (-1)); [done|].
    destruct (Z.leb_spec 0 (head d - r)); [|lia].
    destruct (Z.ltb_spec (head d - r) (trail d)); [|lia].
    discriminate.
Qed.

(** Row 19 of column 12 of the state before the first impact is below
    the head of Drop 4. *)
Lemma X9_witness :
  Fastdrops.cell (fd_after fd_before_impact Fastdrops.start) 19 12
  = Some (0, SPACE).
Proof.
  apply (X9_fd_empty_cell Fastdrops.start
           (fd_after fd_before_impact Fastdrops.start) fd_before_impact);
    by_running.
Defined.

(** ** matrix_rain_vectorized.ino *)

(** X10: in every reachable state of matrix_rain_vectorized.ino,
    [renderFrame] returns without a fault.  A colour is selected for a
    cell exactly when its brightness differs from that of the cell before
    it; the frame has [TERM_ROWS] rows of [TERM_COLS] characters
    separated by CR LF with none after the last row, and every cell is a
    blank or a character of the character set with a brightness of
    0..4. *)
Theorem X10_vec_frame (s0 s : Vectorized.State) (ops : list Vectorized.op)
    (salt : Z) :
  Vectorized.initial s0 = true -> Vectorized.run ops s0 = Some s ->
  exists out cells,
    VectorizedRender.renderFrame s salt = Some out /\
    VectorizedRender.frame_cells s = Some cells /\
    len cells = Vectorized.TERM_ROWS * Vectorized.TERM_COLS /\
    drop_newlines out = Home :: spec_paint 255 cells ++ [ResetColor] /\
    row_lengths out =
      replicate (Z.to_nat Vectorized.TERM_ROWS)
                (Z.to_nat Vectorized.TERM_COLS) /\
    newlines out = replicate (Z.to_nat (Vectorized.TERM_ROWS - 1)) CRLF /\
    Forall cell_ok cells.
Proof.
  intros H0 Hrun. apply VectorizedMore.vec_frame_shape.
  by apply (VectorizedFacts.vec_run_reachable_Inv ops s0).
Qed.

Lemma X10_witness :
  exists out,
    VectorizedRender.renderFrame
      (vec_after vec_before_impact Vectorized.start) 0 = Some out /\
    row_lengths out = replicate 24 80%nat /\
    newlines out = replicate 23 CRLF.
Proof.
  destruct (X10_vec_frame Vectorized.start
              (vec_after vec_before_impact Vectorized.start)
              vec_before_impact 0)
    as (out & cells & Hout & _ & _ & _ & Hrows & Hnl & _); [by_running..|].
  exists out. split; [exact Hout|]. split; [exact Hrows|exact Hnl].
Defined.

(** X11: the brightness part of an advance in [stepDrops] of
    matrix_rain_vectorized.ino, on a well-formed table and a Drop with a
    trail of 3..MAX_TRAIL cells: whatever the uninitialised [tmp_bright]
    holds, slot 0 of the Drop becomes 3, every other slot of its trail
    takes the value the slot before it had, lowered by one but never
    below 1, and the slots beyond its trail and those of the other Drops
    keep their values. *)
Theorem X11_vec_fade (i : Z) (d : Drop) (tmp : list Z) (bp : list (list Z)) :
  packed_okb Vectorized.MAX_DROPS bp = true ->
  0 <= i < Vectorized.MAX_DROPS -> len tmp = Vectorized.MAX_TRAIL ->
  3 <= trail d <= Vectorized.MAX_TRAIL ->
  exists tmp' bp', Vectorized.fade i d tmp bp = Some (tmp', bp') /\
    packed_okb Vectorized.MAX_DROPS bp' = true /\
    Vectorized.get_bright_slot bp' i 0 = Some 3 /\
    (forall k v, 1 <= k < trail d ->
       Vectorized.get_bright_slot bp i (k - 1) = Some v ->
       Vectorized.get_bright_slot bp' i k = Some (if 1 <? v then v - 1 else 1)) /\
    (forall j slot, 0 <= slot < Vectorized.MAX_TRAIL ->
       j <> i \/ trail d <= slot ->
       Vectorized.get_bright_slot bp' j slot =
       Vectorized.get_bright_slot bp j slot).
Proof.
  intros Hok Hi Ht Htr. apply packed_okb_spec in Hok.
  destruct (VectorizedMore.vec_fade_exact i d tmp bp Hok Hi Ht Htr)
    as (tmp' & bp' & Hf & Hok' & H0 & Hk & Hother).
  exists tmp', bp'. split; [exact Hf|]. split; [by apply packed_okb_spec|].
  split; [exact H0|]. split; [exact Hk|exact Hother].
Qed.

(** Drop 0 of the state before the first impact, with a zeroed
    [tmp_bright]. *)
Lemma X11_witness :
  exists tmp' bp',
    Vectorized.fade 0
      (default no_drop
         (rd (Vectorized.drops (vec_after vec_before_impact Vectorized.start))
             0))
      (replicate 12 0)
      (Vectorized.drop_bright_packed
         (vec_after vec_before_impact Vectorized.start))
    = Some (tmp', bp') /\
    Vectorized.get_bright_slot bp' 0 0 = Some 3.
Proof.
  destruct (X11_vec_fade 0
              (default no_drop
                 (rd (Vectorized.drops
                        (vec_after vec_before_impact Vectorized.start)) 0))
              (replicate 12 0)
              (Vectorized.drop_bright_packed
                 (vec_after vec_before_impact Vectorized.start)))
    as (tmp' & bp' & Hf & _ & H0 & _); [by_running..|].
  exists tmp', bp'. split; [exact Hf|exact H0].
Defined.

(** X12: in every reachable state of matrix_rain_vectorized.ino,
    [stepFastDrops] returns without a fault and moves every active fast
    drop down exactly one row.  The fast drop is still active afterwards
    exactly when its new row is on the screen and above the last cell of
    the trail of every active Drop of its column: it is stopped by the
    tail of a trail, not by its head. *)
Theorem X12_vec_fast_drop_fate (s0 s : Vectorized.State)
    (ops : list Vectorized.op) :
  Vectorized.initial s0 = true -> Vectorized.run ops s0 = Some s ->
  exists s', Vectorized.stepFastDrops s = Some s' /\
    forall i f, rd (Vectorized.fasts s) i = Some f ->
      exists f', rd (Vectorized.fasts s') i = Some f' /\
        (f_active f = false -> f' = f) /\
        (f_active f = true ->
           f_col f' = f_col f /\ f_row f' = f_row f + 1 /\
           (f_active f' = true <->
            f_row f + 1 < Vectorized.TERM_ROWS /\
            forall j d, rd (Vectorized.drops s) j = Some d -> head d <> -1 ->
                        col d = f_col f ->
                        f_row f + 1 < head d - (trail d - 1))).
Proof.
  intros H0 Hrun.
  destruct (VectorizedMore.vec_stepFast_moves s
              (VectorizedFacts.vec_run_reachable_Inv ops s0 s H0 Hrun))
    as (s' & Hs' & _ & H).
  exists s'. split; [exact Hs'|exact H].
Qed.

(** Fast drop 0 of the state before the first impact is on row 0. *)
Lemma X12_witness :
  exists s' f',
    Vectorized.stepFastDrops (vec_after vec_before_impact Vectorized.start)
      = Some s' /\
    rd (Vectorized.fasts s') 0 = Some f' /\ f_row f' = 1.
Proof.
  destruct (X12_vec_fast_drop_fate Vectorized.start
              (vec_after vec_before_impact Vectorized.start) vec_before_impact)
    as (s' & Hs' & H); [by_running..|].
  destruct (H 0 (default no_fast
                   (rd (Vectorized.fasts
                          (vec_after vec_before_impact Vectorized.start)) 0)))
    as (f' & Hf' & _ & Hmove); [by_running|].
  destruct Hmove as (_ & Hrow & _); [by_running|].
  exists s', f'. split; [exact Hs'|]. split; [exact Hf'|].
  rewrite Hrow. by_running.
Defined.

(** X13: [set_bright_slot] of the three sketches with a packed table, on
    a well-formed table: it returns without a fault, the slot it writes
    then reads as the low two bits of the value (a value above 3 is cut
    down), and every other slot of every Drop reads as before. *)
Theorem X13_slots_are_independent :
  (forall packed i slot v,
     packed_okb Vectorized.MAX_DROPS packed = true ->
     0 <= i < Vectorized.MAX_DROPS -> 0 <= slot < Vectorized.MAX_TRAIL ->
     exists packed',
       Vectorized.set_bright_slot packed i slot v = Some packed' /\
       packed_okb Vectorized.MAX_DROPS packed' = true /\
       Vectorized.get_bright_slot packed' i slot = Some (Z.land v 3) /\
       forall j slot', 0 <= slot' < Vectorized.MAX_TRAIL ->
         j <> i \/ slot' <> slot ->
         Vectorized.get_bright_slot packed' j slot' =
         Vectorized.get_bright_slot packed j slot') /\
  (forall packed i slot v,
     packed_okb VectorizedFixed.MAX_DROPS packed = true ->
     0 <= i < VectorizedFixed.MAX_DROPS ->
     0 <= slot < VectorizedFixed.MAX_TRAIL ->
     exists packed',
       VectorizedFixed.set_bright_slot packed i slot v = Some packed' /\
       packed_okb VectorizedFixed.MAX_DROPS packed' = true /\
       VectorizedFixed.get_bright_slot packed' i slot = Some (Z.land v 3) /\
       forall j slot', 0 <= slot' < VectorizedFixed.MAX_TRAIL ->
         j <> i \/ slot' <> slot ->
         VectorizedFixed.get_bright_slot packed' j slot' =
         VectorizedFixed.get_bright_slot packed j slot') /\
  (forall packed i slot v,
     packed_okb Colorized.MAX_DROPS packed = true ->
     0 <= i < Colorized.MAX_DROPS -> 0 <= slot < Colorized.MAX_TRAIL ->
     exists packed',
       Colorized.set_bright_slot packed i slot v = Some packed' /\
       packed_okb Colorized.MAX_DROPS packed' = true /\
       Colorized.get_bright_slot packed' i slot = Some (Z.land v 3) /\
       forall j slot', 0 <= slot' < Colorized.MAX_TRAIL ->
         j <> i \/ slot' <> slot ->
         Colorized.get_bright_slot packed' j slot' =
         Colorized.get_bright_slot packed j slot').
Proof.
  split; [|split].
  - intros packed i slot v Hok Hi Hs. apply packed_okb_spec in Hok.
    destruct (VectorizedPacking.vec_set_slot_total Vectorized.MAX_DROPS
                packed i slot v Hok Hi Hs) as (packed' & Hset & Hok' & Hget & Ho).
    exists packed'. split; [done|]. split; [by apply packed_okb_spec|]. done.
  - intros packed i slot v Hok Hi Hs. apply packed_okb_spec in Hok.
    destruct (VectorizedFixedFacts.fx_set_slot_total VectorizedFixed.MAX_DROPS
                packed i slot v Hok Hi Hs) as (packed' & Hset & Hok' & Hget & Ho).
    exists packed'. split; [done|]. split; [by apply packed_okb_spec|]. done.
  - intros packed i slot v Hok Hi Hs. apply packed_okb_spec in Hok.
    destruct (ColorizedFacts.cz_set_slot_total Colorized.MAX_DROPS
                packed i slot v Hok Hi Hs) as (packed' & Hset & Hok' & Hget & Ho).
    exists packed'. split; [done|]. split; [by apply packed_okb_spec|]. done.
Qed.

(** Writing 7 to slot 5 of Drop 3 of an all-ones table: the slot reads 3
    and its neighbour still reads 3. *)
Lemma X13_witness :
  (exists packed',
     Vectorized.set_bright_slot (replicate 35 [255; 255; 255; 255]) 3 5 7
       = Some packed' /\
     Vectorized.get_bright_slot packed' 3 5 = Some 3 /\
     Vectorized.get_bright_slot packed' 3 4 = Some 3) /\
  (exists packed',
     VectorizedFixed.set_bright_slot (replicate 35 [255; 255; 255; 255]) 3 5 4
       = Some packed' /\
     VectorizedFixed.get_bright_slot packed' 3 5 = Some 0 /\
     VectorizedFixed.get_bright_slot packed' 3 4 = Some 3) /\
  (exists packed',
     Colorized.set_bright_slot (replicate 35 [255; 255; 255; 255]) 3 5 6
       = Some packed' /\
     Colorized.get_bright_slot packed' 3 5 = Some 2 /\
     Colorized.get_bright_slot packed' 3 4 = Some 3).
Proof.
  destruct X13_slots_are_independent as (HV & HF & HC).
  split; [|split].
  - destruct (HV (replicate 35 [255; 255; 255; 255]) 3 5 7)
      as (p & Hset & _ & Hget & Ho); [by_running..|].
    exists p. split; [exact Hset|]. split; [exact Hget|].
    rewrite (Ho 3 4); by_running.
  - destruct (HF (replicate 35 [255; 255; 255; 255]) 3 5 4)
      as (p & Hset & _ & Hget & Ho); [by_running..|].
    exists p. split; [exact Hset|]. split; [exact Hget|].
    rewrite (Ho 3 4); by_running.
  - destruct (HC (replicate 35 [255; 255; 255; 255]) 3 5 6)
      as (p & Hset & _ & Hget & Ho); [by_running..|].
    exists p. split; [exact Hset|]. split; [exact Hget|].
    rewrite (Ho 3 4); by_running.
Defined.

(** ** matrix_rain_vectorized_fixed.ino *)

(** X14: in every reachable state of matrix_rain_vectorized_fixed.ino,
    [renderFrame] returns without a fault.  A colour is selected for a
    cell exactly when its brightness differs from that of the cell before
    it; the frame has [TERM_ROWS] rows of [TERM_COLS] characters
    separated by CR LF with none after the last row, and every cell is a
    blank or a character of the character set with a brightness of
    0..4. *)
Theorem X14_fx_frame (s0 s : VectorizedFixed.State)
    (ops : list VectorizedFixed.op) (salt : Z) :
  VectorizedFixed.initial s0 = true -> VectorizedFixed.run ops s0 = Some s ->
  exists out cells,
    VectorizedFixedRender.renderFrame s salt = Some out /\
    VectorizedFixedRender.frame_cells s = Some cells /\
    len cells = VectorizedFixed.TERM_ROWS * VectorizedFixed.TERM_COLS /\
    drop_newlines out = Home :: spec_paint 255 cells ++ [ResetColor] /\
    row_lengths out =
      replicate (Z.to_nat VectorizedFixed.TERM_ROWS)
                (Z.to_nat VectorizedFixed.TERM_COLS) /\
    newlines out = replicate (Z.to_nat (VectorizedFixed.TERM_ROWS - 1)) CRLF /\
    Forall cell_ok cells.
Proof.
  intros H0 Hrun. apply VectorizedFixedMore.fx_frame_shape.
  by apply (VectorizedFixedFacts.fx_run_reachable_Inv ops s0).
Qed.

Lemma X14_witness :
  exists out,
    VectorizedFixedRender.renderFrame
      (fx_after (concat (replicate 14 fx_tick)) VectorizedFixed.start) 0
      = Some out /\
    row_lengths out = replicate 24 80%nat /\
    newlines out = replicate 23 CRLF.
Proof.
  destruct (X14_fx_frame VectorizedFixed.start
              (fx_after (concat (replicate 14 fx_tick)) VectorizedFixed.start)
              (concat (replicate 14 fx_tick)) 0)
    as (out & cells & Hout & _ & _ & _ & Hrows & Hnl & _); [by_running..|].
  exists out. split; [exact Hout|]. split; [exact Hrows|exact Hnl].
Defined.

(** X15: the brightness part of an advance in [stepDrops] of
    matrix_rain_vectorized_fixed.ino, on a well-formed table and a Drop
    with a trail of 3..MAX_TRAIL cells: the ramp it computes is
    overwritten, and every slot of the trail ends up holding the low two
    bits of the element of the unassigned array [new_bright] ([junk]);
    the slots beyond the trail and those of the other Drops keep their
    values. *)
Theorem X15_fx_fade_stores_junk (i : Z) (d : Drop) (junk : Z -> Z)
    (bp : list (list Z)) :
  packed_okb VectorizedFixed.MAX_DROPS bp = true ->
  0 <= i < VectorizedFixed.MAX_DROPS ->
  3 <= trail d <= VectorizedFixed.MAX_TRAIL ->
  exists bp', VectorizedFixed.fade i d junk bp = Some bp' /\
    packed_okb VectorizedFixed.MAX_DROPS bp' = true /\
    (forall k, 0 <= k < trail d ->
       VectorizedFixed.get_bright_slot bp' i k
       = Some (Z.land (u8 (junk k)) 3)) /\
    (forall j slot, 0 <= slot < VectorizedFixed.MAX_TRAIL ->
       j <> i \/ trail d <= slot ->
       VectorizedFixed.get_bright_slot bp' j slot =
       VectorizedFixed.get_bright_slot bp j slot).
Proof.
  intros Hok Hi Htr. apply packed_okb_spec in Hok.
  destruct (VectorizedFixedMore.fx_fade_junk i d junk bp Hok Hi Htr)
    as (bp' & Hf & Hok' & Hk & Hother).
  exists bp'. split; [exact Hf|]. split; [by apply packed_okb_spec|].
  split; [exact Hk|exact Hother].
Qed.

(** Drop 0 after 14 passes of [loop], with [new_bright] holding 6 in
    every element: the head slot reads 2. *)
Lemma X15_witness :
  exists bp',
    VectorizedFixed.fade 0
      (default no_drop
         (rd (VectorizedFixed.drops
                (fx_after (concat (replicate 14 fx_tick))
                          VectorizedFixed.start)) 0))
      (fun _ => 6)
      (VectorizedFixed.drop_bright_packed
         (fx_after (concat (replicate 14 fx_tick)) VectorizedFixed.start))
    = Some bp' /\
    VectorizedFixed.get_bright_slot bp' 0 0 = Some 2.
Proof.
  destruct (X15_fx_fade_stores_junk 0
              (default no_drop
                 (rd (VectorizedFixed.drops
                        (fx_after (concat (replicate 14 fx_tick))
                                  VectorizedFixed.start)) 0))
              (fun _ => 6)
              (VectorizedFixed.drop_bright_packed
                 (fx_after (concat (replicate 14 fx_tick))
                           VectorizedFixed.start)))
    as (bp' & Hf & _ & Hk & _); [by_running..|].
  exists bp'. split; [exact Hf|]. rewrite (Hk 0); by_running.
Defined.

(** X16: the pass-through block of [stepFastDrops] of
    matrix_rain_vectorized_fixed.ino, for a fast drop on the screen in
    the column of an active Drop of a reachable state: it returns without
    a fault; it changes nothing unless the fast drop is on the head row
    of the Drop, and then no brightness slot other than slot 0 of that
    Drop. *)
Theorem X16_fx_pass_through (s0 s : VectorizedFixed.State)
    (ops : list VectorizedFixed.op) (di : Z) (d : Drop) (f : FastDrop) :
  VectorizedFixed.initial s0 = true -> VectorizedFixed.run ops s0 = Some s ->
  rd (VectorizedFixed.drops s) di = Some d -> head d <> -1 ->
  0 <= f_row f < VectorizedFixed.TERM_ROWS ->
  exists f1 ci bp,
    VectorizedFixed.pass_through s di d f = Some (f1, ci, bp) /\
    (f_row f <> head d ->
       f1 = f /\ ci = VectorizedFixed.drop_char_idx s /\
       bp = VectorizedFixed.drop_bright_packed s) /\
    (forall j slot, 0 <= slot < VectorizedFixed.MAX_TRAIL ->
       j <> di \/ slot <> 0 ->
       VectorizedFixed.get_bright_slot bp j slot =
       VectorizedFixed.get_bright_slot
         (VectorizedFixed.drop_bright_packed s) j slot).
Proof.
  intros H0 Hrun. apply VectorizedFixedMore.fx_pass_only_head.
  by apply (VectorizedFixedFacts.fx_run_reachable_Inv ops s0).
Qed.

(** Drop 0 after 14 passes of [loop] has its head on row 1; a fast drop
    on row 0 of its column is inside its trail by the test of the
    sketch, and nothing is touched. *)
Lemma X16_witness :
  exists f1 ci bp,
    VectorizedFixed.pass_through
      (fx_after (concat (replicate 14 fx_tick)) VectorizedFixed.start) 0
      (default no_drop
         (rd (VectorizedFixed.drops
                (fx_after (concat (replicate 14 fx_tick))
                          VectorizedFixed.start)) 0))
      (mkFast true 62 0 1 0 5)
    = Some (f1, ci, bp) /\
    f1 = mkFast true 62 0 1 0 5.
Proof.
  destruct (X16_fx_pass_through VectorizedFixed.start
              (fx_after (concat (replicate 14 fx_tick)) VectorizedFixed.start)
              (concat (replicate 14 fx_tick)) 0
              (default no_drop
                 (rd (VectorizedFixed.drops
                        (fx_after (concat (replicate 14 fx_tick))
                                  VectorizedFixed.start)) 0))
              (mkFast true 62 0 1 0 5))
    as (f1 & ci & bp & Hp & Hsame & _); [by_running..|].
  exists f1, ci, bp. split; [exact Hp|].
  destruct Hsame as (Hf & _); [by_running|exact Hf].
Defined.

(** ** matrix_rain_vectorized_final.ino *)

(** X17: in every reachable state of matrix_rain_vectorized_final.ino,
    [renderFrame] returns without a fault.  Colour 2 is selected once
    before the first cell, and then a colour is selected for a cell
    exactly when its brightness differs from that of the cell before it
    (255 before the first cell); the frame has [TERM_ROWS] rows of
    [TERM_COLS] characters separated by CR LF with none after the last
    row, and every cell is a blank or a character of the character set
    with a brightness of 0..4. *)
Theorem X17_cz_frame (s0 s : Colorized.State) (ops : list Colorized.op) :
  Colorized.initial s0 = true -> Colorized.run ops s0 = Some s ->
  exists out cells,
    ColorizedRender.renderFrame s = Some out /\
    ColorizedRender.frame_cells s = Some cells /\
    len cells = Colorized.TERM_ROWS * Colorized.TERM_COLS /\
    drop_newlines out =
      Home :: SetColor 2 :: spec_paint 255 cells ++ [ResetColor] /\
    row_lengths out =
      replicate (Z.to_nat Colorized.TERM_ROWS) (Z.to_nat Colorized.TERM_COLS) /\
    newlines out = replicate (Z.to_nat (Colorized.TERM_ROWS - 1)) CRLF /\
    Forall cell_ok cells.
Proof.
  intros H0 Hrun. apply ColorizedMore.cz_frame_shape.
  by apply (ColorizedFacts.cz_run_reachable_Inv ops s0).
Qed.

Lemma X17_witness :
  exists out,
    ColorizedRender.renderFrame (cz_after cz_before_impact Colorized.start)
      = Some out /\
    row_lengths out = replicate 24 80%nat /\
    newlines out = replicate 23 CRLF.
Proof.
  destruct (X17_cz_frame Colorized.start
              (cz_after cz_before_impact Colorized.start) cz_before_impact)
    as (out & cells & Hout & _ & _ & _ & Hrows & Hnl & _); [by_running..|].
  exists out. split; [exact Hout|]. split; [exact Hrows|exact Hnl].
Defined.

(** X18: in a reachable state of matrix_rain_vectorized_final.ino, a
    cell of the screen that lies in the trail of an active Drop, [slot]
    rows below its head row, with no fast drop on it or one row below
    it, shows the character stored for that slot, with a brightness that
    depends only on the position in the trail: 4 on the last cell, 1 on
    the head row, 2 on the other cells of the upper half and 3 on the
    rest.  The packed brightness table is not consulted. *)
Theorem X18_cz_trail_brightness (s0 s : Colorized.State)
    (ops : list Colorized.op) (i r : Z) (d : Drop) :
  Colorized.initial s0 = true -> Colorized.run ops s0 = Some s ->
  rd (Colorized.drops s) i = Some d -> head d <> -1 ->
  0 <= r < Colorized.TERM_ROWS -> 0 <= r - head d < trail d ->
  forallb (fun f => negb (f_active f && (f_col f =? col d)
                          && ((f_row f =? r) || (f_row f - 1 =? r))))
          (Colorized.fasts s) = true ->
  exists idx ch,
    rd2 (Colorized.drop_char_idx s) i (r - head d) = Some idx /\
    charset_at_idx idx = Some ch /\
    ColorizedRender.cell s r (col d) =
    Some (ColorizedRender.slot_brightness (trail d) (r - head d), ch).
Proof.
  intros H0 Hrun Hd Hh Hr Hslot Hnb.
  apply (ColorizedMore.cz_cell_trail s r (col d) i d); try done.
  - by apply (ColorizedFacts.cz_run_reachable_Inv ops s0).
  - intros j f Hf Ha Hc.
    pose proof (forallb_at _ _ j f Hnb Hf) as Hp. cbn beta in Hp.
    rewrite Ha, Hc, Z.eqb_refl in Hp. cbn [andb] in Hp.
    apply negb_true_iff, orb_false_iff in Hp. destruct Hp as [Hp1 Hp2].
    split; intros E; rewrite E, Z.eqb_refl in *; discriminate.
Qed.

(** Drop 1 of the state before the first impact has its head row 1 in
    column 1 and a trail of 4: row 3 is slot 2, of brightness 2, and row
    4 is the last cell, of brightness 4. *)
Lemma X18_witness :
  (exists ch,
     ColorizedRender.cell (cz_after cz_before_impact Colorized.start) 3 1
       = Some (2, ch)) /\
  (exists ch,
     ColorizedRender.cell (cz_after cz_before_impact Colorized.start) 4 1
       = Some (4, ch)).
Proof.
  assert (Hc : col (default no_drop
                      (rd (Colorized.drops
                             (cz_after cz_before_impact Colorized.start)) 1))
               = 1) by by_running.
  split.
  - destruct (X18_cz_trail_brightness Colorized.start
                (cz_after cz_before_impact Colorized.start) cz_before_impact
                1 3
                (default no_drop
                   (rd (Colorized.drops
                          (cz_after cz_before_impact Colorized.start)) 1)))
      as (idx & ch & _ & _ & Hcell); [by_running..|].
    exists ch. rewrite Hc in Hcell. rewrite Hcell. by_running.
  - destruct (X18_cz_trail_brightness Colorized.start
                (cz_after cz_before_impact Colorized.start) cz_before_impact
                1 4
                (default no_drop
                   (rd (Colorized.drops
                          (cz_after cz_before_impact Colorized.start)) 1)))
      as (idx & ch & _ & _ & Hcell); [by_running..|].
    exists ch. rewrite Hc in Hcell. rewrite Hcell. by_running.
Defined.

(** X19: in every reachable state of matrix_rain_vectorized_final.ino,
    the head row of an active Drop is on the screen and slot 0 of its
    packed brightness is 0. *)
Theorem X19_cz_head_slot_dark (s0 s : Colorized.State)
    (ops : list Colorized.op) (i : Z) (d : Drop) :
  Colorized.initial s0 = true -> Colorized.run ops s0 = Some s ->
  rd (Colorized.drops s) i = Some d -> head d <> -1 ->
  0 <= head d < Colorized.TERM_ROWS /\
  Colorized.get_bright_slot (Colorized.drop_bright_packed s) i 0 = Some 0.
Proof.
  intros H0 Hrun. apply ColorizedMore.cz_head_slot_dark.
  by apply (ColorizedFacts.cz_run_reachable_Inv ops s0).
Qed.

Lemma X19_witness :
  Colorized.get_bright_slot
    (Colorized.drop_bright_packed (cz_after cz_before_impact Colorized.start))
    0 0 = Some 0.
Proof.
  apply (X19_cz_head_slot_dark Colorized.start
           (cz_after cz_before_impact Colorized.start) cz_before_impact 0
           (default no_drop
              (rd (Colorized.drops
                     (cz_after cz_before_impact Colorized.start)) 0)));
    by_running.
Defined.

(** ** Arduino_rain_opt.ino *)

(** X20: on a table of [TERM_COLS] columns, [setupColumns] returns
    without a fault whatever [micros()] returns; afterwards every column
    is inactive, with a trail of 3..12 cells, a speed of 1..5 and age
    0. *)
Theorem X20_ro_setupColumns (micros : Z -> Z) (cols : list RainOpt.Column) :
  len cols = RainOpt.TERM_COLS ->
  exists cols', RainOpt.setupColumns micros cols = Some cols' /\
    len cols' = RainOpt.TERM_COLS /\
    forall c col, rd cols' c = Some col ->
      RainOpt.head col = -1 /\ 3 <= RainOpt.trail col <= 12 /\
      1 <= RainOpt.speed col <= 5 /\ RainOpt.age col = 0.
Proof.
  intros Hlen.
  destruct (RainOptMore.ro_setup_spec micros cols Hlen)
    as (cols' & Hsetup & Hlen' & Hcols).
  exists cols'. split; [exact Hsetup|]. split; [exact Hlen'|exact Hcols].
Qed.

Lemma X20_witness :
  exists cols',
    RainOpt.setupColumns (fun c => 1000 + 4 * c) RainOpt.boot = Some cols' /\
    len cols' = 60.
Proof.
  destruct (X20_ro_setupColumns (fun c => 1000 + 4 * c) RainOpt.boot)
    as (cols' & Hs & Hl & _); [by_running|].
  exists cols'. split; [exact Hs|exact Hl].
Defined.

(** X21: from a table in which every column is inactive or has its head
    above row [TERM_ROWS + trail], with a trail of 3..12, a speed of 1..5
    and an age below its speed, any number of passes of [loop] run
    without a fault and leave such a table, so that the [int8_t] head
    never leaves -1..35; every frame drawn on the way has [TERM_ROWS]
    rows of [TERM_COLS] characters, each ended by a line feed.  The table
    [setup] leaves is such a table. *)
Theorem X21_ro_loop_keeps_columns_well_formed :
  (forall micros,
     exists cols, RainOptRun.setup micros = Some cols /\
                  RainOptRun.cols_wf cols = true) /\
  (forall (n : nat) cols salt,
     RainOptRun.cols_wf cols = true ->
     exists cols' salt' frames,
       RainOptRun.loops n (cols, salt) = Some (cols', salt', frames) /\
       RainOptRun.cols_wf cols' = true /\ length frames = n /\
       Forall (fun out =>
                 row_lengths out =
                 replicate (Z.to_nat RainOpt.TERM_ROWS)
                           (Z.to_nat RainOpt.TERM_COLS) ++ [0%nat])
              frames).
Proof.
  split.
  - apply RainOptMore.ro_setup_wf.
  - intros n cols salt. apply RainOptMore.ro_loops_wf.
Qed.

(** Three passes of [loop] from the table after 31 passes. *)
Lemma X21_witness :
  exists cols' salt' frames,
    RainOptRun.loops 3 (ro_before_wrap, 7) = Some (cols', salt', frames) /\
    RainOptRun.cols_wf cols' = true /\ length frames = 3%nat.
Proof.
  destruct X21_ro_loop_keeps_columns_well_formed as (_ & H).
  destruct (H 3%nat ro_before_wrap 7)
    as (cols' & salt' & frames & Hl & Hwf & Hn & _); [by_running|].
  exists cols', salt', frames. split; [exact Hl|]. split; [exact Hwf|exact Hn].
Defined.

(** X22: on a table of [TERM_COLS] columns, [renderFrame] of
    Arduino_rain_opt.ino returns without a fault and writes [TERM_ROWS]
    rows of [TERM_COLS] characters; every row, the last one included, is
    ended by a line feed alone, so that the cursor is left on a row of
    its own below the frame. *)
Theorem X22_ro_frame_rows (cols : list RainOpt.Column) (salt : Z) :
  len cols = RainOpt.TERM_COLS ->
  exists out,
    RainOpt.renderFrame cols salt = Some out /\
    row_lengths out =
      replicate (Z.to_nat RainOpt.TERM_ROWS) (Z.to_nat RainOpt.TERM_COLS)
      ++ [0%nat] /\
    newlines out = replicate (Z.to_nat RainOpt.TERM_ROWS) LF.
Proof.
  intros Hlen.
  destruct (RainOptMore.ro_frame_shape cols salt Hlen)
    as (out & Hout & Hrows & Hnl).
  exists out. split; [exact Hout|]. split; [exact Hrows|exact Hnl].
Qed.

Lemma X22_witness :
  exists out,
    RainOpt.renderFrame ro_before_wrap 7 = Some out /\
    row_lengths out = replicate 24 60%nat ++ [0%nat] /\
    newlines out = replicate 24 LF.
Proof.
  destruct (X22_ro_frame_rows ro_before_wrap 7) as (out & Hout & Hr & Hn);
    [by_running|].
  exists out. split; [exact Hout|]. split; [exact Hr|exact Hn].
Defined.

(** X23: [brightnessFor] lights, in the column of an active head, the
    head row and the [trail] rows above it, that is [trail + 1] rows, and
    no row of an inactive column; and a column whose head is active and
    above row [TERM_ROWS + trail] has at least one lit row on the
    screen. *)
Theorem X23_ro_lit_rows (cols : list RainOpt.Column) (c : Z)
    (col : RainOpt.Column) :
  rd cols c = Some col ->
  (forall r,
     RainOptRun.lit cols c r = true <->
     RainOpt.head col <> -1 /\
     RainOpt.head col - RainOpt.trail col <= r <= RainOpt.head col) /\
  (RainOptRun.col_wf col = true -> RainOpt.head col <> -1 ->
   exists r, 0 <= r < RainOpt.TERM_ROWS /\ RainOptRun.lit cols c r = true).
Proof.
  intros Hc. split.
  - intros r. by apply RainOptMore.ro_lit_rows.
  - by apply RainOptMore.ro_lit_on_screen.
Qed.

(** Column 3 of the table after 31 passes: the head is on row 5 and the
    trail is 11 long, so that row 0 is lit. *)
Lemma X23_witness : RainOptRun.lit ro_before_wrap 3 0 = true.
Proof.
  destruct (X23_ro_lit_rows ro_before_wrap 3
              (default (RainOpt.mkColumn 0 0 0 0 0) (rd ro_before_wrap 3)))
    as (Hlit & _); [by_running|].
  apply Hlit. by_running.
Defined.

(** ** arduino_matrix_rain_fixed_v2.ino *)

(** X24: with the two tables at their declared sizes, [setupState] of
    arduino_matrix_rain_fixed_v2.ino returns without a fault; it sets the
    head of every Drop to -1 and clears every column flag, and leaves
    every other field and the generator as they were. *)
Theorem X24_v2_setupState (s : FixedV2.State) :
  len (FixedV2.drops s) = FixedV2.MAX_DROPS ->
  len (FixedV2.column_occupied s) = FixedV2.TERM_COLS ->
  FixedV2.setupState s =
  Some (FixedV2.mkState
          (map (FixedV2.set_head (-1)) (FixedV2.drops s))
          (replicate (Z.to_nat FixedV2.TERM_COLS) false)
          (FixedV2.global_rng s)).
Proof.
  intros Hdrops Hcols.
  exact (FixedV2Facts.v2_setupState_exact s Hdrops Hcols).
Qed.

Lemma X24_witness : FixedV2.setupState FixedV2.boot = Some FixedV2.start.
Proof.
  rewrite (X24_v2_setupState FixedV2.boot); [reflexivity | by_running ..].
Defined.

(** X25: [maybeSpawnDrop] and [stepDrops] of
    arduino_matrix_rain_fixed_v2.ino do to its Drops, column flags and
    generator exactly what the functions of the same names of
    arduino_matrix_rain_fastdrops.ino do in a state in which no Drop is
    boosted and no fast drop is active: any sequence of calls faults in
    one sketch exactly when it faults in the other, and leads to the same
    tables. *)
Theorem X25_v2_drops_as_in_fastdrops (ops : list FixedV2.op)
    (s : FixedV2.State) :
  Fastdrops.run (map FixedV2Sim.as_op ops) (FixedV2Sim.as_fastdrops s) =
  FixedV2Sim.as_fastdrops <$> FixedV2.run ops s.
Proof.
  revert s. induction ops as [|o ops IH]; intros s; [reflexivity|].
  cbn [map Fastdrops.run FixedV2.run].
  rewrite FixedV2SimFacts.v2_sim_run_op.
  destruct (FixedV2.run_op o s) as [s'|]; [|reflexivity].
  cbn [fmap option_fmap option_map mbind option_bind]. apply IH.
Qed.

(** X26: from the state [setupState] leaves, no sequence of calls of
    [maybeSpawnDrop] and [stepDrops] of arduino_matrix_rain_fixed_v2.ino
    faults, and afterwards the tables are consistent: an active Drop has
    its head on or below row 0 and the last cell of its trail above row
    [TERM_ROWS], a column on the screen, a trail of 3..12 cells and a
    speed of 1..5, and its column is flagged; no two active Drops share a
    column; and every flagged column has an active Drop. *)
Theorem X26_v2_tables_consistent (s0 : FixedV2.State)
    (ops : list FixedV2.op) :
  FixedV2.initial s0 = true ->
  exists s, FixedV2.run ops s0 = Some s /\ FixedV2.Inv s.
Proof.
  intros H0.
  destruct (FixedV2Facts.v2_run_Inv ops s0 H0) as (s & Hrun & HI).
  exists s. split; [exact Hrun|exact HI].
Qed.

(** Twenty passes of [loop] from the boot seed. *)
Lemma X26_witness :
  exists s,
    FixedV2.run (concat (replicate 20 FixedV2.tick)) FixedV2.start = Some s /\
    FixedV2.Inv s.
Proof.
  apply (X26_v2_tables_consistent FixedV2.start
           (concat (replicate 20 FixedV2.tick))).
  by_running.
Defined.

(** X27: with the two tables at their declared sizes, [renderFrame] of
    arduino_matrix_rain_fixed_v2.ino returns without a fault.  A colour
    is selected for a cell exactly when its brightness differs from that
    of the cell before it; the frame has [TERM_ROWS] rows of [TERM_COLS]
    characters, every cell a blank or a character of the character set
    with a brightness of 0..3; and between two rows the cursor is moved
    to column 1 of the next row (rows 2 to [TERM_ROWS], counted from 1),
    each move written in full: none is cut short by the 16-byte buffer it
    is formatted in. *)
Theorem X27_v2_frame (s : FixedV2.State) (salt : Z) :
  len (FixedV2.drops s) = FixedV2.MAX_DROPS ->
  len (FixedV2.column_occupied s) = FixedV2.TERM_COLS ->
  exists out cells,
    FixedV2.renderFrame s salt = Some out /\
    FixedV2.frame_cells s = Some cells /\
    drop_newlines (FixedV2.as_events out) =
      Home :: spec_paint 255 cells ++ [ResetColor] /\
    row_lengths (FixedV2.as_events out) =
      replicate (Z.to_nat FixedV2.TERM_ROWS) (Z.to_nat FixedV2.TERM_COLS) /\
    FixedV2.bufs out =
      map FixedV2.cursor_to (seqZ 2 (FixedV2.TERM_ROWS - 1)) /\
    Forall (fun bc => cell_ok bc /\ fst bc <= 3) cells.
Proof.
  intros Hdrops Hcols.
  destruct (FixedV2Facts.v2_frame_shape s salt Hdrops Hcols)
    as (out & cells & Hout & Hcells & Hpaint & Hrows & Hbufs & Hok).
  exists out, cells. split; [exact Hout|]. split; [exact Hcells|].
  split; [exact Hpaint|]. split; [exact Hrows|]. split; [exact Hbufs|exact Hok].
Qed.

Lemma X27_witness :
  exists out,
    FixedV2.renderFrame
      (default FixedV2.start
         (FixedV2.run (concat (replicate 20 FixedV2.tick)) FixedV2.start)) 0
      = Some out /\
    row_lengths (FixedV2.as_events out) = replicate 24 80%nat /\
    length (FixedV2.bufs out) = 23%nat.
Proof.
  destruct (X27_v2_frame
              (default FixedV2.start
                 (FixedV2.run (concat (replicate 20 FixedV2.tick))
                              FixedV2.start)) 0)
    as (out & cells & Hout & _ & _ & Hrows & Hbufs & _); [by_running..|].
  exists out. split; [exact Hout|]. split; [exact Hrows|].
  rewrite Hbufs. by_running.
Defined.

(** ** What a fast drop never does *)

(** X28: in every reachable state of arduino_matrix_rain_fastdrops.ino,
    matrix_rain_vectorized.ino and matrix_rain_vectorized_final.ino,
    [stepFastDrops] returns without a fault, leaves the column flags as
    they are and never moves a crawling Drop: every Drop keeps its column,
    head, trail, speed and age, and its boost is never lowered, and
    raised to 4, 6 and 8 at most in the three sketches. *)
Theorem X28_fast_drops_move_no_drop :
  (forall s0 ops s,
     Fastdrops.initial s0 = true -> Fastdrops.run ops s0 = Some s ->
     exists s', Fastdrops.stepFastDrops s = Some s' /\
       Fastdrops.column_occupied s' = Fastdrops.column_occupied s /\
       forall i d, rd (Fastdrops.drops s) i = Some d ->
         exists d', rd (Fastdrops.drops s') i = Some d' /\
           col d' = col d /\ head d' = head d /\ trail d' = trail d /\
           speed d' = speed d /\ age d' = age d /\
           boost d <= boost d' <= Z.max (boost d) 4) /\
  (forall s0 ops s,
     Vectorized.initial s0 = true -> Vectorized.run ops s0 = Some s ->
     exists s', Vectorized.stepFastDrops s = Some s' /\
       Vectorized.column_occupied s' = Vectorized.column_occupied s /\
       forall i d, rd (Vectorized.drops s) i = Some d ->
         exists d', rd (Vectorized.drops s') i = Some d' /\
           col d' = col d /\ head d' = head d /\ trail d' = trail d /\
           speed d' = speed d /\ age d' = age d /\
           boost d <= boost d' <= Z.max (boost d) 6) /\
  (forall s0 ops s,
     Colorized.initial s0 = true -> Colorized.run ops s0 = Some s ->
     exists s', Colorized.stepFastDrops s = Some s' /\
       Colorized.column_occupied s' = Colorized.column_occupied s /\
       forall i d, rd (Colorized.drops s) i = Some d ->
         exists d', rd (Colorized.drops s') i = Some d' /\
           col d' = col d /\ head d' = head d /\ trail d' = trail d /\
           speed d' = speed d /\ age d' = age d /\
           boost d <= boost d' <= Z.max (boost d) 8).
Proof.
  split; [|split].
  - intros s0 ops s H0 Hrun.
    destruct (FastdropsFacts.stepFastDrops_spec s
                (FastdropsFacts.run_reachable_Inv ops s0 s H0 Hrun))
      as (s' & Hs' & _ & Hco & _ & Hd & _).
    exists s'. split; [exact Hs'|]. split; [exact Hco|exact Hd].
  - intros s0 ops s H0 Hrun.
    destruct (VectorizedFacts.vec_stepFastDrops_spec s
                (VectorizedFacts.vec_run_reachable_Inv ops s0 s H0 Hrun))
      as (s' & Hs' & _ & Hco & Hd & _).
    exists s'. split; [exact Hs'|]. split; [exact Hco|exact Hd].
  - intros s0 ops s H0 Hrun.
    destruct (ColorizedFacts.cz_stepFastDrops_spec s
                (ColorizedFacts.cz_run_reachable_Inv ops s0 s H0 Hrun))
      as (s' & Hs' & _ & Hco & Hd & _).
    exists s'. split; [exact Hs'|]. split; [exact Hco|exact Hd].
Qed.

(** The three sketches just before their first impact: the Drop that is
    hit keeps its head row. *)
Lemma X28_witness :
  (exists s' d',
     Fastdrops.stepFastDrops (fd_after fd_before_impact Fastdrops.start)
       = Some s' /\
     rd (Fastdrops.drops s') 1 = Some d' /\ head d' = 11) /\
  (exists s' d',
     Vectorized.stepFastDrops (vec_after vec_before_impact Vectorized.start)
       = Some s' /\
     rd (Vectorized.drops s') 0 = Some d' /\ head d' = 1) /\
  (exists s' d',
     Colorized.stepFastDrops (cz_after cz_before_impact Colorized.start)
       = Some s' /\
     rd (Colorized.drops s') 0 = Some d' /\ head d' = 1).
Proof.
  destruct X28_fast_drops_move_no_drop as (HF & HV & HC).
  split; [|split].
  - destruct (HF Fastdrops.start fd_before_impact
                (fd_after fd_before_impact Fastdrops.start))
      as (s' & Hs' & _ & Hd); [by_running..|].
    destruct (Hd 1 (default no_drop
                      (rd (Fastdrops.drops
                             (fd_after fd_before_impact Fastdrops.start)) 1)))
      as (d' & Hd' & _ & Hh & _); [by_running|].
    exists s', d'. split; [exact Hs'|]. split; [exact Hd'|].
    rewrite Hh. by_running.
  - destruct (HV Vectorized.start vec_before_impact
                (vec_after vec_before_impact Vectorized.start))
      as (s' & Hs' & _ & Hd); [by_running..|].
    destruct (Hd 0 (default no_drop
                      (rd (Vectorized.drops
                             (vec_after vec_before_impact Vectorized.start))
                          0)))
      as (d' & Hd' & _ & Hh & _); [by_running|].
    exists s', d'. split; [exact Hs'|]. split; [exact Hd'|].
    rewrite Hh. by_running.
  - destruct (HC Colorized.start cz_before_impact
                (cz_after cz_before_impact Colorized.start))
      as (s' & Hs' & _ & Hd); [by_running..|].
    destruct (Hd 0 (default no_drop
                      (rd (Colorized.drops
                             (cz_after cz_before_impact Colorized.start)) 0)))
      as (d' & Hd' & _ & Hh & _); [by_running|].
    exists s', d'. split; [exact Hs'|]. split; [exact Hd'|].
    rewrite Hh. by_running.
Defined.
